(** * aws_saml_auth.configuration: a shallow embedding and its properties

    The development follows [aws_saml_auth/configuration.py].  Python
    values are dynamically typed ([pyval]); text is a [string] whose
    characters are the code points 0..255; methods of [Configuration]
    that touch the object or the file system live in the monad [M],
    in which a raised exception keeps the state reached so far. *)

From Stdlib Require Import ZArith List String Ascii Bool Lia Arith.
From Stdlib Require Import DecimalString DecimalZ DecimalPos DecimalNat.
Import ListNotations.
Local Open Scope string_scope.
Local Open Scope list_scope.
Local Open Scope Z_scope.

(** ** Python text *)

Module PyText.

Definition code (c : ascii) : nat := nat_of_ascii c.

Definition between (lo hi n : nat) : bool := (lo <=? n)%nat && (n <=? hi)%nat.

(** [str.isspace] on one character, restricted to code points below 256. *)
Definition isspace (c : ascii) : bool :=
  between 9 13 (code c) || between 28 32 (code c)
  || (code c =? 133)%nat || (code c =? 160)%nat.

(** [str.lower] on one character: A-Z and the Latin-1 capitals. *)
Definition lower_char (c : ascii) : ascii :=
  let n := code c in
  if between 65 90 n || (between 192 222 n && negb (n =? 215)%nat)
  then ascii_of_nat (n + 32) else c.

Fixpoint lower (s : string) : string :=
  match s with
  | EmptyString => EmptyString
  | String c r => String (lower_char c) (lower r)
  end.

Fixpoint lstrip (s : string) : string :=
  match s with
  | EmptyString => EmptyString
  | String c r => if isspace c then lstrip r else s
  end.

Fixpoint rstrip (s : string) : string :=
  match s with
  | EmptyString => EmptyString
  | String c r =>
      match rstrip r with
      | EmptyString => if isspace c then EmptyString else String c EmptyString
      | r' => String c r'
      end
  end.

Definition strip (s : string) : string := rstrip (lstrip s).

Definition startswith (s p : string) : bool := String.prefix p s.

Fixpoint drop (n : nat) (s : string) : string :=
  match n, s with
  | O, _ => s
  | S _, EmptyString => EmptyString
  | S k, String _ r => drop k r
  end.

(** [sub in s] *)
Fixpoint contains (sub s : string) : bool :=
  String.prefix sub s ||
  match s with
  | EmptyString => false
  | String _ r => contains sub r
  end.

(** [s.replace(old, new)] for a non-empty [old]: every occurrence, leftmost
    first, occurrences do not overlap.  [skip] counts the characters of an
    occurrence still to be dropped. *)
Fixpoint replace_from (old new : string) (skip : nat) (s : string) : string :=
  match s with
  | EmptyString => EmptyString
  | String c r =>
      match skip with
      | S k => replace_from old new k r
      | O =>
          if String.prefix old s
          then new ++ replace_from old new (String.length old - 1) r
          else String c (replace_from old new O r)
      end
  end.

Definition replace (old new s : string) : string := replace_from old new O s.

(** [sep.join(parts)] *)
Fixpoint join (sep : string) (parts : list string) : string :=
  match parts with
  | [] => EmptyString
  | [p] => p
  | p :: rest => p ++ sep ++ join sep rest
  end.

Definition nl : ascii := "010"%char.
Definition cr : ascii := "013"%char.
Definition tab : ascii := "009"%char.
Definition NL : string := String nl EmptyString.

Fixpoint has_char (a : ascii) (s : string) : bool :=
  match s with
  | EmptyString => false
  | String c r => Ascii.eqb c a || has_char a r
  end.

(** [s[:n]] *)
Fixpoint take (n : nat) (s : string) : string :=
  match n, s with
  | S k, String c r => String c (take k r)
  | _, _ => EmptyString
  end.

(** [repr(s)] for text, which is what [%r] puts into a message.  The quote
    is the single one, unless the text has a single quote and no double
    quote; the backslash, the quote, tab, newline and carriage return are
    escaped, and the characters that are not printable (below 256: the
    controls, the no-break space and the soft hyphen) are written as a
    backslash, an x and two hexadecimal digits. *)
Definition squote : ascii := "039"%char.
Definition dquote : ascii := "034"%char.
Definition backslash : ascii := "092"%char.

Definition printable (c : ascii) : bool :=
  negb (between 0 31 (code c) || between 127 160 (code c) || (code c =? 173)%nat).

Definition hex_of (n : nat) : ascii :=
  if (n <? 10)%nat then ascii_of_nat (48 + n) else ascii_of_nat (87 + n).

Definition repr_char (quote c : ascii) : string :=
  if Ascii.eqb c backslash || Ascii.eqb c quote
  then String backslash (String c EmptyString)
  else if Ascii.eqb c tab then String backslash "t"
  else if Ascii.eqb c nl then String backslash "n"
  else if Ascii.eqb c cr then String backslash "r"
  else if printable c then String c EmptyString
  else String backslash
         (String "x" (String (hex_of (code c / 16))
                             (String (hex_of (code c mod 16)) EmptyString))).

Fixpoint repr_chars (quote : ascii) (s : string) : string :=
  match s with
  | EmptyString => EmptyString
  | String c r => repr_char quote c ++ repr_chars quote r
  end.

Definition repr (s : string) : string :=
  let quote := if has_char squote s && negb (has_char dquote s)
               then dquote else squote in
  String quote (repr_chars quote s ++ String quote EmptyString).

End PyText.
Import PyText.

(** ** Python values *)

Inductive pyval : Type :=
| PyNone
| PyBool (b : bool)
| PyInt (z : Z)
| PyStr (s : string)
| PyObj (cls : string) (text : string).
(* [PyObj cls text]: an object of any other class, with its class name and
   what [str()] gives for it (a float, a list, ...). *)

Definition is_none (v : pyval) : bool :=
  match v with PyNone => true | _ => false end.
Definition class_is_bool (v : pyval) : bool :=
  match v with PyBool _ => true | _ => false end.
Definition class_is_int (v : pyval) : bool :=
  match v with PyInt _ => true | _ => false end.
Definition class_is_str (v : pyval) : bool :=
  match v with PyStr _ => true | _ => false end.

Definition class_name (v : pyval) : string :=
  match v with
  | PyNone => "NoneType"
  | PyBool _ => "bool"
  | PyInt _ => "int"
  | PyStr _ => "str"
  | PyObj cls _ => cls
  end.

(** [str(v.__class__)] *)
Definition class_text (v : pyval) : string := "<class '" ++ class_name v ++ "'>".

Definition int_text (z : Z) : string := NilZero.string_of_int (Z.to_int z).

(** [str(v)], which is also what ["{}".format(v)] gives. *)
Definition py_str (v : pyval) : string :=
  match v with
  | PyNone => "None"
  | PyBool true => "True"
  | PyBool false => "False"
  | PyInt z => int_text z
  | PyStr s => s
  | PyObj _ t => t
  end.

(** Truth value of [v] in a condition. *)
Definition truthy (v : pyval) : bool :=
  match v with
  | PyNone => false
  | PyBool b => b
  | PyInt z => negb (z =? 0)
  | PyStr s => negb (String.eqb s "")
  | PyObj _ _ => true
  end.

(** [a == b], as a dict uses it for keys: a bool is the integer 0 or 1. *)
Definition py_eqb (a b : pyval) : bool :=
  match a, b with
  | PyNone, PyNone => true
  | PyBool x, PyBool y => Bool.eqb x y
  | PyInt x, PyInt y => x =? y
  | PyBool x, PyInt y | PyInt y, PyBool x => (if x then 1 else 0) =? y
  | PyStr x, PyStr y => String.eqb x y
  | PyObj c x, PyObj d y => String.eqb c d && String.eqb x y
  | _, _ => false
  end.

(** ** Exceptions and the monad of methods *)

Inductive exn : Type :=
| AssertionError (msg : string)
| ValueError (msg : string)
| AttributeError (msg : string)
| TypeError (msg : string)
| FileNotFoundError (path : string)
| FileExistsError (path : string)
| IsADirectoryError (path : string)
| NotADirectoryError (path : string)
| MissingSectionHeaderError (source : string) (lineno : nat) (line : string)
| DuplicateSectionError (section : string) (source : string) (lineno : nat)
| DuplicateOptionError (section option : string) (source : string) (lineno : nat)
| ParsingError (source : string) (bad : list (nat * string))
| NoSectionError (section : pyval).

Inductive outcome (A : Type) : Type :=
| Return (a : A)
| Raise (e : exn).
Arguments Return {A} a.
Arguments Raise {A} e.

Definition raised {A} (r : outcome A) : bool :=
  match r with Raise _ => true | Return _ => false end.

(** One call after another, where the first may raise. *)
Definition and_then {A B} (r : outcome A) (k : A -> outcome B) : outcome B :=
  match r with
  | Return a => k a
  | Raise e => Raise e
  end.

Notation "x <~ r ;; k" := (and_then r (fun x => k))
  (at level 61, r at next level, right associativity).

(** ** The object and the world around it *)

(** A [datetime].  With a UTC offset it is an instant, here in microseconds
    since the epoch, and Python orders such datetimes by instant; without
    one it is the reading of a clock that is not named, and Python refuses to
    compare it with an instant. *)
Inductive datetime : Type :=
| Aware (instant : Z)
| Naive (reading : Z).

(** The token record that [read_token_cache] builds: every key is always
    there, its value is [None] or present.  [Expiration] is what
    [datetime.fromisoformat] made of the stored text. *)
Record Token : Type := {
  AccessKeyId : option string;
  SecretAccessKey : option string;
  SessionToken : option string;
  Expiration : option datetime
}.

(** The botocore session, reduced to the two paths the class asks it for
    (taken after [os.path.expanduser]). *)
Record Session : Type := {
  session_credentials_file : string;
  session_config_file : string
}.

Record Configuration : Type := {
  options : list (string * pyval);
  boto_session : Session;
  ask_role : pyval;
  duration : pyval;
  auto_duration : pyval;
  login_url : pyval;
  profile : pyval;
  region : pyval;
  role_arn : pyval;
  use_saml_cache : pyval;
  saml_cache_field : option string;
  token_cache_field : option Token;
  resolve_aliases : pyval;
  print_creds : pyval;
  credential_process : pyval;
  quiet : pyval;
  account : pyval;
  port : pyval
}.

Definition max_duration : Z := 43200.

(** [Configuration.__init__] *)
Definition init (session : Session) : Configuration := {|
  options := [];
  boto_session := session;
  ask_role := PyBool true;
  duration := PyInt max_duration;
  auto_duration := PyBool false;
  login_url := PyNone;
  profile := PyStr "default";
  region := PyNone;
  role_arn := PyNone;
  use_saml_cache := PyBool true;
  saml_cache_field := None;
  token_cache_field := None;
  resolve_aliases := PyBool true;
  print_creds := PyBool false;
  credential_process := PyBool false;
  quiet := PyBool false;
  account := PyStr "";
  port := PyInt 8000
|}.

Definition set_ask_role (v : pyval) (c : Configuration) : Configuration :=
  {| options := options c; boto_session := boto_session c; ask_role := v;
     duration := duration c; auto_duration := auto_duration c;
     login_url := login_url c; profile := profile c; region := region c;
     role_arn := role_arn c; use_saml_cache := use_saml_cache c;
     saml_cache_field := saml_cache_field c;
     token_cache_field := token_cache_field c;
     resolve_aliases := resolve_aliases c; print_creds := print_creds c;
     credential_process := credential_process c; quiet := quiet c;
     account := account c; port := port c |}.

Definition set_duration (v : pyval) (c : Configuration) : Configuration :=
  {| options := options c; boto_session := boto_session c; ask_role := ask_role c;
     duration := v; auto_duration := auto_duration c;
     login_url := login_url c; profile := profile c; region := region c;
     role_arn := role_arn c; use_saml_cache := use_saml_cache c;
     saml_cache_field := saml_cache_field c;
     token_cache_field := token_cache_field c;
     resolve_aliases := resolve_aliases c; print_creds := print_creds c;
     credential_process := credential_process c; quiet := quiet c;
     account := account c; port := port c |}.

Definition set_login_url (v : pyval) (c : Configuration) : Configuration :=
  {| options := options c; boto_session := boto_session c; ask_role := ask_role c;
     duration := duration c; auto_duration := auto_duration c;
     login_url := v; profile := profile c; region := region c;
     role_arn := role_arn c; use_saml_cache := use_saml_cache c;
     saml_cache_field := saml_cache_field c;
     token_cache_field := token_cache_field c;
     resolve_aliases := resolve_aliases c; print_creds := print_creds c;
     credential_process := credential_process c; quiet := quiet c;
     account := account c; port := port c |}.

Definition set_profile (v : pyval) (c : Configuration) : Configuration :=
  {| options := options c; boto_session := boto_session c; ask_role := ask_role c;
     duration := duration c; auto_duration := auto_duration c;
     login_url := login_url c; profile := v; region := region c;
     role_arn := role_arn c; use_saml_cache := use_saml_cache c;
     saml_cache_field := saml_cache_field c;
     token_cache_field := token_cache_field c;
     resolve_aliases := resolve_aliases c; print_creds := print_creds c;
     credential_process := credential_process c; quiet := quiet c;
     account := account c; port := port c |}.

Definition set_region (v : pyval) (c : Configuration) : Configuration :=
  {| options := options c; boto_session := boto_session c; ask_role := ask_role c;
     duration := duration c; auto_duration := auto_duration c;
     login_url := login_url c; profile := profile c; region := v;
     role_arn := role_arn c; use_saml_cache := use_saml_cache c;
     saml_cache_field := saml_cache_field c;
     token_cache_field := token_cache_field c;
     resolve_aliases := resolve_aliases c; print_creds := print_creds c;
     credential_process := credential_process c; quiet := quiet c;
     account := account c; port := port c |}.

Definition set_role_arn (v : pyval) (c : Configuration) : Configuration :=
  {| options := options c; boto_session := boto_session c; ask_role := ask_role c;
     duration := duration c; auto_duration := auto_duration c;
     login_url := login_url c; profile := profile c; region := region c;
     role_arn := v; use_saml_cache := use_saml_cache c;
     saml_cache_field := saml_cache_field c;
     token_cache_field := token_cache_field c;
     resolve_aliases := resolve_aliases c; print_creds := print_creds c;
     credential_process := credential_process c; quiet := quiet c;
     account := account c; port := port c |}.

Definition set_account (v : pyval) (c : Configuration) : Configuration :=
  {| options := options c; boto_session := boto_session c; ask_role := ask_role c;
     duration := duration c; auto_duration := auto_duration c;
     login_url := login_url c; profile := profile c; region := region c;
     role_arn := role_arn c; use_saml_cache := use_saml_cache c;
     saml_cache_field := saml_cache_field c;
     token_cache_field := token_cache_field c;
     resolve_aliases := resolve_aliases c; print_creds := print_creds c;
     credential_process := credential_process c; quiet := quiet c;
     account := v; port := port c |}.

Definition set_saml_cache_field (v : option string) (c : Configuration) : Configuration :=
  {| options := options c; boto_session := boto_session c; ask_role := ask_role c;
     duration := duration c; auto_duration := auto_duration c;
     login_url := login_url c; profile := profile c; region := region c;
     role_arn := role_arn c; use_saml_cache := use_saml_cache c;
     saml_cache_field := v;
     token_cache_field := token_cache_field c;
     resolve_aliases := resolve_aliases c; print_creds := print_creds c;
     credential_process := credential_process c; quiet := quiet c;
     account := account c; port := port c |}.

Definition set_token_cache_field (v : option Token) (c : Configuration) : Configuration :=
  {| options := options c; boto_session := boto_session c; ask_role := ask_role c;
     duration := duration c; auto_duration := auto_duration c;
     login_url := login_url c; profile := profile c; region := region c;
     role_arn := role_arn c; use_saml_cache := use_saml_cache c;
     saml_cache_field := saml_cache_field c;
     token_cache_field := v;
     resolve_aliases := resolve_aliases c; print_creds := print_creds c;
     credential_process := credential_process c; quiet := quiet c;
     account := account c; port := port c |}.

(** What a method can do to the outside: the file system, the locks and the
    order in which it used them. *)
Inductive event : Type :=
| EvMkdir (path : string)
| EvTouch (path : string)
| EvAcquire (lock_file : string)
| EvRelease (lock_file : string)
| EvRead (path : string)
| EvWrite (path : string) (content : string)
| EvValidate (blob : option string).

Record World : Type := {
  dirs : list string;
  files : list (string * string);
  held : list string;
  trace : list event
}.

Record State : Type := {
  self : Configuration;
  world : World
}.

Definition M (A : Type) : Type := State -> outcome A * State.

Definition ret {A} (a : A) : M A := fun s => (Return a, s).
Definition raise {A} (e : exn) : M A := fun s => (Raise e, s).
Definition bind {A B} (m : M A) (k : A -> M B) : M B :=
  fun s =>
    match m s with
    | (Return a, s1) => k a s1
    | (Raise e, s1) => (Raise e, s1)
    end.

Notation "x <- m ;; k" := (bind m (fun x => k))
  (at level 61, m at next level, right associativity).
Notation "m ;;; k" := (bind m (fun _ => k))
  (at level 61, right associativity).

(** [try: body finally: final]: [final] always runs; what it raises wins. *)
Definition try_finally {A} (body : M A) (final : M unit) : M A :=
  fun s =>
    let (r, s1) := body s in
    match final s1 with
    | (Return _, s2) => (r, s2)
    | (Raise e, s2) => (Raise e, s2)
    end.

Definition get_self : M Configuration := fun s => (Return (self s), s).
Definition modify_self (f : Configuration -> Configuration) : M unit :=
  fun s => (Return tt, {| self := f (self s); world := world s |}).
Definition get_world : M World := fun s => (Return (world s), s).
Definition put_world (w : World) : M unit :=
  fun s => (Return tt, {| self := self s; world := w |}).

Definition log (e : event) (w : World) : World :=
  {| dirs := dirs w; files := files w; held := held w; trace := (trace w ++ [e])%list |}.

(** [assert cond, msg] *)
Definition assert_ (cond : bool) (msg : string) : M unit :=
  if cond then ret tt else raise (AssertionError msg).

(** ** hashlib.sha1 and str.encode("utf-8") *)

Module SHA1.

Definition w32 (x : Z) : Z := x mod 2 ^ 32.
Definition rotl (n x : Z) : Z :=
  w32 (Z.lor (Z.shiftl x n) (Z.shiftr x (32 - n))).

(** The [n] low bytes of [x], most significant first. *)
Fixpoint be_bytes (n : nat) (x : Z) : list Z :=
  match n with
  | O => []
  | S k => Z.land (Z.shiftr x (8 * Z.of_nat k)) 255 :: be_bytes k x
  end.

Definition pad (msg : list Z) : list Z :=
  let l := Z.of_nat (List.length msg) in
  (msg ++ [128] ++ repeat 0 (Z.to_nat ((55 - l) mod 64)) ++ be_bytes 8 (8 * l))%list.

Fixpoint be_words (n : nat) (bs : list Z) : list Z :=
  match n, bs with
  | S k, b0 :: b1 :: b2 :: b3 :: r =>
      (((b0 * 256 + b1) * 256 + b2) * 256 + b3) :: be_words k r
  | _, _ => []
  end.

(** The message schedule, newest word first. *)
Fixpoint schedule (n : nat) (rev_w : list Z) : list Z :=
  match n with
  | O => rev_w
  | S k =>
      let x := Z.lxor (Z.lxor (nth 2 rev_w 0) (nth 7 rev_w 0))
                      (Z.lxor (nth 13 rev_w 0) (nth 15 rev_w 0)) in
      schedule k (rotl 1 x :: rev_w)
  end.

Definition lnot32 (x : Z) : Z := Z.lxor x (2 ^ 32 - 1).

Definition f_k (t : nat) (b c d : Z) : Z * Z :=
  if (t <? 20)%nat then (Z.lor (Z.land b c) (Z.land (lnot32 b) d), 1518500249)
  else if (t <? 40)%nat then (Z.lxor (Z.lxor b c) d, 1859775393)
  else if (t <? 60)%nat
       then (Z.lor (Z.lor (Z.land b c) (Z.land b d)) (Z.land c d), 2400959708)
  else (Z.lxor (Z.lxor b c) d, 3395469782).

Definition regs : Type := Z * Z * Z * Z * Z.

Fixpoint rounds (t : nat) (ws : list Z) (h : regs) : regs :=
  match ws with
  | [] => h
  | w :: r =>
      let '(a, b, c, d, e) := h in
      let (f, k) := f_k t b c d in
      rounds (S t) r (w32 (rotl 5 a + f + e + k + w), a, rotl 30 b, c, d)
  end.

Definition compress (h : regs) (block : list Z) : regs :=
  let ws := rev (schedule 64 (rev (be_words 16 block))) in
  let '(a0, b0, c0, d0, e0) := h in
  let '(a, b, c, d, e) := rounds 0 ws h in
  (w32 (a0 + a), w32 (b0 + b), w32 (c0 + c), w32 (d0 + d), w32 (e0 + e)).

Fixpoint blocks (n : nat) (bs : list Z) (h : regs) : regs :=
  match n with
  | O => h
  | S k =>
      match bs with
      | [] => h
      | _ => blocks k (skipn 64 bs) (compress h (firstn 64 bs))
      end
  end.

Definition initial : regs :=
  (1732584193, 4023233417, 2562383102, 271733878, 3285377520).

Definition digest (msg : list Z) : list Z :=
  let p := pad msg in
  let '(a, b, c, d, e) := blocks (List.length p) p initial in
  (be_bytes 4 a ++ be_bytes 4 b ++ be_bytes 4 c ++ be_bytes 4 d ++ be_bytes 4 e)%list.

Definition hex_digit (n : Z) : ascii :=
  if n <? 10 then ascii_of_nat (48 + Z.to_nat n) else ascii_of_nat (87 + Z.to_nat n).

Fixpoint hex (bs : list Z) : string :=
  match bs with
  | [] => EmptyString
  | b :: r => String (hex_digit (b / 16)) (String (hex_digit (b mod 16)) (hex r))
  end.

(** [s.encode("utf-8")] for code points below 256. *)
Fixpoint encode_utf8 (s : string) : list Z :=
  match s with
  | EmptyString => []
  | String c r =>
      let n := Z.of_nat (nat_of_ascii c) in
      if n <? 128 then n :: encode_utf8 r
      else (192 + n / 64) :: (128 + n mod 64) :: encode_utf8 r
  end.

(** [hashlib.sha1(bs).hexdigest()] *)
Definition hexdigest (bs : list Z) : string := hex (digest bs).

End SHA1.


(** ** Methods that only look at the object *)

(** [Configuration.config_profile] (a static method) *)
Definition config_profile (profile : pyval) : pyval :=
  if String.eqb (lower (py_str profile)) "default"
  then profile
  else PyStr ("profile " ++ py_str profile).

Definition credentials_file (c : Configuration) : string :=
  session_credentials_file (boto_session c).

Definition config_file (c : Configuration) : string :=
  session_config_file (boto_session c).

(** The [saml_cache_file] property. *)
Definition saml_cache_file : M string :=
  c <- get_self ;;
  assert_ (negb (is_none (login_url c)))
          "Cannot look for smal cache file if no login url" ;;;
  match login_url c with
  | PyStr url =>
      ret (replace "credentials"
                   ("saml_cache_" ++ SHA1.hexdigest (SHA1.encode_utf8 url) ++ ".xml")
                   (credentials_file c))
  | v => raise (AttributeError
                  ("'" ++ class_name v ++ "' object has no attribute 'encode'"))
  end.

(** The [saml_cache] property and its setter.  The predicate is
    [amazon.Amazon.is_valid_saml_assertion], which lives outside this module;
    each call of it is recorded with the blob it was given. *)
Section SamlCache.

Variable is_valid_saml_assertion : option string -> bool.

Definition call_is_valid_saml_assertion (blob : option string) : M bool :=
  w <- get_world ;;
  put_world (log (EvValidate blob) w) ;;;
  ret (is_valid_saml_assertion blob).

Definition saml_cache : M (option string) :=
  c <- get_self ;;
  ok <- call_is_valid_saml_assertion (saml_cache_field c) ;;
  (if negb ok then modify_self (set_saml_cache_field None) else ret tt) ;;;
  c' <- get_self ;;
  ret (saml_cache_field c').

(** [n] reads in a row; the values they returned, in order. *)
Fixpoint saml_cache_reads (n : nat) : M (list (option string)) :=
  match n with
  | O => ret []
  | S k => v <- saml_cache ;; vs <- saml_cache_reads k ;; ret (v :: vs)
  end.

End SamlCache.

Definition saml_cache_setter (value : option string) : M unit :=
  modify_self (set_saml_cache_field value).

(** The [token_cache] property; [now] is what [datetime.now(tz.UTC)] gives
    when the property is read. *)
(** [expiration <= datetime.now(tz.UTC)]: the right-hand side is an instant,
    and a datetime without offset cannot be compared with it. *)
Definition datetime_le (expiration : datetime) (now : Z) : M bool :=
  match expiration with
  | Aware e => ret (e <=? now)
  | Naive _ =>
      raise (TypeError "can't compare offset-naive and offset-aware datetimes")
  end.

Definition token_cache (now : Z) : M (option Token) :=
  c <- get_self ;;
  match token_cache_field c with
  | Some t =>
      expired <- match Expiration t with
                 | None => ret true
                 | Some e => datetime_le e now
                 end ;;
      if expired
         || match AccessKeyId t with None => true | Some _ => false end
         || match SecretAccessKey t with None => true | Some _ => false end
      then modify_self (set_token_cache_field None)
      else ret tt
  | None => ret tt
  end ;;;
  c' <- get_self ;;
  ret (token_cache_field c').

(** [raise_if_invalid] *)
Definition raise_if_invalid : M unit :=
  c <- get_self ;;
  assert_ (class_is_bool (ask_role c))
    ("Expected ask_role to be a boolean. Got " ++ class_text (ask_role c) ++ ".") ;;;
  assert_ (class_is_int (duration c))
    ("Expected duration to be an integer. Got " ++ class_text (duration c) ++ ".") ;;;
  assert_ (match duration c with PyInt d => 900 <=? d | _ => false end)
    ("Expected duration to be greater than or equal to 900. Got "
       ++ py_str (duration c) ++ ".") ;;;
  assert_ (match duration c with PyInt d => d <=? max_duration | _ => false end)
    ("Expected duration to be less than or equal to max_duration ("
       ++ int_text max_duration ++ "). Got " ++ py_str (duration c) ++ ".") ;;;
  assert_ (class_is_bool (auto_duration c))
    ("Expected auto_duration to be a boolean. Got "
       ++ class_text (auto_duration c) ++ ".") ;;;
  assert_ (class_is_str (profile c))
    ("Expected profile to be a string. Got " ++ class_text (profile c) ++ ".") ;;;
  assert_ (class_is_str (region c))
    ("Expected region to be a string. Got " ++ class_text (region c) ++ ".") ;;;
  assert_ (negb (is_none (login_url c)))
    "Expected login_url to be set to non-None value." ;;;
  (if negb (is_none (role_arn c)) then
     assert_ (class_is_str (role_arn c))
       ("Expected role_arn to be None or a string. Got "
          ++ class_text (role_arn c) ++ ".") ;;;
     assert_ (match role_arn c with
              | PyStr a => contains "arn:aws:iam::" a || contains "arn:aws-us-gov:iam::" a
              | _ => false
              end)
       ("Expected role_arn to contain 'arn:aws:iam::'. Got '"
          ++ py_str (role_arn c) ++ "'.")
   else ret tt) ;;;
  assert_ (class_is_bool (quiet c))
    ("Expected quiet to be a boolean. Got " ++ class_text (quiet c) ++ ".") ;;;
  assert_ (class_is_str (account c))
    ("Expected account to be string. Got " ++ class_text (account c)) ;;;
  assert_ (class_is_int (port c))
    ("Expected port to be an integer. Got " ++ class_text (port c) ++ ".").

(** ** configparser.RawConfigParser

    The parser as this module uses it: built with no arguments (delimiters
    [=] and [:], comment prefixes [#] and [;], no inline comments, strict,
    empty lines allowed in values, no valueless options, no interpolation),
    filled from at most one file, changed with [add_section] and [set], and
    written back.  A dict is a list of pairs in insertion order. *)

Module ConfigParser.

Definition default_section : string := "DEFAULT".

Record RawConfigParser : Type := {
  defaults : list (string * pyval);
  sections : list (pyval * list (string * pyval))
}.

Definition new : RawConfigParser := {| defaults := []; sections := [] |}.

(** [d[k] = v] on a dict with text keys *)
Fixpoint dict_set {V : Type} (k : string) (v : V) (d : list (string * V))
  : list (string * V) :=
  match d with
  | [] => [(k, v)]
  | (k', v') :: r =>
      if String.eqb k' k then (k', v) :: r else (k', v') :: dict_set k v r
  end.

Fixpoint dict_get {V : Type} (k : string) (d : list (string * V)) : option V :=
  match d with
  | [] => None
  | (k', v') :: r => if String.eqb k' k then Some v' else dict_get k r
  end.

(** The same for the dict of sections, whose keys are any values. *)
Fixpoint sect_get {V : Type} (k : pyval) (d : list (pyval * V)) : option V :=
  match d with
  | [] => None
  | (k', v') :: r => if py_eqb k' k then Some v' else sect_get k r
  end.

Fixpoint sect_set {V : Type} (k : pyval) (v : V) (d : list (pyval * V))
  : list (pyval * V) :=
  match d with
  | [] => [(k, v)]
  | (k', v') :: r =>
      if py_eqb k' k then (k', v) :: r else (k', v') :: sect_set k v r
  end.

Definition has_section (cp : RawConfigParser) (section : pyval) : bool :=
  match sect_get section (sections cp) with Some _ => true | None => false end.

Definition add_section (cp : RawConfigParser) (section : pyval)
  : outcome RawConfigParser :=
  if py_eqb section (PyStr default_section)
  then Raise (ValueError ("Invalid section name: " ++ repr (py_str section)))
  else if has_section cp section
  then Raise (DuplicateSectionError (py_str section) "" 0)
  else Return {| defaults := defaults cp;
                 sections := (sections cp ++ [(section, [])])%list |}.

(** [optionxform] *)
Definition optionxform (option : string) : string := lower option.

Definition set (cp : RawConfigParser) (section : pyval) (option : string)
           (value : pyval) : outcome RawConfigParser :=
  if negb (truthy section) || py_eqb section (PyStr default_section)
  then Return {| defaults := dict_set (optionxform option) value (defaults cp);
                 sections := sections cp |}
  else match sect_get section (sections cp) with
       | Some d =>
           Return {| defaults := defaults cp;
                     sections := sect_set section
                                   (dict_set (optionxform option) value d)
                                   (sections cp) |}
       | None => Raise (NoSectionError section)
       end.

(** [get(section, option, fallback=fallback)]: the section's own value,
    else the one of the DEFAULT section, else [fallback]. *)
Definition get (cp : RawConfigParser) (section : pyval) (option : string)
           (fallback : pyval) : pyval :=
  match sect_get section (sections cp) with
  | None =>
      if py_eqb section (PyStr default_section)
      then match dict_get (optionxform option) (defaults cp) with
           | Some v => v
           | None => fallback
           end
      else fallback
  | Some d =>
      match dict_get (optionxform option) d with
      | Some v => v
      | None =>
          match dict_get (optionxform option) (defaults cp) with
          | Some v => v
          | None => fallback
          end
      end
  end.

(** Whether [get] finds the option at all. *)
Definition has_value (cp : RawConfigParser) (section : pyval) (option : string)
  : bool :=
  match sect_get section (sections cp) with
  | None =>
      py_eqb section (PyStr default_section)
      && match dict_get (optionxform option) (defaults cp) with
         | Some _ => true | None => false end
  | Some d =>
      match dict_get (optionxform option) d with
      | Some _ => true
      | None => match dict_get (optionxform option) (defaults cp) with
                | Some _ => true | None => false end
      end
  end.

(** [BOOLEAN_STATES] *)
Definition boolean_states : list (string * bool) :=
  [("1", true); ("yes", true); ("true", true); ("on", true);
   ("0", false); ("no", false); ("false", false); ("off", false)].

Definition convert_to_boolean (value : pyval) : outcome pyval :=
  match value with
  | PyStr s =>
      match dict_get (lower s) boolean_states with
      | Some b => Return (PyBool b)
      | None => Raise (ValueError ("Not a boolean: " ++ s))
      end
  | v => Raise (AttributeError
                  ("'" ++ class_name v ++ "' object has no attribute 'lower'"))
  end.

(** The digits of an integer literal given to [int()]: single underscores
    are allowed between digits. *)
Definition is_digit (c : ascii) : bool := between 48 57 (code c).

Fixpoint literal_digits (after_digit : bool) (s : string) : option string :=
  match s with
  | EmptyString => if after_digit then Some EmptyString else None
  | String c r =>
      if is_digit c then
        match literal_digits true r with
        | Some ds => Some (String c ds)
        | None => None
        end
      else if Ascii.eqb c "_" && after_digit then
        match r with
        | String c2 _ => if is_digit c2 then literal_digits false r else None
        | EmptyString => None
        end
      else None
  end.

Definition unsigned_literal (s : string) : option Z :=
  match literal_digits false s with
  | Some ds =>
      match NilEmpty.uint_of_string ds with
      | Some u => Some (Z.of_uint u)
      | None => None
      end
  | None => None
  end.

(** [int(s)] for text, base 10 *)
Definition int_of_text (s : string) : option Z :=
  match strip s with
  | String "-" r => match unsigned_literal r with
                    | Some z => Some (- z) | None => None end
  | String "+" r => unsigned_literal r
  | t => unsigned_literal t
  end.

Definition convert_to_int (value : pyval) : outcome pyval :=
  match value with
  | PyStr s =>
      match int_of_text s with
      | Some z => Return (PyInt z)
      | None => Raise (ValueError ("invalid literal for int() with base 10: "
                                     ++ take 200 (repr s)))
      end
  | PyInt z => Return (PyInt z)
  | PyBool b => Return (PyInt (if b then 1 else 0))
  | v => Raise (TypeError ("int() argument must be a string or a number, not "
                             ++ class_name v))
  end.

(** [getboolean] and [getint] with a fallback: the fallback is returned as
    it is, a value that is found goes through the conversion. *)
Definition getboolean (cp : RawConfigParser) (section : pyval) (option : string)
           (fallback : pyval) : outcome pyval :=
  if has_value cp section option
  then convert_to_boolean (get cp section option fallback)
  else Return fallback.

Definition getint (cp : RawConfigParser) (section : pyval) (option : string)
           (fallback : pyval) : outcome pyval :=
  if has_value cp section option
  then convert_to_int (get cp section option fallback)
  else Return fallback.

(** *** Reading a file: [_read] on a parser that is still empty *)

(** What a text file gives when opened for reading: [\r\n] and [\r] are
    turned into [\n]. *)
Fixpoint universal_newlines (s : string) : string :=
  match s with
  | EmptyString => EmptyString
  | String c r =>
      if Ascii.eqb c cr then
        String nl (match r with
                   | String c2 r2 =>
                       if Ascii.eqb c2 nl then universal_newlines r2
                       else universal_newlines r
                   | EmptyString => EmptyString
                   end)
      else String c (universal_newlines r)
  end.

(** Iterating over the file: its lines, each with its newline. *)
Fixpoint file_lines (s : string) : list string :=
  match s with
  | EmptyString => []
  | String c r =>
      if Ascii.eqb c nl then String c EmptyString :: file_lines r
      else match file_lines r with
           | [] => [String c EmptyString]
           | l :: ls => String c l :: ls
           end
  end.

(** [SECTCRE.match(value)]: an opening bracket, then as much as possible
    (at least one character) up to a closing bracket. *)
Fixpoint before_last (a : ascii) (s : string) : option string :=
  match s with
  | EmptyString => None
  | String c r =>
      match before_last a r with
      | Some h => Some (String c h)
      | None => if Ascii.eqb c a then Some EmptyString else None
      end
  end.

Definition match_section (value : string) : option string :=
  match value with
  | String "[" rest =>
      match before_last "]" rest with
      | Some (String c h) => Some (String c h)
      | _ => None
      end
  | _ => None
  end.

(** [OPTCRE.match(value)]: the text before the first delimiter, without
    the blanks that end it, and the text after the delimiter. *)
Definition is_delimiter (c : ascii) : bool := Ascii.eqb c "=" || Ascii.eqb c ":".

Fixpoint split_delimiter (s : string) : option (string * string) :=
  match s with
  | EmptyString => None
  | String c r =>
      if is_delimiter c then Some (EmptyString, r)
      else match split_delimiter r with
           | Some (k, v) => Some (String c k, v)
           | None => None
           end
  end.

Definition match_option (value : string) : option (string * string) :=
  match split_delimiter value with
  | Some (k, v) => Some (rstrip k, lstrip v)
  | None => None
  end.

(** [NONSPACECRE.search(line).start()], 0 when the line is blank *)
Fixpoint first_nonspace (s : string) : option nat :=
  match s with
  | EmptyString => None
  | String c r =>
      if isspace c then
        match first_nonspace r with Some n => Some (S n) | None => None end
      else Some O
  end.

Definition indent_of (line : string) : nat :=
  match first_nonspace line with Some n => n | None => O end.

Definition is_comment (line : string) : bool :=
  startswith (strip line) "#" || startswith (strip line) ";".

Definition raw_section : Type := list (string * list string).

(** The local variables of [_read], with the two dicts it fills. *)
Record ReadState : Type := {
  rs_defaults : raw_section;
  rs_sections : list (string * raw_section);
  rs_sectname : option string;      (* [None] while [cursect] is [None] *)
  rs_optname : option string;
  rs_indent_level : nat;
  rs_added_sections : list string;  (* the names in [elements_added] *)
  rs_added_options : list (string * string);  (* its pairs *)
  rs_errors : list (nat * string)   (* the lines of the pending ParsingError *)
}.

Definition read_start : ReadState := {|
  rs_defaults := []; rs_sections := []; rs_sectname := None;
  rs_optname := None; rs_indent_level := O; rs_added_sections := [];
  rs_added_options := []; rs_errors := []
|}.

Definition in_names (n : string) (l : list string) : bool :=
  existsb (String.eqb n) l.
Definition in_pairs (p : string * string) (l : list (string * string)) : bool :=
  existsb (fun q => String.eqb (fst p) (fst q) && String.eqb (snd p) (snd q)) l.

(** [cursect], the dict of the section being read *)
Definition cursect (st : ReadState) (name : string) : raw_section :=
  if String.eqb name default_section then rs_defaults st
  else match dict_get name (rs_sections st) with
       | Some d => d
       | None => []
       end.

Definition set_cursect (st : ReadState) (name : string) (d : raw_section)
  : ReadState :=
  if String.eqb name default_section
  then {| rs_defaults := d; rs_sections := rs_sections st;
          rs_sectname := rs_sectname st; rs_optname := rs_optname st;
          rs_indent_level := rs_indent_level st;
          rs_added_sections := rs_added_sections st;
          rs_added_options := rs_added_options st;
          rs_errors := rs_errors st |}
  else {| rs_defaults := rs_defaults st;
          rs_sections := dict_set name d (rs_sections st);
          rs_sectname := rs_sectname st; rs_optname := rs_optname st;
          rs_indent_level := rs_indent_level st;
          rs_added_sections := rs_added_sections st;
          rs_added_options := rs_added_options st;
          rs_errors := rs_errors st |}.

(** [cursect[optname].append(value)] *)
Definition append_value (st : ReadState) (name optname value : string)
  : ReadState :=
  match dict_get optname (cursect st name) with
  | Some lines =>
      set_cursect st name (dict_set optname (lines ++ [value])%list (cursect st name))
  | None => st
  end.

Definition continues (st : ReadState) : option (string * string) :=
  match rs_sectname st, rs_optname st with
  | Some name, Some (String c o) => Some (name, String c o)
  | _, _ => None
  end.

(** A header line: [cursect] becomes the dict of [name]; a new name gets
    an empty dict ([fresh]), and every name but DEFAULT goes into
    [elements_added] ([added]). *)
Definition with_header (st : ReadState) (name : string) (fresh added : bool)
  : ReadState :=
  {| rs_defaults := rs_defaults st;
     rs_sections := if fresh then (rs_sections st ++ [(name, [])])%list
                    else rs_sections st;
     rs_sectname := Some name; rs_optname := None;
     rs_indent_level := rs_indent_level st;
     rs_added_sections :=
       if added then name :: rs_added_sections st else rs_added_sections st;
     rs_added_options := rs_added_options st;
     rs_errors := rs_errors st |}.

Definition with_indent (st : ReadState) (n : nat) : ReadState :=
  {| rs_defaults := rs_defaults st; rs_sections := rs_sections st;
     rs_sectname := rs_sectname st; rs_optname := rs_optname st;
     rs_indent_level := n;
     rs_added_sections := rs_added_sections st;
     rs_added_options := rs_added_options st;
     rs_errors := rs_errors st |}.

Definition with_error (st : ReadState) (lineno : nat) (line : string)
  : ReadState :=
  {| rs_defaults := rs_defaults st; rs_sections := rs_sections st;
     rs_sectname := rs_sectname st; rs_optname := rs_optname st;
     rs_indent_level := rs_indent_level st;
     rs_added_sections := rs_added_sections st;
     rs_added_options := rs_added_options st;
     rs_errors := (rs_errors st ++ [(lineno, line)])%list |}.

Definition with_option (st : ReadState) (name optname : string) : ReadState :=
  {| rs_defaults := rs_defaults st; rs_sections := rs_sections st;
     rs_sectname := rs_sectname st; rs_optname := Some optname;
     rs_indent_level := rs_indent_level st;
     rs_added_sections := rs_added_sections st;
     rs_added_options := (name, optname) :: rs_added_options st;
     rs_errors := rs_errors st |}.

(** The branch of a line that is neither blank, nor a comment, nor a
    continuation: a section header or an option. *)
Definition read_header_or_option (source : string) (st : ReadState)
           (lineno : nat) (line value : string) : exn + ReadState :=
  match match_section value with
  | Some sectname =>
      match dict_get sectname (rs_sections st) with
      | Some _ =>
          if in_names sectname (rs_added_sections st)
          then inl (DuplicateSectionError sectname source lineno)
          else inr (with_header st sectname false true)
      | None =>
          if String.eqb sectname default_section
          then inr (with_header st sectname false false)
          else inr (with_header st sectname true true)
      end
  | None =>
      match rs_sectname st with
      | None => inl (MissingSectionHeaderError source lineno line)
      | Some name =>
          match match_option value with
          | Some (optname, optval) =>
              let st := match optname with
                        | EmptyString => with_error st lineno line
                        | _ => st
                        end in
              let optname := optionxform (rstrip optname) in
              if in_pairs (name, optname) (rs_added_options st)
              then inl (DuplicateOptionError name optname source lineno)
              else
                let st := with_option st name optname in
                inr (set_cursect st name
                       (dict_set optname [strip optval] (cursect st name)))
          | None => inr (with_error st lineno line)
          end
      end
  end.

(** The body of the loop of [_read], for line number [lineno]. *)
Definition read_line (source : string) (st : ReadState) (lineno : nat)
           (line : string) : exn + ReadState :=
  if is_comment line then inr st
  else
    let value := strip line in
    match value, continues st with
    | EmptyString, Some (name, optname) =>
        inr (append_value st name optname EmptyString)
    | EmptyString, None => inr st
    | _, Some (name, optname) =>
        if (rs_indent_level st <? indent_of line)%nat
        then inr (append_value st name optname value)
        else read_header_or_option source (with_indent st (indent_of line))
                                   lineno line value
    | _, None =>
        read_header_or_option source (with_indent st (indent_of line))
                              lineno line value
    end.

Fixpoint read_lines (source : string) (st : ReadState) (lineno : nat)
         (lines : list string) : exn + ReadState :=
  match lines with
  | [] => inr st
  | line :: rest =>
      match read_line source st lineno line with
      | inl e => inl e
      | inr st' => read_lines source st' (S lineno) rest
      end
  end.

(** [_join_multiline_values] on one dict *)
Definition join_values (d : raw_section) : list (string * pyval) :=
  map (fun kv => (fst kv, PyStr (rstrip (join NL (snd kv))))) d.

Definition finish (st : ReadState) : RawConfigParser :=
  {| defaults := join_values (rs_defaults st);
     sections := map (fun sd => (PyStr (fst sd), join_values (snd sd)))
                     (rs_sections st) |}.

(** [RawConfigParser().read(source)] where the file holds [text]. *)
Definition read_text (source text : string) : outcome RawConfigParser :=
  match read_lines source read_start 1 (file_lines (universal_newlines text)) with
  | inl e => Raise e
  | inr st =>
      match rs_errors st with
      | [] => Return (finish st)
      | bad => Raise (ParsingError source bad)
      end
  end.

(** *** Writing: [write(fp)] *)

Definition TAB : string := String tab EmptyString.

Definition write_item (kv : string * pyval) : string :=
  fst kv ++ " = " ++ replace NL (NL ++ TAB) (py_str (snd kv)) ++ NL.

Definition write_section (name : string) (items : list (string * pyval))
  : string :=
  "[" ++ name ++ "]" ++ NL ++ String.concat "" (map write_item items) ++ NL.

Definition write (cp : RawConfigParser) : string :=
  (match defaults cp with
   | [] => ""
   | d => write_section default_section d
   end)
  ++ String.concat ""
       (map (fun sd => write_section (py_str (fst sd)) (snd sd)) (sections cp)).

End ConfigParser.

(** ** The file system, the locks and [util.Util] *)

Fixpoint lookup_file (path : string) (fs : list (string * string)) : option string :=
  match fs with
  | [] => None
  | (p, content) :: r => if String.eqb p path then Some content else lookup_file path r
  end.

Fixpoint store_file (path content : string) (fs : list (string * string))
  : list (string * string) :=
  match fs with
  | [] => [(path, content)]
  | (p, c) :: r =>
      if String.eqb p path then (p, content) :: r else (p, c) :: store_file path content r
  end.

Definition is_dir (w : World) (path : string) : bool :=
  existsb (String.eqb path) (dirs w).

Definition is_file (w : World) (path : string) : bool :=
  match lookup_file path (files w) with Some _ => true | None => false end.

(** [os.path.exists] *)
Definition path_exists (w : World) (path : string) : bool :=
  negb (String.eqb path "") && (is_dir w path || is_file w path).

(** [posixpath.dirname]: everything up to the last slash, without the
    slashes that end it unless there is nothing else. *)
Fixpoint upto_last_slash (s : string) : string :=
  match s with
  | EmptyString => EmptyString
  | String c r => if has_char "/" s then String c (upto_last_slash r) else EmptyString
  end.

Fixpoint all_slashes (s : string) : bool :=
  match s with
  | EmptyString => true
  | String c r => Ascii.eqb c "/" && all_slashes r
  end.

Fixpoint rstrip_slashes (s : string) : string :=
  match s with
  | EmptyString => EmptyString
  | String c r =>
      match rstrip_slashes r with
      | EmptyString => if Ascii.eqb c "/" then EmptyString else String c EmptyString
      | r' => String c r'
      end
  end.

Definition dirname (path : string) : string :=
  let head := upto_last_slash path in
  if all_slashes head then head else rstrip_slashes head.

(** The directory a new entry goes into is there: the current directory for
    a bare name, else the directory part of the path. *)
Definition parent_is_dir (w : World) (path : string) : bool :=
  String.eqb (dirname path) "" || is_dir w (dirname path).

(** The directories above [path], the nearest first: [dirname] again and
    again, until nothing is left of the path or the root is reached. *)
Fixpoint ancestors (fuel : nat) (path : string) : list string :=
  match fuel with
  | O => []
  | S k =>
      let d := dirname path in
      if String.eqb d "" || String.eqb d path then [] else d :: ancestors k d
  end.

(** The error of a system call that cannot walk down to the directory of
    [path]: the first step from the top that is no directory decides,
    [ENOTDIR] when a file is there and [ENOENT] when nothing is. *)
Definition walk_error (w : World) (path : string) : exn :=
  match filter (fun d => negb (is_dir w d))
               (rev (ancestors (String.length path) path)) with
  | d :: _ => if is_file w d then NotADirectoryError path else FileNotFoundError path
  | [] => FileNotFoundError path
  end.

(** [os.mkdir(path, 0o700)] *)
Definition os_mkdir (path : string) : M unit :=
  w <- get_world ;;
  if String.eqb path "" then raise (FileNotFoundError path)
  else if path_exists w path then raise (FileExistsError path)
  else if negb (parent_is_dir w path) then raise (walk_error w path)
  else put_world (log (EvMkdir path)
                      {| dirs := (dirs w ++ [path])%list; files := files w;
                         held := held w; trace := trace w |}).

(** Modelled from the spec: [util.Util.touch] is not part of this module;
    the spec has [ensure_config_files_exist] create an empty file where one
    is missing, which is all [touch] is called for, and has a missing
    directory be an input/output failure that is passed on: the file cannot
    be opened when its directory is not there. *)
Definition touch (path : string) : M unit :=
  w <- get_world ;;
  if negb (parent_is_dir w path) then raise (walk_error w path)
  else
  put_world (log (EvTouch path)
                 {| dirs := dirs w;
                    files := match lookup_file path (files w) with
                             | Some _ => files w
                             | None => (files w ++ [(path, "")])%list
                             end;
                    held := held w; trace := trace w |}).

(** Modelled from the spec: [util.Util.coalesce] is not part of this module;
    the spec has [read] take the value from disk when it is present and keep
    the value in memory otherwise. *)
Definition coalesce (first second : pyval) : pyval :=
  match first with
  | PyNone => second
  | v => v
  end.

(** Modelled from the spec: [util.Util.unicode_to_string_if_needed] is not
    part of this module; the spec has the value from disk reach the field
    as it is. *)
Definition unicode_to_string_if_needed (v : pyval) : pyval := v.

(** [filelock.FileLock(lock_file).acquire()] and [.release()], seen from the
    one process that is modelled: the lock is free when asked for.  The lock
    is a library of its own, and what it leaves on disk, the lock file and,
    with some of its versions, the directory for it, is not in the world of
    this model: [dirs] and [files] tell of the paths that this module names,
    and the statements below speak of no lock file. *)
Definition acquire (lock_file : string) : M unit :=
  w <- get_world ;;
  put_world (log (EvAcquire lock_file)
                 {| dirs := dirs w; files := files w;
                    held := lock_file :: held w; trace := trace w |}).

Fixpoint remove_one (x : string) (l : list string) : list string :=
  match l with
  | [] => []
  | y :: r => if String.eqb y x then r else y :: remove_one x r
  end.

Definition release (lock_file : string) : M unit :=
  w <- get_world ;;
  put_world (log (EvRelease lock_file)
                 {| dirs := dirs w; files := files w;
                    held := remove_one lock_file (held w); trace := trace w |}).

(** [parser = RawConfigParser(); parser.read(path)]: a file that cannot be
    opened is skipped. *)
Definition parser_read (path : string) : M ConfigParser.RawConfigParser :=
  w <- get_world ;;
  put_world (log (EvRead path) w) ;;;
  match lookup_file path (files w) with
  | None => ret ConfigParser.new
  | Some text =>
      match ConfigParser.read_text path text with
      | Return cp => ret cp
      | Raise e => raise e
      end
  end.

(** [with open(path, "w+") as f: parser.write(f)] *)
Definition parser_write (path : string) (cp : ConfigParser.RawConfigParser) : M unit :=
  w <- get_world ;;
  if is_dir w path then raise (IsADirectoryError path)
  else if negb (parent_is_dir w path) then raise (FileNotFoundError path)
  else put_world (log (EvWrite path (ConfigParser.write cp))
                      {| dirs := dirs w;
                         files := store_file path (ConfigParser.write cp) (files w);
                         held := held w; trace := trace w |}).

Definition lift {A} (r : outcome A) : M A :=
  match r with
  | Return a => ret a
  | Raise e => raise e
  end.

(** ** Methods that use the files *)

Definition ensure_file_exists (file : string) : M unit :=
  let directory := dirname file in
  w <- get_world ;;
  (if negb (path_exists w directory) then os_mkdir directory else ret tt) ;;;
  w' <- get_world ;;
  (if negb (path_exists w' file) then touch file else ret tt).

Fixpoint for_each {A} (l : list A) (body : A -> M unit) : M unit :=
  match l with
  | [] => ret tt
  | x :: r => body x ;;; for_each r body
  end.

Definition ensure_config_files_exist : M unit :=
  c <- get_self ;;
  for_each [config_file c; credentials_file c] ensure_file_exists.

(** The credential record handed to [write]: [amazon.Amazon] is not part
    of this module, and [write] reads four attributes of it; the expiration
    is kept as the text [expiration.isoformat()] gives. *)
Record Amazon : Type := {
  access_key_id : pyval;
  secret_access_key : pyval;
  session_token : pyval;
  expiration_isoformat : string
}.

(** The first [try] block of [write], the profile's section of the config
    file: what is done to the parser once the file is read, and the block. *)
Definition update_config (c : Configuration) (cp : ConfigParser.RawConfigParser)
  : outcome ConfigParser.RawConfigParser :=
  let section := config_profile (profile c) in
  cp <~ (if negb (ConfigParser.has_section cp section)
         then ConfigParser.add_section cp section else Return cp) ;;
  cp <~ ConfigParser.set cp section "region" (region c) ;;
  cp <~ ConfigParser.set cp section "asa.ask_role" (ask_role c) ;;
  cp <~ ConfigParser.set cp section "asa.duration" (duration c) ;;
  cp <~ ConfigParser.set cp section "asa.login_url" (login_url c) ;;
  ConfigParser.set cp section "asa.role_arn" (role_arn c).

Definition write_config_section : M unit :=
  c <- get_self ;;
  cp <- parser_read (config_file c) ;;
  cp <- lift (update_config c cp) ;;
  parser_write (config_file c) cp.

(** The inner [try] block of [write], the profile's section of the
    credentials file, in the same two steps. *)
Definition update_credentials (c : Configuration) (amazon_object : Amazon)
           (cp : ConfigParser.RawConfigParser)
  : outcome ConfigParser.RawConfigParser :=
  let section := profile c in
  cp <~ (if negb (ConfigParser.has_section cp section)
         then ConfigParser.add_section cp section else Return cp) ;;
  cp <~ ConfigParser.set cp section "aws_access_key_id"
          (access_key_id amazon_object) ;;
  cp <~ ConfigParser.set cp section "aws_secret_access_key"
          (secret_access_key amazon_object) ;;
  cp <~ ConfigParser.set cp section "aws_security_token"
          (session_token amazon_object) ;;
  cp <~ ConfigParser.set cp section "aws_session_expiration"
          (PyStr (expiration_isoformat amazon_object)) ;;
  ConfigParser.set cp section "aws_session_token" (session_token amazon_object).

Definition write_credentials_section (amazon_object : Amazon) : M unit :=
  c <- get_self ;;
  cp <- parser_read (credentials_file c) ;;
  cp <- lift (update_credentials c amazon_object cp) ;;
  parser_write (credentials_file c) cp.

Definition lock_of (path : string) : string := path ++ ".lock".

(** [write(amazon_object)] from its first lock on; the credentials part
    sits in the [finally] of the config part. *)
Definition write_sections (amazon_object : option Amazon) : M unit :=
  c <- get_self ;;
  acquire (lock_of (config_file c)) ;;;
  try_finally
    write_config_section
    (release (lock_of (config_file c)) ;;;
     match amazon_object with
     | Some a =>
         acquire (lock_of (credentials_file c)) ;;;
         try_finally
           (write_credentials_section a)
           (release (lock_of (credentials_file c)))
     | None => ret tt
     end).

(** [write(amazon_object)] *)
Definition write (amazon_object : option Amazon) : M unit :=
  ensure_config_files_exist ;;;
  c <- get_self ;;
  assert_ (negb (is_none (profile c)))
          "Can not store config/credentials if the AWS_PROFILE is None." ;;;
  write_sections amazon_object.

(** [self.field = coalesce(value, self.field)] *)
Definition assign_coalesced (setter : pyval -> Configuration -> Configuration)
           (getter : Configuration -> pyval) (value : pyval) : M unit :=
  modify_self (fun c => setter (coalesce value (getter c)) c).

(** The block of [read] under [if config_parser.has_section(profile_string)]. *)
Definition read_fields (cp : ConfigParser.RawConfigParser)
           (profile_name profile_string : pyval) : M unit :=
  modify_self (set_profile profile_name) ;;;
  read_ask_role <- lift (ConfigParser.getboolean cp profile_string "asa.ask_role" PyNone) ;;
  assign_coalesced set_ask_role ask_role read_ask_role ;;;
  read_duration <- lift (ConfigParser.getint cp profile_string "asa.duration" PyNone) ;;
  assign_coalesced set_duration duration read_duration ;;;
  assign_coalesced set_login_url login_url
    (unicode_to_string_if_needed
       (ConfigParser.get cp profile_string "asa.login_url" PyNone)) ;;;
  assign_coalesced set_region region
    (unicode_to_string_if_needed
       (ConfigParser.get cp profile_string "region" PyNone)) ;;;
  assign_coalesced set_role_arn role_arn
    (unicode_to_string_if_needed
       (ConfigParser.get cp profile_string "asa.role_arn" PyNone)) ;;;
  assign_coalesced set_account account
    (unicode_to_string_if_needed
       (ConfigParser.get cp profile_string "account" PyNone)).

(** [read(profile)] *)
Definition read (profile_name : pyval) : M unit :=
  ensure_config_files_exist ;;;
  let profile_string := config_profile profile_name in
  c <- get_self ;;
  cp <- parser_read (config_file c) ;;
  if ConfigParser.has_section cp profile_string
  then read_fields cp profile_name profile_string
  else ret tt.

(** ** The token cache on disk *)

(** The [try] block of [write_token_cache], in the two steps of the blocks
    of [write]: what is done to the parser once the credentials file is
    read, and the block. *)
Definition update_token_cache (c : Configuration) (amazon_object : Amazon)
           (cp : ConfigParser.RawConfigParser)
  : outcome ConfigParser.RawConfigParser :=
  let section := profile c in
  cp <~ (if negb (ConfigParser.has_section cp section)
         then ConfigParser.add_section cp section else Return cp) ;;
  cp <~ ConfigParser.set cp section "asa.aws_access_key_id"
          (access_key_id amazon_object) ;;
  cp <~ ConfigParser.set cp section "asa.aws_secret_access_key"
          (secret_access_key amazon_object) ;;
  cp <~ ConfigParser.set cp section "asa.aws_session_expiration"
          (PyStr (expiration_isoformat amazon_object)) ;;
  ConfigParser.set cp section "asa.aws_session_token" (session_token amazon_object).

Definition write_token_cache_section (amazon_object : Amazon) : M unit :=
  c <- get_self ;;
  cp <- parser_read (credentials_file c) ;;
  cp <- lift (update_token_cache c amazon_object cp) ;;
  parser_write (credentials_file c) cp.

(** [write_token_cache(amazon_object)] *)
Definition write_token_cache (amazon_object : option Amazon) : M unit :=
  c <- get_self ;;
  assert_ (negb (is_none (profile c)))
          "Can not store config/credentials if the AWS_PROFILE is None." ;;;
  match amazon_object with
  | None =>
      raise (AssertionError
               "Can not store config/credentials if the amazon_object is None.")
  | Some a =>
      acquire (lock_of (credentials_file c)) ;;;
      try_finally (write_token_cache_section a)
                  (release (lock_of (credentials_file c)))
  end.

(** A value that [get] found in a parser filled from a file, or its
    fallback [None], as a field of the token: the parser holds text only. *)
Definition text_or_none (v : pyval) : option string :=
  match v with
  | PyStr t => Some t
  | _ => None
  end.

(** [read_token_cache].  [datetime.fromisoformat] is a parameter: for a
    text, the datetime it gives, with or without an offset, or what it
    raises. *)
Section TokenCache.

Variable fromisoformat : string -> outcome datetime.

(** The block under [if credentials_parser.has_section(self.profile)], up
    to the assignment. *)
Definition read_token (cp : ConfigParser.RawConfigParser) (section : pyval)
  : outcome Token :=
  let field key :=
    unicode_to_string_if_needed (ConfigParser.get cp section key PyNone) in
  let read_expiration := field "asa.aws_session_expiration" in
  expiration <~ (if negb (is_none read_expiration)
                 then match read_expiration with
                      | PyStr t => z <~ fromisoformat t ;; Return (Some z)
                      | _ => Raise (TypeError
                                      "fromisoformat: argument must be str")
                      end
                 else Return None) ;;
  Return {| AccessKeyId := text_or_none (field "asa.aws_access_key_id");
            SecretAccessKey := text_or_none (field "asa.aws_secret_access_key");
            SessionToken := text_or_none (field "asa.aws_session_token");
            Expiration := expiration |}.

Definition read_token_cache : M unit :=
  c <- get_self ;;
  assert_ (negb (is_none (profile c)))
          "Can not store config/credentials if the AWS_PROFILE is None." ;;;
  cp <- parser_read (credentials_file c) ;;
  if ConfigParser.has_section cp (profile c)
  then
    token <- lift (read_token cp (profile c)) ;;
    modify_self (set_token_cache_field (Some token))
  else ret tt.

End TokenCache.

(** ** The SAML cache on disk *)

(** The errors that [except IOError] catches: [IOError] is [OSError], and
    these are its subclasses among the errors of the model. *)
Definition is_os_error (e : exn) : bool :=
  match e with
  | FileNotFoundError _ | FileExistsError _ | IsADirectoryError _
  | NotADirectoryError _ => true
  | _ => false
  end.

(** [try: body / except IOError: pass] *)
Definition except_ioerror (body : M unit) : M unit :=
  fun s =>
    match body s with
    | (Raise e, s1) => if is_os_error e then (Return tt, s1) else (Raise e, s1)
    | (Return x, s1) => (Return x, s1)
    end.

(** [with open(path, "r") as f: f.read()]: text mode, every line end read
    as a newline. *)
Definition file_read (path : string) : M string :=
  w <- get_world ;;
  if is_dir w path then raise (IsADirectoryError path)
  else match lookup_file path (files w) with
       | None => raise (FileNotFoundError path)
       | Some text =>
           put_world (log (EvRead path) w) ;;;
           ret (ConfigParser.universal_newlines text)
       end.

(** The bytes of [str.encode], as the blob the object keeps. *)
Definition blob_of_bytes (bs : list Z) : string :=
  string_of_list_ascii (map (fun b => ascii_of_nat (Z.to_nat b)) bs).

(** [read_saml_cache()] *)
Definition read_saml_cache : M unit :=
  c <- get_self ;;
  if is_none (login_url c) then ret tt
  else except_ioerror
         (path <- saml_cache_file ;;
          text <- file_read path ;;
          modify_self (set_saml_cache_field
                         (Some (blob_of_bytes (SHA1.encode_utf8 text))))).

Section SamlCacheFile.

(** [bytes.decode("utf-8")]: the text of a blob, or the error for bytes that
    are no UTF-8. *)
Variable decode_utf8 : string -> outcome string.

(** [with open(path, "w") as f: f.write(blob.decode("utf-8"))]: the file is
    opened, and with that emptied, before the blob is decoded. *)
Definition file_write_decoded (path blob : string) : M unit :=
  w <- get_world ;;
  if String.eqb path "" then raise (FileNotFoundError path)
  else if is_dir w path then raise (IsADirectoryError path)
  else if negb (parent_is_dir w path) then raise (FileNotFoundError path)
  else match decode_utf8 blob with
       | Return text =>
           put_world (log (EvWrite path text)
                          {| dirs := dirs w;
                             files := store_file path text (files w);
                             held := held w; trace := trace w |})
       | Raise e =>
           put_world (log (EvWrite path "")
                          {| dirs := dirs w;
                             files := store_file path "" (files w);
                             held := held w; trace := trace w |}) ;;;
           raise e
       end.

(** [write_saml_cache()] *)
Definition write_saml_cache : M unit :=
  ensure_config_files_exist ;;;
  c <- get_self ;;
  match saml_cache_field c with
  | Some blob =>
      lock_path <- saml_cache_file ;;
      acquire (lock_of lock_path) ;;;
      try_finally
        (path <- saml_cache_file ;; file_write_decoded path blob)
        (release (lock_of lock_path))
  | None => ret tt
  end.

End SamlCacheFile.

(** ** Reference definitions, in the words of the specification *)

(** "[name] case-insensitively equals [pattern]", for a pattern written in
    small ASCII letters: character by character, the same letter or its
    capital. *)
Fixpoint caseless_eqb (name pattern : string) : bool :=
  match name, pattern with
  | EmptyString, EmptyString => true
  | String c r, String p q =>
      (Ascii.eqb c p || (code c + 32 =? code p)%nat) && caseless_eqb r q
  | _, _ => false
  end.

Fixpoint small_letters (s : string) : bool :=
  match s with
  | EmptyString => true
  | String c r => between 97 122 (code c) && small_letters r
  end.

(** [is_token_cache_valid(record)] of the specification.  Its comparison is
    one of instants: a timestamp without an offset is after none. *)
Definition is_token_cache_valid (now : Z) (record : option Token) : bool :=
  match record with
  | None => false
  | Some t =>
      match AccessKeyId t, SecretAccessKey t, Expiration t with
      | Some _, Some _, Some (Aware e) => now <? e
      | _, _, _ => false
      end
  end.

(** "The record has an [Expiration] without an offset." *)
Definition naive_expiration (record : option Token) : bool :=
  match record with
  | Some t => match Expiration t with Some (Naive _) => true | _ => false end
  | None => false
  end.

Definition naive_message : string :=
  "can't compare offset-naive and offset-aware datetimes".

(** "[s] with the literal token [old] replaced by [new]": where [old] does
    not occur, nothing changes; else the first occurrence is replaced and
    the rest of the text, after it, is treated the same way. *)
Definition occurs_at (old s : string) (i : nat) : bool :=
  String.prefix old (drop i s).

Inductive token_replaced (old new : string) : string -> string -> Prop :=
| replaced_nowhere (s : string) :
    (forall i, occurs_at old s i = false) ->
    token_replaced old new s s
| replaced_first (pre rest rest' : string) :
    (forall i, (i < String.length pre)%nat ->
               occurs_at old (pre ++ old ++ rest) i = false) ->
    token_replaced old new rest rest' ->
    token_replaced old new (pre ++ old ++ rest) (pre ++ new ++ rest').

(** Where [old] first occurs in [s]: what comes before and what comes after. *)
Fixpoint first_occurrence (old s : string) : option (string * string) :=
  if String.prefix old s then Some (EmptyString, drop (String.length old) s)
  else match s with
       | EmptyString => None
       | String c r =>
           match first_occurrence old r with
           | Some (pre, rest) => Some (String c pre, rest)
           | None => None
           end
       end.

Definition saml_cache_file_name (url : string) : string :=
  "saml_cache_" ++ SHA1.hexdigest (SHA1.encode_utf8 url) ++ ".xml".

Definition is_lock_event (e : event) : bool :=
  match e with
  | EvAcquire _ | EvRelease _ => true
  | _ => false
  end.

Definition is_write_event (e : event) : bool :=
  match e with
  | EvWrite _ _ => true
  | _ => false
  end.

(** What [raise_if_invalid] makes of the duration when nothing else is wrong. *)
Definition duration_verdict (d : pyval) : outcome unit :=
  match d with
  | PyInt z =>
      if z <? 900 then
        Raise (AssertionError
                 ("Expected duration to be greater than or equal to 900. Got "
                    ++ int_text z ++ "."))
      else if 43200 <? z then
        Raise (AssertionError
                 ("Expected duration to be less than or equal to max_duration (43200). Got "
                    ++ int_text z ++ "."))
      else Return tt
  | v =>
      Raise (AssertionError
               ("Expected duration to be an integer. Got " ++ class_text v ++ "."))
  end.

Definition clear_token (s : State) : State :=
  {| self := set_token_cache_field None (self s); world := world s |}.

(** A configuration and a world to run the methods on. *)
Definition sample_session : Session :=
  {| session_credentials_file := "/home/u/.aws/credentials";
     session_config_file := "/home/u/.aws/config" |}.

Definition sample_configuration : Configuration :=
  set_region (PyStr "eu-west-1")
    (set_login_url (PyStr "https://idp.example.com/sso")
       (set_role_arn (PyStr "arn:aws:iam::123456789012:role/dev")
          (init sample_session))).

Definition sample_world : World :=
  {| dirs := ["/"; "/home"; "/home/u"]; files := []; held := []; trace := [] |}.

(** What [RawConfigParser().read(path)] finds in a world: a missing file
    is an empty parser. *)
Definition stored_parser (w : World) (path : string)
  : outcome ConfigParser.RawConfigParser :=
  match lookup_file path (files w) with
  | None => Return ConfigParser.new
  | Some text => ConfigParser.read_text path text
  end.

(** "The section exists in the config file." *)
Definition section_exists (w : World) (path : string) (section : pyval) : bool :=
  match stored_parser w path with
  | Return cp => ConfigParser.has_section cp section
  | Raise _ => false
  end.

(** The world [w'] is [w] after steps that take or give back no lock and
    write no file: the files that were there have their content, and what
    is new is empty. *)
Definition leaves_files (w w' : World) : Prop :=
  held w' = held w
  /\ (forall p, lookup_file p (files w') = lookup_file p (files w)
                \/ (lookup_file p (files w) = None
                    /\ lookup_file p (files w') = Some ""))
  /\ exists evs,
       trace w' = (trace w ++ evs)%list
       /\ forallb (fun e => negb (is_lock_event e) && negb (is_write_event e)) evs
          = true.

(** The same, with the object left alone too. *)
Definition only_creates (s s' : State) : Prop :=
  self s' = self s /\ leaves_files (world s) (world s').

(** [s'] is [s] after steps that take or give back no lock. *)
Definition no_locking (s s' : State) : Prop :=
  self s' = self s
  /\ held (world s') = held (world s)
  /\ exists evs,
       trace (world s') = (trace (world s) ++ evs)%list
       /\ forallb (fun e => negb (is_lock_event e)) evs = true.

(** The invariants of section 3 that are not about [duration]. *)
Definition other_fields_valid (c : Configuration) : bool :=
  class_is_bool (ask_role c) && class_is_bool (auto_duration c)
  && class_is_str (profile c) && class_is_str (region c)
  && negb (is_none (login_url c))
  && match role_arn c with
     | PyNone => true
     | PyStr a => contains "arn:aws:iam::" a || contains "arn:aws-us-gov:iam::" a
     | _ => false
     end
  && class_is_bool (quiet c) && class_is_str (account c) && class_is_int (port c).

Definition no_profile_message : string :=
  "Can not store config/credentials if the AWS_PROFILE is None.".

(** *** What the parser can write and read back *)

(** [s.split("\n")] *)
Fixpoint split_lines (s : string) : list string :=
  match s with
  | EmptyString => [EmptyString]
  | String c r =>
      if Ascii.eqb c nl then EmptyString :: split_lines r
      else match split_lines r with
           | l :: ls => String c l :: ls
           | [] => [String c EmptyString]
           end
  end.

(** No blank at either end. *)
Definition stripped (s : string) : bool :=
  String.eqb (lstrip s) s && String.eqb (rstrip s) s.

Definition commented (s : string) : bool := startswith s "#" || startswith s ";".

Fixpoint has_delimiter (s : string) : bool :=
  match s with
  | EmptyString => false
  | String c r => ConfigParser.is_delimiter c || has_delimiter r
  end.

(** A value that comes back as it is: no carriage return, every line without
    blanks at its ends, no line after the first that looks like a comment,
    nothing blank at the end. *)
Definition value_ok (v : string) : bool :=
  negb (has_char cr v)
  && String.eqb (rstrip v) v
  && forallb stripped (split_lines v)
  && forallb (fun l => negb (commented l)) (tl (split_lines v)).

(** A key that comes back as it is. *)
Definition key_ok (k : string) : bool :=
  negb (String.eqb k "") && stripped k && negb (has_delimiter k)
  && negb (has_char nl k) && negb (has_char cr k)
  && String.eqb (lower k) k && negb (commented k).

(** The first line of an item as [_read] sees it, and an item that comes
    back as it is: its first line must not look like a section header. *)
Definition item_head (k v : string) : string :=
  strip (k ++ " = " ++ hd EmptyString (split_lines v)).

Definition item_ok (kv : string * pyval) : bool :=
  key_ok (fst kv) && value_ok (py_str (snd kv))
  && match ConfigParser.match_section (item_head (fst kv) (py_str (snd kv))) with
     | Some _ => false
     | None => true
     end.

Fixpoint distinct (l : list string) : bool :=
  match l with
  | [] => true
  | x :: r => negb (existsb (String.eqb x) r) && distinct r
  end.

Definition items_ok (items : list (string * pyval)) : bool :=
  forallb item_ok items && distinct (map fst items).

Definition name_ok (n : string) : bool :=
  negb (String.eqb n "") && negb (has_char nl n) && negb (has_char cr n)
  && negb (String.eqb n ConfigParser.default_section).

Definition section_ok (sd : pyval * list (string * pyval)) : bool :=
  match fst sd with
  | PyStr n => name_ok n && items_ok (snd sd)
  | _ => false
  end.

(** A parser whose [write] gives a file that [read] turns into the same
    sections, keys and values (as text). *)
Definition writable (cp : ConfigParser.RawConfigParser) : bool :=
  items_ok (ConfigParser.defaults cp)
  && forallb section_ok (ConfigParser.sections cp)
  && distinct (map (fun sd => py_str (fst sd)) (ConfigParser.sections cp)).

Definition as_read_items (items : list (string * pyval)) : list (string * pyval) :=
  map (fun kv => (fst kv, PyStr (py_str (snd kv)))) items.

(** The parser with every value as the text it is written as. *)
Definition as_read (cp : ConfigParser.RawConfigParser) : ConfigParser.RawConfigParser :=
  {| ConfigParser.defaults := as_read_items (ConfigParser.defaults cp);
     ConfigParser.sections :=
       map (fun sd => (PyStr (py_str (fst sd)), as_read_items (snd sd)))
           (ConfigParser.sections cp) |}.

(** The value a section gives for a key: its own, else the one of the
    DEFAULT section. *)
Definition stored_value (cp : ConfigParser.RawConfigParser) (section : pyval)
           (key : string) : option pyval :=
  match ConfigParser.sect_get section (ConfigParser.sections cp) with
  | Some d =>
      match ConfigParser.dict_get key d with
      | Some v => Some v
      | None => ConfigParser.dict_get key (ConfigParser.defaults cp)
      end
  | None => None
  end.

(** The key as the section itself has it. *)
Definition own_value (cp : ConfigParser.RawConfigParser) (section : pyval)
           (key : string) : option pyval :=
  match ConfigParser.sect_get section (ConfigParser.sections cp) with
  | Some d => ConfigParser.dict_get key d
  | None => None
  end.

(** A stored value that the conversion accepts, and what a field becomes:
    the converted value when there is one, else what it was. *)
Definition decodable (conv : pyval -> outcome pyval) (stored : option pyval) : bool :=
  match stored with
  | Some v => negb (raised (conv v))
  | None => true
  end.

Definition merged (conv : pyval -> outcome pyval) (stored : option pyval)
           (old : pyval) : pyval :=
  match stored with
  | Some v => match conv v with Return x => x | Raise _ => old end
  | None => old
  end.

Definition as_text (v : pyval) : outcome pyval := Return v.

(** Worlds whose config file has a DEFAULT section, a value that is not a
    number, and a plain profile section. *)
Definition world_with_config (text : string) : World :=
  {| dirs := ["/"; "/home"; "/home/u"; "/home/u/.aws"];
     files := [("/home/u/.aws/config", text); ("/home/u/.aws/credentials", "")];
     held := []; trace := [] |}.

Definition config_with_default_section : string :=
  "[DEFAULT]" ++ NL ++ "region = ap-south-1" ++ NL ++ NL
  ++ "[profile work]" ++ NL ++ "asa.duration = 3600" ++ NL.

Definition config_with_bad_duration : string :=
  "[profile work]" ++ NL ++ "asa.duration = soon" ++ NL
  ++ "region = ap-south-1" ++ NL.

Definition config_with_profile : string :=
  "[profile work]" ++ NL ++ "asa.duration = 3600" ++ NL
  ++ "region = ap-south-1" ++ NL ++ "asa.ask_role = no" ++ NL.

(** A computation that leaves the object alone and takes or gives back no
    lock, whatever the state it starts in. *)
Definition lock_free {A : Type} (m : M A) : Prop :=
  forall s, no_locking s (snd (m s)).

Definition sample_credentials : Amazon :=
  {| access_key_id := PyStr "ASIAEXAMPLE";
     secret_access_key := PyStr "secret";
     session_token := PyStr "token";
     expiration_isoformat := "2030-01-01T00:00:00+00:00" |}.

Definition world_with_broken_config : World :=
  world_with_config "this is not an ini file".

(** *** Helpers for the round trip through the file *)

(** Nothing but blanks. *)
Fixpoint all_space (s : string) : bool :=
  match s with
  | EmptyString => true
  | String c r => isspace c && all_space r
  end.

(** The lines [write] produces, each without its newline. *)
Definition item_bodies (kv : string * pyval) : list string :=
  let ls := split_lines (py_str (snd kv)) in
  (fst kv ++ " = " ++ hd EmptyString ls)%string
  :: map (fun l => (ConfigParser.TAB ++ l)%string) (tl ls).

Definition section_bodies (name : string) (items : list (string * pyval))
  : list string :=
  (("[" ++ name ++ "]")%string :: flat_map item_bodies items) ++ [EmptyString].

Definition parser_bodies (cp : ConfigParser.RawConfigParser) : list string :=
  (match ConfigParser.defaults cp with
   | [] => []
   | d => section_bodies ConfigParser.default_section d
   end)
  ++ flat_map (fun sd => section_bodies (py_str (fst sd)) (snd sd))
              (ConfigParser.sections cp).

Definition with_newlines (bodies : list string) : list string :=
  map (fun b => (b ++ NL)%string) bodies.

(** The variables of [_read] after the items of section [n], apart from the
    dict of the section. *)
Definition after_items (st : ConfigParser.ReadState) (n : string)
           (items : list (string * pyval)) : ConfigParser.ReadState :=
  fold_left (fun b kv => ConfigParser.with_option (ConfigParser.with_indent b 0) n (fst kv))
            items st.

Definition raw_items (items : list (string * pyval)) : ConfigParser.raw_section :=
  map (fun kv => (fst kv, split_lines (py_str (snd kv)))) items.

Definition dict_after (D : ConfigParser.raw_section) (items : list (string * pyval))
  : ConfigParser.raw_section :=
  fold_left (fun d kv => ConfigParser.dict_set (fst kv) (split_lines (py_str (snd kv))) d)
            items D.

Definition finish_section (sd : string * ConfigParser.raw_section)
  : pyval * list (string * pyval) :=
  (PyStr (fst sd), ConfigParser.join_values (snd sd)).

Definition as_read_section (sd : pyval * list (string * pyval))
  : pyval * list (string * pyval) :=
  (PyStr (py_str (fst sd)), as_read_items (snd sd)).

(** No blank anywhere (so no line break either). *)
Fixpoint plain (s : string) : bool :=
  match s with
  | EmptyString => true
  | String c r => negb (isspace c) && plain r
  end.

Fixpoint digits (s : string) : bool :=
  match s with
  | EmptyString => true
  | String c r => ConfigParser.is_digit c && digits r
  end.

(** The five [set] calls of the config part of [write], on the dict of the
    section. *)
Definition config_items (c : Configuration) (d : list (string * pyval))
  : list (string * pyval) :=
  ConfigParser.dict_set "asa.role_arn" (role_arn c)
    (ConfigParser.dict_set "asa.login_url" (login_url c)
       (ConfigParser.dict_set "asa.duration" (duration c)
          (ConfigParser.dict_set "asa.ask_role" (ask_role c)
             (ConfigParser.dict_set "region" (region c) d)))).

(** [w'] has every directory and file of [w]. *)
Definition grows (w w' : World) : Prop :=
  (forall p, is_dir w p = true -> is_dir w' p = true)
  /\ (forall p, is_file w p = true -> is_file w' p = true).

(** The credentials part of [write], with its lock: what the [finally] of
    the config part runs once the config lock is given back. *)
Definition credentials_part (amazon_object : option Amazon) (c : Configuration)
  : M unit :=
  match amazon_object with
  | Some a =>
      acquire (lock_of (credentials_file c)) ;;;
      try_finally (write_credentials_section a)
                  (release (lock_of (credentials_file c)))
  | None => ret tt
  end.

(** The two paths a file needs: its directory and itself. *)
Definition in_place (w : World) (file : string) : bool :=
  path_exists w (dirname file) && path_exists w file.

(** A profile name that can head a section: on one line, and not the
    reserved name in capitals. *)
Definition profile_ok (p : string) : bool :=
  negb (has_char nl p) && negb (has_char cr p)
  && negb (String.eqb p ConfigParser.default_section).

(** The state in which [read] is called after [write]: a configuration
    of its own, the files as [write] left them. *)
Definition read_back (amazon_object : option Amazon) (s : State)
           (fresh : Configuration) (profile_name : pyval) : outcome unit * State :=
  read profile_name
       {| self := fresh; world := world (snd (write amazon_object s)) |}.

Definition configuration_with_blank : Configuration :=
  set_region (PyStr " eu-west-1") sample_configuration.

Definition configuration_in_capitals : Configuration :=
  set_profile (PyStr "DEFAULT") sample_configuration.

(** Text without a line end in it. *)
Definition clean (s : string) : bool :=
  negb (has_char nl s) && negb (has_char cr s).

(** What [SECTCRE] matches: an opening bracket, one character at least, and
    a closing bracket somewhere after it. *)
Definition headerlike (s : string) : bool :=
  match s with
  | String c r => Ascii.eqb c "[" && has_char "]" (drop 1 r)
  | EmptyString => false
  end.

(** The text after the delimiter of a written item. *)
Definition padded (l : string) : string :=
  match l with
  | EmptyString => EmptyString
  | _ => " " ++ l
  end.

(** [s.rstrip()] seen on the lines of [s]: the blank lines at the end go,
    and the line before them loses the blanks at its end. *)
Fixpoint rstrip_lines (lines : list string) : list string :=
  match lines with
  | [] => []
  | l :: r =>
      match rstrip_lines r with
      | [] => if all_space l then [] else [rstrip l]
      | r' => l :: r'
      end
  end.

(** An option as [_read] holds it, its value still in lines, that gives an
    item the parser can write back. *)
Definition raw_item_ok (kv : string * list string) : bool :=
  key_ok (fst kv)
  && negb (match snd kv with [] => true | _ => false end)
  && forallb stripped (snd kv) && forallb clean (snd kv)
  && forallb (fun l => negb (commented l)) (tl (snd kv))
  && negb (headerlike (fst kv ++ " =" ++ padded (hd EmptyString (snd kv)))).

Definition raw_ok (d : ConfigParser.raw_section) : bool :=
  forallb raw_item_ok d && distinct (map fst d).

Definition raw_section_ok (sd : string * ConfigParser.raw_section) : bool :=
  name_ok (fst sd) && raw_ok (snd sd).

(** What holds of the state of [_read] after every line, as long as no line
    was in error. *)
Definition readable (st : ConfigParser.ReadState) : bool :=
  raw_ok (ConfigParser.rs_defaults st)
  && forallb raw_section_ok (ConfigParser.rs_sections st)
  && distinct (map fst (ConfigParser.rs_sections st))
  && match ConfigParser.rs_sectname st with
     | Some n => negb (String.eqb n "") && clean n
     | None => true
     end.

(** *** Helpers for the further properties *)

(** A session whose config file is named without a directory. *)
Definition bare_session : Session :=
  {| session_credentials_file := "/home/u/.aws/credentials";
     session_config_file := "config" |}.

(** A world in which the home directory of the sample session is
    missing. *)
Definition world_without_home : World :=
  {| dirs := ["/"; "/home"]; files := []; held := []; trace := [] |}.

(** A session whose files are to be three levels under a path that is a
    file, and the world with that file. *)
Definition session_under_a_file : Session :=
  {| session_credentials_file := "/home/u/f/g/h/credentials";
     session_config_file := "/home/u/f/g/h/config" |}.

Definition world_with_a_file : World :=
  {| dirs := ["/"; "/home"; "/home/u"]; files := [("/home/u/f", "")];
     held := []; trace := [] |}.



(** The three blocks that store values have one shape: the section is
    added when the parser does not have it, then option after option is
    set.  [set_all items d] is the dict of the section after the options
    [items], from the dict [d]. *)
Definition set_all (items d : list (string * pyval)) : list (string * pyval) :=
  fold_left (fun d kv => ConfigParser.dict_set (ConfigParser.optionxform (fst kv))
                                                (snd kv) d)
            items d.

Definition set_each (section : pyval) (items : list (string * pyval))
           (r : outcome ConfigParser.RawConfigParser)
  : outcome ConfigParser.RawConfigParser :=
  fold_left (fun r kv => cp <~ r ;; ConfigParser.set cp section (fst kv) (snd kv))
            items r.

Definition upsert (cp : ConfigParser.RawConfigParser) (section : pyval)
           (items : list (string * pyval))
  : outcome ConfigParser.RawConfigParser :=
  set_each section items
           (if negb (ConfigParser.has_section cp section)
            then ConfigParser.add_section cp section else Return cp).

Definition config_options (c : Configuration) : list (string * pyval) :=
  [("region", region c); ("asa.ask_role", ask_role c);
   ("asa.duration", duration c); ("asa.login_url", login_url c);
   ("asa.role_arn", role_arn c)].

Definition credentials_options (a : Amazon) : list (string * pyval) :=
  [("aws_access_key_id", access_key_id a);
   ("aws_secret_access_key", secret_access_key a);
   ("aws_security_token", session_token a);
   ("aws_session_expiration", PyStr (expiration_isoformat a));
   ("aws_session_token", session_token a)].

Definition token_options (a : Amazon) : list (string * pyval) :=
  [("asa.aws_access_key_id", access_key_id a);
   ("asa.aws_secret_access_key", secret_access_key a);
   ("asa.aws_session_expiration", PyStr (expiration_isoformat a));
   ("asa.aws_session_token", session_token a)].

(** The names of options, as a list to look a key up in. *)
Definition is_option_of (items : list (string * pyval)) (key : string) : bool :=
  existsb (fun kv => String.eqb (ConfigParser.optionxform (fst kv)) key) items.

(** An item whose key and value come back from the file as they are. *)
Definition option_ok (kv : string * pyval) : bool :=
  item_ok (ConfigParser.optionxform (fst kv), snd kv).

(** The text a section gives for a key, its own or the one of the DEFAULT
    section. *)
Definition stored_text (cp : ConfigParser.RawConfigParser) (section : pyval)
           (key : string) : option string :=
  match stored_value cp section key with
  | Some (PyStr t) => Some t
  | _ => None
  end.

(** A credentials file with a token for the default profile, one whose
    token has no expiration, and a reading of ISO dates good for two
    texts, one with an offset and one without. *)
Definition credentials_with_token : string :=
  "[default]" ++ NL ++ "asa.aws_access_key_id = ASIAEXAMPLE" ++ NL
  ++ "asa.aws_secret_access_key = secret" ++ NL
  ++ "asa.aws_session_token = token" ++ NL
  ++ "asa.aws_session_expiration = 2030-01-01T00:00:00+00:00" ++ NL.

Definition credentials_without_expiration : string :=
  "[default]" ++ NL ++ "asa.aws_access_key_id = ASIAEXAMPLE" ++ NL
  ++ "asa.aws_secret_access_key = secret" ++ NL.

(** A credentials file whose token has no access key id and an expiration
    without UTC offset. *)
Definition credentials_without_offset : string :=
  "[default]" ++ NL ++ "asa.aws_secret_access_key = secret" ++ NL
  ++ "asa.aws_session_expiration = 2030-01-01T00:00:00" ++ NL.

Definition world_with_credentials (text : string) : World :=
  {| dirs := ["/"; "/home"; "/home/u"; "/home/u/.aws"];
     files := [("/home/u/.aws/config", ""); ("/home/u/.aws/credentials", text)];
     held := []; trace := [] |}.

Definition sample_fromisoformat (t : string) : outcome datetime :=
  if String.eqb t "2030-01-01T00:00:00+00:00" then Return (Aware 1893456000000000)
  else if String.eqb t "2030-01-01T00:00:00" then Return (Naive 1893456000000000)
  else Raise (ValueError ("Invalid isoformat string: " ++ repr t)).

(** The values of a credential record come back from the file as they are
    written. *)
Definition token_values_ok (a : Amazon) : bool :=
  value_ok (py_str (access_key_id a)) && value_ok (py_str (secret_access_key a))
  && value_ok (expiration_isoformat a) && value_ok (py_str (session_token a)).

(** The token [write_token_cache] stores, as [read_token_cache] finds it
    when the expiration text is read as the datetime [expiration]. *)
Definition token_of (a : Amazon) (expiration : datetime) : Token :=
  {| AccessKeyId := Some (py_str (access_key_id a));
     SecretAccessKey := Some (py_str (secret_access_key a));
     SessionToken := Some (py_str (session_token a));
     Expiration := Some expiration |}.

(** A credentials file with the keys of two profiles, as the AWS tools
    leave them. *)
Definition credentials_of_two_profiles : string :=
  "[default]" ++ NL ++ "aws_access_key_id = AKIADEFAULT" ++ NL
  ++ "aws_secret_access_key = first" ++ NL ++ NL
  ++ "[work]" ++ NL ++ "aws_access_key_id = AKIAWORK" ++ NL
  ++ "aws_secret_access_key = second" ++ NL.

(** A config file with the settings of two profiles, some of them not of
    this program. *)
Definition config_of_two_profiles : string :=
  "[default]" ++ NL ++ "output = json" ++ NL ++ "region = us-east-1" ++ NL ++ NL
  ++ "[profile work]" ++ NL ++ "output = text" ++ NL.

(** A configuration for the profile [work]. *)
Definition work_configuration : Configuration :=
  set_profile (PyStr "work") sample_configuration.

(** A configuration with no role chosen yet, the state in which the tool
    stores its settings before the first login. *)
Definition configuration_without_role : Configuration :=
  set_role_arn PyNone sample_configuration.

(** A reading of UTF-8 good for the blobs below 128, which are their own
    text. *)
Definition decode_ascii (blob : string) : outcome string :=
  if forallb (fun c => (nat_of_ascii c <? 128)%nat) (list_ascii_of_string blob)
  then Return blob
  else Raise (ValueError "'utf-8' codec can't decode bytes").

(** An assertion whose lines end as on Windows, and a configuration that
    holds it. *)
Definition assertion_with_crlf : string :=
  "<Response>" ++ String cr NL ++ "</Response>".

Definition configuration_with_assertion : Configuration :=
  set_saml_cache_field (Some assertion_with_crlf) sample_configuration.

(** A session whose credentials file has a name of its own, as the
    environment variable AWS_SHARED_CREDENTIALS_FILE can give it, and a
    world in which that file holds the keys of two profiles. *)
Definition session_with_own_names : Session :=
  {| session_credentials_file := "/home/u/.aws/keys";
     session_config_file := "/home/u/.aws/config" |}.

Definition world_with_own_names : World :=
  {| dirs := ["/"; "/home"; "/home/u"; "/home/u/.aws"];
     files := [("/home/u/.aws/config", "");
               ("/home/u/.aws/keys", credentials_of_two_profiles)];
     held := []; trace := [] |}.

Definition configuration_with_own_names : Configuration :=
  set_saml_cache_field (Some "<Response/>")
    (set_login_url (PyStr "https://idp.example.com/sso")
       (init session_with_own_names)).

(** No directory of [w'] takes the place of a file of [w]: a directory that
    is new in [w'] has a path that was no file. *)
Definition beside_files (w w' : World) : Prop :=
  forall p, is_dir w' p = true -> is_dir w p = true \/ is_file w p = false.

(** A world with the SAML cache of an earlier login, and a configuration
    whose blob cannot be UTF-8: the byte 255 occurs in none. *)
Definition world_with_saml_cache : World :=
  {| dirs := ["/"; "/home"; "/home/u"; "/home/u/.aws"];
     files := [("/home/u/.aws/config", ""); ("/home/u/.aws/credentials", "");
               ("/home/u/.aws/saml_cache_8df876074ef61ee68d9a85f770f235fa99de2845.xml",
                "<Response>old</Response>")];
     held := []; trace := [] |}.

Definition configuration_with_bad_blob : Configuration :=
  set_saml_cache_field (Some (String (ascii_of_nat 255) EmptyString))
                       sample_configuration.

(** ** Properties *)

(** *** Characters and text *)

Lemma code_lt_256 (c : ascii) : (code c < 256)%nat.
Proof. apply nat_ascii_bounded. Qed.

Lemma ascii_eqb_code (a b : ascii) : Ascii.eqb a b = (code a =? code b)%nat.
Proof.
  destruct (Ascii.eqb_spec a b) as [->|N].
  - symmetry. apply Nat.eqb_refl.
  - symmetry. apply Nat.eqb_neq. intros E. apply N.
    unfold code in E.
    rewrite <- (ascii_nat_embedding a), <- (ascii_nat_embedding b), E.
    reflexivity.
Qed.

Lemma code_ascii_of_nat (n : nat) : (n < 256)%nat -> code (ascii_of_nat n) = n.
Proof. intros H. unfold code. apply nat_ascii_embedding, H. Qed.

Lemma append_length (a b : string) :
  String.length (a ++ b) = (String.length a + String.length b)%nat.
Proof. induction a as [|c a IH]; simpl; [reflexivity|now rewrite IH]. Qed.

Lemma append_assoc (a b c : string) : ((a ++ b) ++ c)%string = (a ++ b ++ c)%string.
Proof. induction a as [|x a IH]; simpl; [reflexivity|now rewrite IH]. Qed.

Lemma append_nil_r (a : string) : (a ++ "")%string = a.
Proof. induction a as [|x a IH]; simpl; [reflexivity|now rewrite IH]. Qed.

Lemma lower_char_small_letter (c p : ascii) :
  between 97 122 (code p) = true ->
  Ascii.eqb (lower_char c) p = Ascii.eqb c p || (code c + 32 =? code p)%nat.
Proof.
  unfold lower_char. cbv zeta. unfold between. intros Hp.
  apply andb_true_iff in Hp. destruct Hp as [Hp1 Hp2].
  apply Nat.leb_le in Hp1, Hp2.
  pose proof (code_lt_256 c) as Hc.
  rewrite !ascii_eqb_code.
  destruct ((65 <=? code c)%nat && (code c <=? 90)%nat
            || (192 <=? code c)%nat && (code c <=? 222)%nat
               && negb (code c =? 215)%nat) eqn:E.
  - rewrite code_ascii_of_nat.
    + destruct (code c =? code p)%nat eqn:E1; [|reflexivity].
      apply Nat.eqb_eq in E1.
      apply orb_true_iff in E. destruct E as [E|E];
        repeat (apply andb_true_iff in E; destruct E as [E ?]);
        repeat match goal with
               | H : (_ <=? _)%nat = true |- _ => apply Nat.leb_le in H
               end; lia.
    + apply orb_true_iff in E. destruct E as [E|E];
        repeat (apply andb_true_iff in E; destruct E as [E ?]);
        repeat match goal with
               | H : (_ <=? _)%nat = true |- _ => apply Nat.leb_le in H
               end; lia.
  - destruct (code c + 32 =? code p)%nat eqn:E2; [|now rewrite orb_false_r].
    apply Nat.eqb_eq in E2.
    apply orb_false_iff in E. destruct E as [E _].
    apply andb_false_iff in E. destruct E as [E|E]; apply Nat.leb_gt in E; lia.
Qed.

Lemma lower_eqb_small_letters (p name : string) :
  small_letters p = true ->
  String.eqb (lower name) p = caseless_eqb name p.
Proof.
  revert name. induction p as [|a p IH]; intros [|c r] Hp; simpl; try reflexivity.
  simpl in Hp. apply andb_true_iff in Hp. destruct Hp as [Ha Hp].
  rewrite (lower_char_small_letter c a Ha), (IH r Hp). reflexivity.
Qed.

(** *** C8: [config_profile] *)

(** C8. For every profile name, [config_profile] is a function of the name
    alone; it gives the name back unchanged when the name equals "default"
    up to the case of its letters (so "Default" stays "Default"), and
    "profile " followed by the name otherwise. *)
Theorem config_profile_spec :
  (forall name : string,
      config_profile (PyStr name)
      = if caseless_eqb name "default" then PyStr name
        else PyStr ("profile " ++ name))
  /\ config_profile (PyStr "default") = PyStr "default"
  /\ config_profile (PyStr "Default") = PyStr "Default"
  /\ config_profile (PyStr "work") = PyStr "profile work".
Proof.
  split; [|repeat split].
  intros name. unfold config_profile. simpl py_str.
  rewrite (lower_eqb_small_letters "default" name eq_refl).
  reflexivity.
Qed.

(** *** C3: [raise_if_invalid] and the duration *)

Lemma duration_verdict_ok (d : pyval) :
  duration_verdict d = Return tt <-> exists z, d = PyInt z /\ 900 <= z <= 43200.
Proof.
  split.
  - destruct d as [|b|z|t|cls t]; simpl; try discriminate.
    destruct (Z.ltb_spec z 900); [discriminate|].
    destruct (Z.ltb_spec 43200 z); [discriminate|].
    intros _. exists z. split; [reflexivity|lia].
  - intros (z & -> & H1 & H2). simpl.
    destruct (Z.ltb_spec z 900); [lia|].
    destruct (Z.ltb_spec 43200 z); [lia|reflexivity].
Qed.

Ltac split_andb :=
  repeat match goal with
         | H : _ && _ = true |- _ => apply andb_true_iff in H; destruct H
         end.

(** C3. With every other field satisfying its invariant, [raise_if_invalid]
    succeeds exactly when the duration is an integer between 900 and 43200;
    otherwise it raises the assertion of the first violated duration check,
    in the order integer, lower bound, upper bound; in both cases the object
    and the world are left as they were. *)
Theorem raise_if_invalid_duration (c : Configuration) (w : World) (d : pyval) :
  other_fields_valid c = true ->
  let s := {| self := set_duration d c; world := w |} in
  raise_if_invalid s = (duration_verdict d, s)
  /\ (fst (raise_if_invalid s) = Return tt
      <-> exists z, d = PyInt z /\ 900 <= z <= 43200).
Proof.
  intros H s.
  assert (E : raise_if_invalid s = (duration_verdict d, s)).
  { subst s. unfold other_fields_valid in H. split_andb.
    destruct c as [o bs ar du ad lu pr re ra us sc tc rs pc cp qu ac po].
    simpl in *.
    destruct ar; try discriminate. destruct ad; try discriminate.
    destruct pr; try discriminate. destruct re; try discriminate.
    destruct qu; try discriminate. destruct ac; try discriminate.
    destruct po; try discriminate.
    unfold raise_if_invalid, bind, get_self, assert_, ret, raise. simpl.
    destruct d as [|db|dz|dt|dc dt]; simpl; try reflexivity.
    destruct (Z.leb_spec 900 dz), (Z.ltb_spec dz 900); try lia; simpl;
      [|reflexivity].
    unfold max_duration.
    destruct (Z.leb_spec dz 43200), (Z.ltb_spec 43200 dz); try lia; simpl;
      [|reflexivity].
    destruct lu; try discriminate; simpl;
      (destruct ra; try discriminate; simpl;
       [reflexivity
       | match goal with
         | H : _ || _ = true |- _ => rewrite H; reflexivity
         end]). }
  split; [exact E|].
  rewrite E. simpl. apply duration_verdict_ok.
Qed.

Lemma raise_if_invalid_duration_witness :
  raise_if_invalid {| self := set_duration (PyInt 3600) sample_configuration;
                      world := sample_world |}
  = (Return tt, {| self := set_duration (PyInt 3600) sample_configuration;
                   world := sample_world |}).
Proof.
  exact (proj1 (raise_if_invalid_duration sample_configuration sample_world
                  (PyInt 3600) eq_refl)).
Defined.

Example raise_if_invalid_rejects_float :
  fst (raise_if_invalid
         {| self := set_duration (PyObj "float" "900.0") sample_configuration;
            world := sample_world |})
  = Raise (AssertionError
             "Expected duration to be an integer. Got <class 'float'>.").
Proof. reflexivity. Qed.

Example raise_if_invalid_rejects_899 :
  fst (raise_if_invalid
         {| self := set_duration (PyInt 899) sample_configuration;
            world := sample_world |})
  = Raise (AssertionError
             "Expected duration to be greater than or equal to 900. Got 899.").
Proof. reflexivity. Qed.

Example raise_if_invalid_rejects_43201 :
  fst (raise_if_invalid
         {| self := set_duration (PyInt 43201) sample_configuration;
            world := sample_world |})
  = Raise (AssertionError
             "Expected duration to be less than or equal to max_duration (43200). Got 43201.").
Proof. reflexivity. Qed.

(** *** C1: the [token_cache] property *)

(** C1 (amended). Reading [token_cache] of a record whose [Expiration] has
    no UTC offset raises [TypeError] and leaves the record in memory,
    whatever its keys are: the comparison with the current time comes before
    the tests of the keys.  Of every other record, reading [token_cache]
    returns the record unchanged, and changes nothing, when the record is
    there with [AccessKeyId], [SecretAccessKey] and [Expiration] present and
    [Expiration] strictly after the current time; in every other case (no
    record, one of the three absent, or [Expiration] at or before the
    current time, a record expiring exactly now included) it clears the
    record in memory and returns nothing. *)
Theorem token_cache_validates (now : Z) (s : State) :
  token_cache now s
  = (if naive_expiration (token_cache_field (self s))
     then (Raise (TypeError naive_message), s)
     else if is_token_cache_valid now (token_cache_field (self s))
     then (Return (token_cache_field (self s)), s)
     else (Return None, clear_token s))
  /\ (forall a k tok,
         is_token_cache_valid now
           (Some {| AccessKeyId := a; SecretAccessKey := k;
                    SessionToken := tok; Expiration := Some (Aware now) |}) = false)
  /\ (forall k tok e,
         is_token_cache_valid now
           (Some {| AccessKeyId := None; SecretAccessKey := k;
                    SessionToken := tok; Expiration := e |}) = false)
  /\ (forall a tok e,
         is_token_cache_valid now
           (Some {| AccessKeyId := a; SecretAccessKey := None;
                    SessionToken := tok; Expiration := e |}) = false)
  /\ (forall a k tok,
         is_token_cache_valid now
           (Some {| AccessKeyId := a; SecretAccessKey := k;
                    SessionToken := tok; Expiration := None |}) = false)
  /\ (forall a k tok e,
         is_token_cache_valid now
           (Some {| AccessKeyId := Some a; SecretAccessKey := Some k;
                    SessionToken := tok; Expiration := Some (Aware e) |})
         = (now <? e)).
Proof.
  split.
  - destruct s as [c w].
    destruct c as [o bs ar du ad lu pr re ra us sc tc rs pc cp qu ac po].
    unfold token_cache, bind, get_self, modify_self, ret, clear_token. simpl.
    destruct tc as [[a k tok e]|]; simpl; [|reflexivity].
    destruct e as [[e|r]|]; simpl.
    + destruct (Z.leb_spec e now), (Z.ltb_spec now e); try lia; simpl.
      * destruct a, k; reflexivity.
      * destruct a; simpl; [|reflexivity]. destruct k; reflexivity.
    + reflexivity.
    + destruct a, k; reflexivity.
  - repeat split; intros; simpl.
    + destruct a, k; try reflexivity. apply Z.ltb_irrefl.
    + destruct a; reflexivity.
    + destruct a, k; reflexivity.
Qed.

(** C1 as it is stated fails on a record that [read_token_cache] can build:
    with an expiration read from a text without offset and no access key
    id, the record is invalid by the specification, and the property
    neither clears it nor returns nothing: it raises, before the time read
    and after it, and the record stays. *)
Lemma token_cache_validates_counterexample :
  let record := {| AccessKeyId := None; SecretAccessKey := Some "secret";
                   SessionToken := Some "token";
                   Expiration := Some (Naive 1893456000000000) |} in
  let s := {| self := set_token_cache_field (Some record) sample_configuration;
              world := sample_world |} in
  is_token_cache_valid 0 (Some record) = false
  /\ token_cache 0 s
     = (Raise (TypeError "can't compare offset-naive and offset-aware datetimes"),
        s)
  /\ token_cache 1900000000000000 s
     = (Raise (TypeError "can't compare offset-naive and offset-aware datetimes"),
        s).
Proof. intros record s. repeat split. Qed.

(** *** C2: the [saml_cache] property *)

Lemma saml_cache_run (valid : option string -> bool) (s : State) :
  saml_cache valid s
  = (Return (if valid (saml_cache_field (self s))
             then saml_cache_field (self s) else None),
     {| self := if valid (saml_cache_field (self s)) then self s
                else set_saml_cache_field None (self s);
        world := log (EvValidate (saml_cache_field (self s))) (world s) |}).
Proof.
  destruct s as [c w].
  unfold saml_cache, call_is_valid_saml_assertion, bind, get_self, get_world,
    put_world, modify_self, ret.
  simpl. destruct (valid (saml_cache_field c)); reflexivity.
Qed.

Lemma saml_cache_reads_absent (valid : option string -> bool) (n : nat) (s : State) :
  saml_cache_field (self s) = None ->
  exists s',
    saml_cache_reads valid n s = (Return (repeat None n), s')
    /\ saml_cache_field (self s') = None
    /\ trace (world s') = (trace (world s) ++ repeat (EvValidate None) n)%list.
Proof.
  revert s. induction n as [|n IH]; intros s H.
  - exists s. simpl. rewrite app_nil_r. auto.
  - simpl saml_cache_reads. unfold bind at 1. rewrite saml_cache_run, H.
    set (s1 := {| self := if valid None then self s
                          else set_saml_cache_field None (self s);
                  world := log (EvValidate None) (world s) |}).
    destruct (IH s1) as (s' & E & F & T).
    { subst s1. simpl. destruct (valid None); [exact H|].
      destruct s as [[] ?]. reflexivity. }
    exists s'. unfold bind. rewrite E.
    split; [|split; [exact F|]].
    + unfold ret. destruct (valid None); reflexivity.
    + rewrite T. subst s1. simpl. rewrite <- app_assoc. reflexivity.
Qed.

(** C2. Reading [saml_cache] returns the stored blob only if the validity
    predicate holds on it.  If the predicate fails, and also whenever the
    blob is absent, the read returns nothing and leaves no blob in memory;
    every later read returns nothing too, and the predicate is then only
    ever asked about the absent blob, never about the bytes that were
    dropped. *)
Theorem saml_cache_revalidates (valid : option string -> bool) (s : State) :
  (fst (saml_cache valid s)
   = Return (if valid (saml_cache_field (self s))
             then saml_cache_field (self s) else None))
  /\ (valid (saml_cache_field (self s)) = false
      \/ saml_cache_field (self s) = None ->
      let s1 := snd (saml_cache valid s) in
      fst (saml_cache valid s) = Return None
      /\ saml_cache_field (self s1) = None
      /\ forall n, exists s',
           saml_cache_reads valid n s1 = (Return (repeat None n), s')
           /\ saml_cache_field (self s') = None
           /\ trace (world s')
              = (trace (world s1) ++ repeat (EvValidate None) n)%list).
Proof.
  rewrite saml_cache_run. simpl. split; [reflexivity|].
  intros H.
  assert (F : saml_cache_field
                (if valid (saml_cache_field (self s)) then self s
                 else set_saml_cache_field None (self s)) = None).
  { destruct H as [H|H].
    - rewrite H. destruct (self s). reflexivity.
    - destruct (valid (saml_cache_field (self s))); [exact H|].
      destruct (self s). reflexivity. }
  split; [|split; [exact F|]].
  - destruct H as [H|H]; [rewrite H; reflexivity|].
    rewrite H. destruct (valid None); reflexivity.
  - intros n. apply saml_cache_reads_absent. exact F.
Qed.

Lemma saml_cache_revalidates_witness :
  let valid := fun blob : option string =>
                 match blob with Some (String "<" _) => true | _ => false end in
  let s := {| self := set_saml_cache_field (Some "not xml") sample_configuration;
              world := sample_world |} in
  fst (saml_cache valid s) = Return None
  /\ saml_cache_field (self (snd (saml_cache valid s))) = None
  /\ exists s',
       saml_cache_reads valid 3 (snd (saml_cache valid s))
       = (Return [None; None; None], s')
       /\ saml_cache_field (self s') = None
       /\ trace (world s')
          = [EvValidate (Some "not xml"); EvValidate None; EvValidate None;
             EvValidate None].
Proof.
  intros valid s.
  destruct (proj2 (saml_cache_revalidates valid s) (or_introl eq_refl))
    as (R & F & Later).
  split; [exact R|]. split; [exact F|]. exact (Later 3%nat).
Defined.

(** *** C7: the path of the SAML cache file *)

Lemma prefix_split (p s : string) :
  String.prefix p s = true -> s = (p ++ drop (String.length p) s)%string.
Proof.
  revert s. induction p as [|a p IH]; intros s H; [reflexivity|].
  destruct s as [|c s]; [discriminate|]. simpl in H.
  destruct (ascii_dec a c) as [->|]; [|discriminate].
  simpl. f_equal. apply IH, H.
Qed.

Lemma prefix_app (p s : string) : String.prefix p (p ++ s) = true.
Proof.
  induction p as [|a p IH]; simpl; [destruct s; reflexivity|].
  destruct (ascii_dec a a); [exact IH|congruence].
Qed.

Lemma replace_from_skip (old new t rest : string) :
  replace_from old new (String.length t) (t ++ rest) = replace_from old new O rest.
Proof.
  induction t as [|a t IH]; simpl; [|exact IH].
  destruct rest; reflexivity.
Qed.

Lemma replace_nowhere (old new s : string) :
  (forall i, occurs_at old s i = false) -> replace old new s = s.
Proof.
  unfold replace. induction s as [|c s IH]; intros H; [reflexivity|].
  pose proof (H O) as H0. unfold occurs_at in H0. simpl drop in H0.
  cbn [replace_from]. rewrite H0. f_equal. apply IH.
  intros i. exact (H (S i)).
Qed.

Lemma replace_first (old new pre rest : string) :
  old <> "" ->
  (forall i, (i < String.length pre)%nat ->
             occurs_at old (pre ++ old ++ rest) i = false) ->
  replace old new (pre ++ old ++ rest) = (pre ++ new ++ replace old new rest)%string.
Proof.
  intros Hold. unfold replace. induction pre as [|c pre IH]; intros H.
  - destruct old as [|a o]; [congruence|].
    change ("" ++ String a o ++ rest)%string with (String a (o ++ rest)).
    cbn [replace_from].
    change (String a (o ++ rest)) with (String a o ++ rest)%string.
    rewrite prefix_app.
    replace (String.length (String a o) - 1)%nat with (String.length o)
      by (simpl; lia).
    rewrite replace_from_skip. reflexivity.
  - change (String c pre ++ old ++ rest)%string with (String c (pre ++ old ++ rest)).
    cbn [replace_from].
    pose proof (H O (Nat.lt_0_succ _)) as H0. unfold occurs_at in H0.
    simpl drop in H0.
    change (String c pre ++ old ++ rest)%string with (String c (pre ++ old ++ rest)) in H0.
    rewrite H0. simpl. f_equal. apply IH.
    intros i Hi. apply (H (S i)). simpl. lia.
Qed.

Lemma first_occurrence_none (old s : string) :
  old <> "" ->
  first_occurrence old s = None -> forall i, occurs_at old s i = false.
Proof.
  intros Hold. induction s as [|c s IH]; intros H i.
  - unfold occurs_at. destruct i; simpl; destruct old; congruence.
  - cbn [first_occurrence] in H.
    destruct (String.prefix old (String c s)) eqn:P; [discriminate|].
    destruct i; [exact P|].
    unfold occurs_at. simpl drop. apply IH.
    destruct (first_occurrence old s) as [[]|]; [discriminate|reflexivity].
Qed.

Lemma first_occurrence_some (old s pre rest : string) :
  old <> "" ->
  first_occurrence old s = Some (pre, rest) ->
  s = (pre ++ old ++ rest)%string
  /\ (forall i, (i < String.length pre)%nat -> occurs_at old s i = false)
  /\ (String.length rest < String.length s)%nat.
Proof.
  intros Hold. revert pre. induction s as [|c s IH]; intros pre H.
  - simpl in H. destruct old; [congruence|discriminate].
  - cbn [first_occurrence] in H.
    destruct (String.prefix old (String c s)) eqn:P.
    + injection H as <- <-. split; [apply prefix_split, P|].
      split; [intros i Hi; simpl in Hi; lia|].
      pose proof (prefix_split _ _ P) as E.
      apply (f_equal String.length) in E. rewrite append_length in E.
      destruct old; [congruence|]. simpl in *. lia.
    + destruct (first_occurrence old s) as [[p r]|] eqn:F; [|discriminate].
      injection H as <- <-.
      destruct (IH p eq_refl) as (E & N & L).
      split; [simpl; f_equal; exact E|].
      split; [|simpl; lia].
      intros [|i] Hi; [exact P|]. unfold occurs_at. simpl drop.
      apply N. simpl in Hi. lia.
Qed.

Lemma replace_is_token_replaced (old new : string) :
  old <> "" -> forall s, token_replaced old new s (replace old new s).
Proof.
  intros Hold s.
  remember (String.length s) as n eqn:Hn.
  revert s Hn. induction n as [n IH] using lt_wf_ind. intros s Hn.
  destruct (first_occurrence old s) as [[pre rest]|] eqn:F.
  - destruct (first_occurrence_some _ _ _ _ Hold F) as (E & N & L).
    rewrite E at 2. rewrite replace_first; [|exact Hold|rewrite <- E; exact N].
    rewrite E at 1. apply replaced_first; [rewrite <- E; exact N|].
    apply (IH (String.length rest)); [lia|reflexivity].
  - pose proof (first_occurrence_none _ _ Hold F) as N.
    rewrite replace_nowhere by exact N. apply replaced_nowhere, N.
Qed.

(** C7. With [login_url] set to a text, the SAML cache file path is the
    credentials-file path with the token "credentials" replaced by
    "saml_cache_<hex>.xml", where <hex> is the SHA-1 hex digest of the
    UTF-8 bytes of [login_url]; it depends on nothing but the two, and
    reading it changes nothing.  With [login_url] absent, reading it fails
    with the assertion error of the precondition. *)
Theorem saml_cache_file_path (s : State) :
  (forall url, login_url (self s) = PyStr url ->
     exists path,
       saml_cache_file s = (Return path, s)
       /\ path = replace "credentials" (saml_cache_file_name url)
                         (credentials_file (self s))
       /\ token_replaced "credentials" (saml_cache_file_name url)
                         (credentials_file (self s)) path)
  /\ (login_url (self s) = PyNone ->
      saml_cache_file s
      = (Raise (AssertionError "Cannot look for smal cache file if no login url"),
         s)).
Proof.
  split.
  - intros url H. eexists. split; [|split; [reflexivity|]].
    + unfold saml_cache_file, bind, get_self, assert_. rewrite H. reflexivity.
    + apply replace_is_token_replaced. discriminate.
  - intros H. unfold saml_cache_file, bind, get_self, assert_. rewrite H.
    reflexivity.
Qed.

Lemma saml_cache_file_path_witness :
  saml_cache_file {| self := sample_configuration; world := sample_world |}
  = (Return "/home/u/.aws/saml_cache_8df876074ef61ee68d9a85f770f235fa99de2845.xml",
     {| self := sample_configuration; world := sample_world |}).
Proof.
  destruct (proj1 (saml_cache_file_path
                     {| self := sample_configuration; world := sample_world |})
                  "https://idp.example.com/sso" eq_refl)
    as (path & E & P & _).
  rewrite E, P. vm_compute. reflexivity.
Defined.

Example sha1_abc :
  SHA1.hexdigest (SHA1.encode_utf8 "abc") = "a9993e364706816aba3e25717850c26c9cd0d89d".
Proof. vm_compute. reflexivity. Qed.

Example sha1_empty :
  SHA1.hexdigest [] = "da39a3ee5e6b4b0d3255bfef95601890afd80709".
Proof. vm_compute. reflexivity. Qed.

Example saml_cache_file_without_login_url :
  fst (saml_cache_file {| self := init sample_session; world := sample_world |})
  = Raise (AssertionError "Cannot look for smal cache file if no login url").
Proof. reflexivity. Qed.

(** *** What [ensure_config_files_exist] can change *)

Lemma only_creates_refl (s : State) : only_creates s s.
Proof.
  repeat split; try (intros; left; reflexivity).
  exists []. rewrite app_nil_r. split; reflexivity.
Qed.

Lemma only_creates_trans (s1 s2 s3 : State) :
  only_creates s1 s2 -> only_creates s2 s3 -> only_creates s1 s3.
Proof.
  intros (A1 & B1 & C1 & e1 & T1 & F1) (A2 & B2 & C2 & e2 & T2 & F2).
  split; [congruence|]. split; [congruence|]. split.
  - intros p. destruct (C1 p) as [E1|[N1 S1]], (C2 p) as [E2|[N2 S2]].
    + left. congruence.
    + right. split; congruence.
    + right. split; congruence.
    + congruence.
  - exists (e1 ++ e2)%list. split.
    + rewrite T2, T1, app_assoc. reflexivity.
    + rewrite forallb_app, F1, F2. reflexivity.
Qed.

Lemma lookup_file_app_new (path p : string) (fs : list (string * string)) :
  lookup_file path fs = None ->
  lookup_file p (fs ++ [(path, "")])
  = if String.eqb path p then Some "" else lookup_file p fs.
Proof.
  induction fs as [|[q c] fs IH]; simpl; intros H.
  - reflexivity.
  - destruct (String.eqb_spec q path) as [->|Nq]; [discriminate|].
    destruct (String.eqb_spec q p) as [->|Np].
    + destruct (String.eqb_spec path p); [congruence|reflexivity].
    + apply IH, H.
Qed.

Lemma os_mkdir_only_creates (path : string) (s : State) :
  only_creates s (snd (os_mkdir path s)).
Proof.
  unfold os_mkdir, bind, get_world, put_world, raise. simpl.
  repeat match goal with
         | |- context [if ?b then _ else _] => destruct b
         end; simpl; try apply only_creates_refl.
  repeat split; try (intros; left; reflexivity).
  exists [EvMkdir path]. split; reflexivity.
Qed.

Lemma touch_only_creates (path : string) (s : State) :
  only_creates s (snd (touch path s)).
Proof.
  unfold touch, bind, get_world, put_world, raise. simpl.
  destruct (negb (parent_is_dir (world s) path)); [apply only_creates_refl|].
  simpl. split; [reflexivity|]. split; [reflexivity|]. split.
  - intros p. destruct (lookup_file path (files (world s))) eqn:E.
    + left. reflexivity.
    + rewrite (lookup_file_app_new _ _ _ E).
      destruct (String.eqb_spec path p) as [<-|]; [right; auto|left; reflexivity].
  - exists [EvTouch path]. split; reflexivity.
Qed.

Lemma ensure_file_exists_only_creates (file : string) (s : State) :
  only_creates s (snd (ensure_file_exists file s)).
Proof.
  unfold ensure_file_exists, bind, get_world. simpl.
  destruct (negb (path_exists (world s) (dirname file))).
  - pose proof (os_mkdir_only_creates (dirname file) s) as H.
    destruct (os_mkdir (dirname file) s) as [[[]|e] s1]; simpl in *; [|exact H].
    destruct (negb (path_exists (world s1) file)).
    + eapply only_creates_trans; [exact H|apply touch_only_creates].
    + exact H.
  - unfold ret. simpl. destruct (negb (path_exists (world s) file)).
    + apply touch_only_creates.
    + apply only_creates_refl.
Qed.

Lemma ensure_config_files_exist_only_creates (s : State) :
  only_creates s (snd (ensure_config_files_exist s)).
Proof.
  unfold ensure_config_files_exist, bind, get_self. simpl.
  pose proof (ensure_file_exists_only_creates (config_file (self s)) s) as H.
  unfold bind.
  destruct (ensure_file_exists (config_file (self s)) s) as [[[]|e] s1];
    simpl in *; [|exact H].
  pose proof (ensure_file_exists_only_creates (credentials_file (self s)) s1) as H1.
  destruct (ensure_file_exists (credentials_file (self s)) s1) as [[[]|e] s2];
    simpl in *; eapply only_creates_trans; eauto.
Qed.

(** *** C9: [write] without a profile *)

Lemma write_run (amazon_object : option Amazon) (s : State) :
  write amazon_object s
  = match ensure_config_files_exist s with
    | (Return _, s1) =>
        if is_none (profile (self s1))
        then (Raise (AssertionError no_profile_message), s1)
        else write_sections amazon_object s1
    | (Raise e, s1) => (Raise e, s1)
    end.
Proof.
  unfold write, bind.
  destruct (ensure_config_files_exist s) as [[[]|e] s1]; [|reflexivity].
  unfold get_self, assert_. destruct (profile (self s1)); reflexivity.
Qed.

(** C9. When the profile field is absent, [write] always fails, and it does
    so before it takes a lock or writes to either file: all it has done is
    what [ensure_config_files_exist] does, so the object, the files that
    were there and the locks are as before, while missing files and their
    directory may have been created.  Once [ensure_config_files_exist] has
    gone through, the failure is the assertion error of the precondition. *)
Theorem write_without_profile (amazon_object : option Amazon) (s : State) :
  profile (self s) = PyNone ->
  raised (fst (write amazon_object s)) = true
  /\ snd (write amazon_object s) = snd (ensure_config_files_exist s)
  /\ only_creates s (snd (write amazon_object s))
  /\ (fst (ensure_config_files_exist s) = Return tt ->
      fst (write amazon_object s) = Raise (AssertionError no_profile_message)).
Proof.
  intros H.
  pose proof (ensure_config_files_exist_only_creates s) as O.
  rewrite write_run.
  destruct (ensure_config_files_exist s) as [[[]|e] s1]; cbn [fst snd] in *.
  - pose proof O as (A & _). rewrite A, H. cbn.
    repeat split; try reflexivity; [exact A|apply O..].
  - repeat split; try reflexivity; try apply O. discriminate.
Qed.

Lemma write_without_profile_witness :
  let s := {| self := set_profile PyNone sample_configuration;
              world := sample_world |} in
  fst (write None s) = Raise (AssertionError no_profile_message)
  /\ trace (world (snd (write None s)))
     = [EvMkdir "/home/u/.aws"; EvTouch "/home/u/.aws/config";
        EvTouch "/home/u/.aws/credentials"]
  /\ files (world (snd (write None s)))
     = [("/home/u/.aws/config", ""); ("/home/u/.aws/credentials", "")]
  /\ dirs (world (snd (write None s)))
     = ["/"; "/home"; "/home/u"; "/home/u/.aws"].
Proof.
  intros s.
  destruct (write_without_profile None s eq_refl) as (_ & E & _ & A).
  split; [exact (A eq_refl)|]. rewrite E. repeat split.
Defined.

(** *** C10 and C5: [read] *)

Lemma parser_read_run (path : string) (s : State) :
  parser_read path s
  = (stored_parser (world s) path,
     {| self := self s; world := log (EvRead path) (world s) |}).
Proof.
  unfold parser_read, stored_parser, bind, get_world, put_world, ret, raise.
  cbn. destruct (lookup_file path (files (world s))); [|reflexivity].
  destruct (ConfigParser.read_text path s0); reflexivity.
Qed.

Lemma read_text_empty (path : string) :
  ConfigParser.read_text path "" = Return ConfigParser.new.
Proof. reflexivity. Qed.

Lemma stored_parser_only_creates (s s1 : State) (path : string) :
  only_creates s s1 -> stored_parser (world s1) path = stored_parser (world s) path.
Proof.
  intros (_ & _ & F & _). unfold stored_parser.
  destruct (F path) as [->|[-> ->]]; reflexivity.
Qed.

Lemma read_run (profile_name : pyval) (s : State) :
  read profile_name s
  = match ensure_config_files_exist s with
    | (Raise e, s1) => (Raise e, s1)
    | (Return _, s1) =>
        let s2 := {| self := self s1;
                     world := log (EvRead (config_file (self s1))) (world s1) |} in
        match stored_parser (world s) (config_file (self s)) with
        | Raise e => (Raise e, s2)
        | Return cp =>
            if ConfigParser.has_section cp (config_profile profile_name)
            then read_fields cp profile_name (config_profile profile_name) s2
            else (Return tt, s2)
        end
    end.
Proof.
  pose proof (ensure_config_files_exist_only_creates s) as O.
  unfold read, bind at 1.
  destruct (ensure_config_files_exist s) as [[[]|e] s1]; [|reflexivity].
  cbn [snd] in O. unfold bind at 1, get_self. unfold bind at 1.
  rewrite parser_read_run.
  rewrite (stored_parser_only_creates _ _ _ O).
  destruct O as (-> & _).
  destruct (stored_parser (world s) (config_file (self s))) as [cp|e];
    [|reflexivity].
  cbn. destruct (ConfigParser.has_section cp (config_profile profile_name));
    reflexivity.
Qed.

(** C10. When the config file has no section for the profile, [read]
    leaves every field of the object as it was, the profile field
    included. *)
Theorem read_without_section (profile_name : pyval) (s : State) :
  section_exists (world s) (config_file (self s)) (config_profile profile_name)
  = false ->
  self (snd (read profile_name s)) = self s.
Proof.
  unfold section_exists. intros H. rewrite read_run.
  pose proof (ensure_config_files_exist_only_creates s) as (A & _).
  destruct (ensure_config_files_exist s) as [[[]|e] s1]; cbn [snd] in *;
    [|exact A].
  destruct (stored_parser (world s) (config_file (self s))); [|exact A].
  rewrite H. exact A.
Qed.

Lemma read_without_section_witness :
  let s := {| self := sample_configuration;
              world := {| dirs := ["/"; "/home"; "/home/u"; "/home/u/.aws"];
                          files := [("/home/u/.aws/config",
                                     ("[profile work]" ++ NL
                                      ++ "region = us-east-1" ++ NL)%string)];
                          held := []; trace := [] |} |} in
  self (snd (read (PyStr "other") s)) = self s.
Proof.
  intros s. apply (read_without_section (PyStr "other") s). reflexivity.
Defined.

Lemma sect_get_finish (section : pyval) (l : list (string * ConfigParser.raw_section))
      (d : list (string * pyval)) :
  ConfigParser.sect_get section
    (map (fun sd => (PyStr (fst sd), ConfigParser.join_values (snd sd))) l) = Some d ->
  exists raw, d = ConfigParser.join_values raw.
Proof.
  induction l as [|[n raw] l IH]; cbn [map ConfigParser.sect_get fst snd];
    [discriminate|].
  destruct (py_eqb (PyStr n) section); [|exact IH].
  intros [= <-]. exists raw. reflexivity.
Qed.

Lemma dict_get_join_values (key : string) (raw : ConfigParser.raw_section) (v : pyval) :
  ConfigParser.dict_get key (ConfigParser.join_values raw) = Some v ->
  exists t, v = PyStr t.
Proof.
  induction raw as [|[k ls] raw IH];
    cbn [map ConfigParser.join_values ConfigParser.dict_get fst snd];
    [discriminate|].
  destruct (String.eqb k key); [|exact IH].
  intros [= <-]. eexists. reflexivity.
Qed.

Lemma stored_value_is_text (w : World) (path : string)
      (cp : ConfigParser.RawConfigParser) (section : pyval) (key : string) (v : pyval) :
  stored_parser w path = Return cp ->
  stored_value cp section key = Some v ->
  exists t, v = PyStr t.
Proof.
  unfold stored_parser, stored_value. intros P H.
  assert (F : cp = ConfigParser.new \/ exists st, cp = ConfigParser.finish st).
  { destruct (lookup_file path (files w)) as [text|]; [|left; congruence].
    unfold ConfigParser.read_text in P.
    destruct (ConfigParser.read_lines _ _ _ _) as [e|st]; [discriminate|].
    destruct (ConfigParser.rs_errors st); [|discriminate].
    right. exists st. congruence. }
  destruct F as [->|[st ->]]; [discriminate|].
  unfold ConfigParser.finish in H. cbn [ConfigParser.sections ConfigParser.defaults] in H.
  destruct (ConfigParser.sect_get section _) as [d|] eqn:S; [|discriminate].
  destruct (sect_get_finish _ _ _ S) as [raw ->].
  destruct (ConfigParser.dict_get key (ConfigParser.join_values raw)) eqn:D.
  - injection H as <-. eapply dict_get_join_values, D.
  - eapply dict_get_join_values, H.
Qed.

Lemma has_value_stored (cp : ConfigParser.RawConfigParser) (section : pyval)
      (key : string) :
  ConfigParser.has_section cp section = true ->
  ConfigParser.has_value cp section key
  = match stored_value cp section (ConfigParser.optionxform key) with
    | Some _ => true | None => false end
  /\ forall fallback,
       ConfigParser.get cp section key fallback
       = match stored_value cp section (ConfigParser.optionxform key) with
         | Some v => v | None => fallback end.
Proof.
  unfold ConfigParser.has_section, ConfigParser.has_value, ConfigParser.get,
    stored_value.
  destruct (ConfigParser.sect_get section (ConfigParser.sections cp)) as [d|];
    [|discriminate].
  intros _.
  destruct (ConfigParser.dict_get (ConfigParser.optionxform key) d);
    [split; reflexivity|].
  destruct (ConfigParser.dict_get (ConfigParser.optionxform key)
                                  (ConfigParser.defaults cp)); split; reflexivity.
Qed.

Lemma coalesce_text (old : pyval) (stored : option pyval) :
  (forall v, stored = Some v -> exists t, v = PyStr t) ->
  coalesce (unicode_to_string_if_needed
              (match stored with Some v => v | None => PyNone end)) old
  = merged as_text stored old.
Proof.
  intros T. destruct stored as [v|]; [|reflexivity].
  destruct (T v eq_refl) as [t ->]. reflexivity.
Qed.

Lemma getboolean_merged (cp : ConfigParser.RawConfigParser) (section : pyval)
      (key : string) (old : pyval) :
  ConfigParser.has_section cp section = true ->
  decodable ConfigParser.convert_to_boolean
            (stored_value cp section (ConfigParser.optionxform key)) = true ->
  exists r,
    ConfigParser.getboolean cp section key PyNone = Return r
    /\ coalesce r old
       = merged ConfigParser.convert_to_boolean
                (stored_value cp section (ConfigParser.optionxform key)) old.
Proof.
  intros S D. unfold ConfigParser.getboolean.
  destruct (has_value_stored cp section key S) as [-> G]. rewrite G.
  destruct (stored_value cp section (ConfigParser.optionxform key)) as [v|];
    [|exists PyNone; split; reflexivity].
  cbn in D |- *.
  destruct (ConfigParser.convert_to_boolean v) as [x|e] eqn:C; [|discriminate].
  exists x. split; [reflexivity|].
  unfold ConfigParser.convert_to_boolean in C.
  destruct v; try discriminate.
  destruct (ConfigParser.dict_get _ _); [|discriminate].
  injection C as <-. reflexivity.
Qed.

Lemma getint_merged (cp : ConfigParser.RawConfigParser) (section : pyval)
      (key : string) (old : pyval) :
  ConfigParser.has_section cp section = true ->
  decodable ConfigParser.convert_to_int
            (stored_value cp section (ConfigParser.optionxform key)) = true ->
  exists r,
    ConfigParser.getint cp section key PyNone = Return r
    /\ coalesce r old
       = merged ConfigParser.convert_to_int
                (stored_value cp section (ConfigParser.optionxform key)) old.
Proof.
  intros S D. unfold ConfigParser.getint.
  destruct (has_value_stored cp section key S) as [-> G]. rewrite G.
  destruct (stored_value cp section (ConfigParser.optionxform key)) as [v|];
    [|exists PyNone; split; reflexivity].
  cbn in D |- *.
  destruct (ConfigParser.convert_to_int v) as [x|e] eqn:C; [|discriminate].
  exists x. split; [reflexivity|].
  unfold ConfigParser.convert_to_int in C.
  destruct v; try discriminate.
  - injection C as <-. reflexivity.
  - injection C as <-. reflexivity.
  - destruct (ConfigParser.int_of_text s); [|discriminate].
    injection C as <-. reflexivity.
Qed.

Lemma read_fields_keeps_caches (cp : ConfigParser.RawConfigParser)
      (profile_name section : pyval) (s : State) :
  let s' := snd (read_fields cp profile_name section s) in
  token_cache_field (self s') = token_cache_field (self s)
  /\ saml_cache_field (self s') = saml_cache_field (self s)
  /\ world s' = world s.
Proof.
  unfold read_fields, bind, modify_self, assign_coalesced, lift. cbn.
  destruct (ConfigParser.getboolean cp section "asa.ask_role" PyNone); cbn;
    [|repeat split].
  destruct (ConfigParser.getint cp section "asa.duration" PyNone); cbn;
    repeat split.
Qed.

Lemma leaves_files_log_read (w w1 : World) (path : string) :
  leaves_files w w1 -> leaves_files w (log (EvRead path) w1).
Proof.
  intros (B & C & evs & T & F). split; [exact B|]. split; [exact C|].
  exists (evs ++ [EvRead path])%list. cbn. split.
  - rewrite T, app_assoc. reflexivity.
  - rewrite forallb_app, F. reflexivity.
Qed.

Lemma read_fields_merged (cp : ConfigParser.RawConfigParser)
      (profile_name section : pyval) (s : State) :
  ConfigParser.has_section cp section = true ->
  (forall key v, stored_value cp section key = Some v -> exists t, v = PyStr t) ->
  decodable ConfigParser.convert_to_boolean
            (stored_value cp section "asa.ask_role") = true ->
  decodable ConfigParser.convert_to_int
            (stored_value cp section "asa.duration") = true ->
  let c := self s in
  let c' := self (snd (read_fields cp profile_name section s)) in
  fst (read_fields cp profile_name section s) = Return tt
  /\ profile c' = profile_name
  /\ ask_role c' = merged ConfigParser.convert_to_boolean
                          (stored_value cp section "asa.ask_role") (ask_role c)
  /\ duration c' = merged ConfigParser.convert_to_int
                          (stored_value cp section "asa.duration") (duration c)
  /\ login_url c' = merged as_text (stored_value cp section "asa.login_url")
                           (login_url c)
  /\ region c' = merged as_text (stored_value cp section "region") (region c)
  /\ role_arn c' = merged as_text (stored_value cp section "asa.role_arn")
                          (role_arn c)
  /\ account c' = merged as_text (stored_value cp section "account") (account c).
Proof.
  intros S Txt Db Di c c'. subst c c'.
  destruct (getboolean_merged cp section "asa.ask_role" (ask_role (self s)) S Db)
    as (rb & Gb & Cb).
  destruct (getint_merged cp section "asa.duration" (duration (self s)) S Di)
    as (ri & Gi & Ci).
  destruct (has_value_stored cp section "asa.login_url" S) as [_ G1].
  destruct (has_value_stored cp section "region" S) as [_ G2].
  destruct (has_value_stored cp section "asa.role_arn" S) as [_ G3].
  destruct (has_value_stored cp section "account" S) as [_ G4].
  unfold read_fields, bind, modify_self, assign_coalesced, lift.
  rewrite Gb. cbn [ret]. rewrite Gi. cbn [ret fst snd self world].
  rewrite G1, G2, G3, G4.
  destruct (self s) as [o bs ar du ad lu pr re ra us sc tc rs pc crp qu ac po].
  cbn in Cb, Ci |- *.
  rewrite Cb, Ci.
  rewrite !coalesce_text by (intros v Hv; eapply Txt; exact Hv).
  repeat split.
Qed.

(** C5 (amended). [read] never changes the token cache or the SAML cache
    of the object, takes no lock and writes no file.  When
    [ensure_config_files_exist], with which [read] starts, returns, the
    config file has a section for the profile, and the values stored for
    [asa.ask_role] and [asa.duration] (if any) convert to a boolean and an
    integer, [read] succeeds, sets the profile field to the requested name
    and overwrites each of [ask_role], [duration], [login_url], [region],
    [role_arn], [account] with the value stored for its key, where the
    stored value is the section's own or else the one of the file's DEFAULT
    section; a field whose key is in neither keeps its value. *)
Theorem read_merges_section (profile_name : pyval) (s : State) :
  let c := self s in
  let c' := self (snd (read profile_name s)) in
  let section := config_profile profile_name in
  (token_cache_field c' = token_cache_field c
   /\ saml_cache_field c' = saml_cache_field c
   /\ leaves_files (world s) (world (snd (read profile_name s))))
  /\ forall cp,
       fst (ensure_config_files_exist s) = Return tt ->
       stored_parser (world s) (config_file c) = Return cp ->
       ConfigParser.has_section cp section = true ->
       decodable ConfigParser.convert_to_boolean
                 (stored_value cp section "asa.ask_role") = true ->
       decodable ConfigParser.convert_to_int
                 (stored_value cp section "asa.duration") = true ->
       fst (read profile_name s) = Return tt
       /\ profile c' = profile_name
       /\ ask_role c' = merged ConfigParser.convert_to_boolean
                               (stored_value cp section "asa.ask_role") (ask_role c)
       /\ duration c' = merged ConfigParser.convert_to_int
                               (stored_value cp section "asa.duration") (duration c)
       /\ login_url c' = merged as_text (stored_value cp section "asa.login_url")
                                (login_url c)
       /\ region c' = merged as_text (stored_value cp section "region") (region c)
       /\ role_arn c' = merged as_text (stored_value cp section "asa.role_arn")
                               (role_arn c)
       /\ account c' = merged as_text (stored_value cp section "account") (account c).
Proof.
  intros c c' section. subst c c'.
  pose proof (ensure_config_files_exist_only_creates s) as O.
  rewrite read_run.
  destruct (ensure_config_files_exist s) as [[[]|e] s1] eqn:En; cbn [fst snd] in *.
  2:{ destruct O as (A & L). rewrite A.
      split; [split; [|split]; [reflexivity..|exact L]|intros cp H; discriminate H]. }
  destruct O as (A & L).
  pose proof (leaves_files_log_read _ _ (config_file (self s)) L) as L2.
  destruct (stored_parser (world s) (config_file (self s))) as [cp0|e] eqn:P.
  2:{ cbn [fst snd self world]. rewrite ?A.
      split; [split; [|split]; [reflexivity..|exact L2]|intros cp _ H; discriminate H]. }
  fold section.
  destruct (ConfigParser.has_section cp0 section) eqn:S.
  2:{ cbn [fst snd self world]. rewrite ?A. split; [split; [|split]; [reflexivity..|exact L2]|].
      intros cp _ [= <-] S'. congruence. }
  split.
  - match goal with
    | |- context [read_fields ?a ?b ?c ?d] =>
        pose proof (read_fields_keeps_caches a b c d) as (K1 & K2 & K3)
    end.
    cbn [self world] in K1, K2, K3.
    rewrite K1, K2, K3, ?A. split; [|split]; [reflexivity..|exact L2].
  - intros cp _ [= <-] _ Db Di.
    rewrite <- A.
    apply (read_fields_merged cp0 profile_name section
             {| self := self s1;
                world := log (EvRead (config_file (self s1))) (world s1) |});
      try assumption.
    intros key v Hv. eapply stored_value_is_text; [exact P|exact Hv].
Qed.

Lemma read_merges_section_witness :
  let s := {| self := sample_configuration;
              world := world_with_config config_with_profile |} in
  fst (read (PyStr "work") s) = Return tt
  /\ profile (self (snd (read (PyStr "work") s))) = PyStr "work"
  /\ ask_role (self (snd (read (PyStr "work") s))) = PyBool false
  /\ duration (self (snd (read (PyStr "work") s))) = PyInt 3600
  /\ region (self (snd (read (PyStr "work") s))) = PyStr "ap-south-1"
  /\ login_url (self (snd (read (PyStr "work") s))) = login_url sample_configuration.
Proof.
  intros s.
  destruct (proj2 (read_merges_section (PyStr "work") s)
                  {| ConfigParser.defaults := [];
                     ConfigParser.sections :=
                       [(PyStr "profile work",
                         [("asa.duration", PyStr "3600");
                          ("region", PyStr "ap-south-1");
                          ("asa.ask_role", PyStr "no")])] |}
                  eq_refl eq_refl eq_refl eq_refl eq_refl)
    as (R & P & A & D & L & G & _).
  repeat split; assumption.
Defined.

(** C5 as it is stated fails in two ways: a key that the section does not
    have is still taken from the file's DEFAULT section, and a stored
    [asa.duration] that is not a number makes [read] raise after the
    profile was set and before the later keys, present in the section, are
    looked at. *)
Lemma read_only_own_keys_counterexample :
  (let s := {| self := sample_configuration;
               world := world_with_config config_with_default_section |} in
   exists cp,
     stored_parser (world s) (config_file (self s)) = Return cp
     /\ ConfigParser.has_section cp (config_profile (PyStr "work")) = true
     /\ own_value cp (config_profile (PyStr "work")) "region" = None
     /\ fst (read (PyStr "work") s) = Return tt
     /\ region (self s) = PyStr "eu-west-1"
     /\ region (self (snd (read (PyStr "work") s))) = PyStr "ap-south-1")
  /\ (let s := {| self := sample_configuration;
                  world := world_with_config config_with_bad_duration |} in
      exists cp,
        stored_parser (world s) (config_file (self s)) = Return cp
        /\ ConfigParser.has_section cp (config_profile (PyStr "work")) = true
        /\ own_value cp (config_profile (PyStr "work")) "region"
           = Some (PyStr "ap-south-1")
        /\ fst (read (PyStr "work") s)
           = Raise (ValueError "invalid literal for int() with base 10: 'soon'")
        /\ profile (self (snd (read (PyStr "work") s))) = PyStr "work"
        /\ region (self (snd (read (PyStr "work") s))) = PyStr "eu-west-1").
Proof.
  split; eexists; repeat split.
Qed.

(** *** C6: the two critical sections of [write] *)

Lemma no_locking_refl (s : State) : no_locking s s.
Proof.
  split; [reflexivity|]. split; [reflexivity|].
  exists []. rewrite app_nil_r. split; reflexivity.
Qed.

Lemma no_locking_trans (s1 s2 s3 : State) :
  no_locking s1 s2 -> no_locking s2 s3 -> no_locking s1 s3.
Proof.
  intros (A1 & B1 & e1 & T1 & F1) (A2 & B2 & e2 & T2 & F2).
  split; [congruence|]. split; [congruence|].
  exists (e1 ++ e2)%list. split.
  - rewrite T2, T1, app_assoc. reflexivity.
  - rewrite forallb_app, F1, F2. reflexivity.
Qed.

Lemma lock_free_ret {A} (a : A) : lock_free (ret a).
Proof. intros s. apply no_locking_refl. Qed.

Lemma lock_free_lift {A} (r : outcome A) : lock_free (lift r).
Proof. intros s. destruct r; apply no_locking_refl. Qed.

Lemma lock_free_get_self : lock_free get_self.
Proof. intros s. apply no_locking_refl. Qed.

Lemma lock_free_bind {A B} (m : M A) (k : A -> M B) :
  lock_free m -> (forall a, lock_free (k a)) -> lock_free (bind m k).
Proof.
  intros Hm Hk s. unfold bind. specialize (Hm s).
  destruct (m s) as [[a|e] s1]; cbn [snd] in *; [|exact Hm].
  eapply no_locking_trans; [exact Hm|apply Hk].
Qed.

Lemma lock_free_parser_read (path : string) : lock_free (parser_read path).
Proof.
  intros s. rewrite parser_read_run. cbn.
  split; [reflexivity|]. split; [reflexivity|].
  exists [EvRead path]. split; reflexivity.
Qed.

Lemma lock_free_parser_write (path : string) (cp : ConfigParser.RawConfigParser) :
  lock_free (parser_write path cp).
Proof.
  intros s. unfold parser_write, bind, get_world, put_world, raise. cbn.
  destruct (is_dir (world s) path); [apply no_locking_refl|].
  destruct (negb (parent_is_dir (world s) path)); [apply no_locking_refl|].
  cbn. split; [reflexivity|]. split; [reflexivity|].
  eexists [_]. split; reflexivity.
Qed.

Create HintDb lock_free.
#[local] Hint Resolve lock_free_ret lock_free_lift lock_free_get_self
  lock_free_parser_read lock_free_parser_write : lock_free.

Ltac lock_free_steps :=
  first
    [ solve [auto with lock_free]
    | match goal with
      | |- lock_free (if ?b then _ else _) => destruct b; lock_free_steps
      end
    | apply lock_free_bind; [lock_free_steps | intros ?; lock_free_steps] ].

Lemma lock_free_write_config_section : lock_free write_config_section.
Proof. unfold write_config_section. lock_free_steps. Qed.

Lemma lock_free_write_credentials_section (a : Amazon) :
  lock_free (write_credentials_section a).
Proof. unfold write_credentials_section. lock_free_steps. Qed.

Lemma write_part_trace {A : Type} (path : string)
      (k : ConfigParser.RawConfigParser -> M A) (s : State) :
  (forall cp, lock_free (k cp)) ->
  let s' := snd ((cp <- parser_read path ;; k cp) s) in
  self s' = self s
  /\ held (world s') = held (world s)
  /\ exists evs,
       trace (world s') = (trace (world s) ++ EvRead path :: evs)%list
       /\ forallb (fun e => negb (is_lock_event e)) evs = true.
Proof.
  intros Hk. unfold bind. rewrite parser_read_run.
  destruct (stored_parser (world s) path) as [cp|e]; cbn [snd].
  - destruct (Hk cp {| self := self s; world := log (EvRead path) (world s) |})
      as (A1 & B1 & evs & T & F).
    cbn [self world log held trace] in *.
    split; [exact A1|]. split; [exact B1|].
    exists evs. split; [|exact F].
    rewrite T, <- app_assoc. reflexivity.
  - cbn. split; [reflexivity|]. split; [reflexivity|].
    exists []. split; reflexivity.
Qed.

Lemma write_config_section_trace (s : State) :
  let s' := snd (write_config_section s) in
  self s' = self s
  /\ held (world s') = held (world s)
  /\ exists evs,
       trace (world s')
       = (trace (world s) ++ EvRead (config_file (self s)) :: evs)%list
       /\ forallb (fun e => negb (is_lock_event e)) evs = true.
Proof.
  unfold write_config_section. unfold bind at 1, get_self. cbn beta iota.
  apply write_part_trace. intros cp. lock_free_steps.
Qed.

Lemma write_credentials_section_trace (a : Amazon) (s : State) :
  let s' := snd (write_credentials_section a s) in
  self s' = self s
  /\ held (world s') = held (world s)
  /\ exists evs,
       trace (world s')
       = (trace (world s) ++ EvRead (credentials_file (self s)) :: evs)%list
       /\ forallb (fun e => negb (is_lock_event e)) evs = true.
Proof.
  unfold write_credentials_section. unfold bind at 1, get_self. cbn beta iota.
  apply write_part_trace. intros cp. lock_free_steps.
Qed.

Lemma remove_one_head (x : string) (l : list string) : remove_one x (x :: l) = l.
Proof. simpl. rewrite String.eqb_refl. reflexivity. Qed.

(** C6. With a credential record and a profile, once the files are
    ensured, [write] runs two critical sections one after the other.  The
    config lock is taken, the config part runs and the config lock is given
    back before the credentials lock is asked for; the credentials part then
    runs from whatever state the config part left, whether the config part
    returned or raised: it starts by reading the credentials file, and only
    then is the failure of the config part, if any, passed on.  No lock is
    touched inside either part and none is held at the end. *)
Theorem write_critical_sections (a : Amazon) (s : State) :
  profile (self s) <> PyNone ->
  fst (ensure_config_files_exist s) = Return tt ->
  let s0 := snd (ensure_config_files_exist s) in
  let config_lock := lock_of (config_file (self s)) in
  let credentials_lock := lock_of (credentials_file (self s)) in
  let config_part := write_config_section (snd (acquire config_lock s0)) in
  let between :=
    snd (acquire credentials_lock (snd (release config_lock (snd config_part)))) in
  let credentials_part := write_credentials_section a between in
  write (Some a) s
  = (match fst credentials_part with
     | Raise e => Raise e
     | Return _ => fst config_part
     end,
     snd (release credentials_lock (snd credentials_part)))
  /\ (exists evs1 evs2,
         trace (world (snd (write (Some a) s)))
         = (trace (world s0)
            ++ [EvAcquire config_lock; EvRead (config_file (self s))] ++ evs1
            ++ [EvRelease config_lock; EvAcquire credentials_lock;
                EvRead (credentials_file (self s))] ++ evs2
            ++ [EvRelease credentials_lock])%list
         /\ forallb (fun e => negb (is_lock_event e)) evs1 = true
         /\ forallb (fun e => negb (is_lock_event e)) evs2 = true)
  /\ held (world (snd (write (Some a) s))) = held (world s).
Proof.
  intros Hp He s0 config_lock credentials_lock config_part between credentials_part.
  pose proof (ensure_config_files_exist_only_creates s) as (A0 & H0 & _).
  fold s0 in A0, H0.
  assert (E : write (Some a) s
              = (match fst credentials_part with
                 | Raise e => Raise e
                 | Return _ => fst config_part
                 end,
                 snd (release credentials_lock (snd credentials_part)))).
  { rewrite write_run.
    destruct (ensure_config_files_exist s) as [[[]|e] s1] eqn:En;
      [|discriminate He].
    cbn [snd] in s0. subst s0.
    destruct (is_none (profile (self s1))) eqn:N.
    { rewrite A0 in N. destruct (profile (self s)); try discriminate N.
      congruence. }
    pose proof (write_config_section_trace (snd (acquire config_lock s1)))
      as (A1 & _).
    unfold write_sections, bind at 1, get_self. cbn beta iota.
    unfold bind at 1. rewrite A0. fold config_lock credentials_lock.
    unfold acquire at 1, bind at 1, get_world, put_world. cbn beta iota.
    unfold try_finally at 1.
    change (write_config_section _) with config_part.
    destruct config_part as [r1 sB] eqn:EB. cbn [fst snd] in *.
    unfold bind at 1, release at 1, bind at 1, get_world, put_world.
    cbn beta iota.
    unfold bind at 1, acquire at 1, bind at 1, get_world, put_world.
    cbn beta iota.
    unfold try_finally at 1.
    change (write_credentials_section a _) with credentials_part.
    destruct credentials_part as [r2 sD] eqn:ED. cbn [fst snd].
    unfold release, bind, get_world, put_world. cbn beta iota.
    destruct r2; reflexivity. }
  split; [exact E|].
  rewrite E. cbn [snd].
  pose proof (write_config_section_trace (snd (acquire config_lock s0)))
    as (A1 & H1 & evs1 & T1 & F1).
  fold config_part in A1, H1, T1.
  pose proof (write_credentials_section_trace a between)
    as (A2 & H2 & evs2 & T2 & F2).
  fold credentials_part in A2, H2, T2.
  unfold between in A2, H2, T2.
  unfold acquire, release, bind, get_world, put_world in *.
  cbn [fst snd self world log trace held] in *.
  split.
  - exists evs1, evs2. split; [|split; assumption].
    rewrite T2, T1, A1, A0. repeat rewrite <- app_assoc. reflexivity.
  - rewrite H2, H1, !remove_one_head. exact H0.
Qed.

Lemma write_critical_sections_witness :
  let s := {| self := sample_configuration; world := world_with_broken_config |} in
  fst (write (Some sample_credentials) s)
  = Raise (MissingSectionHeaderError "/home/u/.aws/config" 1
             "this is not an ini file")
  /\ lookup_file "/home/u/.aws/config" (files (world (snd (write (Some sample_credentials) s))))
     = Some "this is not an ini file"
  /\ lookup_file "/home/u/.aws/credentials"
                 (files (world (snd (write (Some sample_credentials) s))))
     = Some ("[default]" ++ NL
             ++ "aws_access_key_id = ASIAEXAMPLE" ++ NL
             ++ "aws_secret_access_key = secret" ++ NL
             ++ "aws_security_token = token" ++ NL
             ++ "aws_session_expiration = 2030-01-01T00:00:00+00:00" ++ NL
             ++ "aws_session_token = token" ++ NL ++ NL)%string
  /\ filter is_lock_event (trace (world (snd (write (Some sample_credentials) s))))
     = [EvAcquire "/home/u/.aws/config.lock"; EvRelease "/home/u/.aws/config.lock";
        EvAcquire "/home/u/.aws/credentials.lock";
        EvRelease "/home/u/.aws/credentials.lock"].
Proof.
  intros s.
  assert (Hp : profile (self s) <> PyNone) by discriminate.
  destruct (write_critical_sections sample_credentials s Hp eq_refl) as (E & _ & _).
  rewrite E. repeat split.
Defined.

(** *** The parser reads back what it writes *)

Lemma rstrip_all_space (w : string) : all_space w = true -> rstrip w = "".
Proof.
  induction w as [|c w IH]; simpl; [reflexivity|].
  intros H. apply andb_true_iff in H. destruct H as [Hc Hw].
  rewrite (IH Hw), Hc. reflexivity.
Qed.

Lemma rstrip_app_space (s w : string) :
  all_space w = true -> rstrip (s ++ w) = rstrip s.
Proof.
  intros H. induction s as [|c s IH]; simpl.
  - apply rstrip_all_space, H.
  - rewrite IH. reflexivity.
Qed.

Lemma rstrip_app_nonblank (a b : string) :
  rstrip b <> "" -> rstrip (a ++ b) = (a ++ rstrip b)%string.
Proof.
  intros H. induction a as [|c a IH]; simpl; [reflexivity|].
  rewrite IH. destruct (a ++ rstrip b)%string eqn:E; [|reflexivity].
  destruct a; simpl in E; [contradiction|discriminate].
Qed.

Lemma rstrip_idem (s : string) : rstrip (rstrip s) = rstrip s.
Proof.
  induction s as [|c s IH]; simpl; [reflexivity|].
  destruct (rstrip s) as [|d r] eqn:E.
  - destruct (isspace c) eqn:Hc; simpl; [reflexivity|]. rewrite Hc. reflexivity.
  - simpl. simpl in IH. rewrite IH. reflexivity.
Qed.

Lemma lstrip_app_space (w s : string) :
  all_space w = true -> lstrip (w ++ s) = lstrip s.
Proof.
  induction w as [|c w IH]; simpl; [reflexivity|].
  intros H. apply andb_true_iff in H. destruct H as [Hc Hw].
  rewrite Hc. apply IH, Hw.
Qed.

Lemma lstrip_all_space (w : string) : all_space w = true -> lstrip w = "".
Proof.
  intros H. rewrite <- (append_nil_r w). rewrite lstrip_app_space by exact H.
  reflexivity.
Qed.

Lemma lstrip_app_nonblank (a b : string) :
  lstrip a <> "" -> lstrip (a ++ b) = (lstrip a ++ b)%string.
Proof.
  induction a as [|c a IH]; simpl; [contradiction|].
  destruct (isspace c); [exact IH|reflexivity].
Qed.

Lemma lstrip_fixed_head (s : string) :
  lstrip s = s -> s <> "" -> exists c r, s = String c r /\ isspace c = false.
Proof.
  destruct s as [|c r]; [contradiction|]. simpl.
  destruct (isspace c) eqn:Hc; [|intros _ _; eauto].
  intros H _. exfalso.
  assert (L : forall t, (String.length (lstrip t) <= String.length t)%nat).
  { induction t as [|x t IH]; simpl; [lia|]. destruct (isspace x); simpl; lia. }
  specialize (L r). rewrite H in L. simpl in L. lia.
Qed.

Lemma lstrip_head (c : ascii) (r : string) :
  isspace c = false -> lstrip (String c r) = String c r.
Proof. intros H. simpl. rewrite H. reflexivity. Qed.

Lemma strip_app_space (b w : string) :
  all_space w = true -> strip (b ++ w) = strip b.
Proof.
  intros H. unfold strip.
  destruct (lstrip b) as [|c r] eqn:E.
  - assert (A : all_space b = true).
    { clear H. induction b as [|x b IH]; [reflexivity|]. simpl in *.
      destruct (isspace x); [apply IH, E|discriminate]. }
    rewrite lstrip_app_space by exact A.
    rewrite lstrip_all_space by exact H. reflexivity.
  - rewrite lstrip_app_nonblank by (rewrite E; discriminate).
    rewrite E. apply rstrip_app_space, H.
Qed.

Lemma stripped_spec (s : string) :
  stripped s = true <-> lstrip s = s /\ rstrip s = s.
Proof.
  unfold stripped. rewrite andb_true_iff, !String.eqb_eq. reflexivity.
Qed.

Lemma stripped_strip (s : string) : stripped s = true -> strip s = s.
Proof.
  intros H. apply stripped_spec in H. destruct H as [L R].
  unfold strip. rewrite L. exact R.
Qed.

Lemma split_lines_nonempty (s : string) : split_lines s <> [].
Proof.
  induction s as [|c s IH]; simpl; [discriminate|].
  destruct (Ascii.eqb c nl); [discriminate|].
  destruct (split_lines s); [contradiction|discriminate].
Qed.

Lemma join_cons_char (sep : string) (c : ascii) (l : string) (ls : list string) :
  join sep (String c l :: ls) = String c (join sep (l :: ls)).
Proof. destruct ls; reflexivity. Qed.

Lemma join_split_lines (s : string) : join NL (split_lines s) = s.
Proof.
  induction s as [|c s IH]; [reflexivity|].
  cbn [split_lines]. destruct (Ascii.eqb_spec c nl) as [->|N].
  - destruct (split_lines s) as [|l ls] eqn:E;
      [exfalso; exact (split_lines_nonempty s E)|].
    change (join NL ("" :: l :: ls)) with ("" ++ NL ++ join NL (l :: ls))%string.
    rewrite IH. reflexivity.
  - destruct (split_lines s) as [|l ls] eqn:E;
      [exfalso; exact (split_lines_nonempty s E)|].
    rewrite join_cons_char, IH. reflexivity.
Qed.

Lemma replace_newlines (new s : string) :
  replace NL new s = join new (split_lines s).
Proof.
  unfold replace. induction s as [|c s IH]; [reflexivity|].
  cbn [replace_from split_lines].
  destruct (split_lines s) as [|l ls] eqn:E;
    [exfalso; exact (split_lines_nonempty s E)|].
  destruct (Ascii.eqb_spec c nl) as [->|N].
  - change (String.prefix NL (String nl s)) with
      (if ascii_dec nl nl then String.prefix "" s else false).
    destruct (ascii_dec nl nl); [|congruence].
    replace (String.prefix "" s) with true by (destruct s; reflexivity).
    cbn [String.length NL Nat.sub]. rewrite IH.
    change (join new ("" :: l :: ls)) with ("" ++ new ++ join new (l :: ls))%string.
    reflexivity.
  - change (String.prefix NL (String c s)) with
      (if ascii_dec nl c then String.prefix "" s else false).
    destruct (ascii_dec nl c); [congruence|].
    rewrite IH, join_cons_char. reflexivity.
Qed.

Lemma universal_newlines_id (s : string) :
  has_char cr s = false -> ConfigParser.universal_newlines s = s.
Proof.
  induction s as [|c s IH]; [reflexivity|]. cbn [has_char ConfigParser.universal_newlines].
  intros H. apply orb_false_iff in H. destruct H as [Hc Hs].
  rewrite Hc, (IH Hs). reflexivity.
Qed.

Lemma has_char_app (a : ascii) (s t : string) :
  has_char a (s ++ t) = has_char a s || has_char a t.
Proof.
  induction s as [|c s IH]; simpl; [reflexivity|].
  rewrite IH, orb_assoc. reflexivity.
Qed.

Lemma file_lines_line (b rest : string) :
  has_char nl b = false ->
  ConfigParser.file_lines (b ++ NL ++ rest) = (b ++ NL)%string :: ConfigParser.file_lines rest.
Proof.
  induction b as [|c b IH]; intros H.
  - reflexivity.
  - cbn [has_char] in H. apply orb_false_iff in H. destruct H as [Hc Hb].
    change ((String c b ++ NL ++ rest)%string) with (String c (b ++ NL ++ rest)).
    cbn [ConfigParser.file_lines]. rewrite Hc, (IH Hb). reflexivity.
Qed.

Lemma file_lines_bodies (bodies : list string) :
  forallb (fun b => negb (has_char nl b)) bodies = true ->
  ConfigParser.file_lines (String.concat "" (with_newlines bodies))
  = with_newlines bodies.
Proof.
  induction bodies as [|b bs IH]; [reflexivity|].
  cbn [forallb]. intros H. apply andb_true_iff in H. destruct H as [Hb Hbs].
  apply negb_true_iff in Hb.
  assert (E : String.concat "" (with_newlines (b :: bs))
              = (b ++ NL ++ String.concat "" (with_newlines bs))%string).
  { cbn [with_newlines map]. fold (with_newlines bs).
    destruct (with_newlines bs) as [|x xs] eqn:W.
    - reflexivity.
    - cbn [String.concat]. rewrite append_assoc. reflexivity. }
  rewrite E, file_lines_line by exact Hb. rewrite (IH Hbs). reflexivity.
Qed.

Lemma concat_cons (x : string) (xs : list string) :
  String.concat "" (x :: xs) = (x ++ String.concat "" xs)%string.
Proof.
  destruct xs; cbn [String.concat]; [rewrite append_nil_r|]; reflexivity.
Qed.

Lemma concat_app (a b : list string) :
  String.concat "" (a ++ b) = (String.concat "" a ++ String.concat "" b)%string.
Proof.
  induction a as [|x a IH]; [reflexivity|].
  change ((x :: a) ++ b)%list with (x :: (a ++ b))%list.
  rewrite !concat_cons, IH, append_assoc. reflexivity.
Qed.

Lemma with_newlines_app (a b : list string) :
  with_newlines (a ++ b) = (with_newlines a ++ with_newlines b)%list.
Proof. apply map_app. Qed.

Lemma join_continuation (l1 : string) (ls : list string) :
  (join (NL ++ ConfigParser.TAB) (l1 :: ls) ++ NL)%string
  = (l1 ++ NL
     ++ String.concat ""
          (with_newlines (map (fun l => (ConfigParser.TAB ++ l)%string) ls)))%string.
Proof.
  revert l1. induction ls as [|l ls IH]; intros l1.
  - reflexivity.
  - change (join (NL ++ ConfigParser.TAB) (l1 :: l :: ls))
      with (l1 ++ (NL ++ ConfigParser.TAB) ++ join (NL ++ ConfigParser.TAB) (l :: ls))%string.
    cbn [map with_newlines]. fold (with_newlines (map (fun l0 => (ConfigParser.TAB ++ l0)%string) ls)).
    rewrite concat_cons. rewrite !append_assoc. rewrite IH.
    rewrite ?append_assoc. reflexivity.
Qed.

Lemma write_item_bodies (kv : string * pyval) :
  ConfigParser.write_item kv = String.concat "" (with_newlines (item_bodies kv)).
Proof.
  destruct kv as [k v]. unfold ConfigParser.write_item, item_bodies.
  cbn [fst snd]. rewrite replace_newlines.
  destruct (split_lines (py_str v)) as [|l1 ls] eqn:E;
    [exfalso; exact (split_lines_nonempty _ E)|].
  cbn [hd tl with_newlines map].
  fold (with_newlines (map (fun l => (ConfigParser.TAB ++ l)%string) ls)).
  rewrite concat_cons, join_continuation, ?append_assoc. reflexivity.
Qed.

Lemma write_items_bodies (items : list (string * pyval)) :
  String.concat "" (map ConfigParser.write_item items)
  = String.concat "" (with_newlines (flat_map item_bodies items)).
Proof.
  induction items as [|kv items IH]; [reflexivity|].
  cbn [map flat_map]. rewrite concat_cons, with_newlines_app, concat_app.
  rewrite IH, write_item_bodies. reflexivity.
Qed.

Lemma write_section_bodies (name : string) (items : list (string * pyval)) :
  ConfigParser.write_section name items
  = String.concat "" (with_newlines (section_bodies name items)).
Proof.
  unfold ConfigParser.write_section, section_bodies.
  rewrite with_newlines_app, concat_app.
  cbn [with_newlines map]. fold (with_newlines (flat_map item_bodies items)).
  rewrite concat_cons, write_items_bodies, ?append_assoc. reflexivity.
Qed.

Lemma write_bodies (cp : ConfigParser.RawConfigParser) :
  ConfigParser.write cp = String.concat "" (with_newlines (parser_bodies cp)).
Proof.
  unfold ConfigParser.write, parser_bodies.
  rewrite with_newlines_app, concat_app. f_equal.
  - destruct (ConfigParser.defaults cp); [reflexivity|apply write_section_bodies].
  - induction (ConfigParser.sections cp) as [|sd l IH]; [reflexivity|].
    cbn [map flat_map]. rewrite concat_cons, with_newlines_app, concat_app.
    rewrite IH, write_section_bodies. reflexivity.
Qed.

(** *** One written line through [read_line] *)

Lemma all_space_NL : all_space NL = true.
Proof. reflexivity. Qed.

Lemma strip_line (b : string) : strip (b ++ NL) = strip b.
Proof. apply strip_app_space, all_space_NL. Qed.

Lemma is_comment_line (b : string) :
  ConfigParser.is_comment (b ++ NL) = commented (strip b).
Proof. unfold ConfigParser.is_comment, commented. rewrite strip_line. reflexivity. Qed.

Lemma indent_of_head (c : ascii) (r : string) :
  isspace c = false -> ConfigParser.indent_of (String c r) = O.
Proof. intros H. unfold ConfigParser.indent_of. simpl. rewrite H. reflexivity. Qed.

Lemma key_ok_parts (k : string) :
  key_ok k = true ->
  k <> "" /\ lstrip k = k /\ rstrip k = k /\ has_delimiter k = false
  /\ has_char nl k = false /\ has_char cr k = false /\ lower k = k
  /\ commented k = false.
Proof.
  unfold key_ok. rewrite !andb_true_iff, !negb_true_iff.
  intros [[[[[[A B] C] D] E] F] G].
  apply stripped_spec in B. destruct B as [B1 B2].
  apply String.eqb_neq in A. apply String.eqb_eq in F.
  repeat split; assumption.
Qed.

Lemma key_head (k : string) :
  key_ok k = true -> exists c r, k = String c r /\ isspace c = false.
Proof.
  intros H. destruct (key_ok_parts k H) as (N & L & _).
  apply lstrip_fixed_head; assumption.
Qed.

Lemma value_ok_parts (v : string) :
  value_ok v = true ->
  has_char cr v = false /\ rstrip v = v
  /\ forallb stripped (split_lines v) = true
  /\ forallb (fun l => negb (commented l)) (tl (split_lines v)) = true.
Proof.
  unfold value_ok. rewrite !andb_true_iff, !negb_true_iff.
  intros [[[A B] C] D]. apply String.eqb_eq in B.
  repeat split; assumption.
Qed.

Lemma rstrip_nonempty_fixed (s : string) : rstrip s = s -> s <> "" -> rstrip s <> "".
Proof. intros -> H. exact H. Qed.

(** The first line of an item, stripped. *)
Lemma item_head_form (k l1 : string) :
  key_ok k = true -> stripped l1 = true ->
  strip (k ++ " = " ++ l1)
  = (k ++ " =" ++ match l1 with EmptyString => "" | _ => " " ++ l1 end)%string.
Proof.
  intros Hk Hl. destruct (key_ok_parts k Hk) as (N & L & R & _).
  apply stripped_spec in Hl. destruct Hl as [Ll Rl].
  unfold strip. rewrite lstrip_app_nonblank by (rewrite L; exact N). rewrite L.
  destruct l1 as [|c l].
  - change (k ++ " = " ++ "")%string with (k ++ " =" ++ " ")%string.
    rewrite <- append_assoc. rewrite rstrip_app_space by reflexivity.
    rewrite rstrip_app_nonblank by (cbn; discriminate). reflexivity.
  - rewrite <- append_assoc. rewrite rstrip_app_nonblank by (rewrite Rl; discriminate).
    rewrite Rl, append_assoc. reflexivity.
Qed.

Lemma split_delimiter_app (k r : string) :
  has_delimiter k = false ->
  ConfigParser.split_delimiter (k ++ r)
  = match ConfigParser.split_delimiter r with
    | Some (a, b) => Some ((k ++ a)%string, b)
    | None => None
    end.
Proof.
  induction k as [|c k IH]; intros H.
  - cbn. destruct (ConfigParser.split_delimiter r) as [[a b]|]; reflexivity.
  - cbn [has_delimiter] in H. apply orb_false_iff in H. destruct H as [Hc Hk].
    change (String c k ++ r)%string with (String c (k ++ r)).
    cbn [ConfigParser.split_delimiter]. rewrite Hc, (IH Hk).
    destruct (ConfigParser.split_delimiter r) as [[a b]|]; reflexivity.
Qed.

Lemma match_option_item (k l1 : string) :
  key_ok k = true -> stripped l1 = true ->
  ConfigParser.match_option (strip (k ++ " = " ++ l1)) = Some (k, l1).
Proof.
  intros Hk Hl. rewrite item_head_form by assumption.
  destruct (key_ok_parts k Hk) as (N & L & R & D & _).
  unfold ConfigParser.match_option. rewrite split_delimiter_app by exact D.
  cbn [append ConfigParser.split_delimiter ConfigParser.is_delimiter Ascii.eqb
         Bool.eqb orb].
  replace (rstrip (k ++ " ")) with k
    by (rewrite rstrip_app_space by reflexivity; symmetry; exact R).
  apply stripped_spec in Hl. destruct Hl as [Ll Rl].
  destruct l1 as [|c l]; [reflexivity|].
  change (lstrip (String " " (String c l))) with (lstrip (String c l)).
  rewrite Ll. reflexivity.
Qed.

Lemma dict_get_set_same {V} (k : string) (v : V) (d : list (string * V)) :
  ConfigParser.dict_get k (ConfigParser.dict_set k v d) = Some v.
Proof.
  induction d as [|[k' v'] d IH]; cbn.
  - rewrite String.eqb_refl. reflexivity.
  - destruct (String.eqb k' k) eqn:E; cbn; rewrite E; [reflexivity|exact IH].
Qed.

Lemma dict_set_set {V} (k : string) (v v' : V) (d : list (string * V)) :
  ConfigParser.dict_set k v' (ConfigParser.dict_set k v d) = ConfigParser.dict_set k v' d.
Proof.
  induction d as [|[k' x] d IH]; cbn.
  - rewrite String.eqb_refl. reflexivity.
  - destruct (String.eqb k' k) eqn:E; cbn; rewrite E; [reflexivity|].
    rewrite IH. reflexivity.
Qed.

Lemma dict_set_fresh {V} (k : string) (v : V) (d : list (string * V)) :
  ConfigParser.dict_get k d = None -> ConfigParser.dict_set k v d = (d ++ [(k, v)])%list.
Proof.
  induction d as [|[k' x] d IH]; cbn; [reflexivity|].
  destruct (String.eqb k' k); [discriminate|].
  intros H. rewrite (IH H). reflexivity.
Qed.

Lemma dict_set_last {V} (k : string) (v v' : V) (d : list (string * V)) :
  ConfigParser.dict_get k d = None ->
  ConfigParser.dict_set k v' (d ++ [(k, v)]) = (d ++ [(k, v')])%list.
Proof.
  induction d as [|[k' x] d IH]; cbn.
  - rewrite String.eqb_refl. reflexivity.
  - destruct (String.eqb k' k); [discriminate|].
    intros H. rewrite (IH H). reflexivity.
Qed.

Lemma cursect_set_cursect (st : ConfigParser.ReadState) (n : string)
      (d : ConfigParser.raw_section) :
  ConfigParser.cursect (ConfigParser.set_cursect st n d) n = d.
Proof.
  unfold ConfigParser.cursect, ConfigParser.set_cursect.
  destruct (String.eqb n ConfigParser.default_section); cbn; [reflexivity|].
  rewrite dict_get_set_same. reflexivity.
Qed.

Lemma set_cursect_twice (st : ConfigParser.ReadState) (n : string)
      (d d' : ConfigParser.raw_section) :
  ConfigParser.set_cursect (ConfigParser.set_cursect st n d) n d'
  = ConfigParser.set_cursect st n d'.
Proof.
  unfold ConfigParser.set_cursect.
  destruct (String.eqb n ConfigParser.default_section); cbn; [reflexivity|].
  rewrite dict_set_set. reflexivity.
Qed.

Lemma continues_set_cursect (st : ConfigParser.ReadState) (n : string)
      (d : ConfigParser.raw_section) :
  ConfigParser.continues (ConfigParser.set_cursect st n d) = ConfigParser.continues st.
Proof.
  unfold ConfigParser.set_cursect.
  destruct (String.eqb n ConfigParser.default_section); reflexivity.
Qed.

Lemma set_cursect_fields (st : ConfigParser.ReadState) (n : string)
      (d : ConfigParser.raw_section) :
  let st' := ConfigParser.set_cursect st n d in
  ConfigParser.rs_sectname st' = ConfigParser.rs_sectname st
  /\ ConfigParser.rs_optname st' = ConfigParser.rs_optname st
  /\ ConfigParser.rs_indent_level st' = ConfigParser.rs_indent_level st
  /\ ConfigParser.rs_added_sections st' = ConfigParser.rs_added_sections st
  /\ ConfigParser.rs_added_options st' = ConfigParser.rs_added_options st
  /\ ConfigParser.rs_errors st' = ConfigParser.rs_errors st.
Proof.
  unfold ConfigParser.set_cursect.
  destruct (String.eqb n ConfigParser.default_section); repeat split.
Qed.

Lemma option_state_commutes (st : ConfigParser.ReadState) (n m k : string)
      (d : ConfigParser.raw_section) (i : nat) :
  ConfigParser.with_option (ConfigParser.with_indent (ConfigParser.set_cursect st n d) i) m k
  = ConfigParser.set_cursect (ConfigParser.with_option (ConfigParser.with_indent st i) m k) n d.
Proof.
  unfold ConfigParser.set_cursect.
  destruct (String.eqb n ConfigParser.default_section); reflexivity.
Qed.

Lemma prefix_nil (s : string) : String.prefix "" s = true.
Proof. destruct s; reflexivity. Qed.

Lemma startswith_char (a c : ascii) (r : string) :
  startswith (String c r) (String a "") = Ascii.eqb a c.
Proof.
  unfold startswith. cbn. rewrite prefix_nil.
  destruct (ascii_dec a c) as [->|N]; [symmetry; apply Ascii.eqb_refl|].
  symmetry. apply Ascii.eqb_neq, N.
Qed.

Lemma commented_app (k x : string) : k <> "" -> commented (k ++ x) = commented k.
Proof.
  destruct k as [|c k]; [contradiction|]. intros _.
  unfold commented. cbn [append]. rewrite !startswith_char. reflexivity.
Qed.

Lemma hd_split_lines_stripped (v : string) :
  forallb stripped (split_lines v) = true ->
  stripped (hd EmptyString (split_lines v)) = true.
Proof.
  destruct (split_lines v) as [|l ls]; [reflexivity|]. cbn.
  intros H. apply andb_true_iff in H. apply H.
Qed.

Lemma item_ok_parts (k : string) (v : pyval) :
  item_ok (k, v) = true ->
  key_ok k = true /\ value_ok (py_str v) = true
  /\ ConfigParser.match_section
       (strip (k ++ " = " ++ hd EmptyString (split_lines (py_str v)))) = None.
Proof.
  unfold item_ok, item_head. cbn [fst snd]. rewrite !andb_true_iff.
  intros [[A B] C]. repeat split; try assumption.
  destruct (ConfigParser.match_section _); [discriminate|reflexivity].
Qed.

Lemma read_line_item (source : string) (st : ConfigParser.ReadState) (i : nat)
      (n k : string) (v : pyval) :
  ConfigParser.rs_sectname st = Some n ->
  item_ok (k, v) = true ->
  ConfigParser.in_pairs (n, k) (ConfigParser.rs_added_options st) = false ->
  ConfigParser.read_line source st i
    ((k ++ " = " ++ hd EmptyString (split_lines (py_str v))) ++ NL)
  = inr (ConfigParser.set_cursect
           (ConfigParser.with_option (ConfigParser.with_indent st 0) n k) n
           (ConfigParser.dict_set k [hd EmptyString (split_lines (py_str v))]
                                  (ConfigParser.cursect st n))).
Proof.
  intros Hn Hi Hp.
  destruct (item_ok_parts k v Hi) as (Hk & Hv & Hs).
  destruct (value_ok_parts _ Hv) as (_ & _ & Hl & _).
  pose proof (hd_split_lines_stripped _ Hl) as Hl1.
  set (l1 := hd EmptyString (split_lines (py_str v))) in *.
  destruct (key_ok_parts k Hk) as (N & L & R & D & _ & _ & Lo & Co).
  destruct (key_head k Hk) as (c & r & Ek & Hc).
  unfold ConfigParser.read_line.
  rewrite is_comment_line, strip_line.
  pose proof (item_head_form k l1 Hk Hl1) as F.
  rewrite F, commented_app, Co by exact N.
  rewrite <- F.
  assert (I0 : ConfigParser.indent_of ((k ++ " = " ++ l1) ++ NL) = O).
  { rewrite Ek. apply indent_of_head, Hc. }
  rewrite I0.
  assert (Body : ConfigParser.read_header_or_option source
                   (ConfigParser.with_indent st 0) i
                   ((k ++ " = " ++ l1) ++ NL) (strip (k ++ " = " ++ l1))
                 = inr (ConfigParser.set_cursect
                          (ConfigParser.with_option (ConfigParser.with_indent st 0) n k) n
                          (ConfigParser.dict_set k [l1] (ConfigParser.cursect st n)))).
  { unfold ConfigParser.read_header_or_option.
    rewrite Hs. cbn [ConfigParser.rs_sectname ConfigParser.with_indent]. rewrite Hn.
    rewrite match_option_item by assumption.
    rewrite R. unfold ConfigParser.optionxform. rewrite Lo.
    rewrite (stripped_strip l1 Hl1).
    clear - Hp N. destruct k as [|kc kr]; [congruence|].
    cbn [ConfigParser.rs_added_options ConfigParser.with_indent]. rewrite Hp.
    reflexivity. }
  assert (V : exists c' r', strip (k ++ " = " ++ l1) = String c' r').
  { rewrite F, Ek. cbn [append]. eauto. }
  destruct V as (c' & r' & V). rewrite V in Body |- *.
  destruct (ConfigParser.continues st) as [[n' o']|]; [|exact Body].
  replace (ConfigParser.rs_indent_level st <? 0)%nat with false
    by (symmetry; apply Nat.ltb_ge; lia).
  exact Body.
Qed.

Lemma before_last_end (a : ascii) (s : string) :
  ConfigParser.before_last a (s ++ String a "") = Some s.
Proof.
  induction s as [|c s IH]; cbn.
  - rewrite Ascii.eqb_refl. reflexivity.
  - rewrite IH. reflexivity.
Qed.

Lemma header_strip (n : string) : strip ("[" ++ n ++ "]") = ("[" ++ n ++ "]")%string.
Proof.
  unfold strip. cbn [append]. rewrite lstrip_head by reflexivity.
  change (String "[" (n ++ "]")) with (("[" ++ n) ++ "]")%string.
  rewrite rstrip_app_nonblank by (cbn; discriminate). reflexivity.
Qed.

Lemma match_section_header (n : string) :
  n <> "" -> ConfigParser.match_section ("[" ++ n ++ "]") = Some n.
Proof.
  intros H. cbn [append ConfigParser.match_section]. rewrite before_last_end.
  destruct n; [contradiction|reflexivity].
Qed.

Lemma read_line_header (source : string) (st : ConfigParser.ReadState) (i : nat)
      (n : string) :
  n <> "" ->
  ConfigParser.read_line source st i (("[" ++ n ++ "]") ++ NL)
  = match ConfigParser.dict_get n (ConfigParser.rs_sections st) with
    | Some _ =>
        if ConfigParser.in_names n (ConfigParser.rs_added_sections st)
        then inl (DuplicateSectionError n source i)
        else inr (ConfigParser.with_header (ConfigParser.with_indent st 0) n false true)
    | None =>
        if String.eqb n ConfigParser.default_section
        then inr (ConfigParser.with_header (ConfigParser.with_indent st 0) n false false)
        else inr (ConfigParser.with_header (ConfigParser.with_indent st 0) n true true)
    end.
Proof.
  intros H. unfold ConfigParser.read_line.
  rewrite is_comment_line, strip_line, header_strip.
  replace (commented ("[" ++ n ++ "]")) with false
    by (unfold commented; cbn [append]; rewrite !startswith_char; reflexivity).
  assert (I0 : ConfigParser.indent_of (("[" ++ n ++ "]") ++ NL) = O)
    by (apply indent_of_head; reflexivity).
  rewrite I0.
  assert (Body : ConfigParser.read_header_or_option source
                   (ConfigParser.with_indent st 0) i
                   (("[" ++ n ++ "]") ++ NL) ("[" ++ n ++ "]")
                 = match ConfigParser.dict_get n (ConfigParser.rs_sections st) with
                   | Some _ =>
                       if ConfigParser.in_names n (ConfigParser.rs_added_sections st)
                       then inl (DuplicateSectionError n source i)
                       else inr (ConfigParser.with_header (ConfigParser.with_indent st 0) n false true)
                   | None =>
                       if String.eqb n ConfigParser.default_section
                       then inr (ConfigParser.with_header (ConfigParser.with_indent st 0) n false false)
                       else inr (ConfigParser.with_header (ConfigParser.with_indent st 0) n true true)
                   end).
  { unfold ConfigParser.read_header_or_option.
    rewrite match_section_header by exact H. reflexivity. }
  change ("[" ++ n ++ "]")%string with (String "[" (n ++ "]")) in Body |- * at 2.
  cbv beta iota.
  destruct (ConfigParser.continues st) as [[n' o']|]; [|exact Body].
  replace (ConfigParser.rs_indent_level st <? 0)%nat with false
    by (symmetry; apply Nat.ltb_ge; lia).
  exact Body.
Qed.

Lemma read_line_blank (source : string) (st : ConfigParser.ReadState) (i : nat) :
  ConfigParser.read_line source st i ("" ++ NL)
  = inr (match ConfigParser.continues st with
         | Some (n, k) => ConfigParser.append_value st n k EmptyString
         | None => st
         end).
Proof.
  unfold ConfigParser.read_line. cbn.
  destruct (ConfigParser.continues st) as [[n k]|]; reflexivity.
Qed.

Lemma read_line_continuation (source : string) (st : ConfigParser.ReadState)
      (i : nat) (n k l : string) :
  ConfigParser.continues st = Some (n, k) ->
  ConfigParser.rs_indent_level st = O ->
  stripped l = true -> commented l = false ->
  ConfigParser.read_line source st i ((ConfigParser.TAB ++ l) ++ NL)
  = inr (ConfigParser.append_value st n k l).
Proof.
  intros Hc Hi Hl Hm. unfold ConfigParser.read_line.
  rewrite is_comment_line, strip_line.
  assert (S : strip (ConfigParser.TAB ++ l) = l).
  { unfold strip. rewrite lstrip_app_space by reflexivity.
    apply stripped_strip, Hl. }
  rewrite S, Hm, Hc.
  destruct l as [|c r]; [reflexivity|].
  apply stripped_spec in Hl. destruct Hl as [Ll _].
  destruct (lstrip_fixed_head _ Ll) as (c' & r' & E & Hs); [discriminate|].
  injection E as <- <-.
  rewrite Hi.
  replace (ConfigParser.indent_of ((ConfigParser.TAB ++ String c r) ++ NL)) with 1%nat.
  - reflexivity.
  - unfold ConfigParser.indent_of. cbn. rewrite Hs. reflexivity.
Qed.

Lemma read_lines_app (source : string) (st : ConfigParser.ReadState) (i : nat)
      (a b : list string) :
  ConfigParser.read_lines source st i (a ++ b)
  = match ConfigParser.read_lines source st i a with
    | inl e => inl e
    | inr st' => ConfigParser.read_lines source st' (i + List.length a) b
    end.
Proof.
  revert st i. induction a as [|l a IH]; intros st i; cbn.
  - rewrite Nat.add_0_r. reflexivity.
  - destruct (ConfigParser.read_line source st i l) as [e|st']; [reflexivity|].
    rewrite IH. replace (S i + List.length a)%nat with (i + S (List.length a))%nat by lia.
    reflexivity.
Qed.

Lemma append_value_set (B : ConfigParser.ReadState) (n k l : string)
      (ls : list string) (D : ConfigParser.raw_section) :
  ConfigParser.append_value
    (ConfigParser.set_cursect B n (ConfigParser.dict_set k ls D)) n k l
  = ConfigParser.set_cursect B n (ConfigParser.dict_set k (ls ++ [l]) D).
Proof.
  unfold ConfigParser.append_value.
  rewrite cursect_set_cursect, dict_get_set_same, set_cursect_twice, dict_set_set.
  reflexivity.
Qed.

Lemma continues_option (B : ConfigParser.ReadState) (n k : string) :
  ConfigParser.rs_sectname B = Some n -> ConfigParser.rs_optname B = Some k ->
  k <> "" -> ConfigParser.continues B = Some (n, k).
Proof.
  intros Hn Ho Hk. unfold ConfigParser.continues. rewrite Hn, Ho.
  destruct k; [contradiction|reflexivity].
Qed.

Lemma read_continuations (source : string) (B : ConfigParser.ReadState)
      (n k : string) (D : ConfigParser.raw_section) (more ls : list string) (i : nat) :
  ConfigParser.rs_sectname B = Some n -> ConfigParser.rs_optname B = Some k ->
  k <> "" -> ConfigParser.rs_indent_level B = O ->
  forallb stripped more = true ->
  forallb (fun l => negb (commented l)) more = true ->
  ConfigParser.read_lines source
    (ConfigParser.set_cursect B n (ConfigParser.dict_set k ls D)) i
    (with_newlines (map (fun l => (ConfigParser.TAB ++ l)%string) more))
  = inr (ConfigParser.set_cursect B n (ConfigParser.dict_set k (ls ++ more) D)).
Proof.
  intros Hn Ho Hk Hi. revert ls i.
  induction more as [|l more IH]; intros ls i Hs Hc.
  - cbn. rewrite app_nil_r. reflexivity.
  - cbn [forallb] in Hs, Hc.
    apply andb_true_iff in Hs. destruct Hs as [Hs1 Hs2].
    apply andb_true_iff in Hc. destruct Hc as [Hc1 Hc2].
    apply negb_true_iff in Hc1.
    cbn [map with_newlines ConfigParser.read_lines].
    rewrite (read_line_continuation source _ i n k l); try assumption.
    + rewrite append_value_set.
      fold (with_newlines (map (fun l0 => (ConfigParser.TAB ++ l0)%string) more)).
      rewrite IH by assumption. rewrite <- app_assoc. reflexivity.
    + rewrite continues_set_cursect. apply continues_option; assumption.
    + destruct (set_cursect_fields B n (ConfigParser.dict_set k ls D))
        as (_ & _ & E & _). rewrite E. exact Hi.
Qed.

Lemma split_lines_hd_tl (v : string) :
  split_lines v = hd EmptyString (split_lines v) :: tl (split_lines v).
Proof.
  destruct (split_lines v) eqn:E; [exfalso; exact (split_lines_nonempty v E)|].
  reflexivity.
Qed.

Lemma read_item (source : string) (B : ConfigParser.ReadState) (n : string)
      (D : ConfigParser.raw_section) (i : nat) (k : string) (v : pyval) :
  ConfigParser.rs_sectname B = Some n ->
  item_ok (k, v) = true ->
  ConfigParser.in_pairs (n, k) (ConfigParser.rs_added_options B) = false ->
  ConfigParser.read_lines source (ConfigParser.set_cursect B n D) i
    (with_newlines (item_bodies (k, v)))
  = inr (ConfigParser.set_cursect
           (ConfigParser.with_option (ConfigParser.with_indent B 0) n k) n
           (ConfigParser.dict_set k (split_lines (py_str v)) D)).
Proof.
  intros Hn Hi Hp.
  destruct (item_ok_parts k v Hi) as (Hk & Hv & _).
  destruct (value_ok_parts _ Hv) as (_ & _ & Hl & Hc).
  destruct (key_ok_parts k Hk) as (N & _).
  destruct (set_cursect_fields B n D) as (F1 & _ & _ & _ & F5 & _).
  unfold item_bodies. cbn [fst snd with_newlines map ConfigParser.read_lines].
  rewrite (read_line_item source _ i n k v); try assumption;
    [|rewrite F1; exact Hn|rewrite F5; exact Hp].
  rewrite option_state_commutes, cursect_set_cursect, set_cursect_twice.
  fold (with_newlines (map (fun l => (ConfigParser.TAB ++ l)%string)
                           (tl (split_lines (py_str v))))).
  rewrite read_continuations; try reflexivity; try assumption.
  - rewrite (split_lines_hd_tl (py_str v)) at 3. reflexivity.
  - rewrite (split_lines_hd_tl (py_str v)) in Hl. cbn in Hl.
    apply andb_true_iff in Hl. apply Hl.
Qed.

Lemma existsb_eqb_false (x : string) (l : list string) (y : string) :
  existsb (String.eqb x) l = false -> In y l -> String.eqb y x = false.
Proof.
  intros H Hy. apply String.eqb_neq. intros ->.
  assert (existsb (String.eqb x) l = true); [|congruence].
  apply existsb_exists. exists x. split; [exact Hy|apply String.eqb_refl].
Qed.

Lemma after_items_sectname (st : ConfigParser.ReadState) (n : string)
      (items : list (string * pyval)) :
  ConfigParser.rs_sectname (after_items st n items) = ConfigParser.rs_sectname st
  /\ ConfigParser.rs_defaults (after_items st n items) = ConfigParser.rs_defaults st
  /\ ConfigParser.rs_sections (after_items st n items) = ConfigParser.rs_sections st
  /\ ConfigParser.rs_errors (after_items st n items) = ConfigParser.rs_errors st
  /\ ConfigParser.rs_added_sections (after_items st n items)
     = ConfigParser.rs_added_sections st
  /\ ConfigParser.rs_added_options (after_items st n items)
     = (rev (map (fun kv => (n, fst kv)) items) ++ ConfigParser.rs_added_options st)%list.
Proof.
  revert st. induction items as [|kv items IH]; intros st; [repeat split|].
  cbn [after_items fold_left].
  destruct (IH (ConfigParser.with_option (ConfigParser.with_indent st 0) n (fst kv)))
    as (A & B & C & D & E & F).
  unfold after_items in *. rewrite A, B, C, D, E, F.
  repeat split. cbn [map rev ConfigParser.rs_added_options ConfigParser.with_option].
  rewrite <- app_assoc. reflexivity.
Qed.

Lemma read_items (source : string) (items : list (string * pyval)) :
  forall (B : ConfigParser.ReadState) (n : string) (D : ConfigParser.raw_section) (i : nat),
  ConfigParser.rs_sectname B = Some n ->
  forallb item_ok items = true ->
  distinct (map fst items) = true ->
  (forall kv, In kv items ->
     ConfigParser.in_pairs (n, fst kv) (ConfigParser.rs_added_options B) = false) ->
  ConfigParser.read_lines source (ConfigParser.set_cursect B n D) i
    (with_newlines (flat_map item_bodies items))
  = inr (ConfigParser.set_cursect (after_items B n items) n (dict_after D items)).
Proof.
  induction items as [|[k v] items IH]; intros B n D i Hn Hok Hd Hf.
  - reflexivity.
  - cbn [forallb] in Hok. apply andb_true_iff in Hok. destruct Hok as [Hok1 Hok2].
    cbn [map distinct fst] in Hd. apply andb_true_iff in Hd. destruct Hd as [Hd1 Hd2].
    apply negb_true_iff in Hd1.
    cbn [flat_map]. rewrite with_newlines_app, read_lines_app.
    rewrite read_item; try assumption; [|apply (Hf (k, v)); left; reflexivity].
    cbn [after_items dict_after fold_left fst snd].
    apply IH; try assumption.
    intros [k' v'] Hin. cbn [fst].
    cbn [ConfigParser.rs_added_options ConfigParser.with_option ConfigParser.with_indent].
    unfold ConfigParser.in_pairs. cbn [existsb fst snd].
    rewrite (existsb_eqb_false k (map fst items) k' Hd1)
      by (apply (in_map fst _ _ Hin)).
    rewrite andb_false_r. cbn [orb].
    apply (Hf (k', v')). right. exact Hin.
Qed.

Lemma dict_after_snoc (D : ConfigParser.raw_section) (items : list (string * pyval))
      (kv : string * pyval) :
  dict_after D (items ++ [kv])
  = ConfigParser.dict_set (fst kv) (split_lines (py_str (snd kv))) (dict_after D items).
Proof. unfold dict_after. rewrite fold_left_app. reflexivity. Qed.

Lemma after_items_snoc (st : ConfigParser.ReadState) (n : string)
      (items : list (string * pyval)) (kv : string * pyval) :
  after_items st n (items ++ [kv])
  = ConfigParser.with_option (ConfigParser.with_indent (after_items st n items) 0) n (fst kv).
Proof. unfold after_items. rewrite fold_left_app. reflexivity. Qed.

Lemma dict_get_raw_items (k : string) (items : list (string * pyval)) :
  existsb (String.eqb k) (map fst items) = false ->
  ConfigParser.dict_get k (raw_items items) = None.
Proof.
  induction items as [|[k' v] items IH]; cbn; [reflexivity|].
  intros H. apply orb_false_iff in H. destruct H as [H1 H2].
  rewrite String.eqb_sym, H1. apply IH, H2.
Qed.

Lemma distinct_snoc (l : list string) (x : string) :
  distinct (l ++ [x]) = true ->
  distinct l = true /\ existsb (String.eqb x) l = false.
Proof.
  induction l as [|y l IH]; cbn; [auto|].
  rewrite !andb_true_iff, !negb_true_iff, existsb_app. cbn.
  intros [H1 H2]. apply orb_false_iff in H1. destruct H1 as [H1 H3].
  apply orb_false_iff in H3. destruct H3 as [H3 _].
  destruct (IH H2) as [A B]. repeat split; try assumption.
  rewrite String.eqb_sym, H3. exact B.
Qed.

Lemma dict_after_raw (items : list (string * pyval)) :
  distinct (map fst items) = true -> dict_after [] items = raw_items items.
Proof.
  induction items as [|kv items IH] using rev_ind; [reflexivity|].
  rewrite map_app. cbn [map]. intros H.
  destruct (distinct_snoc _ _ H) as [Hd Hx].
  rewrite dict_after_snoc, (IH Hd).
  rewrite dict_set_fresh by (apply dict_get_raw_items, Hx).
  unfold raw_items. rewrite map_app. reflexivity.
Qed.

Lemma join_snoc_empty (sep : string) (ls : list string) :
  ls <> [] -> join sep (ls ++ [EmptyString]) = (join sep ls ++ sep)%string.
Proof.
  induction ls as [|l ls IH]; [contradiction|]. intros _.
  destruct ls as [|l2 ls].
  - cbn. rewrite append_nil_r. reflexivity.
  - change (join sep ((l :: l2 :: ls) ++ [""]))
      with (l ++ sep ++ join sep ((l2 :: ls) ++ [""]))%string.
    rewrite IH by discriminate.
    change (join sep (l :: l2 :: ls)) with (l ++ sep ++ join sep (l2 :: ls))%string.
    rewrite !append_assoc. reflexivity.
Qed.

Lemma join_values_raw_items (items : list (string * pyval)) :
  forallb item_ok items = true ->
  ConfigParser.join_values (raw_items items) = as_read_items items.
Proof.
  induction items as [|[k v] items IH]; [reflexivity|].
  cbn [forallb]. intros H. apply andb_true_iff in H. destruct H as [H1 H2].
  destruct (item_ok_parts k v H1) as (_ & Hv & _).
  destruct (value_ok_parts _ Hv) as (_ & R & _).
  unfold ConfigParser.join_values, raw_items, as_read_items in *.
  cbn [map fst snd]. rewrite join_split_lines, R, (IH H2). reflexivity.
Qed.

Lemma join_values_app (a b : ConfigParser.raw_section) :
  ConfigParser.join_values (a ++ b)
  = (ConfigParser.join_values a ++ ConfigParser.join_values b)%list.
Proof. apply map_app. Qed.

Lemma forallb_snoc {A} (f : A -> bool) (l : list A) (x : A) :
  forallb f (l ++ [x]) = true -> forallb f l = true /\ f x = true.
Proof.
  rewrite forallb_app. cbn. rewrite andb_true_r. apply andb_true_iff.
Qed.

Lemma read_section_body (source : string) (H : ConfigParser.ReadState) (n : string)
      (i : nat) (items : list (string * pyval)) :
  ConfigParser.rs_sectname H = Some n ->
  ConfigParser.rs_optname H = None ->
  ConfigParser.set_cursect H n [] = H ->
  items_ok items = true ->
  (forall kv, In kv items ->
     ConfigParser.in_pairs (n, fst kv) (ConfigParser.rs_added_options H) = false) ->
  exists raw,
    ConfigParser.read_lines source H i
      (with_newlines (flat_map item_bodies items ++ [EmptyString]))
    = inr (ConfigParser.set_cursect (after_items H n items) n raw)
    /\ ConfigParser.join_values raw = as_read_items items.
Proof.
  intros Hn Ho He Hok Hf.
  unfold items_ok in Hok. apply andb_true_iff in Hok. destruct Hok as [Hok Hd].
  rewrite with_newlines_app, read_lines_app.
  pose proof (read_items source items H n [] i Hn Hok Hd Hf) as RI.
  rewrite He in RI. rewrite RI. clear RI.
  cbn [with_newlines map ConfigParser.read_lines].
  rewrite read_line_blank, continues_set_cursect.
  destruct items as [|kv0 items0] using rev_ind.
  - cbn [after_items fold_left]. unfold ConfigParser.continues. rewrite Hn, Ho.
    exists []. split; reflexivity.
  - clear IHitems0.
    destruct (forallb_snoc _ _ _ Hok) as [Hok1 Hok2].
    rewrite map_app in Hd. cbn [map] in Hd.
    destruct (distinct_snoc _ _ Hd) as [Hd1 Hd2].
    destruct kv0 as [k v].
    destruct (item_ok_parts k v Hok2) as (Hk & Hv & _).
    destruct (key_ok_parts k Hk) as (N & _).
    destruct (value_ok_parts _ Hv) as (_ & R & _).
    rewrite after_items_snoc, dict_after_snoc. cbn [fst snd].
    rewrite (continues_option _ n k); [| |reflexivity|exact N].
    2:{ cbn. destruct (after_items_sectname H n items0) as (A & _).
        rewrite A. exact Hn. }
    rewrite append_value_set.
    eexists. split; [reflexivity|].
    rewrite (dict_after_raw items0 Hd1).
    rewrite dict_set_fresh by (apply dict_get_raw_items, Hd2).
    rewrite join_values_app, (join_values_raw_items items0 Hok1).
    unfold as_read_items. rewrite map_app. f_equal.
    cbn [ConfigParser.join_values map fst snd].
    rewrite join_snoc_empty by apply split_lines_nonempty.
    rewrite join_split_lines, rstrip_app_space by reflexivity.
    rewrite R. reflexivity.
Qed.

Lemma name_ok_parts (n : string) :
  name_ok n = true ->
  n <> "" /\ has_char nl n = false /\ has_char cr n = false
  /\ String.eqb n ConfigParser.default_section = false.
Proof.
  unfold name_ok. rewrite !andb_true_iff, !negb_true_iff.
  intros [[[A B] C] D]. apply String.eqb_neq in A. repeat split; assumption.
Qed.

Lemma in_pairs_app (p : string * string) (a b : list (string * string)) :
  ConfigParser.in_pairs p (a ++ b)
  = ConfigParser.in_pairs p a || ConfigParser.in_pairs p b.
Proof. unfold ConfigParser.in_pairs. apply existsb_app. Qed.

Lemma in_pairs_section (m k n : string) (items : list (string * pyval)) :
  ConfigParser.in_pairs (m, k) (rev (map (fun kv => (n, fst kv)) items)) = true ->
  m = n.
Proof.
  unfold ConfigParser.in_pairs. rewrite existsb_exists.
  intros ([n' k'] & Hin & Heq). apply in_rev in Hin. apply in_map_iff in Hin.
  destruct Hin as (kv & E & _). injection E as <- _.
  cbn in Heq. apply andb_true_iff in Heq. destruct Heq as [Heq _].
  apply String.eqb_eq in Heq. exact Heq.
Qed.

Lemma read_section (source : string) (st : ConfigParser.ReadState) (i : nat)
      (n : string) (items : list (string * pyval)) :
  name_ok n = true ->
  ConfigParser.dict_get n (ConfigParser.rs_sections st) = None ->
  items_ok items = true ->
  (forall k, ConfigParser.in_pairs (n, k) (ConfigParser.rs_added_options st) = false) ->
  exists st' raw,
    ConfigParser.read_lines source st i (with_newlines (section_bodies n items))
    = inr st'
    /\ ConfigParser.rs_defaults st' = ConfigParser.rs_defaults st
    /\ ConfigParser.rs_sections st' = (ConfigParser.rs_sections st ++ [(n, raw)])%list
    /\ ConfigParser.join_values raw = as_read_items items
    /\ ConfigParser.rs_errors st' = ConfigParser.rs_errors st
    /\ (forall m k,
          ConfigParser.in_pairs (m, k) (ConfigParser.rs_added_options st') = true ->
          m = n \/ ConfigParser.in_pairs (m, k) (ConfigParser.rs_added_options st) = true).
Proof.
  intros Hn Hg Hok Hf.
  destruct (name_ok_parts n Hn) as (N & _ & _ & ND).
  unfold section_bodies.
  change ((("[" ++ n ++ "]")%string :: flat_map item_bodies items) ++ [""])%list
    with (("[" ++ n ++ "]")%string :: (flat_map item_bodies items ++ [""]))%list.
  cbn [with_newlines map ConfigParser.read_lines].
  rewrite read_line_header by exact N.
  cbn [ConfigParser.rs_sections ConfigParser.with_indent]. rewrite Hg, ND.
  set (H := ConfigParser.with_header (ConfigParser.with_indent st 0) n true true).
  fold (with_newlines (flat_map item_bodies items ++ [""])).
  destruct (read_section_body source H n (S i) items) as (raw & R & J);
    try assumption; try reflexivity.
  { unfold ConfigParser.set_cursect, H. rewrite ND.
    cbn [ConfigParser.rs_sections ConfigParser.with_header ConfigParser.with_indent].
    rewrite dict_set_last by exact Hg. reflexivity. }
  { intros kv _. apply Hf. }
  exists (ConfigParser.set_cursect (after_items H n items) n raw), raw.
  split; [exact R|].
  destruct (after_items_sectname H n items) as (_ & A2 & A3 & A4 & _ & A6).
  unfold ConfigParser.set_cursect. rewrite ND.
  cbn [ConfigParser.rs_defaults ConfigParser.rs_sections ConfigParser.rs_errors
         ConfigParser.rs_added_options].
  rewrite A2, A3, A4, A6.
  split; [reflexivity|].
  split; [unfold H; cbn; apply dict_set_last, Hg|].
  split; [exact J|]. split; [reflexivity|].
  intros m k. rewrite in_pairs_app. intros Hp. apply orb_true_iff in Hp.
  destruct Hp as [Hp|Hp]; [left; eapply in_pairs_section, Hp|right; exact Hp].
Qed.

Lemma read_default_section (source : string) (st : ConfigParser.ReadState) (i : nat)
      (items : list (string * pyval)) :
  ConfigParser.dict_get ConfigParser.default_section (ConfigParser.rs_sections st) = None ->
  ConfigParser.rs_defaults st = [] ->
  items_ok items = true ->
  (forall k, ConfigParser.in_pairs (ConfigParser.default_section, k)
                                   (ConfigParser.rs_added_options st) = false) ->
  exists st' raw,
    ConfigParser.read_lines source st i
      (with_newlines (section_bodies ConfigParser.default_section items))
    = inr st'
    /\ ConfigParser.rs_defaults st' = raw
    /\ ConfigParser.rs_sections st' = ConfigParser.rs_sections st
    /\ ConfigParser.join_values raw = as_read_items items
    /\ ConfigParser.rs_errors st' = ConfigParser.rs_errors st
    /\ (forall m k,
          ConfigParser.in_pairs (m, k) (ConfigParser.rs_added_options st') = true ->
          m = ConfigParser.default_section
          \/ ConfigParser.in_pairs (m, k) (ConfigParser.rs_added_options st) = true).
Proof.
  intros Hg Hd Hok Hf.
  unfold section_bodies.
  change ((("[" ++ ConfigParser.default_section ++ "]")%string
             :: flat_map item_bodies items) ++ [""])%list
    with (("[" ++ ConfigParser.default_section ++ "]")%string
            :: (flat_map item_bodies items ++ [""]))%list.
  cbn [with_newlines map ConfigParser.read_lines].
  rewrite read_line_header by discriminate.
  cbn [ConfigParser.rs_sections ConfigParser.with_indent]. rewrite Hg.
  rewrite String.eqb_refl.
  set (H := ConfigParser.with_header (ConfigParser.with_indent st 0)
                                     ConfigParser.default_section false false).
  fold (with_newlines (flat_map item_bodies items ++ [""])).
  destruct (read_section_body source H ConfigParser.default_section (S i) items)
    as (raw & R & J); try assumption; try reflexivity.
  { unfold ConfigParser.set_cursect, H. rewrite String.eqb_refl.
    cbn [ConfigParser.rs_defaults ConfigParser.with_header ConfigParser.with_indent].
    rewrite <- Hd. reflexivity. }
  { intros kv _. apply Hf. }
  exists (ConfigParser.set_cursect (after_items H ConfigParser.default_section items)
                                   ConfigParser.default_section raw), raw.
  split; [exact R|].
  destruct (after_items_sectname H ConfigParser.default_section items)
    as (_ & A2 & A3 & A4 & _ & A6).
  unfold ConfigParser.set_cursect. rewrite String.eqb_refl.
  cbn [ConfigParser.rs_defaults ConfigParser.rs_sections ConfigParser.rs_errors
         ConfigParser.rs_added_options].
  rewrite A3, A4, A6.
  split; [reflexivity|]. split; [reflexivity|].
  split; [exact J|]. split; [reflexivity|].
  intros m k. rewrite in_pairs_app. intros Hp. apply orb_true_iff in Hp.
  destruct Hp as [Hp|Hp]; [left; eapply in_pairs_section, Hp|right; exact Hp].
Qed.

Lemma dict_get_app_none {V} (k : string) (a b : list (string * V)) :
  ConfigParser.dict_get k a = None ->
  ConfigParser.dict_get k (a ++ b) = ConfigParser.dict_get k b.
Proof.
  induction a as [|[k' v] a IH]; cbn; [reflexivity|].
  destruct (String.eqb k' k); [discriminate|exact IH].
Qed.

Lemma section_ok_parts (sd : pyval * list (string * pyval)) :
  section_ok sd = true ->
  exists n, fst sd = PyStr n /\ name_ok n = true /\ items_ok (snd sd) = true.
Proof.
  unfold section_ok. destruct (fst sd); try discriminate.
  rewrite andb_true_iff. intros [A B]. eauto.
Qed.

Lemma read_sections (source : string) (sections : list (pyval * list (string * pyval))) :
  forall (st : ConfigParser.ReadState) (i : nat),
  forallb section_ok sections = true ->
  distinct (map (fun sd => py_str (fst sd)) sections) = true ->
  (forall sd, In sd sections ->
     ConfigParser.dict_get (py_str (fst sd)) (ConfigParser.rs_sections st) = None) ->
  (forall sd k, In sd sections ->
     ConfigParser.in_pairs (py_str (fst sd), k) (ConfigParser.rs_added_options st)
     = false) ->
  exists st',
    ConfigParser.read_lines source st i
      (with_newlines
         (flat_map (fun sd => section_bodies (py_str (fst sd)) (snd sd)) sections))
    = inr st'
    /\ ConfigParser.rs_defaults st' = ConfigParser.rs_defaults st
    /\ ConfigParser.rs_errors st' = ConfigParser.rs_errors st
    /\ map finish_section (ConfigParser.rs_sections st')
       = (map finish_section (ConfigParser.rs_sections st)
          ++ map as_read_section sections)%list.
Proof.
  induction sections as [|sd sections IH]; intros st i Hok Hd Hg Hf.
  - exists st. cbn. rewrite app_nil_r. repeat split.
  - cbn [forallb] in Hok. apply andb_true_iff in Hok. destruct Hok as [Hok1 Hok2].
    cbn [map distinct] in Hd. apply andb_true_iff in Hd. destruct Hd as [Hd1 Hd2].
    apply negb_true_iff in Hd1.
    destruct (section_ok_parts sd Hok1) as (n & En & Hn & Hi).
    cbn [flat_map]. rewrite with_newlines_app, read_lines_app.
    rewrite En in *. cbn [py_str] in *.
    destruct (read_section source st i n (snd sd) Hn) as (st1 & raw & R & A & B & J & E & P);
      try assumption.
    { specialize (Hg sd (or_introl eq_refl)). rewrite En in Hg. exact Hg. }
    { intros k. specialize (Hf sd k (or_introl eq_refl)). rewrite En in Hf. exact Hf. }
    rewrite R.
    destruct (IH st1 (i + List.length (with_newlines (section_bodies n (snd sd))))%nat)
      as (st' & R' & A' & E' & M'); try assumption.
    { intros sd' Hin. rewrite B, dict_get_app_none by (apply Hg; right; exact Hin).
      cbn. rewrite String.eqb_sym.
      rewrite (existsb_eqb_false n _ (py_str (fst sd')) Hd1);
        [reflexivity|].
      apply (in_map (fun sd0 => py_str (fst sd0)) _ _ Hin). }
    { intros sd' k Hin.
      destruct (ConfigParser.in_pairs (py_str (fst sd'), k)
                                      (ConfigParser.rs_added_options st1)) eqn:Q;
        [|reflexivity].
      exfalso. destruct (P _ _ Q) as [Eq|Old].
      - pose proof (existsb_eqb_false n _ (py_str (fst sd')) Hd1
                      (in_map (fun sd0 => py_str (fst sd0)) _ _ Hin)) as X.
        rewrite Eq, String.eqb_refl in X. discriminate.
      - rewrite (Hf sd' k (or_intror Hin)) in Old. discriminate. }
    exists st'. split; [exact R'|]. split; [congruence|]. split; [congruence|].
    rewrite M', B, map_app. cbn [map]. rewrite <- app_assoc. cbn [app].
    unfold finish_section at 2. unfold as_read_section at 2.
    cbn [fst snd]. rewrite J, En. reflexivity.
Qed.

Lemma has_char_concat (a : ascii) (lines : list string) :
  forallb (fun l => negb (has_char a l)) lines = true ->
  has_char a (String.concat "" lines) = false.
Proof.
  induction lines as [|l lines IH]; [reflexivity|].
  cbn [forallb]. intros H. apply andb_true_iff in H. destruct H as [H1 H2].
  apply negb_true_iff in H1.
  rewrite concat_cons, has_char_app, H1, (IH H2). reflexivity.
Qed.

Lemma split_lines_no_nl (v : string) :
  forallb (fun l => negb (has_char nl l)) (split_lines v) = true.
Proof.
  induction v as [|c v IH]; [reflexivity|]. cbn [split_lines].
  destruct (Ascii.eqb c nl) eqn:E; [exact IH|].
  destruct (split_lines v) as [|l ls]; cbn in *; rewrite E; [reflexivity|exact IH].
Qed.

Lemma split_lines_no_char (a : ascii) (v : string) :
  has_char a v = false ->
  forallb (fun l => negb (has_char a l)) (split_lines v) = true.
Proof.
  induction v as [|c v IH]; [reflexivity|]. cbn [has_char split_lines].
  intros H. apply orb_false_iff in H. destruct H as [H1 H2].
  specialize (IH H2).
  destruct (Ascii.eqb c nl); [exact IH|].
  destruct (split_lines v) as [|l ls]; cbn in *; rewrite H1; [reflexivity|exact IH].
Qed.

Lemma item_bodies_clean (a : ascii) (k : string) (v : pyval) :
  a = nl \/ a = cr ->
  has_char a k = false ->
  forallb (fun l => negb (has_char a l)) (split_lines (py_str v)) = true ->
  forallb (fun l => negb (has_char a l)) (item_bodies (k, v)) = true.
Proof.
  intros Ha Hk Hl. unfold item_bodies. cbn [fst snd].
  rewrite (split_lines_hd_tl (py_str v)) in Hl. cbn [forallb] in Hl.
  apply andb_true_iff in Hl. destruct Hl as [H1 H2]. apply negb_true_iff in H1.
  cbn [forallb]. rewrite !has_char_app, Hk, H1.
  replace (has_char a " = ") with false by (destruct Ha as [->| ->]; reflexivity).
  cbn [orb negb andb].
  induction (tl (split_lines (py_str v))) as [|l ls IH]; [reflexivity|].
  cbn [forallb map] in *. apply andb_true_iff in H2. destruct H2 as [H3 H4].
  apply negb_true_iff in H3.
  rewrite has_char_app, H3, (IH H4).
  destruct Ha as [->| ->]; reflexivity.
Qed.

Lemma items_bodies_clean (a : ascii) (items : list (string * pyval)) :
  a = nl \/ a = cr ->
  forallb item_ok items = true ->
  forallb (fun l => negb (has_char a l)) (flat_map item_bodies items) = true.
Proof.
  intros Ha. induction items as [|[k v] items IH]; [reflexivity|].
  cbn [forallb flat_map]. intros H. apply andb_true_iff in H. destruct H as [H1 H2].
  rewrite forallb_app, (IH H2), andb_true_r.
  destruct (item_ok_parts k v H1) as (Hk & Hv & _).
  destruct (key_ok_parts k Hk) as (_ & _ & _ & _ & Knl & Kcr & _).
  destruct (value_ok_parts _ Hv) as (Vcr & _).
  apply item_bodies_clean; [exact Ha| |].
  - destruct Ha as [->| ->]; assumption.
  - destruct Ha as [->| ->];
      [apply split_lines_no_nl|apply split_lines_no_char, Vcr].
Qed.

Lemma section_bodies_clean (a : ascii) (n : string) (items : list (string * pyval)) :
  a = nl \/ a = cr ->
  has_char a n = false ->
  items_ok items = true ->
  forallb (fun l => negb (has_char a l)) (section_bodies n items) = true.
Proof.
  intros Ha Hn Hi. unfold items_ok in Hi. apply andb_true_iff in Hi.
  destruct Hi as [Hi _]. unfold section_bodies.
  rewrite forallb_app. cbn [forallb].
  rewrite (items_bodies_clean a items Ha Hi), !has_char_app, Hn.
  destruct Ha as [->| ->]; reflexivity.
Qed.

Lemma parser_bodies_clean (a : ascii) (cp : ConfigParser.RawConfigParser) :
  a = nl \/ a = cr ->
  writable cp = true ->
  forallb (fun l => negb (has_char a l)) (parser_bodies cp) = true.
Proof.
  intros Ha W. unfold writable in W.
  apply andb_true_iff in W. destruct W as [W _].
  apply andb_true_iff in W. destruct W as [Wd Ws].
  unfold parser_bodies. rewrite forallb_app. apply andb_true_iff. split.
  - destruct (ConfigParser.defaults cp) eqn:E; [reflexivity|]. rewrite <- E in *.
    apply section_bodies_clean; [exact Ha| |exact Wd].
    destruct Ha as [->| ->]; reflexivity.
  - induction (ConfigParser.sections cp) as [|sd l IH]; [reflexivity|].
    cbn [forallb flat_map] in *. apply andb_true_iff in Ws. destruct Ws as [W1 W2].
    rewrite forallb_app, (IH W2), andb_true_r.
    destruct (section_ok_parts sd W1) as (n & En & Hn & Hi).
    rewrite En. cbn [py_str].
    destruct (name_ok_parts n Hn) as (_ & Nnl & Ncr & _).
    apply section_bodies_clean; [exact Ha| |exact Hi].
    destruct Ha as [->| ->]; assumption.
Qed.

Lemma with_newlines_clean_cr (bodies : list string) :
  forallb (fun l => negb (has_char cr l)) bodies = true ->
  forallb (fun l => negb (has_char cr l)) (with_newlines bodies) = true.
Proof.
  induction bodies as [|b bs IH]; [reflexivity|]. cbn [forallb with_newlines map].
  intros H. apply andb_true_iff in H. destruct H as [H1 H2].
  apply negb_true_iff in H1.
  rewrite has_char_app, H1. cbn. apply IH, H2.
Qed.

(** What [write] gives for a writable parser, [read] turns into the same
    sections, keys and values. *)
Theorem read_text_write (source : string) (cp : ConfigParser.RawConfigParser) :
  writable cp = true ->
  ConfigParser.read_text source (ConfigParser.write cp) = Return (as_read cp).
Proof.
  intros W.
  pose proof (parser_bodies_clean nl cp (or_introl eq_refl) W) as Cnl.
  pose proof (parser_bodies_clean cr cp (or_intror eq_refl) W) as Ccr.
  unfold ConfigParser.read_text.
  rewrite write_bodies.
  rewrite universal_newlines_id
    by (apply has_char_concat, with_newlines_clean_cr, Ccr).
  rewrite file_lines_bodies by exact Cnl.
  unfold writable in W.
  apply andb_true_iff in W. destruct W as [W Wn].
  apply andb_true_iff in W. destruct W as [Wd Ws].
  unfold parser_bodies. rewrite with_newlines_app, read_lines_app.
  match goal with
  | |- context [ConfigParser.read_lines source ConfigParser.read_start 1
                  (with_newlines ?x)] => set (db := x)
  end.
  assert (D : exists st1,
             ConfigParser.read_lines source ConfigParser.read_start 1
               (with_newlines db) = inr st1
             /\ ConfigParser.join_values (ConfigParser.rs_defaults st1)
                = as_read_items (ConfigParser.defaults cp)
             /\ ConfigParser.rs_sections st1 = []
             /\ ConfigParser.rs_errors st1 = []
             /\ forall m k,
                  ConfigParser.in_pairs (m, k) (ConfigParser.rs_added_options st1) = true ->
                  m = ConfigParser.default_section).
  { subst db. destruct (ConfigParser.defaults cp) as [|kv d] eqn:E.
    - exists ConfigParser.read_start. repeat split. intros m k H. discriminate H.
    - destruct (read_default_section source ConfigParser.read_start 1
                  (kv :: d) eq_refl eq_refl Wd (fun _ => eq_refl))
        as (st1 & raw & R & A & B & J & Er & P).
      exists st1. split; [exact R|]. split; [rewrite A; exact J|].
      split; [exact B|]. split; [exact Er|].
      intros m k H. destruct (P m k H) as [X|X]; [exact X|discriminate X]. }
  destruct D as (st1 & R1 & J1 & S1 & E1 & P1).
  rewrite R1.
  destruct (read_sections source (ConfigParser.sections cp) st1
              (1 + List.length (with_newlines db))%nat Ws Wn)
    as (st2 & R2 & A2 & E2 & M2).
  { intros sd _. rewrite S1. reflexivity. }
  { intros sd k Hin.
    destruct (ConfigParser.in_pairs (py_str (fst sd), k)
                                    (ConfigParser.rs_added_options st1)) eqn:Q;
      [|reflexivity].
    exfalso. pose proof (P1 _ _ Q) as X.
    assert (Hs : section_ok sd = true)
      by (eapply forallb_forall in Ws; [exact Ws|exact Hin]).
    destruct (section_ok_parts sd Hs) as (n & En & Hn & _).
    destruct (name_ok_parts n Hn) as (_ & _ & _ & ND).
    rewrite En in X. cbn in X. rewrite X in ND. discriminate ND. }
  rewrite R2, E2, E1.
  unfold ConfigParser.finish, as_read. f_equal. f_equal.
  - rewrite A2. exact J1.
  - change (map (fun sd => (PyStr (fst sd), ConfigParser.join_values (snd sd)))
                (ConfigParser.rs_sections st2))
      with (map finish_section (ConfigParser.rs_sections st2)).
    rewrite M2, S1. reflexivity.
Qed.

(** *** Numbers and booleans as text *)

Lemma digits_of_uint (u : Decimal.uint) : digits (NilEmpty.string_of_uint u) = true.
Proof. induction u; cbn; try reflexivity; exact IHu. Qed.

Lemma digits_plain (s : string) : digits s = true -> plain s = true.
Proof.
  induction s as [|c s IH]; [reflexivity|]. cbn [digits plain].
  intros H. apply andb_true_iff in H. destruct H as [H1 H2].
  rewrite (IH H2), andb_true_r.
  unfold ConfigParser.is_digit, between in H1. unfold isspace, between.
  apply andb_true_iff in H1. destruct H1 as [A B].
  apply Nat.leb_le in A, B.
  repeat match goal with
         | |- context [(?x <=? ?y)%nat] => destruct (Nat.leb_spec x y)
         | |- context [(?x =? ?y)%nat] => destruct (Nat.eqb_spec x y)
         end; try reflexivity; lia.
Qed.

Lemma literal_digits_id (s : string) (b : bool) :
  digits s = true -> (b = true \/ s <> "") ->
  ConfigParser.literal_digits b s = Some s.
Proof.
  revert b. induction s as [|c s IH]; intros b Hd Hb.
  - destruct Hb as [->|N]; [reflexivity|contradiction].
  - cbn [digits] in Hd. apply andb_true_iff in Hd. destruct Hd as [H1 H2].
    cbn [ConfigParser.literal_digits]. rewrite H1.
    rewrite (IH true H2) by (left; reflexivity). reflexivity.
Qed.

Lemma unsigned_literal_of_uint (u : Decimal.uint) :
  u <> Decimal.Nil ->
  ConfigParser.unsigned_literal (NilEmpty.string_of_uint u) = Some (Z.of_uint u).
Proof.
  intros N. unfold ConfigParser.unsigned_literal.
  rewrite literal_digits_id.
  - rewrite NilEmpty.usu. reflexivity.
  - apply digits_of_uint.
  - right. destruct u; cbn; congruence.
Qed.

Lemma plain_lstrip (s : string) : plain s = true -> lstrip s = s.
Proof.
  destruct s as [|c s]; [reflexivity|]. cbn. intros H.
  apply andb_true_iff in H. destruct H as [H _].
  apply negb_true_iff in H. rewrite H. reflexivity.
Qed.

Lemma plain_rstrip (s : string) : plain s = true -> rstrip s = s.
Proof.
  induction s as [|c s IH]; [reflexivity|]. cbn [plain rstrip]. intros H.
  apply andb_true_iff in H. destruct H as [H1 H2].
  apply negb_true_iff in H1. rewrite (IH H2), H1.
  destruct s; reflexivity.
Qed.

Lemma plain_stripped (s : string) : plain s = true -> stripped s = true.
Proof.
  intros H. apply stripped_spec. split; [apply plain_lstrip|apply plain_rstrip]; exact H.
Qed.

Lemma plain_no_char (a : ascii) (s : string) :
  isspace a = true -> plain s = true -> has_char a s = false.
Proof.
  intros Ha. induction s as [|c s IH]; [reflexivity|]. cbn [plain has_char].
  intros H. apply andb_true_iff in H. destruct H as [H1 H2].
  rewrite (IH H2), orb_false_r. apply Ascii.eqb_neq. intros ->.
  rewrite Ha in H1. discriminate.
Qed.

Lemma split_lines_single (s : string) : has_char nl s = false -> split_lines s = [s].
Proof.
  induction s as [|c s IH]; [reflexivity|]. cbn [has_char split_lines].
  intros H. apply orb_false_iff in H. destruct H as [H1 H2].
  rewrite H1, (IH H2). reflexivity.
Qed.

Lemma plain_value_ok (s : string) : plain s = true -> value_ok s = true.
Proof.
  intros H. unfold value_ok.
  rewrite (plain_no_char cr s eq_refl H), (plain_rstrip s H), String.eqb_refl.
  rewrite (split_lines_single s (plain_no_char nl s eq_refl H)).
  cbn. rewrite (plain_stripped s H). reflexivity.
Qed.

Lemma int_text_plain (z : Z) : plain (int_text z) = true.
Proof.
  unfold int_text. destruct z as [|p|p]; cbn [Z.to_int NilZero.string_of_int].
  - reflexivity.
  - pose proof (DecimalPos.Unsigned.to_uint_nonnil p) as N.
    destruct (Pos.to_uint p) eqn:E; [contradiction|..];
      apply digits_plain; rewrite <- E;
      (replace (NilZero.string_of_uint (Pos.to_uint p))
         with (NilEmpty.string_of_uint (Pos.to_uint p))
         by (rewrite E; reflexivity)); apply digits_of_uint.
  - pose proof (DecimalPos.Unsigned.to_uint_nonnil p) as N.
    cbn [plain]. apply andb_true_iff. split; [reflexivity|].
    destruct (Pos.to_uint p) eqn:E; [contradiction|..];
      apply digits_plain; rewrite <- E;
      (replace (NilZero.string_of_uint (Pos.to_uint p))
         with (NilEmpty.string_of_uint (Pos.to_uint p))
         by (rewrite E; reflexivity)); apply digits_of_uint.
Qed.

Lemma nilzero_nonnil (u : Decimal.uint) :
  u <> Decimal.Nil -> NilZero.string_of_uint u = NilEmpty.string_of_uint u.
Proof. destruct u; [contradiction|reflexivity..]. Qed.

Lemma of_uint_to_uint (p : positive) : Z.of_uint (Pos.to_uint p) = Z.pos p.
Proof. unfold Z.of_uint. rewrite DecimalPos.Unsigned.of_to. reflexivity. Qed.

Lemma digits_head (s : string) :
  digits s = true -> s <> "" ->
  exists c r, s = String c r /\ Ascii.eqb c "-" = false /\ Ascii.eqb c "+" = false.
Proof.
  destruct s as [|c r]; [contradiction|]. cbn [digits]. intros H _.
  apply andb_true_iff in H. destruct H as [H _].
  exists c, r. split; [reflexivity|].
  unfold ConfigParser.is_digit, between in H.
  apply andb_true_iff in H. destruct H as [A B]. apply Nat.leb_le in A, B.
  rewrite !ascii_eqb_code. split; apply Nat.eqb_neq; cbn; unfold code in *; lia.
Qed.

Lemma int_of_text_int_text (z : Z) : ConfigParser.int_of_text (int_text z) = Some z.
Proof.
  unfold ConfigParser.int_of_text.
  rewrite (stripped_strip _ (plain_stripped _ (int_text_plain z))).
  unfold int_text. destruct z as [|p|p]; cbn [Z.to_int NilZero.string_of_int].
  - reflexivity.
  - pose proof (DecimalPos.Unsigned.to_uint_nonnil p) as N.
    rewrite nilzero_nonnil by exact N.
    pose proof (unsigned_literal_of_uint _ N) as U. rewrite of_uint_to_uint in U.
    destruct (digits_head (NilEmpty.string_of_uint (Pos.to_uint p)))
      as (c & r & E & M & Pl).
    + apply digits_of_uint.
    + destruct (Pos.to_uint p); cbn; congruence.
    + rewrite E in U |- *.
      destruct c as [[] [] [] [] [] [] [] []]; try exact U; discriminate.
  - pose proof (DecimalPos.Unsigned.to_uint_nonnil p) as N.
    rewrite nilzero_nonnil by exact N.
    rewrite unsigned_literal_of_uint by exact N.
    rewrite of_uint_to_uint. reflexivity.
Qed.

(** *** What [write] puts into the parser *)

Lemma py_eqb_refl (v : pyval) : py_eqb v v = true.
Proof.
  destruct v; cbn; try reflexivity.
  - destruct b; reflexivity.
  - apply Z.eqb_refl.
  - apply String.eqb_refl.
  - rewrite !String.eqb_refl. reflexivity.
Qed.

Lemma sect_get_set_same {V} (k : pyval) (v : V) (d : list (pyval * V)) :
  ConfigParser.sect_get k (ConfigParser.sect_set k v d) = Some v.
Proof.
  induction d as [|[k' v'] d IH]; cbn [ConfigParser.sect_get ConfigParser.sect_set].
  - rewrite py_eqb_refl. reflexivity.
  - destruct (py_eqb k' k) eqn:E; cbn [ConfigParser.sect_get]; rewrite E;
      [reflexivity|exact IH].
Qed.

Lemma sect_set_set {V} (k : pyval) (v v' : V) (d : list (pyval * V)) :
  ConfigParser.sect_set k v' (ConfigParser.sect_set k v d) = ConfigParser.sect_set k v' d.
Proof.
  induction d as [|[k' x] d IH]; cbn [ConfigParser.sect_set].
  - rewrite py_eqb_refl. reflexivity.
  - destruct (py_eqb k' k) eqn:E; cbn [ConfigParser.sect_set]; rewrite E;
      [reflexivity|]. rewrite IH. reflexivity.
Qed.

Lemma set_run (cp : ConfigParser.RawConfigParser) (section : pyval) (key : string)
      (v : pyval) (d : list (string * pyval)) :
  truthy section = true ->
  py_eqb section (PyStr ConfigParser.default_section) = false ->
  ConfigParser.sect_get section (ConfigParser.sections cp) = Some d ->
  ConfigParser.set cp section key v
  = Return {| ConfigParser.defaults := ConfigParser.defaults cp;
              ConfigParser.sections :=
                ConfigParser.sect_set section
                  (ConfigParser.dict_set (ConfigParser.optionxform key) v d)
                  (ConfigParser.sections cp) |}.
Proof.
  intros T D G. unfold ConfigParser.set. rewrite T, D, G. reflexivity.
Qed.

Lemma sect_get_app_new {V} (k : pyval) (v : V) (d : list (pyval * V)) :
  ConfigParser.sect_get k d = None ->
  ConfigParser.sect_get k (d ++ [(k, v)]) = Some v.
Proof.
  induction d as [|[k' v'] d IH]; cbn [ConfigParser.sect_get app].
  - rewrite py_eqb_refl. reflexivity.
  - destruct (py_eqb k' k); [discriminate|exact IH].
Qed.

(** The config part of [write] on the parser: the section is added when it
    is missing, and its dict gets the five values. *)
Lemma update_config_run (c : Configuration) (cp : ConfigParser.RawConfigParser) :
  let section := config_profile (profile c) in
  truthy section = true ->
  py_eqb section (PyStr ConfigParser.default_section) = false ->
  exists base d,
    ConfigParser.sect_get section base = Some d
    /\ (match ConfigParser.sect_get section (ConfigParser.sections cp) with
        | Some _ => base = ConfigParser.sections cp
        | None => base = (ConfigParser.sections cp ++ [(section, [])])%list /\ d = []
        end)
    /\ update_config c cp
       = Return {| ConfigParser.defaults := ConfigParser.defaults cp;
                   ConfigParser.sections :=
                     ConfigParser.sect_set section (config_items c d) base |}.
Proof.
  intros section T D.
  assert (A : exists base d,
             ConfigParser.sect_get section base = Some d
             /\ (match ConfigParser.sect_get section (ConfigParser.sections cp) with
                 | Some _ => base = ConfigParser.sections cp
                 | None => base = (ConfigParser.sections cp ++ [(section, [])])%list
                           /\ d = []
                 end)
             /\ (if negb (ConfigParser.has_section cp section)
                 then ConfigParser.add_section cp section else Return cp)
                = Return {| ConfigParser.defaults := ConfigParser.defaults cp;
                            ConfigParser.sections := base |}).
  { unfold ConfigParser.has_section, ConfigParser.add_section, ConfigParser.has_section.
    destruct (ConfigParser.sect_get section (ConfigParser.sections cp)) as [d|] eqn:G.
    - exists (ConfigParser.sections cp), d. cbn. destruct cp. auto.
    - exists (ConfigParser.sections cp ++ [(section, [])])%list, [].
      cbn. rewrite D. split; [apply sect_get_app_new, G|]. auto. }
  destruct A as (base & d & G & Hb & Ha).
  exists base, d. split; [exact G|]. split; [exact Hb|].
  unfold update_config. fold section. rewrite Ha. unfold and_then.
  rewrite (set_run {| ConfigParser.defaults := ConfigParser.defaults cp;
                      ConfigParser.sections := base |}
                   section "region" (region c) d T D G).
  cbn [ConfigParser.defaults ConfigParser.sections].
  erewrite set_run; [|exact T|exact D|apply sect_get_set_same].
  cbn [ConfigParser.defaults ConfigParser.sections].
  erewrite set_run; [|exact T|exact D|apply sect_get_set_same].
  cbn [ConfigParser.defaults ConfigParser.sections].
  erewrite set_run; [|exact T|exact D|apply sect_get_set_same].
  cbn [ConfigParser.defaults ConfigParser.sections].
  erewrite set_run; [|exact T|exact D|apply sect_get_set_same].
  cbn [ConfigParser.defaults ConfigParser.sections].
  rewrite !sect_set_set. reflexivity.
Qed.

Lemma dict_get_set_other {V} (k k' : string) (v : V) (d : list (string * V)) :
  String.eqb k' k = false ->
  ConfigParser.dict_get k (ConfigParser.dict_set k' v d) = ConfigParser.dict_get k d.
Proof.
  intros N. induction d as [|[x y] d IH]; cbn [ConfigParser.dict_get ConfigParser.dict_set].
  - rewrite N. reflexivity.
  - destruct (String.eqb x k') eqn:E; cbn [ConfigParser.dict_get].
    + apply String.eqb_eq in E. subst x. rewrite N. reflexivity.
    + rewrite IH. reflexivity.
Qed.

Lemma config_items_values (c : Configuration) (d : list (string * pyval)) :
  ConfigParser.dict_get "region" (config_items c d) = Some (region c)
  /\ ConfigParser.dict_get "asa.ask_role" (config_items c d) = Some (ask_role c)
  /\ ConfigParser.dict_get "asa.duration" (config_items c d) = Some (duration c)
  /\ ConfigParser.dict_get "asa.login_url" (config_items c d) = Some (login_url c)
  /\ ConfigParser.dict_get "asa.role_arn" (config_items c d) = Some (role_arn c).
Proof.
  unfold config_items.
  repeat split;
    repeat first [ rewrite dict_get_set_same
                 | rewrite dict_get_set_other by reflexivity ];
    reflexivity.
Qed.

Lemma keys_dict_set {V} (x k : string) (v : V) (d : list (string * V)) :
  existsb (String.eqb x) (map fst (ConfigParser.dict_set k v d))
  = existsb (String.eqb x) (map fst d) || String.eqb x k.
Proof.
  induction d as [|[k' v'] d IH]; cbn [ConfigParser.dict_set map fst existsb].
  - rewrite orb_false_r. reflexivity.
  - destruct (String.eqb_spec k' k) as [->|N]; cbn [map fst existsb].
    + destruct (String.eqb x k); cbn; [reflexivity|]. rewrite orb_false_r. reflexivity.
    + rewrite IH, orb_assoc. reflexivity.
Qed.

Lemma items_ok_dict_set (k : string) (v : pyval) (d : list (string * pyval)) :
  items_ok d = true -> item_ok (k, v) = true ->
  items_ok (ConfigParser.dict_set k v d) = true.
Proof.
  unfold items_ok. intros H Hi. apply andb_true_iff in H. destruct H as [Hf Hd].
  induction d as [|[k' v'] d IH]; cbn [ConfigParser.dict_set].
  - cbn. rewrite Hi. reflexivity.
  - cbn [forallb map fst distinct] in Hf, Hd.
    apply andb_true_iff in Hf. destruct Hf as [Hf1 Hf2].
    apply andb_true_iff in Hd. destruct Hd as [Hd1 Hd2].
    destruct (String.eqb_spec k' k) as [->|N]; cbn [forallb map fst distinct].
    + rewrite Hi, Hf2, Hd1, Hd2. reflexivity.
    + specialize (IH Hf2 Hd2). apply andb_true_iff in IH. destruct IH as [I1 I2].
      rewrite Hf1, I1, I2, keys_dict_set.
      apply negb_true_iff in Hd1. rewrite Hd1.
      apply String.eqb_neq in N. rewrite N. reflexivity.
Qed.

Lemma sections_ok_sect_set (section : pyval) (d0 d' : list (string * pyval))
      (S : list (pyval * list (string * pyval))) :
  forallb section_ok S = true ->
  ConfigParser.sect_get section S = Some d0 ->
  items_ok d' = true ->
  forallb section_ok (ConfigParser.sect_set section d' S) = true
  /\ map (fun sd => py_str (fst sd)) (ConfigParser.sect_set section d' S)
     = map (fun sd => py_str (fst sd)) S.
Proof.
  intros Hs Hg Hd. induction S as [|[k x] S IH]; [discriminate|].
  cbn [forallb] in Hs. apply andb_true_iff in Hs. destruct Hs as [H1 H2].
  cbn [ConfigParser.sect_get ConfigParser.sect_set] in *.
  destruct (py_eqb k section).
  - cbn [forallb map fst]. split; [|reflexivity].
    rewrite H2, andb_true_r.
    unfold section_ok in *. cbn [fst snd] in *. destruct k; try discriminate.
    apply andb_true_iff in H1. destruct H1 as [A _]. rewrite A, Hd. reflexivity.
  - destruct (IH H2 Hg) as [I1 I2]. cbn [forallb map fst].
    rewrite H1, I1, I2. split; reflexivity.
Qed.

Lemma sect_get_none_names (n : string) (S : list (pyval * list (string * pyval))) :
  forallb section_ok S = true ->
  ConfigParser.sect_get (PyStr n) S = None ->
  existsb (String.eqb n) (map (fun sd => py_str (fst sd)) S) = false.
Proof.
  induction S as [|[k x] S IH]; [reflexivity|]. cbn [forallb]. intros H G.
  apply andb_true_iff in H. destruct H as [H1 H2].
  cbn [ConfigParser.sect_get] in G.
  destruct (section_ok_parts _ H1) as (m & Em & _). cbn [fst] in Em. subst k.
  cbn [py_eqb] in G. destruct (String.eqb m n) eqn:E; [discriminate|].
  cbn [map existsb fst py_str]. rewrite String.eqb_sym, E. apply IH; assumption.
Qed.

Lemma distinct_add (l : list string) (x : string) :
  distinct l = true -> existsb (String.eqb x) l = false -> distinct (l ++ [x]) = true.
Proof.
  induction l as [|y l IH]; [reflexivity|]. cbn [distinct existsb app].
  intros H E. apply andb_true_iff in H. destruct H as [H1 H2].
  apply orb_false_iff in E. destruct E as [E1 E2].
  rewrite (IH H2 E2), andb_true_r, existsb_app. cbn [existsb].
  apply negb_true_iff in H1. rewrite H1, String.eqb_sym, E1. reflexivity.
Qed.

Lemma update_config_writable (c : Configuration) (cp cp' : ConfigParser.RawConfigParser)
      (n : string) :
  config_profile (profile c) = PyStr n ->
  name_ok n = true ->
  item_ok ("region", region c) = true ->
  item_ok ("asa.ask_role", ask_role c) = true ->
  item_ok ("asa.duration", duration c) = true ->
  item_ok ("asa.login_url", login_url c) = true ->
  item_ok ("asa.role_arn", role_arn c) = true ->
  writable cp = true ->
  update_config c cp = Return cp' ->
  writable cp'
  = true
  /\ exists d, ConfigParser.sect_get (PyStr n) (ConfigParser.sections cp')
               = Some (config_items c d).
Proof.
  intros En Hn I1 I2 I3 I4 I5 W U.
  destruct (name_ok_parts n Hn) as (N & _ & _ & ND).
  assert (T : truthy (config_profile (profile c)) = true).
  { rewrite En. cbn. apply negb_true_iff, String.eqb_neq, N. }
  assert (D : py_eqb (config_profile (profile c)) (PyStr ConfigParser.default_section)
              = false) by (rewrite En; exact ND).
  destruct (update_config_run c cp T D) as (base & d & G & Hb & R).
  rewrite R in U. injection U as <-. rewrite En in *.
  unfold writable in W.
  apply andb_true_iff in W. destruct W as [W Wn].
  apply andb_true_iff in W. destruct W as [Wd Ws].
  assert (B : forallb section_ok base = true
              /\ distinct (map (fun sd => py_str (fst sd)) base) = true
              /\ items_ok d = true).
  { destruct (ConfigParser.sect_get (PyStr n) (ConfigParser.sections cp)) as [d0|] eqn:G0.
    - subst base. split; [exact Ws|]. split; [exact Wn|].
      rewrite G0 in G. injection G as <-.
      clear - Ws G0. induction (ConfigParser.sections cp) as [|[k x] S IH]; [discriminate|].
      cbn [forallb ConfigParser.sect_get] in *.
      apply andb_true_iff in Ws. destruct Ws as [H1 H2].
      destruct (py_eqb k (PyStr n)).
      + injection G0 as <-. destruct (section_ok_parts _ H1) as (m & _ & _ & Hi).
        exact Hi.
      + apply IH; assumption.
    - destruct Hb as [-> ->]. split; [|split; [|reflexivity]].
      + rewrite forallb_app, Ws. cbn. unfold section_ok. cbn [fst snd].
        rewrite Hn. reflexivity.
      + rewrite map_app. cbn [map fst py_str].
        apply distinct_add; [exact Wn|]. apply sect_get_none_names; assumption. }
  destruct B as (B1 & B2 & B3).
  assert (Ic : items_ok (config_items c d) = true).
  { unfold config_items. repeat apply items_ok_dict_set; assumption. }
  destruct (sections_ok_sect_set (PyStr n) d (config_items c d) base B1 G Ic) as [S1 S2].
  split.
  - unfold writable. cbn [ConfigParser.defaults ConfigParser.sections].
    rewrite Wd, S1, S2, B2. reflexivity.
  - exists d. cbn [ConfigParser.sections]. apply sect_get_set_same.
Qed.

Lemma dict_get_as_read (k : string) (d : list (string * pyval)) :
  ConfigParser.dict_get k (as_read_items d)
  = option_map (fun v => PyStr (py_str v)) (ConfigParser.dict_get k d).
Proof.
  induction d as [|[k' v] d IH]; [reflexivity|].
  cbn [as_read_items map ConfigParser.dict_get fst snd].
  destruct (String.eqb k' k); [reflexivity|exact IH].
Qed.

Lemma sect_get_as_read (n : string) (S : list (pyval * list (string * pyval))) :
  forallb section_ok S = true ->
  ConfigParser.sect_get (PyStr n) (map as_read_section S)
  = option_map as_read_items (ConfigParser.sect_get (PyStr n) S).
Proof.
  induction S as [|[k x] S IH]; [reflexivity|]. cbn [forallb]. intros H.
  apply andb_true_iff in H. destruct H as [H1 H2].
  destruct (section_ok_parts _ H1) as (m & Em & _). cbn [fst] in Em. subst k.
  cbn [map as_read_section ConfigParser.sect_get fst snd py_str].
  destruct (py_eqb (PyStr m) (PyStr n)); [reflexivity|apply IH, H2].
Qed.

(** *** The files after [write] *)

Lemma lookup_store (p q t : string) (fs : list (string * string)) :
  lookup_file p (store_file q t fs)
  = if String.eqb q p then Some t else lookup_file p fs.
Proof.
  induction fs as [|[x y] fs IH]; cbn [store_file lookup_file].
  - reflexivity.
  - destruct (String.eqb_spec x q) as [->|N]; cbn [lookup_file].
    + destruct (String.eqb q p); reflexivity.
    + rewrite IH. destruct (String.eqb_spec x p) as [->|N2]; [|reflexivity].
      destruct (String.eqb_spec q p); [congruence|reflexivity].
Qed.

Lemma parser_write_ok (path : string) (cp : ConfigParser.RawConfigParser) (s : State) :
  fst (parser_write path cp s) = Return tt ->
  self (snd (parser_write path cp s)) = self s
  /\ dirs (world (snd (parser_write path cp s))) = dirs (world s)
  /\ files (world (snd (parser_write path cp s)))
     = store_file path (ConfigParser.write cp) (files (world s)).
Proof.
  unfold parser_write, bind, get_world, put_world, raise. cbn [fst snd].
  destruct (is_dir (world s) path); [discriminate|].
  destruct (negb (parent_is_dir (world s) path)); [discriminate|].
  intros _. repeat split.
Qed.

Lemma write_config_section_run (s : State) :
  write_config_section s
  = let logged := {| self := self s;
                     world := log (EvRead (config_file (self s))) (world s) |} in
    match stored_parser (world s) (config_file (self s)) with
    | Raise e => (Raise e, logged)
    | Return cp =>
        match update_config (self s) cp with
        | Raise e => (Raise e, logged)
        | Return cp' => parser_write (config_file (self s)) cp' logged
        end
    end.
Proof.
  unfold write_config_section, bind at 1, get_self. cbn beta iota.
  unfold bind at 1. rewrite parser_read_run.
  destruct (stored_parser (world s) (config_file (self s))) as [cp|e]; [|reflexivity].
  unfold bind, lift. destruct (update_config (self s) cp); reflexivity.
Qed.

Lemma write_credentials_section_run (a : Amazon) (s : State) :
  write_credentials_section a s
  = let logged := {| self := self s;
                     world := log (EvRead (credentials_file (self s))) (world s) |} in
    match stored_parser (world s) (credentials_file (self s)) with
    | Raise e => (Raise e, logged)
    | Return cp =>
        match update_credentials (self s) a cp with
        | Raise e => (Raise e, logged)
        | Return cp' => parser_write (credentials_file (self s)) cp' logged
        end
    end.
Proof.
  unfold write_credentials_section, bind at 1, get_self. cbn beta iota.
  unfold bind at 1. rewrite parser_read_run.
  destruct (stored_parser (world s) (credentials_file (self s))) as [cp|e]; [|reflexivity].
  unfold bind, lift. destruct (update_credentials (self s) a cp); reflexivity.
Qed.

Lemma is_file_store (p q t : string) (fs : list (string * string)) :
  lookup_file p fs <> None -> lookup_file p (store_file q t fs) <> None.
Proof.
  rewrite lookup_store. destruct (String.eqb q p); [discriminate|auto].
Qed.

Lemma grows_refl (w : World) : grows w w.
Proof. split; auto. Qed.

Lemma grows_trans (w1 w2 w3 : World) : grows w1 w2 -> grows w2 w3 -> grows w1 w3.
Proof. intros [A B] [C D]. split; auto. Qed.

Lemma grows_log (e : event) (w : World) : grows w (log e w).
Proof. split; auto. Qed.

Lemma grows_path_exists (w w' : World) (p : string) :
  grows w w' -> path_exists w p = true -> path_exists w' p = true.
Proof.
  intros [A B]. unfold path_exists.
  rewrite !andb_true_iff, !orb_true_iff. intros [N [D|F]]; auto.
Qed.

Lemma is_file_stored (p q t : string) (w : World) :
  is_file w p = true ->
  is_file {| dirs := dirs w; files := store_file q t (files w);
             held := held w; trace := trace w |} p = true.
Proof.
  unfold is_file. cbn [files]. rewrite lookup_store.
  destruct (String.eqb q p); [reflexivity|auto].
Qed.

Lemma parser_write_frame (path : string) (cp : ConfigParser.RawConfigParser)
      (s : State) (p : string) :
  p <> path ->
  self (snd (parser_write path cp s)) = self s
  /\ dirs (world (snd (parser_write path cp s))) = dirs (world s)
  /\ lookup_file p (files (world (snd (parser_write path cp s))))
     = lookup_file p (files (world s))
  /\ grows (world s) (world (snd (parser_write path cp s))).
Proof.
  intros N.
  unfold parser_write, bind, get_world, put_world, raise. cbn [fst snd].
  destruct (is_dir (world s) path);
    [split; [|split; [|split]]; try reflexivity; apply grows_refl|].
  destruct (negb (parent_is_dir (world s) path));
    [split; [|split; [|split]]; try reflexivity; apply grows_refl|].
  cbn [fst snd self world log dirs files].
  split; [reflexivity|]. split; [reflexivity|]. split.
  - rewrite lookup_store.
    destruct (String.eqb_spec path p); [congruence|reflexivity].
  - split; [auto|]. intros q F. apply (is_file_stored _ _ _ _ F).
Qed.

Lemma write_credentials_section_files (a : Amazon) (s : State) (p : string) :
  p <> credentials_file (self s) ->
  self (snd (write_credentials_section a s)) = self s
  /\ dirs (world (snd (write_credentials_section a s))) = dirs (world s)
  /\ lookup_file p (files (world (snd (write_credentials_section a s))))
     = lookup_file p (files (world s))
  /\ grows (world s) (world (snd (write_credentials_section a s))).
Proof.
  intros N. rewrite write_credentials_section_run. cbn zeta.
  destruct (stored_parser (world s) (credentials_file (self s))) as [cp|e];
    [|split; [|split; [|split]]; try reflexivity; apply grows_log].
  destruct (update_credentials (self s) a cp) as [cp'|e];
    [|split; [|split; [|split]]; try reflexivity; apply grows_log].
  match goal with
  | |- context [parser_write ?q ?c ?st] =>
      destruct (parser_write_frame q c st p N) as (A & B & C & D)
  end.
  cbn [self world log dirs files] in *.
  split; [exact A|]. split; [exact B|]. split; [exact C|].
  eapply grows_trans; [apply (grows_log (EvRead (credentials_file (self s))))|exact D].
Qed.

Lemma bind_ok {A B} (m : M A) (k : A -> M B) (s : State) (b : B) :
  fst (bind m k s) = Return b ->
  exists a, fst (m s) = Return a
            /\ fst (k a (snd (m s))) = Return b
            /\ snd (bind m k s) = snd (k a (snd (m s))).
Proof.
  unfold bind. destruct (m s) as [[a|e] s1]; cbn [fst snd]; [|discriminate].
  intros H. exists a. repeat split; assumption.
Qed.

Lemma try_finally_ok {A} (body : M A) (final : M unit) (s : State) (a : A) :
  fst (try_finally body final s) = Return a ->
  fst (body s) = Return a
  /\ fst (final (snd (body s))) = Return tt
  /\ snd (try_finally body final s) = snd (final (snd (body s))).
Proof.
  unfold try_finally. destruct (body s) as [r s1]. cbn [fst snd].
  destruct (final s1) as [[[]|e] s2]; cbn [fst snd]; [|discriminate].
  intros ->. repeat split.
Qed.

Lemma acquire_run (l : string) (s : State) :
  acquire l s
  = (Return tt,
     {| self := self s;
        world := log (EvAcquire l)
                     {| dirs := dirs (world s); files := files (world s);
                        held := l :: held (world s); trace := trace (world s) |} |}).
Proof. reflexivity. Qed.

Lemma release_run (l : string) (s : State) :
  release l s
  = (Return tt,
     {| self := self s;
        world := log (EvRelease l)
                     {| dirs := dirs (world s); files := files (world s);
                        held := remove_one l (held (world s));
                        trace := trace (world s) |} |}).
Proof. reflexivity. Qed.

Lemma write_config_section_ok (s : State) :
  fst (write_config_section s) = Return tt ->
  exists cp cp',
    stored_parser (world s) (config_file (self s)) = Return cp
    /\ update_config (self s) cp = Return cp'
    /\ self (snd (write_config_section s)) = self s
    /\ dirs (world (snd (write_config_section s))) = dirs (world s)
    /\ files (world (snd (write_config_section s)))
       = store_file (config_file (self s)) (ConfigParser.write cp') (files (world s)).
Proof.
  rewrite write_config_section_run. cbn zeta.
  destruct (stored_parser (world s) (config_file (self s))) as [cp|e] eqn:P;
    [|discriminate].
  destruct (update_config (self s) cp) as [cp'|e] eqn:U; [|discriminate].
  intros H. destruct (parser_write_ok _ _ _ H) as (A & B & C).
  cbn [self world log dirs files] in A, B, C.
  exists cp, cp'. repeat split; assumption || reflexivity.
Qed.

Lemma credentials_part_files (amazon_object : option Amazon) (s : State) (p : string) :
  p <> credentials_file (self s) ->
  dirs (world (snd (credentials_part amazon_object (self s) s))) = dirs (world s)
  /\ lookup_file p (files (world (snd (credentials_part amazon_object (self s) s))))
     = lookup_file p (files (world s))
  /\ grows (world s) (world (snd (credentials_part amazon_object (self s) s))).
Proof.
  intros N. destruct amazon_object as [a|]; cbn [credentials_part].
  2:{ cbn. split; [|split]; try reflexivity. apply grows_refl. }
  unfold bind. rewrite acquire_run. unfold try_finally.
  match goal with
  | |- context [write_credentials_section a ?st] =>
      pose proof (write_credentials_section_files a st p N) as CF;
      destruct (write_credentials_section a st) as [r2 sE]
  end.
  cbn [fst snd self world log dirs files] in CF.
  destruct CF as (A & B & C & [D1 D2]).
  rewrite release_run. cbn [fst snd self world log dirs files].
  destruct r2; cbn [fst snd self world log dirs files];
    (split; [exact B|]; split; [exact C|]; split; [exact D1|exact D2]).
Qed.

Lemma write_sections_ok (amazon_object : option Amazon) (s : State) :
  config_file (self s) <> credentials_file (self s) ->
  fst (write_sections amazon_object s) = Return tt ->
  exists cp cp',
    stored_parser (world s) (config_file (self s)) = Return cp
    /\ update_config (self s) cp = Return cp'
    /\ lookup_file (config_file (self s))
                   (files (world (snd (write_sections amazon_object s))))
       = Some (ConfigParser.write cp')
    /\ grows (world s) (world (snd (write_sections amazon_object s))).
Proof.
  intros N H.
  assert (E : write_sections amazon_object s
              = try_finally write_config_section
                  (release (lock_of (config_file (self s))) ;;;
                   credentials_part amazon_object (self s))
                  (snd (acquire (lock_of (config_file (self s))) s)))
    by reflexivity.
  rewrite E in *. clear E.
  destruct (try_finally_ok _ _ _ _ H) as (Hb & Hf & ->).
  rewrite acquire_run in *. cbn [snd] in *.
  destruct (write_config_section_ok _ Hb) as (cp & cp' & P & U & S1 & D1 & F1).
  cbn [self world log dirs files held trace] in *.
  exists cp, cp'. split; [exact P|]. split; [exact U|].
  set (sB := snd (write_config_section _)) in *.
  unfold bind. rewrite release_run.
  match goal with
  | |- context [credentials_part amazon_object ?c ?st] =>
      pose proof (credentials_part_files amazon_object st (config_file (self s))) as CF
  end.
  cbn [self world log dirs files held trace] in CF.
  rewrite S1 in CF. cbn [fst snd]. rewrite ?S1.
  destruct (CF N) as (A & B & [C1 C2]).
  split.
  - rewrite B, F1, lookup_store, String.eqb_refl. reflexivity.
  - split.
    + intros p Dp. apply C1. unfold is_dir in *. cbn [self world log dirs].
      rewrite D1. exact Dp.
    + intros p F. apply C2. unfold is_file in *. cbn [self world log files].
      rewrite F1, lookup_store.
      destruct (String.eqb _ _); [reflexivity|exact F].
Qed.

(** *** [ensure_config_files_exist] once the files are there *)

Lemma os_mkdir_grows (path : string) (s : State) :
  grows (world s) (world (snd (os_mkdir path s))).
Proof.
  unfold os_mkdir, bind, get_world, put_world, raise. cbn [fst snd].
  repeat match goal with
         | |- context [if ?b then _ else _] =>
             destruct b; [apply grows_refl|]
         end.
  cbn [snd world log]. split.
  - intros p. unfold is_dir. cbn [log dirs]. rewrite existsb_app.
    intros ->. reflexivity.
  - intros p F. exact F.
Qed.

Lemma os_mkdir_ok (path : string) (s : State) :
  fst (os_mkdir path s) = Return tt ->
  path_exists (world (snd (os_mkdir path s))) path = true.
Proof.
  unfold os_mkdir, bind, get_world, put_world, raise. cbn [fst snd].
  destruct (String.eqb path "") eqn:E; [discriminate|].
  repeat match goal with
         | |- context [if ?b then _ else _] =>
             destruct b; [discriminate|]
         end.
  intros _. cbn [snd world log]. unfold path_exists, is_dir. cbn [log dirs].
  rewrite E, existsb_app. cbn. rewrite String.eqb_refl, orb_true_r. reflexivity.
Qed.

Lemma lookup_file_app (p : string) (fs gs : list (string * string)) :
  lookup_file p (fs ++ gs)%list
  = match lookup_file p fs with
    | Some t => Some t
    | None => lookup_file p gs
    end.
Proof.
  induction fs as [|[q t] fs IH]; cbn [lookup_file app]; [reflexivity|].
  destruct (String.eqb q p); [reflexivity|exact IH].
Qed.

Lemma touch_grows (path : string) (s : State) :
  grows (world s) (world (snd (touch path s))).
Proof.
  unfold touch, bind, get_world, put_world, raise. cbn [fst snd].
  destruct (negb (parent_is_dir (world s) path)); [apply grows_refl|].
  cbn [fst snd world log]. split.
  - intros p D. exact D.
  - intros p. unfold is_file. cbn [log files].
    destruct (lookup_file path (files (world s))); [auto|].
    rewrite lookup_file_app. destruct (lookup_file p (files (world s))); auto.
    discriminate.
Qed.

Lemma touch_ok (path : string) (s : State) :
  fst (touch path s) = Return tt ->
  is_file (world (snd (touch path s))) path = true.
Proof.
  unfold touch, bind, get_world, put_world, raise. cbn [fst snd].
  destruct (negb (parent_is_dir (world s) path)); [discriminate|].
  intros _. cbn [fst snd world log].
  unfold is_file. cbn [log files].
  destruct (lookup_file path (files (world s))) eqn:E; [rewrite E; reflexivity|].
  rewrite lookup_file_app, E. cbn. rewrite String.eqb_refl. reflexivity.
Qed.

Lemma ensure_file_exists_grows (file : string) (s : State) :
  grows (world s) (world (snd (ensure_file_exists file s))).
Proof.
  unfold ensure_file_exists, bind at 1, get_world at 1. cbn beta iota zeta.
  unfold bind at 1.
  assert (G : grows (world s)
                (world (snd ((if negb (path_exists (world s) (dirname file))
                              then os_mkdir (dirname file) else ret tt) s)))).
  { destruct (negb _); [apply os_mkdir_grows|apply grows_refl]. }
  destruct ((if negb (path_exists (world s) (dirname file))
             then os_mkdir (dirname file) else ret tt) s) as [[[]|e] s1];
    cbn [fst snd] in *; [|exact G].
  unfold bind, get_world.
  eapply grows_trans; [exact G|].
  destruct (negb _); [apply touch_grows|apply grows_refl].
Qed.

Lemma in_place_grows (w w' : World) (file : string) :
  grows w w' -> in_place w file = true -> in_place w' file = true.
Proof.
  intros G. unfold in_place. rewrite !andb_true_iff.
  intros [A B]. split; eapply grows_path_exists; eassumption.
Qed.

Lemma dirname_empty : dirname "" = "".
Proof. reflexivity. Qed.

Lemma ensure_file_exists_run (file : string) (s : State) :
  ensure_file_exists file s
  = match (if negb (path_exists (world s) (dirname file))
           then os_mkdir (dirname file) else ret tt) s with
    | (Return _, s1) =>
        (if negb (path_exists (world s1) file) then touch file else ret tt) s1
    | (Raise e, s1) => (Raise e, s1)
    end.
Proof.
  unfold ensure_file_exists, bind at 1, get_world at 1. cbn beta iota zeta.
  unfold bind at 1.
  destruct ((if negb (path_exists (world s) (dirname file))
             then os_mkdir (dirname file) else ret tt) s) as [[[]|e] s1];
    reflexivity.
Qed.

Lemma ensure_file_exists_ok (file : string) (s : State) :
  fst (ensure_file_exists file s) = Return tt ->
  in_place (world (snd (ensure_file_exists file s))) file = true.
Proof.
  rewrite ensure_file_exists_run.
  assert (G : fst ((if negb (path_exists (world s) (dirname file))
                    then os_mkdir (dirname file) else ret tt) s) = Return tt ->
              path_exists
                (world (snd ((if negb (path_exists (world s) (dirname file))
                              then os_mkdir (dirname file) else ret tt) s)))
                (dirname file) = true).
  { destruct (path_exists (world s) (dirname file)) eqn:E; cbn [negb].
    - intros _. exact E.
    - apply os_mkdir_ok. }
  destruct ((if negb (path_exists (world s) (dirname file))
             then os_mkdir (dirname file) else ret tt) s) as [[[]|e] s1];
    cbn [fst snd] in *; [|discriminate].
  specialize (G eq_refl).
  unfold in_place.
  destruct (path_exists (world s1) file) eqn:E; cbn [negb].
  - intros _. unfold ret. cbn [snd]. rewrite G, E. reflexivity.
  - intros T. rewrite (grows_path_exists _ _ _ (touch_grows file s1) G). cbn [andb].
    unfold path_exists. rewrite (touch_ok _ _ T), orb_true_r, andb_true_r.
    destruct (String.eqb_spec file ""); [|reflexivity].
    subst file. rewrite dirname_empty in G. discriminate G.
Qed.

Lemma ensure_file_exists_in_place (file : string) (s : State) :
  in_place (world s) file = true ->
  ensure_file_exists file s = (Return tt, s).
Proof.
  unfold in_place. rewrite andb_true_iff. intros [A B].
  unfold ensure_file_exists, bind, get_world. rewrite A. cbn. rewrite B.
  reflexivity.
Qed.

Lemma ensure_config_files_exist_run (s : State) :
  ensure_config_files_exist s
  = match ensure_file_exists (config_file (self s)) s with
    | (Return _, s1) => ensure_file_exists (credentials_file (self s)) s1
    | (Raise e, s1) => (Raise e, s1)
    end.
Proof.
  unfold ensure_config_files_exist, bind at 1, get_self. cbn [for_each].
  unfold bind at 1.
  destruct (ensure_file_exists (config_file (self s)) s) as [[[]|e] s1];
    [|reflexivity].
  unfold bind, ret.
  destruct (ensure_file_exists (credentials_file (self s)) s1) as [[[]|e] s2];
    reflexivity.
Qed.

Lemma ensure_config_files_exist_ok (s : State) :
  fst (ensure_config_files_exist s) = Return tt ->
  in_place (world (snd (ensure_config_files_exist s))) (config_file (self s)) = true
  /\ in_place (world (snd (ensure_config_files_exist s))) (credentials_file (self s))
     = true.
Proof.
  rewrite ensure_config_files_exist_run.
  pose proof (ensure_file_exists_ok (config_file (self s)) s) as A.
  destruct (ensure_file_exists (config_file (self s)) s) as [[[]|e] s1];
    cbn [fst snd] in *; [|discriminate].
  intros H. split.
  - eapply in_place_grows; [apply ensure_file_exists_grows|exact (A eq_refl)].
  - apply ensure_file_exists_ok. exact H.
Qed.

Lemma ensure_config_files_exist_in_place (s : State) :
  in_place (world s) (config_file (self s)) = true ->
  in_place (world s) (credentials_file (self s)) = true ->
  ensure_config_files_exist s = (Return tt, s).
Proof.
  intros A B. rewrite ensure_config_files_exist_run.
  rewrite (ensure_file_exists_in_place _ _ A).
  apply ensure_file_exists_in_place. exact B.
Qed.

(** *** What [read] finds after [write] *)

Lemma has_char_app_false (c : ascii) (a b : string) :
  has_char c a = false -> has_char c b = false -> has_char c (a ++ b) = false.
Proof. intros A B. rewrite has_char_app, A, B. reflexivity. Qed.

Lemma lower_empty_not_default (p : string) :
  String.eqb (lower p) "default" = true -> p <> "".
Proof. intros H ->. discriminate H. Qed.

Lemma config_profile_name_ok (p : string) :
  profile_ok p = true ->
  exists n, config_profile (PyStr p) = PyStr n /\ name_ok n = true.
Proof.
  unfold profile_ok. rewrite !andb_true_iff, !negb_true_iff.
  intros [[A B] C]. unfold config_profile. cbn [py_str].
  destruct (String.eqb (lower p) "default") eqn:E.
  - exists p. split; [reflexivity|]. unfold name_ok.
    rewrite A, B, C. cbn [negb andb].
    destruct p; [discriminate E|reflexivity].
  - exists ("profile " ++ p)%string. split; [reflexivity|].
    unfold name_ok.
    rewrite (has_char_app_false nl "profile " p eq_refl A).
    rewrite (has_char_app_false cr "profile " p eq_refl B).
    reflexivity.
Qed.

Lemma match_section_not_header (c : ascii) (r : string) :
  Ascii.eqb c "[" = false -> ConfigParser.match_section (String c r) = None.
Proof.
  destruct c as [[] [] [] [] [] [] [] []]; try reflexivity; discriminate.
Qed.

Lemma item_ok_intro (c : ascii) (k : string) (v : pyval) :
  key_ok (String c k) = true -> value_ok (py_str v) = true ->
  Ascii.eqb c "[" = false ->
  item_ok (String c k, v) = true.
Proof.
  intros K V H. unfold item_ok. cbn [fst snd]. rewrite K, V. cbn [andb].
  unfold item_head.
  destruct (value_ok_parts _ V) as (_ & _ & L & _).
  rewrite (item_head_form _ _ K (hd_split_lines_stripped _ L)).
  cbn [append]. rewrite (match_section_not_header _ _ H). reflexivity.
Qed.

Lemma writable_parts (cp : ConfigParser.RawConfigParser) :
  writable cp = true ->
  items_ok (ConfigParser.defaults cp) = true
  /\ forallb section_ok (ConfigParser.sections cp) = true
  /\ distinct (map (fun sd => py_str (fst sd)) (ConfigParser.sections cp)) = true.
Proof.
  unfold writable. rewrite !andb_true_iff. intros [[A B] C]. auto.
Qed.

Lemma sect_get_as_read_parser (cp : ConfigParser.RawConfigParser) (n : string) :
  writable cp = true ->
  ConfigParser.sect_get (PyStr n) (ConfigParser.sections (as_read cp))
  = option_map as_read_items
               (ConfigParser.sect_get (PyStr n) (ConfigParser.sections cp)).
Proof.
  intros W. destruct (writable_parts _ W) as (_ & S & _).
  exact (sect_get_as_read n _ S).
Qed.

Lemma stored_value_as_read (cp : ConfigParser.RawConfigParser) (n k : string)
      (d : list (string * pyval)) (v : pyval) :
  writable cp = true ->
  ConfigParser.sect_get (PyStr n) (ConfigParser.sections cp) = Some d ->
  ConfigParser.dict_get k d = Some v ->
  stored_value (as_read cp) (PyStr n) k = Some (PyStr (py_str v)).
Proof.
  intros W S D. unfold stored_value.
  rewrite (sect_get_as_read_parser _ _ W), S. cbn [option_map].
  rewrite dict_get_as_read, D. reflexivity.
Qed.

Lemma has_section_as_read (cp : ConfigParser.RawConfigParser) (n : string)
      (d : list (string * pyval)) :
  writable cp = true ->
  ConfigParser.sect_get (PyStr n) (ConfigParser.sections cp) = Some d ->
  ConfigParser.has_section (as_read cp) (PyStr n) = true.
Proof.
  intros W S. unfold ConfigParser.has_section.
  rewrite (sect_get_as_read_parser _ _ W), S. reflexivity.
Qed.

Lemma as_read_values_are_text (cp : ConfigParser.RawConfigParser) (section : pyval)
      (key : string) (v : pyval) :
  stored_value (as_read cp) section key = Some v -> exists t, v = PyStr t.
Proof.
  assert (D : forall d, ConfigParser.dict_get key (as_read_items d) = Some v ->
                        exists t, v = PyStr t).
  { intros d. rewrite dict_get_as_read.
    destruct (ConfigParser.dict_get key d); cbn; [|discriminate].
    intros [= <-]. eauto. }
  unfold stored_value. cbn [as_read ConfigParser.sections ConfigParser.defaults].
  induction (ConfigParser.sections cp) as [|[n d] S IH];
    cbn [map ConfigParser.sect_get fst snd]; [discriminate|].
  destruct (py_eqb _ section); [|exact IH].
  destruct (ConfigParser.dict_get key (as_read_items d)) eqn:E.
  - intros [= <-]. exact (D _ E).
  - apply D.
Qed.

Lemma convert_to_boolean_text (b : bool) :
  ConfigParser.convert_to_boolean (PyStr (py_str (PyBool b))) = Return (PyBool b).
Proof. destruct b; reflexivity. Qed.

Lemma convert_to_int_text (z : Z) :
  ConfigParser.convert_to_int (PyStr (py_str (PyInt z))) = Return (PyInt z).
Proof.
  cbn [py_str ConfigParser.convert_to_int]. rewrite int_of_text_int_text.
  reflexivity.
Qed.

Lemma bool_text_plain (b : bool) : plain (py_str (PyBool b)) = true.
Proof. destruct b; reflexivity. Qed.

(** *** What the parser reads can be written back *)

(** Small letters for capitals: blanks, delimiters, comment marks, brackets
    and line ends are neither made nor lost. *)
Lemma lower_char_keeps (c : ascii) :
  isspace (lower_char c) = isspace c
  /\ ConfigParser.is_delimiter (lower_char c) = ConfigParser.is_delimiter c
  /\ Ascii.eqb (lower_char c) "#" = Ascii.eqb c "#"
  /\ Ascii.eqb (lower_char c) ";" = Ascii.eqb c ";"
  /\ Ascii.eqb (lower_char c) "[" = Ascii.eqb c "["
  /\ Ascii.eqb (lower_char c) "]" = Ascii.eqb c "]"
  /\ Ascii.eqb (lower_char c) nl = Ascii.eqb c nl
  /\ Ascii.eqb (lower_char c) cr = Ascii.eqb c cr
  /\ lower_char (lower_char c) = lower_char c.
Proof.
  destruct c as [[] [] [] [] [] [] [] []]; vm_compute; repeat split.
Qed.

Lemma lower_nonempty (s : string) : lower s = "" -> s = "".
Proof. destruct s; [reflexivity|discriminate]. Qed.

Lemma lower_lstrip (s : string) : lstrip (lower s) = lower (lstrip s).
Proof.
  induction s as [|c s IH]; cbn [lower lstrip]; [reflexivity|].
  destruct (lower_char_keeps c) as (-> & _).
  destruct (isspace c); [exact IH|reflexivity].
Qed.

Lemma lower_rstrip (s : string) : rstrip (lower s) = lower (rstrip s).
Proof.
  induction s as [|c s IH]; cbn [lower rstrip]; [reflexivity|].
  rewrite IH. destruct (lower_char_keeps c) as (-> & _).
  destruct (rstrip s); cbn [lower]; [destruct (isspace c)|]; reflexivity.
Qed.

Lemma lower_idem (s : string) : lower (lower s) = lower s.
Proof.
  induction s as [|c s IH]; cbn [lower]; [reflexivity|].
  rewrite IH. destruct (lower_char_keeps c) as (_ & _ & _ & _ & _ & _ & _ & _ & ->).
  reflexivity.
Qed.

Lemma has_delimiter_lower (s : string) : has_delimiter (lower s) = has_delimiter s.
Proof.
  induction s as [|c s IH]; cbn [lower has_delimiter]; [reflexivity|].
  rewrite IH. destruct (lower_char_keeps c) as (_ & -> & _). reflexivity.
Qed.

Lemma has_char_lower (a : ascii) (s : string) :
  (forall c, Ascii.eqb (lower_char c) a = Ascii.eqb c a) ->
  has_char a (lower s) = has_char a s.
Proof.
  intros H. induction s as [|c s IH]; cbn [lower has_char]; [reflexivity|].
  rewrite IH, H. reflexivity.
Qed.

Lemma has_char_rstrip (a : ascii) (s : string) :
  has_char a s = false -> has_char a (rstrip s) = false.
Proof.
  induction s as [|c s IH]; cbn [rstrip has_char]; [reflexivity|].
  rewrite orb_false_iff. intros [A B]. specialize (IH B).
  destruct (rstrip s).
  - destruct (isspace c); [reflexivity|]. cbn. rewrite A. reflexivity.
  - cbn [has_char] in *. rewrite A. exact IH.
Qed.

Lemma has_char_lstrip (a : ascii) (s : string) :
  has_char a s = false -> has_char a (lstrip s) = false.
Proof.
  induction s as [|c s IH]; cbn [lstrip]; [reflexivity|].
  destruct (isspace c); [|auto].
  cbn [has_char]. rewrite orb_false_iff. intros [_ B]. auto.
Qed.

Lemma has_char_strip (a : ascii) (s : string) :
  has_char a s = false -> has_char a (strip s) = false.
Proof. intros H. apply has_char_rstrip, has_char_lstrip, H. Qed.

Lemma has_delimiter_rstrip (s : string) :
  has_delimiter s = false -> has_delimiter (rstrip s) = false.
Proof.
  induction s as [|c s IH]; cbn [rstrip has_delimiter]; [reflexivity|].
  rewrite orb_false_iff. intros [A B]. specialize (IH B).
  destruct (rstrip s).
  - destruct (isspace c); [reflexivity|]. cbn. rewrite A. reflexivity.
  - cbn [has_delimiter] in *. rewrite A. exact IH.
Qed.

Lemma all_space_rstrip (s : string) : rstrip s = "" -> all_space s = true.
Proof.
  induction s as [|c s IH]; cbn [rstrip all_space]; [reflexivity|].
  destruct (rstrip s); [|discriminate].
  destruct (isspace c); [intros _; apply IH; reflexivity|discriminate].
Qed.

Lemma rstrip_head (c : ascii) (s : string) :
  isspace c = false -> exists r, rstrip (String c s) = String c r.
Proof.
  intros H. cbn [rstrip]. rewrite H. destruct (rstrip s); eauto.
Qed.

Lemma strip_stripped (s : string) : stripped (strip s) = true.
Proof.
  apply stripped_spec. unfold strip. split; [|apply rstrip_idem].
  assert (L : lstrip s = "" \/ exists c r, lstrip s = String c r /\ isspace c = false).
  { induction s as [|c s IH]; cbn [lstrip]; [left; reflexivity|].
    destruct (isspace c) eqn:E; [exact IH|right; eauto]. }
  destruct L as [->|(c & r & -> & E)]; [reflexivity|].
  destruct (rstrip_head c r E) as (r' & ->). apply lstrip_head. exact E.
Qed.

Lemma stripped_empty : stripped "" = true.
Proof. reflexivity. Qed.

Lemma split_delimiter_spec (s k v : string) :
  ConfigParser.split_delimiter s = Some (k, v) ->
  has_delimiter k = false
  /\ exists d, s = (k ++ String d v)%string /\ ConfigParser.is_delimiter d = true.
Proof.
  revert k. induction s as [|c s IH]; intros k; cbn [ConfigParser.split_delimiter];
    [discriminate|].
  destruct (ConfigParser.is_delimiter c) eqn:E.
  - intros [= <- <-]. split; [reflexivity|]. exists c. split; [reflexivity|exact E].
  - destruct (ConfigParser.split_delimiter s) as [[k' v']|]; [|discriminate].
    intros [= <- <-]. destruct (IH k' eq_refl) as (A & d & -> & D).
    split; [cbn; rewrite E; exact A|]. exists d. split; [reflexivity|exact D].
Qed.

Lemma clean_parts (s : string) :
  clean s = true <-> has_char nl s = false /\ has_char cr s = false.
Proof.
  unfold clean. rewrite andb_true_iff, !negb_true_iff. reflexivity.
Qed.

Lemma clean_strip (s : string) : clean s = true -> clean (strip s) = true.
Proof.
  rewrite !clean_parts. intros [A B]. split; apply has_char_strip; assumption.
Qed.

Lemma universal_newlines_no_cr (s : string) :
  has_char cr (ConfigParser.universal_newlines s) = false.
Proof.
  assert (H : forall n s, (String.length s <= n)%nat ->
                          has_char cr (ConfigParser.universal_newlines s) = false).
  { clear s. induction n as [|n IH]; intros [|c s] L; cbn in L; try reflexivity;
      try lia.
    cbn [ConfigParser.universal_newlines].
    destruct (Ascii.eqb c cr) eqn:E.
    - cbn [has_char]. change (Ascii.eqb nl cr) with false. cbn [orb].
      destruct s as [|c2 s2]; [reflexivity|].
      destruct (Ascii.eqb c2 nl); apply IH; cbn in *; lia.
    - cbn [has_char]. rewrite E. apply IH. lia. }
  apply (H (String.length s)). lia.
Qed.

(** A line of the file: its body, with or without the newline after it. *)
Lemma file_lines_shape (s : string) :
  has_char cr s = false ->
  Forall (fun l => exists b, (l = (b ++ NL)%string \/ l = b) /\ clean b = true)
         (ConfigParser.file_lines s).
Proof.
  induction s as [|c s IH]; cbn [ConfigParser.file_lines has_char]; [constructor|].
  rewrite orb_false_iff. intros [C H]. specialize (IH H).
  destruct (Ascii.eqb c nl) eqn:E.
  - constructor; [|exact IH]. exists "". split; [left|reflexivity].
    apply Ascii.eqb_eq in E. subst c. reflexivity.
  - destruct (ConfigParser.file_lines s) as [|l ls].
    + constructor; [|constructor]. exists (String c ""). split; [right; reflexivity|].
      unfold clean. cbn. rewrite E, C. reflexivity.
    + inversion IH as [|? ? (b & Hb & Cb) T]; subst.
      constructor; [|exact T]. exists (String c b). split.
      * destruct Hb as [->| ->]; [left|right]; reflexivity.
      * apply clean_parts in Cb. destruct Cb as [A B].
        unfold clean. cbn. rewrite E, C, A, B. reflexivity.
Qed.

Lemma file_lines_clean (text : string) :
  Forall (fun l => clean (strip l) = true)
         (ConfigParser.file_lines (ConfigParser.universal_newlines text)).
Proof.
  eapply Forall_impl; [|apply file_lines_shape, universal_newlines_no_cr].
  intros l (b & [->| ->] & C); [rewrite strip_line|]; apply clean_strip, C.
Qed.

(** *** Section headers *)

Lemma match_section_cons (c : ascii) (r : string) :
  ConfigParser.match_section (String c r)
  = if Ascii.eqb c "["
    then match ConfigParser.before_last "]" r with
         | Some (String a h) => Some (String a h)
         | _ => None
         end
    else None.
Proof.
  destruct c as [[] [] [] [] [] [] [] []]; reflexivity.
Qed.

Lemma before_last_none (a : ascii) (s : string) :
  ConfigParser.before_last a s = None <-> has_char a s = false.
Proof.
  induction s as [|c s IH]; cbn [ConfigParser.before_last has_char];
    [split; reflexivity|].
  destruct (ConfigParser.before_last a s).
  - split; [discriminate|]. rewrite orb_false_iff. intros [_ H].
    apply IH in H. discriminate H.
  - destruct IH as [IH _]. rewrite (IH eq_refl), orb_false_r.
    destruct (Ascii.eqb c a); split; congruence.
Qed.

Lemma match_section_headerlike (s : string) :
  ConfigParser.match_section s = None <-> headerlike s = false.
Proof.
  destruct s as [|c r]; [split; reflexivity|].
  rewrite match_section_cons. cbn [headerlike].
  destruct (Ascii.eqb c "["); cbn [andb]; [|split; reflexivity].
  destruct r as [|c2 r]; cbn [ConfigParser.before_last drop has_char];
    [split; reflexivity|].
  pose proof (before_last_none "]" r) as B.
  destruct (ConfigParser.before_last "]" r).
  - split; [discriminate|]. intros H. apply B in H. discriminate H.
  - destruct B as [B _]. rewrite (B eq_refl).
    destruct (Ascii.eqb c2 "]"); split; reflexivity.
Qed.

Lemma match_section_parts (s n : string) :
  ConfigParser.match_section s = Some n ->
  n <> "" /\ (forall a, has_char a s = false -> has_char a n = false).
Proof.
  destruct s as [|c r]; [discriminate|].
  rewrite match_section_cons.
  destruct (Ascii.eqb c "["); [|discriminate].
  destruct (ConfigParser.before_last "]" r) as [[|a h]|] eqn:E; try discriminate.
  intros [= <-]. split; [discriminate|].
  intros x H. cbn [has_char] in H. apply orb_false_iff in H. destruct H as [_ H].
  clear c. revert E H. generalize (String a h) as m. clear a h.
  induction r as [|c r IH]; intros m; cbn [ConfigParser.before_last has_char];
    [discriminate|].
  rewrite orb_false_iff.
  destruct (ConfigParser.before_last "]" r) as [h|].
  - intros [= <-] [A B]. cbn [has_char]. rewrite A. exact (IH h eq_refl B).
  - destruct (Ascii.eqb c "]"); [|discriminate]. intros [= <-] _. reflexivity.
Qed.

Lemma drop_lower (n : nat) (s : string) : drop n (lower s) = lower (drop n s).
Proof.
  revert s. induction n as [|n IH]; intros [|c s]; cbn [drop lower];
    try reflexivity. apply IH.
Qed.

Lemma has_char_drop (a : ascii) (n : nat) (s : string) :
  has_char a (drop n s) = true -> has_char a s = true.
Proof.
  revert s. induction n as [|n IH]; intros [|c s]; cbn [drop has_char]; auto.
  intros H. rewrite (IH _ H). apply orb_true_r.
Qed.

Lemma has_char_drop_app (a : ascii) (n : nat) (x y : string) :
  has_char a (drop n (x ++ y)) = true ->
  has_char a (drop n x) = true \/ has_char a y = true.
Proof.
  revert x. induction n as [|n IH]; intros x; cbn [drop].
  - rewrite has_char_app, orb_true_iff. auto.
  - destruct x as [|c x]; cbn [append].
    + intros H. right. exact (has_char_drop a (S n) y H).
    + cbn [drop]. apply IH.
Qed.

Lemma has_char_drop_rstrip (a : ascii) (n : nat) (s : string) :
  has_char a (drop n (rstrip s)) = true -> has_char a (drop n s) = true.
Proof.
  revert n. induction s as [|c s IH]; intros n; [destruct n; auto|].
  cbn [rstrip]. destruct (rstrip s) as [|c' r'] eqn:E.
  - destruct (isspace c).
    + destruct n; cbn; discriminate.
    + destruct n as [|n]; cbn [drop has_char].
      * rewrite orb_false_r. intros ->. reflexivity.
      * destruct n; cbn; discriminate.
  - destruct n as [|n]; cbn [drop].
    + change (has_char a (String c (String c' r')))
        with (Ascii.eqb c a || has_char a (String c' r')).
      change (has_char a (String c s)) with (Ascii.eqb c a || has_char a s).
      destruct (Ascii.eqb c a); [reflexivity|]. cbn [orb]. apply (IH O).
    + apply IH.
Qed.

Lemma has_char_drop_head (a : ascii) (x : string) (d : ascii) (y : string) :
  x <> "" ->
  has_char a (drop 2 x) = true \/ has_char a y = true ->
  has_char a (drop 2 (x ++ String d y)) = true.
Proof.
  destruct x as [|c [|c2 x]]; [contradiction|..]; intros _; cbn.
  - intros [H|H]; [discriminate H|exact H].
  - rewrite has_char_app. cbn. intros [->| ->];
      rewrite ?orb_true_r; reflexivity.
Qed.

(** *** An option line *)

Lemma commented_cons (c : ascii) (r : string) :
  commented (String c r) = Ascii.eqb c "#" || Ascii.eqb c ";".
Proof.
  unfold commented, startswith. cbn [String.prefix]. rewrite !prefix_nil.
  destruct (ascii_dec "#" c) as [<-|A]; [reflexivity|].
  destruct (Ascii.eqb_spec c "#") as [->|_]; [contradiction A; reflexivity|].
  destruct (ascii_dec ";" c) as [<-|B]; [reflexivity|].
  destruct (Ascii.eqb_spec c ";") as [->|_]; [contradiction B; reflexivity|].
  reflexivity.
Qed.

Lemma has_char_padded (a : ascii) (l : string) :
  has_char a (" =" ++ padded l) = true -> Ascii.eqb a "]" = true ->
  has_char a l = true.
Proof.
  intros H E. apply Ascii.eqb_eq in E. subst a.
  destruct l as [|c l]; cbn in H |- *; [discriminate H|exact H].
Qed.

Lemma option_line (value optname optval : string) :
  stripped value = true -> clean value = true -> commented value = false ->
  ConfigParser.match_section value = None ->
  ConfigParser.match_option value = Some (optname, optval) ->
  optname <> "" ->
  let key := ConfigParser.optionxform (rstrip optname) in
  key_ok key = true
  /\ stripped (strip optval) = true
  /\ clean (strip optval) = true
  /\ headerlike (key ++ " =" ++ padded (strip optval)) = false.
Proof.
  intros St Cl Co Ms Mo Ne key. subst key.
  unfold ConfigParser.match_option in Mo.
  destruct (ConfigParser.split_delimiter value) as [[k v]|] eqn:Sd; [|discriminate].
  injection Mo as <- <-.
  destruct (split_delimiter_spec _ _ _ Sd) as (Dk & d & -> & Dd).
  rewrite rstrip_idem. unfold ConfigParser.optionxform.
  destruct k as [|c k']; [contradiction Ne; reflexivity|].
  apply stripped_spec in St. destruct St as [Ls _].
  assert (Sc : isspace c = false).
  { destruct (lstrip_fixed_head _ Ls) as (c0 & r0 & E & S0); [discriminate|].
    injection E as <- _. exact S0. }
  apply clean_parts in Cl. destruct Cl as [Cn Cc].
  rewrite has_char_app in Cn, Cc.
  apply orb_false_iff in Cn, Cc. destruct Cn as [Cn Cn2], Cc as [Cc Cc2].
  cbn [has_char] in Cn2, Cc2.
  apply orb_false_iff in Cn2, Cc2. destruct Cn2 as [_ Cn2], Cc2 as [_ Cc2].
  destruct (rstrip_head c k' Sc) as (r' & Er).
  destruct (lower_char_keeps c) as (K1 & _ & K3 & K4 & K5 & _).
  split; [|split; [apply strip_stripped|split]].
  - unfold key_ok.
    assert (A1 : stripped (lower (rstrip (String c k'))) = true).
    { apply stripped_spec. split.
      - rewrite Er. cbn [lower]. apply lstrip_head. rewrite K1. exact Sc.
      - rewrite lower_rstrip, rstrip_idem. reflexivity. }
    assert (A2 : has_delimiter (lower (rstrip (String c k'))) = false).
    { rewrite has_delimiter_lower. apply has_delimiter_rstrip, Dk. }
    assert (A3 : has_char nl (lower (rstrip (String c k'))) = false).
    { rewrite has_char_lower; [apply has_char_rstrip, Cn|].
      intros x. apply (lower_char_keeps x). }
    assert (A4 : has_char cr (lower (rstrip (String c k'))) = false).
    { rewrite has_char_lower; [apply has_char_rstrip, Cc|].
      intros x. apply (lower_char_keeps x). }
    assert (A5 : commented (lower (rstrip (String c k'))) = false).
    { rewrite Er. cbn [lower]. rewrite commented_cons, K3, K4.
      cbn [append] in Co. rewrite commented_cons in Co. exact Co. }
    rewrite A1, A2, A3, A4, A5, lower_idem, String.eqb_refl.
    rewrite Er. reflexivity.
  - apply clean_strip. apply clean_parts.
    split; apply has_char_lstrip; assumption.
  - rewrite Er. cbn [lower append headerlike].
    rewrite K5.
    destruct (Ascii.eqb c "[") eqn:Eb; [|reflexivity]. cbn [andb].
    match goal with
    | |- ?b = false => destruct b eqn:Hh; [|reflexivity]
    end.
    exfalso.
    apply match_section_headerlike in Ms.
    cbn [append headerlike] in Ms. rewrite Eb in Ms. cbn [andb] in Ms.
    assert (T : has_char "]" (drop 2 (String c k' ++ String d v)) = true).
    { apply has_char_drop_head; [discriminate|].
      destruct (has_char_drop_app _ _ _ _ Hh) as [H|H].
      - left. apply has_char_drop_rstrip. rewrite Er. cbn [drop].
        rewrite drop_lower, has_char_lower in H; [exact H|].
        intros x. apply (lower_char_keeps x).
      - right. apply (has_char_padded "]" (strip (lstrip v))) in H; [|reflexivity].
        destruct (has_char "]" v) eqn:Hv; [reflexivity|].
        apply (has_char_lstrip "]") in Hv. apply (has_char_strip "]") in Hv.
        congruence. }
    change (has_char "]" (drop 1 (k' ++ String d v)) = true) in T. congruence.
Qed.

(** *** The value of an option, from its lines *)

Lemma all_space_split_lines (s : string) :
  forallb all_space (split_lines s) = all_space s.
Proof.
  induction s as [|c s IH]; cbn [split_lines]; [reflexivity|].
  destruct (Ascii.eqb_spec c nl) as [->|N].
  - cbn [forallb all_space]. rewrite IH. reflexivity.
  - pose proof (split_lines_nonempty s) as Ne.
    destruct (split_lines s) as [|l ls]; [contradiction|].
    cbn [forallb all_space] in *. rewrite <- IH, andb_assoc. reflexivity.
Qed.

Lemma rstrip_lines_nil (lines : list string) :
  rstrip_lines lines = [] <-> forallb all_space lines = true.
Proof.
  induction lines as [|l r IH]; cbn [rstrip_lines forallb]; [split; reflexivity|].
  rewrite andb_true_iff.
  destruct (rstrip_lines r) as [|x xs].
  - destruct IH as [IH _]. specialize (IH eq_refl).
    destruct (all_space l); split; try discriminate; auto.
    intros [H _]. discriminate H.
  - split; [discriminate|]. intros [_ H]. apply IH in H. discriminate H.
Qed.

Lemma rstrip_nonblank (s : string) : all_space s = false -> rstrip s <> "".
Proof.
  intros H E. apply all_space_rstrip in E. congruence.
Qed.

Lemma rstrip_cons_nonblank (c : ascii) (s : string) :
  rstrip s <> "" -> rstrip (String c s) = String c (rstrip s).
Proof.
  intros H. cbn [rstrip]. destruct (rstrip s); [contradiction H; reflexivity|reflexivity].
Qed.

Lemma split_lines_cons (c : ascii) (s : string) :
  Ascii.eqb c nl = false ->
  split_lines (String c s)
  = String c (hd EmptyString (split_lines s)) :: tl (split_lines s).
Proof.
  intros H. cbn [split_lines]. rewrite H.
  pose proof (split_lines_nonempty s) as Ne.
  destruct (split_lines s); [contradiction|reflexivity].
Qed.

(** The lines of [s.rstrip()]. *)
Lemma split_lines_rstrip (s : string) :
  split_lines (rstrip s)
  = match rstrip_lines (split_lines s) with
    | [] => [EmptyString]
    | lines => lines
    end.
Proof.
  induction s as [|c s IH]; [reflexivity|].
  pose proof (rstrip_lines_nil (split_lines s)) as Nil.
  rewrite all_space_split_lines in Nil.
  destruct (Ascii.eqb c nl) eqn:E.
  - apply Ascii.eqb_eq in E. subst c.
    change (split_lines (String nl s)) with (EmptyString :: split_lines s).
    cbn [rstrip_lines all_space].
    destruct (rstrip_lines (split_lines s)) as [|x xs] eqn:R.
    + destruct Nil as [Nil _]. cbn [rstrip].
      rewrite (rstrip_all_space _ (Nil eq_refl)). reflexivity.
    + assert (B : all_space s = false).
      { destruct (all_space s); [|reflexivity].
        destruct Nil as [_ Nil]. discriminate (Nil eq_refl). }
      rewrite (rstrip_cons_nonblank _ _ (rstrip_nonblank _ B)).
      change (split_lines (String nl (rstrip s)))
        with (EmptyString :: split_lines (rstrip s)).
      rewrite IH. reflexivity.
  - rewrite (split_lines_cons _ _ E).
    rewrite (split_lines_hd_tl s) in IH, Nil.
    set (l := hd EmptyString (split_lines s)) in *.
    set (ls := tl (split_lines s)) in *.
    cbn [rstrip_lines] in IH, Nil |- *.
    destruct (rstrip_lines ls) as [|x xs] eqn:R.
    + destruct (all_space l) eqn:A.
      * destruct Nil as [Nil _].
        pose proof (rstrip_all_space _ (Nil eq_refl)) as Rs.
        cbn [rstrip all_space]. rewrite Rs, (rstrip_all_space _ A), A.
        destruct (isspace c); cbn [andb]; [reflexivity|].
        cbn [split_lines]. rewrite E. reflexivity.
      * assert (B : all_space s = false).
        { destruct (all_space s); [|reflexivity].
          destruct Nil as [_ Nil]. discriminate (Nil eq_refl). }
        rewrite (rstrip_cons_nonblank _ _ (rstrip_nonblank _ B)).
        rewrite (split_lines_cons _ _ E), IH. cbn [hd tl all_space].
        rewrite A, andb_false_r.
        rewrite (rstrip_cons_nonblank _ _ (rstrip_nonblank _ A)). reflexivity.
    + assert (B : all_space s = false).
      { destruct (all_space s); [|reflexivity].
        destruct Nil as [_ Nil]. discriminate (Nil eq_refl). }
      rewrite (rstrip_cons_nonblank _ _ (rstrip_nonblank _ B)).
      rewrite (split_lines_cons _ _ E), IH. reflexivity.
Qed.

Lemma split_lines_join (lines : list string) :
  lines <> [] ->
  forallb (fun l => negb (has_char nl l)) lines = true ->
  split_lines (join NL lines) = lines.
Proof.
  induction lines as [|l r IH]; [contradiction|]. intros _.
  cbn [forallb]. rewrite andb_true_iff, negb_true_iff. intros [A B].
  destruct r as [|l2 r]; [apply split_lines_single, A|].
  specialize (IH ltac:(discriminate) B).
  change (join NL (l :: l2 :: r)) with (l ++ NL ++ join NL (l2 :: r))%string.
  clear B. induction l as [|c l IHl].
  - cbn [append NL]. change (split_lines (String nl ?x)) with (EmptyString :: split_lines x).
    cbn [split_lines]. change (Ascii.eqb nl nl) with true. cbn iota.
    rewrite IH. reflexivity.
  - cbn [has_char] in A. apply orb_false_iff in A. destruct A as [A1 A2].
    cbn [append]. rewrite (split_lines_cons _ _ A1), (IHl A2). reflexivity.
Qed.

Lemma has_char_join (a : ascii) (lines : list string) :
  Ascii.eqb nl a = false ->
  forallb (fun l => negb (has_char a l)) lines = true ->
  has_char a (join NL lines) = false.
Proof.
  intros N. induction lines as [|l r IH]; [reflexivity|].
  cbn [forallb]. rewrite andb_true_iff, negb_true_iff. intros [A B].
  destruct r as [|l2 r]; [exact A|].
  change (join NL (l :: l2 :: r)) with (l ++ NL ++ join NL (l2 :: r))%string.
  rewrite !has_char_app, A, (IH B).
  change (has_char a NL) with (Ascii.eqb nl a || false). rewrite N. reflexivity.
Qed.

Lemma stripped_blank (l : string) :
  stripped l = true -> all_space l = true -> l = "".
Proof.
  intros S A. apply stripped_spec in S. destruct S as [S _].
  rewrite <- S. apply lstrip_all_space, A.
Qed.

(** Among lines without a blank at either end, [rstrip] only drops the
    empty lines at the end. *)
Lemma rstrip_lines_prefix (lines : list string) :
  forallb stripped lines = true ->
  exists rest, lines = rstrip_lines lines ++ rest.
Proof.
  induction lines as [|l r IH]; [exists []; reflexivity|].
  cbn [forallb rstrip_lines]. rewrite andb_true_iff. intros [S R].
  destruct (IH R) as (rest & E).
  destruct (rstrip_lines r) as [|x xs].
  - destruct (all_space l); [exists (l :: r); reflexivity|].
    apply stripped_spec in S. destruct S as [_ ->]. exists r. reflexivity.
  - exists rest. change (l :: r = l :: ((x :: xs) ++ rest)). f_equal. exact E.
Qed.

Lemma rstrip_lines_hd (lines : list string) :
  forallb stripped lines = true ->
  hd EmptyString (match rstrip_lines lines with
                  | [] => [EmptyString]
                  | ls => ls
                  end)
  = hd EmptyString lines.
Proof.
  intros S. destruct (rstrip_lines_prefix _ S) as (rest & E).
  destruct (rstrip_lines lines) as [|x xs] eqn:R.
  - apply rstrip_lines_nil in R. destruct lines as [|l r]; [reflexivity|].
    cbn [forallb hd] in *. apply andb_true_iff in S, R.
    symmetry. apply stripped_blank; [apply S|apply R].
  - rewrite E. reflexivity.
Qed.

Lemma rstrip_lines_forallb (P : string -> bool) (lines : list string) :
  forallb stripped lines = true -> P EmptyString = true ->
  forallb P lines = true ->
  forallb P (match rstrip_lines lines with
             | [] => [EmptyString]
             | ls => ls
             end) = true.
Proof.
  intros S P0 H. destruct (rstrip_lines_prefix _ S) as (rest & E).
  destruct (rstrip_lines lines) as [|x xs]; [cbn; rewrite P0; reflexivity|].
  rewrite E, forallb_app in H. apply andb_true_iff in H. apply H.
Qed.

Lemma rstrip_lines_tl (P : string -> bool) (lines : list string) :
  forallb stripped lines = true ->
  forallb P (tl lines) = true ->
  forallb P (tl (match rstrip_lines lines with
                 | [] => [EmptyString]
                 | ls => ls
                 end)) = true.
Proof.
  intros S H. destruct (rstrip_lines_prefix _ S) as (rest & E).
  destruct (rstrip_lines lines) as [|x xs]; [reflexivity|].
  rewrite E in H. cbn [tl app] in *. rewrite forallb_app in H.
  apply andb_true_iff in H. apply H.
Qed.

(** *** The state of [_read], line after line *)

Lemma dict_set_ok {V} (P : string * V -> bool) (k : string) (v : V)
      (d : list (string * V)) :
  forallb P d = true -> distinct (map fst d) = true -> P (k, v) = true ->
  forallb P (ConfigParser.dict_set k v d) = true
  /\ distinct (map fst (ConfigParser.dict_set k v d)) = true.
Proof.
  intros Hf Hd Hi.
  induction d as [|[k' v'] d IH]; cbn [ConfigParser.dict_set].
  - cbn. rewrite Hi. split; reflexivity.
  - cbn [forallb map fst distinct] in Hf, Hd.
    apply andb_true_iff in Hf. destruct Hf as [Hf1 Hf2].
    apply andb_true_iff in Hd. destruct Hd as [Hd1 Hd2].
    destruct (String.eqb_spec k' k) as [->|N]; cbn [forallb map fst distinct].
    + rewrite Hi, Hf2, Hd1, Hd2. split; reflexivity.
    + destruct (IH Hf2 Hd2) as [I1 I2].
      rewrite Hf1, I1, I2, keys_dict_set.
      apply negb_true_iff in Hd1. rewrite Hd1.
      apply String.eqb_neq in N. rewrite N. split; reflexivity.
Qed.

Lemma dict_get_ok {V} (P : string * V -> bool) (k : string) (v : V)
      (d : list (string * V)) :
  forallb P d = true -> ConfigParser.dict_get k d = Some v -> P (k, v) = true.
Proof.
  induction d as [|[k' v'] d IH]; cbn [forallb ConfigParser.dict_get]; [discriminate|].
  rewrite andb_true_iff. intros [A B].
  destruct (String.eqb_spec k' k) as [->|_]; [intros [= <-]; exact A|auto].
Qed.

Lemma dict_get_none_keys {V} (k : string) (d : list (string * V)) :
  ConfigParser.dict_get k d = None -> existsb (String.eqb k) (map fst d) = false.
Proof.
  induction d as [|[k' v'] d IH]; cbn [ConfigParser.dict_get map fst existsb];
    [reflexivity|].
  rewrite (String.eqb_sym k k').
  destruct (String.eqb k' k); [discriminate|exact IH].
Qed.

Lemma raw_ok_parts (d : ConfigParser.raw_section) :
  raw_ok d = true <-> forallb raw_item_ok d = true /\ distinct (map fst d) = true.
Proof. unfold raw_ok. apply andb_true_iff. Qed.

Lemma raw_ok_dict_set (k : string) (lines : list string)
      (d : ConfigParser.raw_section) :
  raw_ok d = true -> raw_item_ok (k, lines) = true ->
  raw_ok (ConfigParser.dict_set k lines d) = true.
Proof.
  rewrite !raw_ok_parts. intros [A B] C. apply dict_set_ok; assumption.
Qed.

Lemma readable_parts (st : ConfigParser.ReadState) :
  readable st = true <->
  raw_ok (ConfigParser.rs_defaults st) = true
  /\ forallb raw_section_ok (ConfigParser.rs_sections st) = true
  /\ distinct (map fst (ConfigParser.rs_sections st)) = true
  /\ match ConfigParser.rs_sectname st with
     | Some n => negb (String.eqb n "") && clean n
     | None => true
     end = true.
Proof.
  unfold readable. rewrite !andb_true_iff. tauto.
Qed.

Lemma raw_ok_cursect (st : ConfigParser.ReadState) (n : string) :
  readable st = true -> raw_ok (ConfigParser.cursect st n) = true.
Proof.
  rewrite readable_parts. intros (A & B & _). unfold ConfigParser.cursect.
  destruct (String.eqb n ConfigParser.default_section); [exact A|].
  destruct (ConfigParser.dict_get n (ConfigParser.rs_sections st)) as [d|] eqn:E;
    [|reflexivity].
  pose proof (dict_get_ok _ _ _ _ B E) as H. unfold raw_section_ok in H.
  apply andb_true_iff in H. apply H.
Qed.

Lemma readable_set_cursect (st : ConfigParser.ReadState) (n : string)
      (d : ConfigParser.raw_section) :
  readable st = true -> ConfigParser.rs_sectname st = Some n ->
  raw_ok d = true ->
  readable (ConfigParser.set_cursect st n d) = true.
Proof.
  rewrite !readable_parts. intros (A & B & C & D) E R.
  unfold ConfigParser.set_cursect.
  destruct (String.eqb n ConfigParser.default_section) eqn:Ed;
    cbn [ConfigParser.rs_defaults ConfigParser.rs_sections ConfigParser.rs_sectname].
  - repeat split; assumption.
  - rewrite E in D. apply andb_true_iff in D. destruct D as [D1 D2].
    apply clean_parts in D2. destruct D2 as [D2 D3].
    destruct (dict_set_ok raw_section_ok n d _ B C) as [F G].
    { unfold raw_section_ok, name_ok. cbn [fst snd].
      rewrite D1, D2, D3, Ed, R. reflexivity. }
    rewrite E. repeat split; try assumption.
    apply andb_true_iff. split; [exact D1|]. apply clean_parts. auto.
Qed.

Lemma raw_item_ok_append (k : string) (lines : list string) (value : string) :
  raw_item_ok (k, lines) = true ->
  stripped value = true -> clean value = true -> commented value = false ->
  raw_item_ok (k, (lines ++ [value])%list) = true.
Proof.
  unfold raw_item_ok. cbn [fst snd].
  rewrite !andb_true_iff. intros [[[[[A B] C] D] E] F] S Cl Co.
  destruct lines as [|l ls]; [discriminate B|].
  cbn [app hd tl forallb] in *. rewrite !forallb_app. cbn [forallb].
  apply andb_true_iff in C, D. destruct C as [C1 C2], D as [D1 D2].
  rewrite A, C1, C2, D1, D2, E, F, S, Cl, Co. repeat split.
Qed.

Lemma continues_parts (st : ConfigParser.ReadState) (n k : string) :
  ConfigParser.continues st = Some (n, k) ->
  ConfigParser.rs_sectname st = Some n /\ ConfigParser.rs_optname st = Some k.
Proof.
  unfold ConfigParser.continues.
  destruct (ConfigParser.rs_sectname st); [|discriminate].
  destruct (ConfigParser.rs_optname st) as [[|c o]|]; try discriminate.
  intros [= <- <-]. split; reflexivity.
Qed.

Lemma readable_append_value (st : ConfigParser.ReadState) (n k value : string) :
  readable st = true -> ConfigParser.continues st = Some (n, k) ->
  stripped value = true -> clean value = true -> commented value = false ->
  readable (ConfigParser.append_value st n k value) = true.
Proof.
  intros R C S Cl Co. unfold ConfigParser.append_value.
  destruct (ConfigParser.dict_get k (ConfigParser.cursect st n)) as [lines|] eqn:E;
    [|exact R].
  destruct (continues_parts _ _ _ C) as [Sn _].
  pose proof (raw_ok_cursect st n R) as Rc.
  apply readable_set_cursect; [exact R|exact Sn|].
  apply raw_ok_dict_set; [exact Rc|].
  apply raw_item_ok_append; try assumption.
  apply raw_ok_parts in Rc. destruct Rc as [Rc _].
  exact (dict_get_ok _ _ _ _ Rc E).
Qed.

Lemma append_value_errors (st : ConfigParser.ReadState) (n k value : string) :
  ConfigParser.rs_errors (ConfigParser.append_value st n k value)
  = ConfigParser.rs_errors st.
Proof.
  unfold ConfigParser.append_value.
  destruct (ConfigParser.dict_get k (ConfigParser.cursect st n)); [|reflexivity].
  apply (set_cursect_fields st n).
Qed.

Lemma readable_with_indent (st : ConfigParser.ReadState) (i : nat) :
  readable (ConfigParser.with_indent st i) = readable st.
Proof. reflexivity. Qed.

Lemma with_error_errors (st : ConfigParser.ReadState) (i : nat) (line : string) :
  ConfigParser.rs_errors (ConfigParser.with_error st i line) <> [].
Proof.
  cbn. destruct (ConfigParser.rs_errors st); discriminate.
Qed.

Lemma raw_item_ok_single (k l : string) :
  key_ok k = true -> stripped l = true -> clean l = true ->
  headerlike (k ++ " =" ++ padded l) = false ->
  raw_item_ok (k, [l]) = true.
Proof.
  intros A B C D. unfold raw_item_ok. cbn [fst snd hd tl forallb].
  rewrite A, B, C, D. reflexivity.
Qed.

Lemma clean_header (value n : string) :
  clean value = true -> ConfigParser.match_section value = Some n ->
  negb (String.eqb n "") && clean n = true.
Proof.
  intros C M. destruct (match_section_parts _ _ M) as [Ne K].
  apply clean_parts in C. destruct C as [C1 C2].
  apply andb_true_iff. split.
  - apply negb_true_iff, String.eqb_neq, Ne.
  - apply clean_parts. split; apply K; assumption.
Qed.

Lemma read_header_or_option_errors (source : string) (st st' : ConfigParser.ReadState)
      (i : nat) (line value : string) :
  ConfigParser.read_header_or_option source st i line value = inr st' ->
  ConfigParser.rs_errors st' = [] -> ConfigParser.rs_errors st = [].
Proof.
  unfold ConfigParser.read_header_or_option.
  destruct (ConfigParser.match_section value) as [sectname|].
  - destruct (ConfigParser.dict_get sectname (ConfigParser.rs_sections st)).
    + destruct (ConfigParser.in_names _ _); [discriminate|].
      intros [= <-] E. exact E.
    + destruct (String.eqb sectname ConfigParser.default_section);
        intros [= <-] E; exact E.
  - destruct (ConfigParser.rs_sectname st) as [name|]; [|discriminate].
    destruct (ConfigParser.match_option value) as [[optname optval]|].
    + cbn zeta. destruct (ConfigParser.in_pairs _ _); [discriminate|].
      intros [= <-].
      destruct (set_cursect_fields
                  (ConfigParser.with_option
                     match optname with
                     | "" => ConfigParser.with_error st i line
                     | String _ _ => st
                     end name (ConfigParser.optionxform (rstrip optname)))
                  name
                  (ConfigParser.dict_set (ConfigParser.optionxform (rstrip optname))
                     [strip optval]
                     (ConfigParser.cursect
                        (ConfigParser.with_option
                           match optname with
                           | "" => ConfigParser.with_error st i line
                           | String _ _ => st
                           end name (ConfigParser.optionxform (rstrip optname)))
                        name)))
        as (_ & _ & _ & _ & _ & ->).
      cbn [ConfigParser.rs_errors ConfigParser.with_option].
      destruct optname; [|auto].
      intros E. destruct (with_error_errors _ _ _ E).
    + intros [= <-] E. destruct (with_error_errors _ _ _ E).
Qed.

Lemma read_header_or_option_readable (source : string)
      (st st' : ConfigParser.ReadState) (i : nat) (line value : string) :
  ConfigParser.read_header_or_option source st i line value = inr st' ->
  stripped value = true -> clean value = true -> commented value = false ->
  ConfigParser.rs_errors st' = [] ->
  readable st = true -> readable st' = true.
Proof.
  intros H S C Co E R. revert H E.
  unfold ConfigParser.read_header_or_option.
  destruct (ConfigParser.match_section value) as [sectname|] eqn:Ms.
  - pose proof (clean_header _ _ C Ms) as Hn.
    apply readable_parts in R. destruct R as (R1 & R2 & R3 & _).
    destruct (ConfigParser.dict_get sectname (ConfigParser.rs_sections st)) eqn:G.
    + destruct (ConfigParser.in_names _ _); [discriminate|].
      intros [= <-] _. apply readable_parts. cbn. repeat split; assumption.
    + destruct (String.eqb sectname ConfigParser.default_section) eqn:Ed;
        intros [= <-] _; apply readable_parts; cbn -[name_ok raw_ok];
        repeat split; try assumption.
      * rewrite forallb_app, R2. cbn [forallb]. unfold raw_section_ok, name_ok.
        cbn [fst snd]. apply andb_true_iff in Hn. destruct Hn as [N1 N2].
        apply clean_parts in N2. destruct N2 as [N2 N3].
        rewrite N1, N2, N3, Ed. reflexivity.
      * rewrite map_app. apply distinct_add; [exact R3|].
        apply dict_get_none_keys, G.
  - destruct (ConfigParser.rs_sectname st) as [name|] eqn:Sn; [|discriminate].
    destruct (ConfigParser.match_option value) as [[optname optval]|] eqn:Mo.
    + cbn zeta. destruct (ConfigParser.in_pairs _ _); [discriminate|].
      intros [= <-]. rewrite (proj2 (proj2 (proj2 (proj2 (proj2
                       (set_cursect_fields _ _ _)))))).
      cbn [ConfigParser.rs_errors ConfigParser.with_option].
      destruct optname as [|c o] eqn:Eo;
        [intros E; destruct (with_error_errors _ _ _ E)|].
      intros _.
      destruct (option_line value (String c o) optval S C Co Ms Mo)
        as (K & L1 & L2 & L3); [discriminate|].
      apply readable_set_cursect; [exact R|exact Sn|].
      apply raw_ok_dict_set; [exact (raw_ok_cursect st name R)|].
      apply raw_item_ok_single; assumption.
    + intros [= <-] E. destruct (with_error_errors _ _ _ E).
Qed.

Lemma is_comment_commented (line : string) :
  ConfigParser.is_comment line = commented (strip line).
Proof. reflexivity. Qed.

Lemma read_line_errors (source : string) (st st' : ConfigParser.ReadState)
      (i : nat) (line : string) :
  ConfigParser.read_line source st i line = inr st' ->
  ConfigParser.rs_errors st' = [] -> ConfigParser.rs_errors st = [].
Proof.
  unfold ConfigParser.read_line.
  destruct (ConfigParser.is_comment line); [intros [= <-] E; exact E|].
  destruct (strip line) as [|c v] eqn:V;
    destruct (ConfigParser.continues st) as [[name optname]|].
  - intros [= <-]. rewrite append_value_errors. auto.
  - intros [= <-] E. exact E.
  - destruct (_ <? _)%nat.
    + intros [= <-]. rewrite append_value_errors. auto.
    + intros H E. exact (read_header_or_option_errors _ _ _ _ _ _ H E).
  - intros H E. exact (read_header_or_option_errors _ _ _ _ _ _ H E).
Qed.

Lemma read_line_readable (source : string) (st st' : ConfigParser.ReadState)
      (i : nat) (line : string) :
  ConfigParser.read_line source st i line = inr st' ->
  clean (strip line) = true ->
  ConfigParser.rs_errors st' = [] ->
  readable st = true -> readable st' = true.
Proof.
  unfold ConfigParser.read_line. rewrite is_comment_commented.
  pose proof (strip_stripped line) as S.
  destruct (commented (strip line)) eqn:Co; [intros [= <-] _ _ R; exact R|].
  destruct (strip line) as [|c v] eqn:V;
    destruct (ConfigParser.continues st) as [[name optname]|] eqn:Cs.
  - intros [= <-] _ _ R. apply readable_append_value; auto.
  - intros [= <-] _ _ R. exact R.
  - destruct (_ <? _)%nat.
    + intros [= <-] C _ R. apply readable_append_value; auto.
    + intros H C E R.
      apply (read_header_or_option_readable _ _ _ _ _ _ H S C Co E).
      exact R.
  - intros H C E R.
    apply (read_header_or_option_readable _ _ _ _ _ _ H S C Co E).
    exact R.
Qed.

Lemma read_lines_errors (source : string) (lines : list string) :
  forall (st st' : ConfigParser.ReadState) (i : nat),
  ConfigParser.read_lines source st i lines = inr st' ->
  ConfigParser.rs_errors st' = [] -> ConfigParser.rs_errors st = [].
Proof.
  induction lines as [|l lines IH]; intros st st' i; cbn [ConfigParser.read_lines].
  - intros [= <-] E. exact E.
  - destruct (ConfigParser.read_line source st i l) as [e|st1] eqn:R1; [discriminate|].
    intros H E. apply (read_line_errors _ _ _ _ _ R1). exact (IH _ _ _ H E).
Qed.

Lemma read_lines_readable (source : string) (lines : list string) :
  forall (st st' : ConfigParser.ReadState) (i : nat),
  ConfigParser.read_lines source st i lines = inr st' ->
  Forall (fun l => clean (strip l) = true) lines ->
  ConfigParser.rs_errors st' = [] ->
  readable st = true -> readable st' = true.
Proof.
  induction lines as [|l lines IH]; intros st st' i; cbn [ConfigParser.read_lines].
  - intros [= <-] _ _ R. exact R.
  - destruct (ConfigParser.read_line source st i l) as [e|st1] eqn:R1; [discriminate|].
    intros H F E R. inversion F as [|? ? Fl Fr]; subst.
    apply (IH _ _ _ H Fr E).
    apply (read_line_readable _ _ _ _ _ R1 Fl); [|exact R].
    exact (read_lines_errors _ _ _ _ _ H E).
Qed.

(** *** What [_read] returns *)

Lemma joined_item_ok (k : string) (lines : list string) :
  raw_item_ok (k, lines) = true ->
  item_ok (k, PyStr (rstrip (join NL lines))) = true.
Proof.
  unfold raw_item_ok. cbn [fst snd].
  rewrite !andb_true_iff, !negb_true_iff. intros [[[[[K Ne] S] C] Co] Hl].
  assert (Ne' : lines <> []) by (destruct lines; [discriminate Ne|discriminate]).
  assert (Cn : forallb (fun l => negb (has_char nl l)) lines = true
               /\ forallb (fun l => negb (has_char cr l)) lines = true).
  { clear -C. induction lines as [|l r IH]; [split; reflexivity|].
    cbn [forallb] in *. apply andb_true_iff in C. destruct C as [C1 C2].
    apply clean_parts in C1. destruct C1 as [A B]. destruct (IH C2) as [I1 I2].
    rewrite A, B, I1, I2. split; reflexivity. }
  destruct Cn as [Cn Cc].
  assert (L : split_lines (rstrip (join NL lines))
              = match rstrip_lines lines with
                | [] => [EmptyString]
                | ls => ls
                end).
  { rewrite split_lines_rstrip, (split_lines_join _ Ne' Cn). reflexivity. }
  unfold item_ok. cbn [fst snd py_str]. rewrite K. cbn [andb].
  assert (V : value_ok (rstrip (join NL lines)) = true).
  { unfold value_ok. rewrite rstrip_idem, String.eqb_refl, L.
    rewrite (has_char_rstrip _ _ (has_char_join cr lines eq_refl Cc)).
    rewrite (rstrip_lines_forallb stripped lines S eq_refl S).
    rewrite (rstrip_lines_tl _ lines S Co). reflexivity. }
  rewrite V. cbn [andb]. unfold item_head. rewrite L, (rstrip_lines_hd _ S).
  assert (S1 : stripped (hd EmptyString lines) = true).
  { destruct lines as [|l r]; [reflexivity|]. cbn [forallb hd] in *.
    apply andb_true_iff in S. apply S. }
  rewrite (item_head_form _ _ K S1).
  apply match_section_headerlike in Hl.
  unfold padded in Hl. rewrite Hl. reflexivity.
Qed.

Lemma join_values_keys (d : ConfigParser.raw_section) :
  map fst (ConfigParser.join_values d) = map fst d.
Proof.
  unfold ConfigParser.join_values. rewrite map_map. apply map_ext.
  intros kv. reflexivity.
Qed.

Lemma join_values_ok (d : ConfigParser.raw_section) :
  raw_ok d = true -> items_ok (ConfigParser.join_values d) = true.
Proof.
  rewrite raw_ok_parts. intros [A B]. unfold items_ok.
  rewrite join_values_keys, B, andb_true_r. clear B.
  induction d as [|[k lines] d IH]; [reflexivity|].
  change (ConfigParser.join_values ((k, lines) :: d))
    with ((k, PyStr (rstrip (join NL lines))) :: ConfigParser.join_values d).
  cbn [forallb] in *.
  apply andb_true_iff in A. destruct A as [A1 A2].
  rewrite (joined_item_ok _ _ A1), (IH A2). reflexivity.
Qed.

Lemma finish_names (S : list (string * ConfigParser.raw_section)) :
  map (fun sd => py_str (fst sd))
      (map (fun sd => (PyStr (fst sd), ConfigParser.join_values (snd sd))) S)
  = map fst S.
Proof.
  rewrite map_map. apply map_ext. intros sd. reflexivity.
Qed.

Lemma finish_writable (st : ConfigParser.ReadState) :
  readable st = true -> writable (ConfigParser.finish st) = true.
Proof.
  rewrite readable_parts. intros (A & B & C & _).
  unfold writable, ConfigParser.finish.
  cbn [ConfigParser.defaults ConfigParser.sections].
  rewrite (join_values_ok _ A), finish_names, C, andb_true_r. cbn [andb].
  clear C.
  induction (ConfigParser.rs_sections st) as [|[n d] S IH]; [reflexivity|].
  cbn [forallb map fst snd] in *.
  apply andb_true_iff in B. destruct B as [B1 B2].
  rewrite (IH B2), andb_true_r.
  unfold raw_section_ok in B1. cbn [fst snd] in B1.
  apply andb_true_iff in B1. destruct B1 as [N R].
  unfold section_ok. cbn [fst snd]. rewrite N, (join_values_ok _ R). reflexivity.
Qed.

(** Whatever the file holds, a parser that [read] returns can be written
    back. *)
Lemma read_text_writable (source text : string) (cp : ConfigParser.RawConfigParser) :
  ConfigParser.read_text source text = Return cp -> writable cp = true.
Proof.
  unfold ConfigParser.read_text.
  destruct (ConfigParser.read_lines source ConfigParser.read_start 1 _)
    as [e|st] eqn:R; [discriminate|].
  destruct (ConfigParser.rs_errors st) eqn:E; [|discriminate].
  intros [= <-]. apply finish_writable.
  apply (read_lines_readable _ _ _ _ _ R (file_lines_clean text) E).
  reflexivity.
Qed.

Lemma stored_parser_writable (w : World) (path : string)
      (cp : ConfigParser.RawConfigParser) :
  stored_parser w path = Return cp -> writable cp = true.
Proof.
  unfold stored_parser. destruct (lookup_file path (files w)) as [text|].
  - apply read_text_writable.
  - intros [= <-]. reflexivity.
Qed.

(** *** C4: [write], then [read] *)

(** C4 (amended). Let the profile be a name on one line other than DEFAULT
    in capitals; let region, login_url and role_arn be text that does not
    end in a blank or a line break, in which no line starts or ends with a
    blank, with no carriage return and no line after the first that opens
    with # or ;; let ask_role be a boolean and duration an integer; and let
    the config file and the credentials file be two files, whatever they
    hold.  When [write] returns, [read] of the same profile on any
    configuration of the same session, with the files as [write] left them,
    returns too, and the profile and the five written fields of that
    configuration are the ones that were written. *)
Theorem write_then_read (amazon_object : option Amazon) (s : State)
        (fresh : Configuration) (p r l a : string) (b : bool) (d : Z) :
  profile (self s) = PyStr p ->
  profile_ok p = true ->
  region (self s) = PyStr r -> value_ok r = true ->
  ask_role (self s) = PyBool b ->
  duration (self s) = PyInt d ->
  login_url (self s) = PyStr l -> value_ok l = true ->
  role_arn (self s) = PyStr a -> value_ok a = true ->
  String.eqb (config_file (self s)) (credentials_file (self s)) = false ->
  boto_session fresh = boto_session (self s) ->
  fst (write amazon_object s) = Return tt ->
  let after := read_back amazon_object s fresh (PyStr p) in
  fst after = Return tt
  /\ profile (self (snd after)) = PyStr p
  /\ region (self (snd after)) = PyStr r
  /\ ask_role (self (snd after)) = PyBool b
  /\ duration (self (snd after)) = PyInt d
  /\ login_url (self (snd after)) = PyStr l
  /\ role_arn (self (snd after)) = PyStr a.
Proof.
  intros Hp Pok Hr Vr Hb Hd Hl Vl Ha Va N Hs Hw after. subst after.
  unfold read_back.
  apply String.eqb_neq in N.
  (* what [write] did *)
  pose proof (ensure_config_files_exist_only_creates s) as O.
  pose proof (ensure_config_files_exist_ok s) as EO.
  rewrite write_run in Hw |- *.
  destruct (ensure_config_files_exist s) as [[[]|e] s0]; cbn [fst snd] in *;
    [|discriminate].
  pose proof O as (S0 & _).
  rewrite S0, Hp in Hw |- *. cbn [is_none] in Hw |- *.
  destruct (EO eq_refl) as [I1 I2]. clear EO.
  destruct (write_sections_ok amazon_object s0) as (cp & cp' & P & U & F & G);
    [rewrite S0; exact N|exact Hw|].
  rewrite S0 in P, U, F.
  rewrite (stored_parser_only_creates _ _ _ O) in P.
  pose proof (stored_parser_writable _ _ _ P) as SW.
  destruct (config_profile_name_ok p Pok) as (n & Cn & Nok).
  assert (Wr : writable cp' = true
               /\ exists dd, ConfigParser.sect_get (PyStr n) (ConfigParser.sections cp')
                             = Some (config_items (self s) dd)).
  { apply (update_config_writable (self s) cp cp' n); try assumption.
    - rewrite Hp. exact Cn.
    - rewrite Hr. apply item_ok_intro; [reflexivity|exact Vr|reflexivity].
    - rewrite Hb. apply item_ok_intro;
        [reflexivity|apply plain_value_ok, bool_text_plain|reflexivity].
    - rewrite Hd. apply item_ok_intro;
        [reflexivity|apply plain_value_ok, int_text_plain|reflexivity].
    - rewrite Hl. apply item_ok_intro; [reflexivity|exact Vl|reflexivity].
    - rewrite Ha. apply item_ok_intro; [reflexivity|exact Va|reflexivity]. }
  destruct Wr as (W' & dd & SG).
  destruct (config_items_values (self s) dd) as (V1 & V2 & V3 & V4 & V5).
  (* what [read] finds *)
  set (w1 := world (snd (write_sections amazon_object s0))) in *.
  assert (Cf : config_file fresh = config_file (self s))
    by (unfold config_file; rewrite Hs; reflexivity).
  assert (Cr : credentials_file fresh = credentials_file (self s))
    by (unfold credentials_file; rewrite Hs; reflexivity).
  rewrite read_run. cbn [self world].
  rewrite (ensure_config_files_exist_in_place {| self := fresh; world := w1 |});
    [|cbn [self world]; rewrite ?Cf, ?Cr; eapply in_place_grows; eassumption..].
  cbn [self world]. rewrite Cf.
  assert (SP : stored_parser w1 (config_file (self s)) = Return (as_read cp')).
  { unfold stored_parser. rewrite F. apply read_text_write. exact W'. }
  rewrite SP, Cn, (has_section_as_read _ _ _ W' SG).
  match goal with
  | |- context [read_fields ?c ?pn ?sec ?st] =>
      pose proof (read_fields_merged c pn sec st) as RM
  end.
  cbn zeta in RM.
  rewrite (stored_value_as_read _ _ _ _ _ W' SG V1) in RM.
  rewrite (stored_value_as_read _ _ _ _ _ W' SG V2) in RM.
  rewrite (stored_value_as_read _ _ _ _ _ W' SG V3) in RM.
  rewrite (stored_value_as_read _ _ _ _ _ W' SG V4) in RM.
  rewrite (stored_value_as_read _ _ _ _ _ W' SG V5) in RM.
  rewrite Hr, Hb, Hd, Hl, Ha in RM.
  cbn [decodable merged as_text] in RM.
  rewrite convert_to_boolean_text, convert_to_int_text in RM.
  cbn [py_str] in RM.
  destruct RM as (R0 & R1 & R2 & R3 & R4 & R5 & R6 & _);
    [exact (has_section_as_read _ _ _ W' SG)
    |intros key v; apply as_read_values_are_text
    |reflexivity|reflexivity|].
  repeat split; assumption.
Qed.

Lemma write_then_read_witness :
  let s := {| self := set_profile (PyStr "work") sample_configuration;
              world := world_with_config config_with_profile |} in
  let after := read_back (Some sample_credentials) s (init sample_session)
                         (PyStr "work") in
  fst after = Return tt
  /\ profile (self (snd after)) = PyStr "work"
  /\ region (self (snd after)) = PyStr "eu-west-1"
  /\ ask_role (self (snd after)) = PyBool true
  /\ duration (self (snd after)) = PyInt max_duration
  /\ login_url (self (snd after)) = PyStr "https://idp.example.com/sso"
  /\ role_arn (self (snd after)) = PyStr "arn:aws:iam::123456789012:role/dev".
Proof.
  intros s.
  apply (write_then_read (Some sample_credentials) s (init sample_session)
           "work" "eu-west-1" "https://idp.example.com/sso"
           "arn:aws:iam::123456789012:role/dev" true max_duration);
    vm_compute; reflexivity.
Defined.

(** C4 as it is stated fails in two ways: a region that begins with a blank
    is written as it is and read back without the blank, and for the
    profile DEFAULT in capitals [write] raises when it adds the section, so
    that nothing is written. *)
Lemma write_then_read_counterexample :
  (let s := {| self := configuration_with_blank; world := sample_world |} in
   let after := read_back None s (init sample_session) (profile (self s)) in
   fst (write None s) = Return tt
   /\ fst after = Return tt
   /\ region (self s) = PyStr " eu-west-1"
   /\ region (self (snd after)) = PyStr "eu-west-1")
  /\ (let s := {| self := configuration_in_capitals; world := sample_world |} in
      fst (write None s) = Raise (ValueError "Invalid section name: 'DEFAULT'")
      /\ lookup_file (config_file (self s)) (files (world (snd (write None s))))
         = Some "").
Proof.
  vm_compute. repeat split.
Qed.

(** ** Further properties of the methods *)

(** *** [raise_if_invalid] as a whole *)

Lemma assert_bind {A} (b : bool) (msg : string) (k : M A) (s : State) :
  (assert_ b msg ;;; k) s
  = if b then k s else (Raise (AssertionError msg), s).
Proof. destruct b; reflexivity. Qed.

Lemma assert_run (b : bool) (msg : string) (s : State) :
  assert_ b msg s = if b then (Return tt, s) else (Raise (AssertionError msg), s).
Proof. destruct b; reflexivity. Qed.

(** When a check of [raise_if_invalid] fails, the conjunction of the
    invariants fails with it. *)
Ltac failed_check :=
  eexists; split; [reflexivity|];
  split;
  [ split;
    [ discriminate
    | intros [V D]; unfold other_fields_valid in V;
      try match goal with
          | E : role_arn _ = _ |- _ => rewrite E in V
          end;
      repeat match goal with
             | H : _ && _ = true |- _ => apply andb_true_iff in H; destruct H
             end;
      try congruence;
      try (destruct D as (z' & D & Lo' & Hi'); try congruence;
           injection D as <-; lia) ]
  | intros _; eexists; reflexivity ].

Lemma raise_if_invalid_run (s : State) :
  exists r,
    raise_if_invalid s = (r, s)
    /\ (r = Return tt
        <-> other_fields_valid (self s) = true
            /\ exists z, duration (self s) = PyInt z /\ 900 <= z <= 43200)
    /\ (raised r = true -> exists msg, r = Raise (AssertionError msg)).
Proof.
  unfold raise_if_invalid, bind at 1, get_self. cbn beta iota.
  rewrite assert_bind.
  destruct (class_is_bool (ask_role (self s))) eqn:E1; [|failed_check].
  rewrite assert_bind.
  destruct (duration (self s)) as [|db|z|dt|dc dt] eqn:Ed; cbn [class_is_int];
    try failed_check.
  rewrite assert_bind.
  destruct (Z.leb_spec 900 z) as [Lo|Lo]; [|failed_check].
  rewrite assert_bind. unfold max_duration.
  destruct (Z.leb_spec z 43200) as [Hi|Hi]; [|failed_check].
  rewrite assert_bind.
  destruct (class_is_bool (auto_duration (self s))) eqn:E2; [|failed_check].
  rewrite assert_bind.
  destruct (class_is_str (profile (self s))) eqn:E3; [|failed_check].
  rewrite assert_bind.
  destruct (class_is_str (region (self s))) eqn:E4; [|failed_check].
  rewrite assert_bind.
  destruct (negb (is_none (login_url (self s)))) eqn:E5; [|failed_check].
  assert (R : forall k : M unit,
             ((if negb (is_none (role_arn (self s))) then
                 assert_ (class_is_str (role_arn (self s)))
                   ("Expected role_arn to be None or a string. Got "
                      ++ class_text (role_arn (self s)) ++ ".") ;;;
                 assert_ (match role_arn (self s) with
                          | PyStr a => contains "arn:aws:iam::" a
                                       || contains "arn:aws-us-gov:iam::" a
                          | _ => false
                          end)
                   ("Expected role_arn to contain 'arn:aws:iam::'. Got '"
                      ++ py_str (role_arn (self s)) ++ "'.")
               else ret tt) ;;; k) s
             = match role_arn (self s) with
               | PyNone => k s
               | PyStr a =>
                   if contains "arn:aws:iam::" a || contains "arn:aws-us-gov:iam::" a
                   then k s
                   else (Raise (AssertionError
                                  ("Expected role_arn to contain 'arn:aws:iam::'. Got '"
                                     ++ a ++ "'.")), s)
               | v => (Raise (AssertionError
                                ("Expected role_arn to be None or a string. Got "
                                   ++ class_text v ++ ".")), s)
               end).
  { intros k. destruct (role_arn (self s)) as [|rb|rz|rt|rc rt]; try reflexivity.
    cbn [is_none negb class_is_str py_str]. unfold bind at 1.
    rewrite assert_bind. destruct (_ || _); reflexivity. }
  rewrite R. clear R.
  destruct (role_arn (self s)) as [|rb|rz|rt|rc rt] eqn:E6; try failed_check.
  - rewrite assert_bind.
    destruct (class_is_bool (quiet (self s))) eqn:E7; [|failed_check].
    rewrite assert_bind.
    destruct (class_is_str (account (self s))) eqn:E8; [|failed_check].
    rewrite assert_run.
    destruct (class_is_int (port (self s))) eqn:E9; [|failed_check].
    eexists. split; [reflexivity|]. split; [|discriminate].
    split; [intros _|reflexivity].
    unfold other_fields_valid.
    rewrite E1, E2, E3, E4, E5, E6, E7, E8, E9. split; [reflexivity|].
    exists z. repeat split; lia.
  - destruct (contains "arn:aws:iam::" rt || contains "arn:aws-us-gov:iam::" rt)
      eqn:E10; [|failed_check].
    rewrite assert_bind.
    destruct (class_is_bool (quiet (self s))) eqn:E7; [|failed_check].
    rewrite assert_bind.
    destruct (class_is_str (account (self s))) eqn:E8; [|failed_check].
    rewrite assert_run.
    destruct (class_is_int (port (self s))) eqn:E9; [|failed_check].
    eexists. split; [reflexivity|]. split; [|discriminate].
    split; [intros _|reflexivity].
    unfold other_fields_valid.
    rewrite E1, E2, E3, E4, E5, E6, E7, E8, E9, E10. split; [reflexivity|].
    exists z. repeat split; lia.
Qed.

(** X1. [raise_if_invalid] returns exactly when every invariant holds: the
    duration is an integer from 900 to 43200, [ask_role], [auto_duration]
    and [quiet] are booleans, [profile], [region] and [account] are text,
    [login_url] is not [None], [role_arn] is [None] or a text in which one
    of the two ARN prefixes occurs, and [port] is an integer.  Whatever the
    fields are, it leaves the object and the world as they were, and what it
    raises is an [AssertionError]. *)
Theorem raise_if_invalid_accepts (s : State) :
  snd (raise_if_invalid s) = s
  /\ (fst (raise_if_invalid s) = Return tt
      <-> other_fields_valid (self s) = true
          /\ exists z, duration (self s) = PyInt z /\ 900 <= z <= 43200)
  /\ (raised (fst (raise_if_invalid s)) = true ->
      exists msg, fst (raise_if_invalid s) = Raise (AssertionError msg)).
Proof.
  destruct (raise_if_invalid_run s) as (r & -> & A & B).
  cbn [fst snd]. split; [reflexivity|]. split; assumption.
Qed.

(** X2. A configuration as [__init__] leaves it does not pass
    [raise_if_invalid]: the first check that fails is the one on [region].
    With [region] set to a text it is the check on [login_url] that fails,
    and once [login_url] is set as well, to anything but [None], every
    check passes: the defaults of all other fields are valid. *)
Theorem raise_if_invalid_after_init (session : Session) (w : World)
        (r : string) (url : pyval) :
  is_none url = false ->
  fst (raise_if_invalid {| self := init session; world := w |})
  = Raise (AssertionError "Expected region to be a string. Got <class 'NoneType'>.")
  /\ fst (raise_if_invalid
            {| self := set_region (PyStr r) (init session); world := w |})
     = Raise (AssertionError "Expected login_url to be set to non-None value.")
  /\ fst (raise_if_invalid
            {| self := set_login_url url (set_region (PyStr r) (init session));
               world := w |})
     = Return tt.
Proof.
  intros H. split; [reflexivity|]. split; [reflexivity|].
  unfold raise_if_invalid, bind, get_self, assert_. cbn.
  rewrite H. reflexivity.
Qed.

Lemma raise_if_invalid_after_init_witness :
  fst (raise_if_invalid
         {| self := set_login_url (PyStr "https://idp.example.com/sso")
                      (set_region (PyStr "eu-west-1") (init sample_session));
            world := sample_world |})
  = Return tt.
Proof.
  apply (raise_if_invalid_after_init sample_session sample_world "eu-west-1"
           (PyStr "https://idp.example.com/sso")).
  reflexivity.
Defined.

(** *** [ensure_config_files_exist] *)

(** X3. [ensure_config_files_exist] is idempotent: once it has returned,
    calling it again returns and does nothing at all, no directory or file
    is made and none is looked at differently. *)
Theorem ensure_config_files_exist_idempotent (s : State) :
  fst (ensure_config_files_exist s) = Return tt ->
  ensure_config_files_exist (snd (ensure_config_files_exist s))
  = (Return tt, snd (ensure_config_files_exist s)).
Proof.
  intros H.
  destruct (ensure_config_files_exist_ok s H) as [A B].
  pose proof (ensure_config_files_exist_only_creates s) as (S0 & _).
  apply ensure_config_files_exist_in_place; rewrite S0; assumption.
Qed.

Lemma ensure_config_files_exist_idempotent_witness :
  let s := {| self := sample_configuration; world := sample_world |} in
  trace (world (snd (ensure_config_files_exist s)))
  = [EvMkdir "/home/u/.aws"; EvTouch "/home/u/.aws/config";
     EvTouch "/home/u/.aws/credentials"]
  /\ ensure_config_files_exist (snd (ensure_config_files_exist s))
     = (Return tt, snd (ensure_config_files_exist s)).
Proof.
  intros s. split; [reflexivity|].
  apply (ensure_config_files_exist_idempotent s). reflexivity.
Defined.

Lemma upto_last_slash_none (p : string) :
  has_char "/" p = false -> upto_last_slash p = "".
Proof.
  destruct p as [|c p]; [reflexivity|]. intros H.
  cbn [upto_last_slash]. rewrite H. reflexivity.
Qed.

Lemma dirname_bare (p : string) : has_char "/" p = false -> dirname p = "".
Proof.
  intros H. unfold dirname. rewrite (upto_last_slash_none _ H). reflexivity.
Qed.

Lemma path_exists_empty (w : World) : path_exists w "" = false.
Proof. reflexivity. Qed.

Lemma ensure_file_exists_bare (file : string) (s : State) :
  has_char "/" file = false ->
  ensure_file_exists file s = (Raise (FileNotFoundError ""), s).
Proof.
  intros H. rewrite ensure_file_exists_run, (dirname_bare _ H).
  reflexivity.
Qed.

(** X4. A config file path without a directory part, a bare file name,
    makes [ensure_config_files_exist] fail whatever the file system holds:
    the directory part is empty, an empty path never exists, and making the
    directory of that name raises [FileNotFoundError].  [read] and [write]
    start with that call and fail the same way; nothing is changed. *)
Theorem bare_config_file_name (s : State) (profile_name : pyval)
        (amazon_object : option Amazon) :
  has_char "/" (config_file (self s)) = false ->
  ensure_config_files_exist s = (Raise (FileNotFoundError ""), s)
  /\ read profile_name s = (Raise (FileNotFoundError ""), s)
  /\ write amazon_object s = (Raise (FileNotFoundError ""), s).
Proof.
  intros H.
  assert (E : ensure_config_files_exist s = (Raise (FileNotFoundError ""), s)).
  { rewrite ensure_config_files_exist_run, (ensure_file_exists_bare _ _ H).
    reflexivity. }
  split; [exact E|]. split.
  - rewrite read_run, E. reflexivity.
  - rewrite write_run, E. reflexivity.
Qed.

Lemma bare_config_file_name_witness :
  write None {| self := init bare_session; world := sample_world |}
  = (Raise (FileNotFoundError ""),
     {| self := init bare_session; world := sample_world |}).
Proof.
  apply (bare_config_file_name
           {| self := init bare_session; world := sample_world |} PyNone None).
  reflexivity.
Defined.

Lemma os_mkdir_no_parent (path : string) (s : State) :
  String.eqb path "" = false ->
  path_exists (world s) path = false ->
  String.eqb (dirname path) "" = false ->
  is_dir (world s) (dirname path) = false ->
  os_mkdir path s = (Raise (walk_error (world s) path), s).
Proof.
  intros A B C D. unfold os_mkdir, bind, get_world, raise. cbn beta iota.
  rewrite A, B. unfold parent_is_dir. rewrite C, D. reflexivity.
Qed.

(** X5. [ensure_config_files_exist] makes one directory, not a chain of
    them: when the directory of the config file is missing and the
    directory above it is not there either, [os.mkdir] raises, the call
    ends there, and nothing was made, for the credentials file no more than
    for the config file.  The error is the one of the walk down to the
    directory: going down from the top, the first path that is no directory
    decides, [NotADirectoryError] when it is a file, however far above, and
    [FileNotFoundError] when nothing is there. *)
Theorem ensure_config_files_exist_one_level (s : State) :
  let d := dirname (config_file (self s)) in
  String.eqb d "" = false ->
  path_exists (world s) d = false ->
  String.eqb (dirname d) "" = false ->
  is_dir (world s) (dirname d) = false ->
  ensure_config_files_exist s = (Raise (walk_error (world s) d), s)
  /\ (walk_error (world s) d = NotADirectoryError d
      \/ walk_error (world s) d = FileNotFoundError d).
Proof.
  intros d A B C D. subst d. split.
  - rewrite ensure_config_files_exist_run, ensure_file_exists_run.
    rewrite B. cbn [negb]. rewrite (os_mkdir_no_parent _ _ A B C D).
    reflexivity.
  - unfold walk_error. destruct (filter _ _) as [|a l]; [right; reflexivity|].
    destruct (is_file (world s) a); [left|right]; reflexivity.
Qed.

Lemma ensure_config_files_exist_one_level_witness :
  ensure_config_files_exist
    {| self := sample_configuration; world := world_without_home |}
  = (Raise (FileNotFoundError "/home/u/.aws"),
     {| self := sample_configuration; world := world_without_home |})
  /\ ensure_config_files_exist
       {| self := init session_under_a_file; world := world_with_a_file |}
     = (Raise (NotADirectoryError "/home/u/f/g/h"),
        {| self := init session_under_a_file; world := world_with_a_file |}).
Proof.
  split.
  - apply (ensure_config_files_exist_one_level
             {| self := sample_configuration; world := world_without_home |});
      reflexivity.
  - apply (ensure_config_files_exist_one_level
             {| self := init session_under_a_file; world := world_with_a_file |});
      reflexivity.
Defined.


















(** *** Storing options in a section *)

Lemma set_each_raise (section : pyval) (items : list (string * pyval)) (e : exn) :
  set_each section items (Raise e) = Raise e.
Proof. induction items as [|kv items IH]; [reflexivity|exact IH]. Qed.

Lemma update_config_upsert (c : Configuration) (cp : ConfigParser.RawConfigParser) :
  update_config c cp = upsert cp (config_profile (profile c)) (config_options c).
Proof.
  unfold update_config, upsert, config_options, set_each. cbn [fold_left fst snd].
  destruct (if negb _ then _ else _) as [cp0|e]; [|reflexivity]. cbn [and_then].
  repeat match goal with
         | |- context [ConfigParser.set ?p ?s ?k ?v] =>
             destruct (ConfigParser.set p s k v); cbn [and_then]; [|reflexivity]
         end.
  reflexivity.
Qed.

Lemma update_credentials_upsert (c : Configuration) (a : Amazon)
      (cp : ConfigParser.RawConfigParser) :
  update_credentials c a cp = upsert cp (profile c) (credentials_options a).
Proof.
  unfold update_credentials, upsert, credentials_options, set_each.
  cbn [fold_left fst snd].
  destruct (if negb _ then _ else _) as [cp0|e]; [|reflexivity]. cbn [and_then].
  repeat match goal with
         | |- context [ConfigParser.set ?p ?s ?k ?v] =>
             destruct (ConfigParser.set p s k v); cbn [and_then]; [|reflexivity]
         end.
  reflexivity.
Qed.

Lemma update_token_cache_upsert (c : Configuration) (a : Amazon)
      (cp : ConfigParser.RawConfigParser) :
  update_token_cache c a cp = upsert cp (profile c) (token_options a).
Proof.
  unfold update_token_cache, upsert, token_options, set_each.
  cbn [fold_left fst snd].
  destruct (if negb _ then _ else _) as [cp0|e]; [|reflexivity]. cbn [and_then].
  repeat match goal with
         | |- context [ConfigParser.set ?p ?s ?k ?v] =>
             destruct (ConfigParser.set p s k v); cbn [and_then]; [|reflexivity]
         end.
  reflexivity.
Qed.

Lemma sect_set_same {V} (k : pyval) (v : V) (d : list (pyval * V)) :
  ConfigParser.sect_get k d = Some v -> ConfigParser.sect_set k v d = d.
Proof.
  induction d as [|[k' v'] d IH]; cbn [ConfigParser.sect_get ConfigParser.sect_set];
    [discriminate|].
  destruct (py_eqb k' k); [intros [= ->]; reflexivity|].
  intros H. rewrite (IH H). reflexivity.
Qed.

Lemma set_each_cons (section : pyval) (k : string) (v : pyval)
      (items : list (string * pyval)) (r : outcome ConfigParser.RawConfigParser) :
  set_each section ((k, v) :: items) r
  = set_each section items (cp <~ r ;; ConfigParser.set cp section k v).
Proof. reflexivity. Qed.

Lemma set_all_cons (k : string) (v : pyval) (items d : list (string * pyval)) :
  set_all ((k, v) :: items) d
  = set_all items (ConfigParser.dict_set (ConfigParser.optionxform k) v d).
Proof. reflexivity. Qed.

Lemma set_each_run (section : pyval) (items : list (string * pyval)) :
  truthy section = true ->
  py_eqb section (PyStr ConfigParser.default_section) = false ->
  forall (defaults : list (string * pyval))
         (base : list (pyval * list (string * pyval))) (d : list (string * pyval)),
  ConfigParser.sect_get section base = Some d ->
  set_each section items
           (Return {| ConfigParser.defaults := defaults;
                      ConfigParser.sections := base |})
  = Return {| ConfigParser.defaults := defaults;
              ConfigParser.sections :=
                ConfigParser.sect_set section (set_all items d) base |}.
Proof.
  intros T D. induction items as [|[k v] items IH]; intros defaults base d G.
  - cbn. rewrite (sect_set_same _ _ _ G). reflexivity.
  - rewrite set_each_cons, set_all_cons. cbn [and_then].
    rewrite (set_run {| ConfigParser.defaults := defaults;
                        ConfigParser.sections := base |} section k v d T D G).
    cbn [ConfigParser.defaults ConfigParser.sections].
    rewrite (IH _ _ _ (sect_get_set_same _ _ _)).
    rewrite sect_set_set. reflexivity.
Qed.

(** The section after the block, and the sections it started from. *)
Lemma upsert_run (cp : ConfigParser.RawConfigParser) (section : pyval)
      (items : list (string * pyval)) :
  truthy section = true ->
  py_eqb section (PyStr ConfigParser.default_section) = false ->
  exists base d,
    ConfigParser.sect_get section base = Some d
    /\ (match ConfigParser.sect_get section (ConfigParser.sections cp) with
        | Some d0 => base = ConfigParser.sections cp /\ d = d0
        | None => base = (ConfigParser.sections cp ++ [(section, [])])%list /\ d = []
        end)
    /\ upsert cp section items
       = Return {| ConfigParser.defaults := ConfigParser.defaults cp;
                   ConfigParser.sections :=
                     ConfigParser.sect_set section (set_all items d) base |}.
Proof.
  intros T D. unfold upsert, ConfigParser.has_section, ConfigParser.add_section,
                ConfigParser.has_section.
  destruct (ConfigParser.sect_get section (ConfigParser.sections cp)) as [d|] eqn:G.
  - exists (ConfigParser.sections cp), d. split; [exact G|]. split; [auto|].
    cbn [negb]. destruct cp as [df ss]. cbn [ConfigParser.defaults ConfigParser.sections] in *.
    apply set_each_run; assumption.
  - exists (ConfigParser.sections cp ++ [(section, [])])%list, [].
    split; [apply sect_get_app_new, G|]. split; [auto|].
    cbn [negb]. rewrite D.
    apply set_each_run; [assumption..|apply sect_get_app_new, G].
Qed.

Lemma set_all_items_ok (items d : list (string * pyval)) :
  items_ok d = true -> forallb option_ok items = true ->
  items_ok (set_all items d) = true.
Proof.
  revert d. induction items as [|[k v] items IH]; intros d Hd Hi; [exact Hd|].
  cbn [forallb] in Hi. apply andb_true_iff in Hi. destruct Hi as [H1 H2].
  rewrite set_all_cons. apply IH; [|exact H2].
  apply items_ok_dict_set; assumption.
Qed.

Lemma dict_get_set_all_other (key : string) (items d : list (string * pyval)) :
  is_option_of items key = false ->
  ConfigParser.dict_get key (set_all items d) = ConfigParser.dict_get key d.
Proof.
  revert d. induction items as [|[k v] items IH]; intros d H; [reflexivity|].
  cbn [is_option_of existsb fst] in H. apply orb_false_iff in H.
  destruct H as [H1 H2]. rewrite set_all_cons, (IH _ H2).
  apply dict_get_set_other. exact H1.
Qed.

Lemma py_eqb_text (v : pyval) (n : string) :
  py_eqb v (PyStr n) = true -> v = PyStr n.
Proof.
  destruct v; cbn; try discriminate. intros H. apply String.eqb_eq in H.
  congruence.
Qed.

Lemma sect_get_set_other {V} (n m : string) (v : V) (S : list (pyval * V)) :
  String.eqb n m = false ->
  ConfigParser.sect_get (PyStr m) (ConfigParser.sect_set (PyStr n) v S)
  = ConfigParser.sect_get (PyStr m) S.
Proof.
  intros N. induction S as [|[k0 v0] S IH];
    cbn [ConfigParser.sect_get ConfigParser.sect_set].
  - cbn [py_eqb]. rewrite N. reflexivity.
  - destruct (py_eqb k0 (PyStr n)) eqn:E; cbn [ConfigParser.sect_get].
    + apply py_eqb_text in E. subst k0. cbn [py_eqb]. rewrite N. reflexivity.
    + rewrite IH. reflexivity.
Qed.

Lemma sect_get_app_other {V} (n m : string) (v : V) (S : list (pyval * V)) :
  String.eqb n m = false ->
  ConfigParser.sect_get (PyStr m) (S ++ [(PyStr n, v)])
  = ConfigParser.sect_get (PyStr m) S.
Proof.
  intros N. induction S as [|[k0 v0] S IH]; cbn [app ConfigParser.sect_get].
  - cbn [py_eqb]. rewrite N. reflexivity.
  - rewrite IH. reflexivity.
Qed.

Lemma sect_get_items_ok (n : string) (d : list (string * pyval))
      (S : list (pyval * list (string * pyval))) :
  forallb section_ok S = true ->
  ConfigParser.sect_get (PyStr n) S = Some d -> items_ok d = true.
Proof.
  induction S as [|[k x] S IH]; [discriminate|].
  cbn [forallb ConfigParser.sect_get]. rewrite andb_true_iff. intros [H1 H2].
  destruct (py_eqb k (PyStr n)); [|apply IH; exact H2].
  intros [= <-]. destruct (section_ok_parts _ H1) as (m & _ & _ & Hi). exact Hi.
Qed.

(** What the block leaves in the parser, when the section has a name that
    can head a section and the values come back as they are written: the
    parser can still be written, the section holds its old options and the
    new ones, and no other section and no default is touched. *)
Lemma upsert_writable (cp cp' : ConfigParser.RawConfigParser) (n : string)
      (items : list (string * pyval)) :
  name_ok n = true -> writable cp = true ->
  forallb option_ok items = true ->
  upsert cp (PyStr n) items = Return cp' ->
  writable cp' = true
  /\ ConfigParser.defaults cp' = ConfigParser.defaults cp
  /\ ConfigParser.sect_get (PyStr n) (ConfigParser.sections cp')
     = Some (set_all items
               (match ConfigParser.sect_get (PyStr n) (ConfigParser.sections cp) with
                | Some d0 => d0
                | None => []
                end))
  /\ (forall m, String.eqb n m = false ->
        ConfigParser.sect_get (PyStr m) (ConfigParser.sections cp')
        = ConfigParser.sect_get (PyStr m) (ConfigParser.sections cp)).
Proof.
  intros Hn W Hi U.
  destruct (name_ok_parts n Hn) as (N & _ & _ & ND).
  assert (T : truthy (PyStr n) = true)
    by (cbn; apply negb_true_iff, String.eqb_neq, N).
  destruct (upsert_run cp (PyStr n) items T ND) as (base & d & G & Hb & R).
  rewrite R in U. injection U as <-.
  destruct (writable_parts _ W) as (Wd & Ws & Wn).
  cbn [ConfigParser.defaults ConfigParser.sections].
  assert (B : forallb section_ok base = true
              /\ distinct (map (fun sd => py_str (fst sd)) base) = true
              /\ items_ok d = true
              /\ forall m, String.eqb n m = false ->
                   ConfigParser.sect_get (PyStr m) base
                   = ConfigParser.sect_get (PyStr m) (ConfigParser.sections cp)).
  { destruct (ConfigParser.sect_get (PyStr n) (ConfigParser.sections cp)) as [d0|] eqn:G0.
    - destruct Hb as [-> ->]. split; [exact Ws|]. split; [exact Wn|].
      split; [exact (sect_get_items_ok _ _ _ Ws G0)|reflexivity].
    - destruct Hb as [-> ->]. split; [|split; [|split; [reflexivity|]]].
      + rewrite forallb_app, Ws. cbn. unfold section_ok. cbn [fst snd].
        rewrite Hn. reflexivity.
      + rewrite map_app. cbn [map fst py_str].
        apply distinct_add; [exact Wn|]. apply sect_get_none_names; assumption.
      + intros m Nm. apply sect_get_app_other, Nm. }
  destruct B as (B1 & B2 & B3 & B4).
  pose proof (set_all_items_ok items d B3 Hi) as Ic.
  destruct (sections_ok_sect_set (PyStr n) d (set_all items d) base B1 G Ic)
    as [S1 S2].
  split; [|split; [reflexivity|split]].
  - unfold writable. cbn [ConfigParser.defaults ConfigParser.sections].
    rewrite Wd, S1, S2, B2. reflexivity.
  - rewrite sect_get_set_same. f_equal. f_equal.
    destruct (ConfigParser.sect_get (PyStr n) (ConfigParser.sections cp));
      destruct Hb as [_ ->]; reflexivity.
  - intros m Nm. rewrite (sect_get_set_other _ _ _ _ Nm). apply B4, Nm.
Qed.

(** A parser that was read from a file holds text only. *)
Lemma as_read_items_join_values (raw : ConfigParser.raw_section) :
  as_read_items (ConfigParser.join_values raw) = ConfigParser.join_values raw.
Proof.
  unfold as_read_items, ConfigParser.join_values. rewrite map_map.
  apply map_ext. intros kv. reflexivity.
Qed.

Lemma as_read_finish (st : ConfigParser.ReadState) :
  as_read (ConfigParser.finish st) = ConfigParser.finish st.
Proof.
  unfold as_read, ConfigParser.finish.
  cbn [ConfigParser.defaults ConfigParser.sections].
  rewrite as_read_items_join_values, map_map. f_equal.
  apply map_ext. intros sd. cbn [fst snd py_str].
  rewrite as_read_items_join_values. reflexivity.
Qed.

Lemma read_text_as_read (source text : string) (cp : ConfigParser.RawConfigParser) :
  ConfigParser.read_text source text = Return cp -> as_read cp = cp.
Proof.
  unfold ConfigParser.read_text.
  destruct (ConfigParser.read_lines _ _ _ _) as [e|st]; [discriminate|].
  destruct (ConfigParser.rs_errors st); [|discriminate].
  intros [= <-]. apply as_read_finish.
Qed.

Lemma stored_parser_as_read (w : World) (path : string)
      (cp : ConfigParser.RawConfigParser) :
  stored_parser w path = Return cp -> as_read cp = cp.
Proof.
  unfold stored_parser. destruct (lookup_file path (files w)) as [text|].
  - apply read_text_as_read.
  - intros [= <-]. reflexivity.
Qed.

(** *** [write_token_cache] *)

Lemma write_token_cache_section_run (a : Amazon) (s : State) :
  write_token_cache_section a s
  = let logged := {| self := self s;
                     world := log (EvRead (credentials_file (self s))) (world s) |} in
    match stored_parser (world s) (credentials_file (self s)) with
    | Raise e => (Raise e, logged)
    | Return cp =>
        match upsert cp (profile (self s)) (token_options a) with
        | Raise e => (Raise e, logged)
        | Return cp' => parser_write (credentials_file (self s)) cp' logged
        end
    end.
Proof.
  unfold write_token_cache_section, bind at 1, get_self. cbn beta iota.
  unfold bind at 1. rewrite parser_read_run.
  destruct (stored_parser (world s) (credentials_file (self s))) as [cp|e]; [|reflexivity].
  unfold bind, lift. rewrite update_token_cache_upsert.
  destruct (upsert cp (profile (self s)) (token_options a)); reflexivity.
Qed.

Lemma write_token_cache_run (amazon_object : option Amazon) (s : State) :
  write_token_cache amazon_object s
  = if is_none (profile (self s))
    then (Raise (AssertionError
                   "Can not store config/credentials if the AWS_PROFILE is None."), s)
    else match amazon_object with
         | None =>
             (Raise (AssertionError
                       "Can not store config/credentials if the amazon_object is None."),
              s)
         | Some a =>
             let lock := lock_of (credentials_file (self s)) in
             let part := write_token_cache_section a (snd (acquire lock s)) in
             (fst part, snd (release lock (snd part)))
         end.
Proof.
  unfold write_token_cache, bind at 1, get_self. cbn beta iota.
  rewrite assert_bind.
  destruct (is_none (profile (self s))); [reflexivity|]. cbn [negb].
  destruct amazon_object as [a|]; [|reflexivity].
  unfold bind. rewrite acquire_run. unfold try_finally. cbn zeta.
  cbn [snd].
  destruct (write_token_cache_section a _) as [r s1]. rewrite release_run.
  reflexivity.
Qed.

Lemma parser_write_run (path : string) (cp : ConfigParser.RawConfigParser) (s : State) :
  parser_write path cp s
  = if is_dir (world s) path then (Raise (IsADirectoryError path), s)
    else if negb (parent_is_dir (world s) path)
         then (Raise (FileNotFoundError path), s)
         else (Return tt,
               {| self := self s;
                  world := log (EvWrite path (ConfigParser.write cp))
                               {| dirs := dirs (world s);
                                  files := store_file path (ConfigParser.write cp)
                                                      (files (world s));
                                  held := held (world s);
                                  trace := trace (world s) |} |}).
Proof.
  unfold parser_write, bind, get_world, put_world, raise. cbn beta iota.
  destruct (is_dir (world s) path); [reflexivity|].
  destruct (negb (parent_is_dir (world s) path)); reflexivity.
Qed.

(** X7. [write_token_cache] checks its two preconditions first, the profile
    before the credential record, and when one fails nothing has been done:
    no lock, no file.  Otherwise it is one critical section on the
    credentials file: the lock is taken, the file is read, it is written at
    most once, and the lock is given back on every path, also when reading
    or writing fails.  This is said of the states in which the directory
    for the lock file is there, so that the lock has nothing to make but
    its file: then no directory is made (the method does not call
    [ensure_config_files_exist]), the object is as before, and no file is
    changed but the credentials file and, which is the business of the lock
    and not described here, the lock file beside it. *)
Theorem write_token_cache_critical_section (amazon_object : option Amazon)
        (s : State) :
  let credentials := credentials_file (self s) in
  let s' := snd (write_token_cache amazon_object s) in
  (profile (self s) = PyNone ->
   write_token_cache amazon_object s
   = (Raise (AssertionError
               "Can not store config/credentials if the AWS_PROFILE is None."), s))
  /\ (profile (self s) <> PyNone -> amazon_object = None ->
      write_token_cache amazon_object s
      = (Raise (AssertionError
                  "Can not store config/credentials if the amazon_object is None."),
         s))
  /\ (profile (self s) <> PyNone -> amazon_object <> None ->
      parent_is_dir (world s) (lock_of credentials) = true ->
      self s' = self s
      /\ held (world s') = held (world s)
      /\ dirs (world s') = dirs (world s)
      /\ (forall p, p <> credentials -> p <> lock_of credentials ->
            lookup_file p (files (world s')) = lookup_file p (files (world s)))
      /\ exists evs,
           trace (world s')
           = (trace (world s)
              ++ [EvAcquire (lock_of credentials); EvRead credentials]
              ++ evs ++ [EvRelease (lock_of credentials)])%list
           /\ (evs = [] \/ exists text, evs = [EvWrite credentials text])
           /\ (fst (write_token_cache amazon_object s) = Return tt -> evs <> [])).
Proof.
  intros credentials s'. subst s'. rewrite write_token_cache_run.
  split; [intros ->; reflexivity|].
  split.
  - intros N ->. destruct (profile (self s)); try reflexivity. congruence.
  - intros N A _. destruct amazon_object as [a|]; [|congruence]. clear A.
    assert (Hn : is_none (profile (self s)) = false)
      by (destruct (profile (self s)); try reflexivity; congruence).
    rewrite Hn. cbn zeta. rewrite acquire_run. cbn [snd].
    rewrite write_token_cache_section_run. cbn [self world log dirs files held trace].
    fold credentials.
    match goal with
    | |- context [stored_parser ?w credentials] => set (w0 := w)
    end.
    assert (SP : stored_parser w0 credentials = stored_parser (world s) credentials)
      by reflexivity.
    rewrite SP. clear SP.
    assert (Fail : forall e : exn,
               let r := (Raise e : outcome unit,
                         {| self := self s; world := log (EvRead credentials) w0 |}) in
               self (snd (release (lock_of credentials) (snd r))) = self s
               /\ held (world (snd (release (lock_of credentials) (snd r))))
                  = held (world s)
               /\ dirs (world (snd (release (lock_of credentials) (snd r))))
                  = dirs (world s)
               /\ (forall p, p <> credentials -> p <> lock_of credentials ->
                     lookup_file p (files (world (snd (release (lock_of credentials)
                                                                (snd r)))))
                     = lookup_file p (files (world s)))
               /\ exists evs,
                    trace (world (snd (release (lock_of credentials) (snd r))))
                    = (trace (world s)
                       ++ [EvAcquire (lock_of credentials); EvRead credentials]
                       ++ evs ++ [EvRelease (lock_of credentials)])%list
                    /\ (evs = [] \/ exists text, evs = [EvWrite credentials text])
                    /\ (fst r = Return tt -> evs <> [])).
    { intros e r. subst r. rewrite release_run.
      cbn [fst snd self world log dirs files held trace]. subst w0.
      cbn [log held dirs files trace]. rewrite remove_one_head.
      repeat split; try reflexivity.
      exists []. split; [|split; [left; reflexivity|discriminate]].
      rewrite <- !app_assoc. reflexivity. }
    destruct (stored_parser (world s) credentials) as [cp|e]; [|exact (Fail e)].
    destruct (upsert cp (profile (self s)) (token_options a)) as [cp'|e];
      [|exact (Fail e)].
    rewrite parser_write_run. cbn [self world log dirs files held trace].
    destruct (is_dir (log (EvRead credentials) w0) credentials);
      [exact (Fail _)|].
    destruct (negb (parent_is_dir (log (EvRead credentials) w0) credentials));
      [exact (Fail _)|].
    rewrite release_run. cbn [fst snd self world log dirs files held trace].
    subst w0. cbn [log held dirs files trace]. rewrite remove_one_head.
    split; [reflexivity|]. split; [reflexivity|]. split; [reflexivity|].
    split.
    + intros p Np _. rewrite lookup_store.
      destruct (String.eqb_spec credentials p); [congruence|reflexivity].
    + exists [EvWrite credentials (ConfigParser.write cp')].
      split; [rewrite <- !app_assoc; reflexivity|].
      split; [right; eexists; reflexivity|discriminate].
Qed.

Lemma write_token_cache_critical_section_witness :
  let s := {| self := sample_configuration; world := world_with_config "" |} in
  trace (world (snd (write_token_cache (Some sample_credentials) s)))
  = [EvAcquire "/home/u/.aws/credentials.lock"; EvRead "/home/u/.aws/credentials";
     EvWrite "/home/u/.aws/credentials"
       (ConfigParser.write
          {| ConfigParser.defaults := [];
             ConfigParser.sections :=
               [(PyStr "default", token_options sample_credentials)] |});
     EvRelease "/home/u/.aws/credentials.lock"]
  /\ held (world (snd (write_token_cache (Some sample_credentials) s))) = [].
Proof.
  intros s.
  destruct (write_token_cache_critical_section (Some sample_credentials) s)
    as (_ & _ & H).
  destruct H as (_ & B & _); [discriminate|discriminate|reflexivity|].
  split; [reflexivity|exact B].
Defined.

Lemma write_token_cache_ok (a : Amazon) (s : State) :
  fst (write_token_cache (Some a) s) = Return tt ->
  exists cp cp',
    stored_parser (world s) (credentials_file (self s)) = Return cp
    /\ upsert cp (profile (self s)) (token_options a) = Return cp'
    /\ files (world (snd (write_token_cache (Some a) s)))
       = store_file (credentials_file (self s)) (ConfigParser.write cp')
                    (files (world s)).
Proof.
  rewrite write_token_cache_run.
  destruct (is_none (profile (self s))); [discriminate|].
  cbn zeta. rewrite acquire_run. cbn [snd fst].
  rewrite write_token_cache_section_run. cbn [self world log dirs files held trace].
  match goal with
  | |- context [stored_parser ?w (credentials_file (self s))] =>
      assert (SP : stored_parser w (credentials_file (self s))
                   = stored_parser (world s) (credentials_file (self s)))
        by reflexivity;
      rewrite SP; clear SP
  end.
  destruct (stored_parser (world s) (credentials_file (self s))) as [cp|e] eqn:P;
    [|discriminate].
  destruct (upsert cp (profile (self s)) (token_options a)) as [cp'|e] eqn:U;
    [|discriminate].
  rewrite parser_write_run.
  match goal with
  | |- context [if ?b then _ else _] => destruct b; [discriminate|]
  end.
  match goal with
  | |- context [if ?b then _ else _] => destruct b; [discriminate|]
  end.
  intros _. exists cp, cp'. split; [reflexivity|]. split; [exact U|].
  rewrite release_run. reflexivity.
Qed.

(** *** [read_token_cache] *)

Lemma read_token_cache_run (fromisoformat : string -> outcome datetime) (s : State) :
  read_token_cache fromisoformat s
  = if is_none (profile (self s))
    then (Raise (AssertionError
                   "Can not store config/credentials if the AWS_PROFILE is None."), s)
    else
      let logged := {| self := self s;
                       world := log (EvRead (credentials_file (self s))) (world s) |} in
      match stored_parser (world s) (credentials_file (self s)) with
      | Raise e => (Raise e, logged)
      | Return cp =>
          if ConfigParser.has_section cp (profile (self s))
          then match read_token fromisoformat cp (profile (self s)) with
               | Return token =>
                   (Return tt,
                    {| self := set_token_cache_field (Some token) (self s);
                       world := world logged |})
               | Raise e => (Raise e, logged)
               end
          else (Return tt, logged)
      end.
Proof.
  unfold read_token_cache, bind at 1, get_self. cbn beta iota.
  rewrite assert_bind.
  destruct (is_none (profile (self s))); [reflexivity|]. cbn [negb].
  unfold bind at 1. rewrite parser_read_run.
  destruct (stored_parser (world s) (credentials_file (self s))) as [cp|e];
    [|reflexivity].
  cbn zeta. destruct (ConfigParser.has_section cp (profile (self s))); [|reflexivity].
  unfold bind, lift.
  destruct (read_token fromisoformat cp (profile (self s))); reflexivity.
Qed.

Lemma get_stored_text (w : World) (path : string)
      (cp : ConfigParser.RawConfigParser) (section : pyval) (key : string) :
  stored_parser w path = Return cp ->
  ConfigParser.has_section cp section = true ->
  ConfigParser.optionxform key = key ->
  unicode_to_string_if_needed (ConfigParser.get cp section key PyNone)
  = match stored_text cp section key with
    | Some t => PyStr t
    | None => PyNone
    end.
Proof.
  intros P H K. destruct (has_value_stored cp section key H) as [_ G].
  rewrite G, K. unfold stored_text, unicode_to_string_if_needed.
  destruct (stored_value cp section key) as [v|] eqn:E; [|reflexivity].
  destruct (stored_value_is_text _ _ _ _ _ _ P E) as [t ->]. reflexivity.
Qed.

Lemma read_token_stored (fromisoformat : string -> outcome datetime) (w : World)
      (path : string) (cp : ConfigParser.RawConfigParser) (section : pyval) :
  stored_parser w path = Return cp ->
  ConfigParser.has_section cp section = true ->
  read_token fromisoformat cp section
  = (expiration <~ match stored_text cp section "asa.aws_session_expiration" with
                   | Some t => z <~ fromisoformat t ;; Return (Some z)
                   | None => Return None
                   end ;;
     Return {| AccessKeyId := stored_text cp section "asa.aws_access_key_id";
               SecretAccessKey := stored_text cp section "asa.aws_secret_access_key";
               SessionToken := stored_text cp section "asa.aws_session_token";
               Expiration := expiration |}).
Proof.
  intros P H. unfold read_token.
  rewrite !(get_stored_text _ _ _ _ _ P H) by reflexivity.
  destruct (stored_text cp section "asa.aws_session_expiration");
    destruct (stored_text cp section "asa.aws_access_key_id");
    destruct (stored_text cp section "asa.aws_secret_access_key");
    destruct (stored_text cp section "asa.aws_session_token"); reflexivity.
Qed.

(** X8. With a profile and a credentials file that has the profile's
    section, [read_token_cache] builds the token from the four asa.* keys,
    each taken from the section or, failing that, from the DEFAULT section
    of the file, and absent when it is in neither.  The expiration goes
    through [datetime.fromisoformat]: when that raises, the error is passed
    on and the object is left as it was, the old token included; otherwise
    the new token replaces the old one and nothing else of the object
    changes. *)
Theorem read_token_cache_reads (fromisoformat : string -> outcome datetime) (s : State)
        (cp : ConfigParser.RawConfigParser) :
  profile (self s) <> PyNone ->
  stored_parser (world s) (credentials_file (self s)) = Return cp ->
  ConfigParser.has_section cp (profile (self s)) = true ->
  let text := stored_text cp (profile (self s)) in
  let token expiration :=
    {| AccessKeyId := text "asa.aws_access_key_id";
       SecretAccessKey := text "asa.aws_secret_access_key";
       SessionToken := text "asa.aws_session_token";
       Expiration := expiration |} in
  let r := read_token_cache fromisoformat s in
  match text "asa.aws_session_expiration" with
  | None =>
      fst r = Return tt
      /\ self (snd r) = set_token_cache_field (Some (token None)) (self s)
  | Some t =>
      match fromisoformat t with
      | Return z =>
          fst r = Return tt
          /\ self (snd r) = set_token_cache_field (Some (token (Some z))) (self s)
      | Raise e => fst r = Raise e /\ self (snd r) = self s
      end
  end.
Proof.
  intros N P H text token r. subst r text token.
  rewrite read_token_cache_run.
  assert (Hn : is_none (profile (self s)) = false)
    by (destruct (profile (self s)); try reflexivity; congruence).
  rewrite Hn, P. cbn zeta. rewrite H.
  rewrite (read_token_stored _ _ _ _ _ P H).
  destruct (stored_text cp (profile (self s)) "asa.aws_session_expiration") as [t|];
    cbn [and_then]; [|split; reflexivity].
  destruct (fromisoformat t) as [z|e]; cbn [and_then]; split; reflexivity.
Qed.

Lemma read_token_cache_reads_witness :
  let s := {| self := sample_configuration;
              world := world_with_credentials credentials_with_token |} in
  fst (read_token_cache sample_fromisoformat s) = Return tt
  /\ self (snd (read_token_cache sample_fromisoformat s))
     = set_token_cache_field
         (Some {| AccessKeyId := Some "ASIAEXAMPLE"; SecretAccessKey := Some "secret";
                  SessionToken := Some "token";
                  Expiration := Some (Aware 1893456000000000) |})
         sample_configuration.
Proof.
  intros s.
  exact (read_token_cache_reads sample_fromisoformat s
           {| ConfigParser.defaults := [];
              ConfigParser.sections :=
                [(PyStr "default",
                  [("asa.aws_access_key_id", PyStr "ASIAEXAMPLE");
                   ("asa.aws_secret_access_key", PyStr "secret");
                   ("asa.aws_session_token", PyStr "token");
                   ("asa.aws_session_expiration",
                    PyStr "2030-01-01T00:00:00+00:00")])] |}
           ltac:(discriminate) eq_refl eq_refl).
Defined.

(** X9. [read_token_cache] only reads: it takes no lock and makes or
    changes no directory and no file (it does not call
    [ensure_config_files_exist]), and of the object it changes nothing but
    the token.  Without a profile it raises before it looks at the file;
    and when the credentials file has no section for the profile, be it
    missing or empty, the object is left as it was, the token that was in
    memory included. *)
Theorem read_token_cache_footprint (fromisoformat : string -> outcome datetime)
        (s : State) :
  let r := read_token_cache fromisoformat s in
  dirs (world (snd r)) = dirs (world s)
  /\ files (world (snd r)) = files (world s)
  /\ held (world (snd r)) = held (world s)
  /\ (trace (world (snd r)) = trace (world s)
      \/ trace (world (snd r))
         = (trace (world s) ++ [EvRead (credentials_file (self s))])%list)
  /\ self (snd r)
     = set_token_cache_field (token_cache_field (self (snd r))) (self s)
  /\ (profile (self s) = PyNone ->
      r = (Raise (AssertionError
                    "Can not store config/credentials if the AWS_PROFILE is None."),
           s))
  /\ (section_exists (world s) (credentials_file (self s)) (profile (self s)) = false ->
      self (snd r) = self s).
Proof.
  intros r. subst r. rewrite read_token_cache_run. unfold section_exists.
  assert (Eta : self s = set_token_cache_field (token_cache_field (self s)) (self s))
    by (destruct (self s); reflexivity).
  destruct (is_none (profile (self s))) eqn:Hn.
  { cbn [fst snd]. repeat split; auto. }
  cbn zeta.
  assert (Np : profile (self s) = PyNone -> False)
    by (intros E; rewrite E in Hn; discriminate Hn).
  destruct (stored_parser (world s) (credentials_file (self s))) as [cp|e];
    [|cbn [fst snd self world log dirs files held trace];
      repeat split; auto; intros E; destruct (Np E)].
  destruct (ConfigParser.has_section cp (profile (self s)));
    [|cbn [fst snd self world log dirs files held trace];
      repeat split; auto; intros E; destruct (Np E)].
  destruct (read_token fromisoformat cp (profile (self s))) as [t|e];
    cbn [fst snd self world log dirs files held trace];
    repeat split; auto; try (intros E; destruct (Np E)); discriminate.
Qed.

Lemma read_token_cache_footprint_witness :
  let s := {| self := sample_configuration; world := sample_world |} in
  self (snd (read_token_cache sample_fromisoformat s)) = self s.
Proof.
  intros s.
  destruct (read_token_cache_footprint sample_fromisoformat s)
    as (_ & _ & _ & _ & _ & _ & H).
  exact (H eq_refl).
Defined.

Lemma token_cache_run (now : Z) (s : State) :
  token_cache now s
  = if naive_expiration (token_cache_field (self s))
    then (Raise (TypeError naive_message), s)
    else if is_token_cache_valid now (token_cache_field (self s))
    then (Return (token_cache_field (self s)), s)
    else (Return None, clear_token s).
Proof.
  destruct s as [c w].
  destruct c as [o bs ar du ad lu pr re ra us sc tc rs pc cp qu ac po].
  unfold token_cache, bind, get_self, modify_self, ret, clear_token.
  cbn [self world token_cache_field fst snd].
  destruct tc as [[a k tok e]|]; cbn; [|reflexivity].
  destruct e as [[e|r]|]; cbn.
  - destruct (Z.leb_spec e now), (Z.ltb_spec now e); try lia; cbn.
    + destruct a, k; reflexivity.
    + destruct a; cbn; [|reflexivity]. destruct k; reflexivity.
  - reflexivity.
  - destruct a, k; reflexivity.
Qed.

(** X10. A token that the credentials file holds only in part is never
    handed out.  When [read_token_cache] returns and the access key id, the
    secret access key or the expiration was in neither the profile's
    section nor the DEFAULT section, the [token_cache] property read next
    does not return the token, whatever the time, and whatever token was in
    memory before the file was read: if [datetime.fromisoformat] made a
    datetime without UTC offset of the stored expiration, the property
    raises [TypeError] and the record stays in memory; in every other case
    it returns [None] and the record is cleared. *)
Theorem read_token_cache_incomplete (fromisoformat : string -> outcome datetime)
        (s : State) (cp : ConfigParser.RawConfigParser) (now : Z) :
  profile (self s) <> PyNone ->
  stored_parser (world s) (credentials_file (self s)) = Return cp ->
  ConfigParser.has_section cp (profile (self s)) = true ->
  stored_text cp (profile (self s)) "asa.aws_access_key_id" = None
  \/ stored_text cp (profile (self s)) "asa.aws_secret_access_key" = None
  \/ stored_text cp (profile (self s)) "asa.aws_session_expiration" = None ->
  fst (read_token_cache fromisoformat s) = Return tt ->
  let s' := snd (read_token_cache fromisoformat s) in
  let without_offset :=
    match stored_text cp (profile (self s)) "asa.aws_session_expiration" with
    | Some t => match fromisoformat t with
                | Return (Naive _) => true
                | _ => false
                end
    | None => false
    end in
  (forall token, fst (token_cache now s') <> Return (Some token))
  /\ if without_offset
     then token_cache now s' = (Raise (TypeError naive_message), s')
     else fst (token_cache now s') = Return None
          /\ token_cache_field (self (snd (token_cache now s'))) = None.
Proof.
  intros N P H Miss R s' without_offset. subst s' without_offset. revert R.
  rewrite read_token_cache_run.
  assert (Hn : is_none (profile (self s)) = false)
    by (destruct (profile (self s)); try reflexivity; congruence).
  rewrite Hn, P. cbn zeta. rewrite H, (read_token_stored _ _ _ _ _ P H).
  assert (F : forall t, token_cache_field (set_token_cache_field t (self s)) = t)
    by (intros t; destruct (self s); reflexivity).
  destruct (stored_text cp (profile (self s)) "asa.aws_session_expiration")
    as [t|] eqn:E; cbn [and_then].
  - destruct (fromisoformat t) as [[z|r]|e]; cbn [and_then fst snd];
      [| |discriminate]; intros _; rewrite token_cache_run; cbn [self];
      rewrite F; cbn [naive_expiration Expiration].
    + assert (V : is_token_cache_valid now
                    (Some {| AccessKeyId :=
                               stored_text cp (profile (self s))
                                           "asa.aws_access_key_id";
                             SecretAccessKey :=
                               stored_text cp (profile (self s))
                                           "asa.aws_secret_access_key";
                             SessionToken :=
                               stored_text cp (profile (self s))
                                           "asa.aws_session_token";
                             Expiration := Some (Aware z) |}) = false).
      { destruct Miss as [M|[M|M]]; try discriminate M;
          cbn [is_token_cache_valid AccessKeyId SecretAccessKey Expiration];
          rewrite M; [reflexivity|].
        destruct (stored_text cp (profile (self s)) "asa.aws_access_key_id");
          reflexivity. }
      rewrite V. cbn [fst snd clear_token self]. split; [discriminate|].
      split; [reflexivity|apply F].
    + split; [discriminate|reflexivity].
  - cbn [fst snd]. intros _. rewrite token_cache_run. cbn [self].
    rewrite F. cbn [naive_expiration Expiration is_token_cache_valid].
    assert (V : match stored_text cp (profile (self s)) "asa.aws_access_key_id" with
                | Some _ =>
                    match stored_text cp (profile (self s))
                                      "asa.aws_secret_access_key" with
                    | Some _ => false
                    | None => false
                    end
                | None => false
                end = false)
      by (destruct (stored_text cp (profile (self s)) "asa.aws_access_key_id");
          [destruct (stored_text cp (profile (self s))
                                 "asa.aws_secret_access_key")|];
          reflexivity).
    cbn [AccessKeyId SecretAccessKey]. rewrite V.
    cbn [fst snd clear_token self]. split; [discriminate|].
    split; [reflexivity|apply F].
Qed.

Lemma read_token_cache_incomplete_witness :
  (let s := {| self := sample_configuration;
               world := world_with_credentials credentials_without_expiration |} in
   fst (token_cache 0 (snd (read_token_cache sample_fromisoformat s)))
   = Return None)
  /\ (let s := {| self := sample_configuration;
                  world := world_with_credentials credentials_without_offset |} in
      fst (read_token_cache sample_fromisoformat s) = Return tt
      /\ fst (token_cache 0 (snd (read_token_cache sample_fromisoformat s)))
         = Raise (TypeError "can't compare offset-naive and offset-aware datetimes")).
Proof.
  split; intros s.
  - refine (proj1 (proj2 (read_token_cache_incomplete sample_fromisoformat s
           {| ConfigParser.defaults := [];
              ConfigParser.sections :=
                [(PyStr "default",
                  [("asa.aws_access_key_id", PyStr "ASIAEXAMPLE");
                   ("asa.aws_secret_access_key", PyStr "secret")])] |} 0
           _ eq_refl eq_refl (or_intror (or_intror eq_refl)) eq_refl)));
      discriminate.
  - split; [reflexivity|].
    refine (f_equal fst (proj2 (read_token_cache_incomplete sample_fromisoformat s
           {| ConfigParser.defaults := [];
              ConfigParser.sections :=
                [(PyStr "default",
                  [("asa.aws_secret_access_key", PyStr "secret");
                   ("asa.aws_session_expiration",
                    PyStr "2030-01-01T00:00:00")])] |} 0
           _ eq_refl eq_refl (or_introl eq_refl) eq_refl)));
      discriminate.
Defined.

(** *** What the files hold after a value was stored *)

Lemma token_options_ok (a : Amazon) :
  token_values_ok a = true -> forallb option_ok (token_options a) = true.
Proof.
  unfold token_values_ok. rewrite !andb_true_iff. intros [[[A B] C] D].
  unfold token_options, option_ok. cbn [forallb fst snd].
  rewrite !andb_true_iff. repeat split;
    (apply item_ok_intro; [reflexivity|assumption|reflexivity]).
Qed.

Lemma credentials_options_ok (a : Amazon) :
  token_values_ok a = true -> forallb option_ok (credentials_options a) = true.
Proof.
  unfold token_values_ok. rewrite !andb_true_iff. intros [[[A B] C] D].
  unfold credentials_options, option_ok. cbn [forallb fst snd].
  rewrite !andb_true_iff. repeat split;
    (apply item_ok_intro; [reflexivity|assumption|reflexivity]).
Qed.

Lemma token_options_values (a : Amazon) (d : list (string * pyval)) :
  ConfigParser.dict_get "asa.aws_access_key_id" (set_all (token_options a) d)
  = Some (access_key_id a)
  /\ ConfigParser.dict_get "asa.aws_secret_access_key" (set_all (token_options a) d)
     = Some (secret_access_key a)
  /\ ConfigParser.dict_get "asa.aws_session_expiration" (set_all (token_options a) d)
     = Some (PyStr (expiration_isoformat a))
  /\ ConfigParser.dict_get "asa.aws_session_token" (set_all (token_options a) d)
     = Some (session_token a).
Proof.
  unfold token_options. rewrite !set_all_cons.
  change (set_all [] ?x) with x.
  repeat split;
    repeat first [ rewrite dict_get_set_same
                 | rewrite dict_get_set_other by reflexivity ];
    reflexivity.
Qed.

Lemma stored_text_as_read (cp : ConfigParser.RawConfigParser) (n k : string)
      (d : list (string * pyval)) (v : pyval) :
  writable cp = true ->
  ConfigParser.sect_get (PyStr n) (ConfigParser.sections cp) = Some d ->
  ConfigParser.dict_get k d = Some v ->
  stored_text (as_read cp) (PyStr n) k = Some (py_str v).
Proof.
  intros W S D. unfold stored_text.
  rewrite (stored_value_as_read _ _ _ _ _ W S D). reflexivity.
Qed.

(** The file that the block writes is read back as the parser it wrote. *)
Lemma stored_after_store (w : World) (path : string) (fs : list (string * string))
      (cp : ConfigParser.RawConfigParser) :
  files w = store_file path (ConfigParser.write cp) fs ->
  writable cp = true ->
  stored_parser w path = Return (as_read cp).
Proof.
  intros F W. unfold stored_parser. rewrite F, lookup_store, String.eqb_refl.
  apply read_text_write, W.
Qed.

(** X11. [write_token_cache] and [read_token_cache] fit together.  Let the
    profile be a name that can head a section (not empty, on one line, not
    DEFAULT in capitals) and let the four values of the credential record
    be text that comes back from a file as it is written.  When
    [write_token_cache] returns, [read_token_cache] on any configuration of
    the same session and profile, with the files as they were left, finds
    the access key id, the secret access key and the session token as
    [str()] gives them, and hands the stored expiration text to
    [datetime.fromisoformat]: if that raises, the error is passed on and
    the configuration keeps what it had; if it gives an instant, a datetime
    with a UTC offset, the [token_cache] property returns the token at
    every time before that instant and [None] from that instant on; and if
    it gives a datetime without offset, which it does for a text without
    one, the token is put in memory and the [token_cache] property raises
    [TypeError] at every time, the token staying where it is. *)
Theorem write_then_read_token_cache (fromisoformat : string -> outcome datetime)
        (a : Amazon) (s : State) (fresh : Configuration) (p : string) :
  profile (self s) = PyStr p ->
  name_ok p = true ->
  token_values_ok a = true ->
  boto_session fresh = boto_session (self s) ->
  profile fresh = PyStr p ->
  fst (write_token_cache (Some a) s) = Return tt ->
  let written := world (snd (write_token_cache (Some a) s)) in
  let r := read_token_cache fromisoformat {| self := fresh; world := written |} in
  match fromisoformat (expiration_isoformat a) with
  | Return (Aware z) =>
      fst r = Return tt
      /\ self (snd r) = set_token_cache_field (Some (token_of a (Aware z))) fresh
      /\ forall now,
           fst (token_cache now (snd r))
           = Return (if now <? z then Some (token_of a (Aware z)) else None)
  | Return (Naive z) =>
      fst r = Return tt
      /\ self (snd r) = set_token_cache_field (Some (token_of a (Naive z))) fresh
      /\ forall now,
           token_cache now (snd r) = (Raise (TypeError naive_message), snd r)
  | Raise e => fst r = Raise e /\ self (snd r) = fresh
  end.
Proof.
  intros Hp Hn Hv Hs Hf Hw written r. subst r written.
  destruct (write_token_cache_ok a s Hw) as (cp & cp' & P & U & F).
  rewrite Hp in U.
  pose proof (stored_parser_writable _ _ _ P) as W.
  destruct (upsert_writable cp cp' p _ Hn W (token_options_ok a Hv) U)
    as (W' & _ & G & _).
  assert (Cr : credentials_file fresh = credentials_file (self s))
    by (unfold credentials_file; rewrite Hs; reflexivity).
  pose proof (stored_after_store _ _ _ _ F W') as P1.
  rewrite read_token_cache_run. cbn [self world]. rewrite Hf, Cr. cbn [is_none].
  rewrite P1. cbn zeta.
  rewrite (has_section_as_read _ _ _ W' G).
  assert (P2 : stored_parser
                 (world {| self := fresh;
                           world := world (snd (write_token_cache (Some a) s)) |})
                 (credentials_file (self s)) = Return (as_read cp'))
    by exact P1.
  rewrite (read_token_stored fromisoformat _ _ _ _ P2 (has_section_as_read _ _ _ W' G)).
  destruct (token_options_values
              a (match ConfigParser.sect_get (PyStr p) (ConfigParser.sections cp) with
                 | Some d0 => d0
                 | None => []
                 end)) as (V1 & V2 & V3 & V4).
  rewrite (stored_text_as_read _ _ _ _ _ W' G V1).
  rewrite (stored_text_as_read _ _ _ _ _ W' G V2).
  rewrite (stored_text_as_read _ _ _ _ _ W' G V3).
  rewrite (stored_text_as_read _ _ _ _ _ W' G V4).
  cbn [py_str and_then].
  destruct (fromisoformat (expiration_isoformat a)) as [[z|z]|e];
    cbn [and_then fst snd self world]; [| |split; reflexivity].
  - split; [reflexivity|]. split; [reflexivity|].
    intros now. rewrite token_cache_run. cbn [self].
    destruct fresh. unfold set_token_cache_field, is_token_cache_valid, token_of. cbn.
    destruct (now <? z); reflexivity.
  - split; [reflexivity|]. split; [reflexivity|].
    intros now. rewrite token_cache_run. cbn [self].
    destruct fresh. reflexivity.
Qed.

Lemma write_then_read_token_cache_witness :
  let s := {| self := sample_configuration; world := world_with_config "" |} in
  let written := world (snd (write_token_cache (Some sample_credentials) s)) in
  let r := read_token_cache sample_fromisoformat
                            {| self := init sample_session; world := written |} in
  fst r = Return tt
  /\ self (snd r)
     = set_token_cache_field
         (Some (token_of sample_credentials (Aware 1893456000000000)))
         (init sample_session)
  /\ forall now,
       fst (token_cache now (snd r))
       = Return (if now <? 1893456000000000
                 then Some (token_of sample_credentials (Aware 1893456000000000))
                 else None).
Proof.
  intros s.
  exact (write_then_read_token_cache sample_fromisoformat sample_credentials s
           (init sample_session) "default" eq_refl eq_refl eq_refl eq_refl eq_refl
           eq_refl).
Defined.

(** *** What storing values leaves alone *)

Lemma as_read_section_items (cp : ConfigParser.RawConfigParser) (n : string)
      (d : list (string * pyval)) :
  writable cp = true -> as_read cp = cp ->
  ConfigParser.sect_get (PyStr n) (ConfigParser.sections cp) = Some d ->
  as_read_items d = d.
Proof.
  intros W A G. pose proof (sect_get_as_read_parser cp n W) as H.
  rewrite A, G in H. cbn [option_map] in H. injection H as H. symmetry. exact H.
Qed.

Lemma as_read_defaults (cp : ConfigParser.RawConfigParser) :
  as_read cp = cp ->
  as_read_items (ConfigParser.defaults cp) = ConfigParser.defaults cp.
Proof.
  intros A. pattern cp at 2. rewrite <- A. reflexivity.
Qed.

(** The parser that is read back after the options [items] were stored in
    the section [n] has the sections it had and the section [n]; every
    option of another section, and every other option of the section [n]
    when the section was there, is found as before. *)
Lemma upsert_keeps (cp cp' : ConfigParser.RawConfigParser) (n : string)
      (items : list (string * pyval)) :
  name_ok n = true -> writable cp = true -> as_read cp = cp ->
  forallb option_ok items = true ->
  upsert cp (PyStr n) items = Return cp' ->
  (forall m, ConfigParser.has_section (as_read cp') (PyStr m)
             = ConfigParser.has_section cp (PyStr m) || String.eqb n m)
  /\ (forall m key fallback,
        String.eqb n m = false
        \/ (ConfigParser.has_section cp (PyStr n) = true
            /\ is_option_of items (ConfigParser.optionxform key) = false) ->
        ConfigParser.get (as_read cp') (PyStr m) key fallback
        = ConfigParser.get cp (PyStr m) key fallback).
Proof.
  intros Hn W A Hi U.
  destruct (upsert_writable cp cp' n items Hn W Hi U) as (W' & D & G & O).
  assert (Df : ConfigParser.defaults (as_read cp') = ConfigParser.defaults cp).
  { cbn [as_read ConfigParser.defaults]. rewrite D. apply as_read_defaults, A. }
  assert (Other : forall m, String.eqb n m = false ->
            ConfigParser.sect_get (PyStr m) (ConfigParser.sections (as_read cp'))
            = ConfigParser.sect_get (PyStr m) (ConfigParser.sections cp)).
  { intros m E. rewrite (sect_get_as_read_parser _ _ W'), (O m E).
    rewrite <- (sect_get_as_read_parser _ _ W), A. reflexivity. }
  split.
  - intros m. unfold ConfigParser.has_section.
    destruct (String.eqb n m) eqn:E.
    + apply String.eqb_eq in E. subst m.
      rewrite (sect_get_as_read_parser _ _ W'), G. cbn [option_map].
      rewrite orb_true_r. reflexivity.
    + rewrite (Other m E), orb_false_r. reflexivity.
  - intros m key fallback [E|[H K]].
    + unfold ConfigParser.get. rewrite (Other m E), Df. reflexivity.
    + destruct (String.eqb n m) eqn:E;
        [|unfold ConfigParser.get; rewrite (Other m E), Df; reflexivity].
      apply String.eqb_eq in E. subst m.
      unfold ConfigParser.has_section in H.
      destruct (ConfigParser.sect_get (PyStr n) (ConfigParser.sections cp))
        as [d0|] eqn:G0; [|discriminate].
      unfold ConfigParser.get.
      rewrite (sect_get_as_read_parser _ _ W'), G, G0, Df. cbn [option_map].
      rewrite dict_get_as_read, (dict_get_set_all_other _ _ _ K).
      rewrite <- (as_read_section_items cp n d0 W A G0) at 2.
      rewrite dict_get_as_read.
      destruct (ConfigParser.dict_get (ConfigParser.optionxform key) d0);
        reflexivity.
Qed.

(** X12. [write_token_cache] touches four options of one section.  Let the
    profile be a name that can head a section and the values of the
    credential record text that comes back from a file as it is written.
    When [write_token_cache] returns, the credentials file can be parsed as
    it could before; it has the sections it had, and the profile's; every
    option of every other section, the DEFAULT section among them, is read
    as before; and when the profile's section was there, so is every option
    of it other than the four that were stored. *)
Theorem write_token_cache_keeps (a : Amazon) (s : State) (p : string) :
  profile (self s) = PyStr p ->
  name_ok p = true ->
  token_values_ok a = true ->
  fst (write_token_cache (Some a) s) = Return tt ->
  exists before after,
    stored_parser (world s) (credentials_file (self s)) = Return before
    /\ stored_parser (world (snd (write_token_cache (Some a) s)))
                     (credentials_file (self s)) = Return after
    /\ (forall m, ConfigParser.has_section after (PyStr m)
                  = ConfigParser.has_section before (PyStr m) || String.eqb p m)
    /\ (forall m key fallback,
          String.eqb p m = false
          \/ (ConfigParser.has_section before (PyStr p) = true
              /\ is_option_of (token_options a) (ConfigParser.optionxform key)
                 = false) ->
          ConfigParser.get after (PyStr m) key fallback
          = ConfigParser.get before (PyStr m) key fallback).
Proof.
  intros Hp Hn Hv Hw.
  destruct (write_token_cache_ok a s Hw) as (cp & cp' & P & U & F).
  rewrite Hp in U.
  pose proof (stored_parser_writable _ _ _ P) as W.
  pose proof (stored_parser_as_read _ _ _ P) as A.
  destruct (upsert_writable cp cp' p _ Hn W (token_options_ok a Hv) U) as (W' & _).
  exists cp, (as_read cp'). split; [exact P|].
  split; [exact (stored_after_store _ _ _ _ F W')|].
  exact (upsert_keeps cp cp' p _ Hn W A (token_options_ok a Hv) U).
Qed.

Lemma write_token_cache_keeps_witness :
  let s := {| self := sample_configuration;
              world := world_with_credentials credentials_of_two_profiles |} in
  exists before after,
    stored_parser (world s) (credentials_file (self s)) = Return before
    /\ stored_parser (world (snd (write_token_cache (Some sample_credentials) s)))
                     (credentials_file (self s)) = Return after
    /\ (forall m, ConfigParser.has_section after (PyStr m)
                  = ConfigParser.has_section before (PyStr m)
                    || String.eqb "default" m)
    /\ (forall m key fallback,
          String.eqb "default" m = false
          \/ (ConfigParser.has_section before (PyStr "default") = true
              /\ is_option_of (token_options sample_credentials)
                              (ConfigParser.optionxform key) = false) ->
          ConfigParser.get after (PyStr m) key fallback
          = ConfigParser.get before (PyStr m) key fallback).
Proof.
  intros s.
  exact (write_token_cache_keeps sample_credentials s "default"
           eq_refl eq_refl eq_refl eq_refl).
Defined.

(** *** What [write] leaves alone *)

Lemma write_ok (amazon_object : option Amazon) (s : State) :
  fst (write amazon_object s) = Return tt ->
  exists s0,
    ensure_config_files_exist s = (Return tt, s0)
    /\ only_creates s s0
    /\ write amazon_object s = write_sections amazon_object s0
    /\ fst (write_sections amazon_object s0) = Return tt.
Proof.
  pose proof (ensure_config_files_exist_only_creates s) as O.
  rewrite write_run.
  destruct (ensure_config_files_exist s) as [[[]|e] s0]; cbn [fst snd] in *;
    [|discriminate].
  destruct (is_none (profile (self s0))); [discriminate|].
  intros H. exists s0. repeat split; try assumption; apply O.
Qed.

(** X13. [write] touches five options of one section of the config file.
    Let the profile be a name on one line other than DEFAULT in capitals,
    let region, ask_role, duration, login_url and role_arn be values whose
    text comes back from a file as it is written, and let the config file
    and the credentials file be two files.  When [write] returns, the
    config file can be parsed as it could before; it has the sections it
    had, and the one of the profile; every option of every other section,
    the DEFAULT section among them, is read as before; and when the
    profile's section was there, so is every option of it other than the
    five that were stored. *)
Theorem write_keeps_config (amazon_object : option Amazon) (s : State)
        (p : string) :
  profile (self s) = PyStr p ->
  profile_ok p = true ->
  forallb option_ok (config_options (self s)) = true ->
  config_file (self s) <> credentials_file (self s) ->
  fst (write amazon_object s) = Return tt ->
  exists before after,
    stored_parser (world s) (config_file (self s)) = Return before
    /\ stored_parser (world (snd (write amazon_object s))) (config_file (self s))
       = Return after
    /\ (forall m, ConfigParser.has_section after (PyStr m)
                  = ConfigParser.has_section before (PyStr m)
                    || py_eqb (config_profile (PyStr p)) (PyStr m))
    /\ (forall m key fallback,
          py_eqb (config_profile (PyStr p)) (PyStr m) = false
          \/ (ConfigParser.has_section before (config_profile (PyStr p)) = true
              /\ is_option_of (config_options (self s))
                              (ConfigParser.optionxform key) = false) ->
          ConfigParser.get after (PyStr m) key fallback
          = ConfigParser.get before (PyStr m) key fallback).
Proof.
  intros Hp Pok Hi N Hw.
  destruct (write_ok amazon_object s Hw) as (s0 & _ & O & -> & Hs).
  pose proof O as (S0 & _).
  destruct (write_sections_ok amazon_object s0) as (cp & cp' & P & U & F & _);
    [rewrite S0; exact N|exact Hs|].
  rewrite S0 in P, U, F.
  rewrite (stored_parser_only_creates _ _ _ O) in P.
  rewrite update_config_upsert, Hp in U.
  destruct (config_profile_name_ok p Pok) as (n & Cn & Nok).
  rewrite Cn in *. cbn [py_eqb].
  pose proof (stored_parser_writable _ _ _ P) as W.
  pose proof (stored_parser_as_read _ _ _ P) as A.
  destruct (upsert_writable cp cp' n _ Nok W Hi U) as (W' & _).
  exists cp, (as_read cp'). split; [exact P|]. split.
  - unfold stored_parser. rewrite F. apply read_text_write, W'.
  - exact (upsert_keeps cp cp' n _ Nok W A Hi U).
Qed.

Lemma write_keeps_config_witness :
  let s := {| self := sample_configuration;
              world := world_with_config config_of_two_profiles |} in
  exists before after,
    stored_parser (world s) (config_file (self s)) = Return before
    /\ stored_parser (world (snd (write None s))) (config_file (self s))
       = Return after
    /\ (forall m, ConfigParser.has_section after (PyStr m)
                  = ConfigParser.has_section before (PyStr m)
                    || py_eqb (config_profile (PyStr "default")) (PyStr m))
    /\ (forall m key fallback,
          py_eqb (config_profile (PyStr "default")) (PyStr m) = false
          \/ (ConfigParser.has_section before (config_profile (PyStr "default"))
              = true
              /\ is_option_of (config_options (self s))
                              (ConfigParser.optionxform key) = false) ->
          ConfigParser.get after (PyStr m) key fallback
          = ConfigParser.get before (PyStr m) key fallback).
Proof.
  intros s.
  refine (write_keeps_config None s "default" eq_refl eq_refl eq_refl _ eq_refl).
  discriminate.
Defined.

(** *** The credentials that [write] stores *)

Lemma write_credentials_section_ok (a : Amazon) (s : State) :
  fst (write_credentials_section a s) = Return tt ->
  exists cp cp',
    stored_parser (world s) (credentials_file (self s)) = Return cp
    /\ update_credentials (self s) a cp = Return cp'
    /\ files (world (snd (write_credentials_section a s)))
       = store_file (credentials_file (self s)) (ConfigParser.write cp')
                    (files (world s)).
Proof.
  rewrite write_credentials_section_run. cbn zeta.
  destruct (stored_parser (world s) (credentials_file (self s))) as [cp|e] eqn:P;
    [|discriminate].
  destruct (update_credentials (self s) a cp) as [cp'|e] eqn:U; [|discriminate].
  intros H. destruct (parser_write_ok _ _ _ H) as (A & B & C).
  cbn [self world log dirs files] in A, B, C.
  exists cp, cp'. repeat split; assumption || reflexivity.
Qed.

Lemma stored_parser_files (w w' : World) (path : string) :
  lookup_file path (files w') = lookup_file path (files w) ->
  stored_parser w' path = stored_parser w path.
Proof. unfold stored_parser. intros ->. reflexivity. Qed.

Lemma write_sections_credentials_ok (a : Amazon) (s : State) :
  config_file (self s) <> credentials_file (self s) ->
  fst (write_sections (Some a) s) = Return tt ->
  exists cp cp',
    stored_parser (world s) (credentials_file (self s)) = Return cp
    /\ update_credentials (self s) a cp = Return cp'
    /\ lookup_file (credentials_file (self s))
                   (files (world (snd (write_sections (Some a) s))))
       = Some (ConfigParser.write cp').
Proof.
  intros N H.
  assert (E : write_sections (Some a) s
              = try_finally write_config_section
                  (release (lock_of (config_file (self s))) ;;;
                   credentials_part (Some a) (self s))
                  (snd (acquire (lock_of (config_file (self s))) s)))
    by reflexivity.
  rewrite E in *. clear E.
  destruct (try_finally_ok _ _ _ _ H) as (Hb & Hf & ->).
  rewrite acquire_run in *. cbn [snd] in *.
  destruct (write_config_section_ok _ Hb) as (cp0 & cp0' & _ & _ & S1 & D1 & F1).
  cbn [self world log dirs files held trace] in *.
  set (sB := snd (write_config_section _)) in *.
  unfold bind in Hf |- *. rewrite release_run in Hf |- *. cbn [fst snd] in Hf |- *.
  cbn [credentials_part] in Hf |- *.
  unfold bind in Hf |- *. rewrite acquire_run in Hf |- *. cbn [fst snd] in Hf |- *.
  destruct (try_finally_ok _ _ _ _ Hf) as (Hc & _ & ->).
  destruct (write_credentials_section_ok _ _ Hc) as (cp & cp' & P & U & F).
  cbn [self world log dirs files held trace] in P, U, F.
  rewrite S1 in P, U, F.
  exists cp, cp'. split.
  - rewrite <- P. symmetry. apply stored_parser_files.
    cbn [self world log dirs files held trace]. rewrite F1, lookup_store.
    destruct (String.eqb_spec (config_file (self s)) (credentials_file (self s)));
      [contradiction|reflexivity].
  - split; [exact U|]. rewrite release_run.
    cbn [fst snd self world log dirs files held trace]. rewrite ?S1.
    rewrite F, lookup_store, String.eqb_refl. reflexivity.
Qed.

Lemma credentials_options_values (a : Amazon) (d : list (string * pyval)) :
  ConfigParser.dict_get "aws_access_key_id" (set_all (credentials_options a) d)
  = Some (access_key_id a)
  /\ ConfigParser.dict_get "aws_secret_access_key" (set_all (credentials_options a) d)
     = Some (secret_access_key a)
  /\ ConfigParser.dict_get "aws_security_token" (set_all (credentials_options a) d)
     = Some (session_token a)
  /\ ConfigParser.dict_get "aws_session_expiration" (set_all (credentials_options a) d)
     = Some (PyStr (expiration_isoformat a))
  /\ ConfigParser.dict_get "aws_session_token" (set_all (credentials_options a) d)
     = Some (session_token a).
Proof.
  unfold credentials_options. rewrite !set_all_cons.
  change (set_all [] ?x) with x.
  repeat split;
    repeat first [ rewrite dict_get_set_same
                 | rewrite dict_get_set_other by reflexivity ];
    reflexivity.
Qed.

Lemma write_credentials_ok (a : Amazon) (s : State) :
  config_file (self s) <> credentials_file (self s) ->
  fst (write (Some a) s) = Return tt ->
  exists cp cp',
    stored_parser (world s) (credentials_file (self s)) = Return cp
    /\ upsert cp (profile (self s)) (credentials_options a) = Return cp'
    /\ lookup_file (credentials_file (self s))
                   (files (world (snd (write (Some a) s))))
       = Some (ConfigParser.write cp').
Proof.
  intros N Hw.
  destruct (write_ok (Some a) s Hw) as (s0 & _ & O & -> & Hs).
  pose proof O as (S0 & _).
  destruct (write_sections_credentials_ok a s0) as (cp & cp' & P & U & F);
    [rewrite S0; exact N|exact Hs|].
  rewrite S0 in P, U, F.
  rewrite (stored_parser_only_creates _ _ _ O) in P.
  rewrite update_credentials_upsert in U.
  exists cp, cp'. repeat split; assumption.
Qed.

Lemma get_as_read (cp : ConfigParser.RawConfigParser) (n key : string)
      (d : list (string * pyval)) (v fallback : pyval) :
  writable cp = true ->
  ConfigParser.sect_get (PyStr n) (ConfigParser.sections cp) = Some d ->
  ConfigParser.dict_get (ConfigParser.optionxform key) d = Some v ->
  ConfigParser.get (as_read cp) (PyStr n) key fallback = PyStr (py_str v).
Proof.
  intros W G D. unfold ConfigParser.get.
  rewrite (sect_get_as_read_parser _ _ W), G. cbn [option_map].
  rewrite dict_get_as_read, D. reflexivity.
Qed.

(** X14. The credentials that [write] stores.  Let the profile be a name
    that can head a section, let the values of the credential record be
    text that comes back from a file as it is written, and let the config
    file and the credentials file be two files.  When [write] returns for a
    credential record, the credentials file has a section named as the
    profile is, without the prefix that the config file puts before it, and
    in it the access key id, the secret access key and the expiration as
    text, and the session token twice: as [aws_security_token] and as
    [aws_session_token]. *)
Theorem write_stores_credentials (a : Amazon) (s : State) (p : string) :
  profile (self s) = PyStr p ->
  name_ok p = true ->
  token_values_ok a = true ->
  config_file (self s) <> credentials_file (self s) ->
  fst (write (Some a) s) = Return tt ->
  exists after,
    stored_parser (world (snd (write (Some a) s))) (credentials_file (self s))
    = Return after
    /\ ConfigParser.has_section after (PyStr p) = true
    /\ forall fallback,
         ConfigParser.get after (PyStr p) "aws_access_key_id" fallback
         = PyStr (py_str (access_key_id a))
         /\ ConfigParser.get after (PyStr p) "aws_secret_access_key" fallback
            = PyStr (py_str (secret_access_key a))
         /\ ConfigParser.get after (PyStr p) "aws_security_token" fallback
            = PyStr (py_str (session_token a))
         /\ ConfigParser.get after (PyStr p) "aws_session_expiration" fallback
            = PyStr (expiration_isoformat a)
         /\ ConfigParser.get after (PyStr p) "aws_session_token" fallback
            = PyStr (py_str (session_token a)).
Proof.
  intros Hp Hn Hv N Hw.
  destruct (write_credentials_ok a s N Hw) as (cp & cp' & P & U & F).
  rewrite Hp in U.
  pose proof (stored_parser_writable _ _ _ P) as W.
  destruct (upsert_writable cp cp' p _ Hn W (credentials_options_ok a Hv) U)
    as (W' & _ & G & _).
  exists (as_read cp'). split.
  { unfold stored_parser. rewrite F. apply read_text_write, W'. }
  split; [exact (has_section_as_read _ _ _ W' G)|].
  intros fallback.
  destruct (credentials_options_values
              a (match ConfigParser.sect_get (PyStr p) (ConfigParser.sections cp) with
                 | Some d0 => d0
                 | None => []
                 end)) as (V1 & V2 & V3 & V4 & V5).
  repeat split.
  - exact (get_as_read cp' p "aws_access_key_id" _ _ fallback W' G V1).
  - exact (get_as_read cp' p "aws_secret_access_key" _ _ fallback W' G V2).
  - exact (get_as_read cp' p "aws_security_token" _ _ fallback W' G V3).
  - exact (get_as_read cp' p "aws_session_expiration" _ _ fallback W' G V4).
  - exact (get_as_read cp' p "aws_session_token" _ _ fallback W' G V5).
Qed.

Lemma write_stores_credentials_witness :
  let s := {| self := work_configuration;
              world := world_with_credentials credentials_of_two_profiles |} in
  exists after,
    stored_parser (world (snd (write (Some sample_credentials) s)))
                  (credentials_file (self s))
    = Return after
    /\ ConfigParser.has_section after (PyStr "work") = true
    /\ forall fallback,
         ConfigParser.get after (PyStr "work") "aws_access_key_id" fallback
         = PyStr "ASIAEXAMPLE"
         /\ ConfigParser.get after (PyStr "work") "aws_secret_access_key" fallback
            = PyStr "secret"
         /\ ConfigParser.get after (PyStr "work") "aws_security_token" fallback
            = PyStr "token"
         /\ ConfigParser.get after (PyStr "work") "aws_session_expiration" fallback
            = PyStr "2030-01-01T00:00:00+00:00"
         /\ ConfigParser.get after (PyStr "work") "aws_session_token" fallback
            = PyStr "token".
Proof.
  intros s.
  refine (write_stores_credentials sample_credentials s "work"
            eq_refl eq_refl eq_refl _ eq_refl).
  discriminate.
Defined.

(** X15. [write] touches five options of one section of the credentials
    file.  Under the conditions of X14, when [write] returns for a
    credential record, the credentials file can be parsed as it could
    before; it has the sections it had, and the profile's; every option of
    every other section is read as before; and when the profile's section
    was there, so is every option of it other than the five that were
    stored. *)
Theorem write_keeps_credentials (a : Amazon) (s : State) (p : string) :
  profile (self s) = PyStr p ->
  name_ok p = true ->
  token_values_ok a = true ->
  config_file (self s) <> credentials_file (self s) ->
  fst (write (Some a) s) = Return tt ->
  exists before after,
    stored_parser (world s) (credentials_file (self s)) = Return before
    /\ stored_parser (world (snd (write (Some a) s))) (credentials_file (self s))
       = Return after
    /\ (forall m, ConfigParser.has_section after (PyStr m)
                  = ConfigParser.has_section before (PyStr m) || String.eqb p m)
    /\ (forall m key fallback,
          String.eqb p m = false
          \/ (ConfigParser.has_section before (PyStr p) = true
              /\ is_option_of (credentials_options a) (ConfigParser.optionxform key)
                 = false) ->
          ConfigParser.get after (PyStr m) key fallback
          = ConfigParser.get before (PyStr m) key fallback).
Proof.
  intros Hp Hn Hv N Hw.
  destruct (write_credentials_ok a s N Hw) as (cp & cp' & P & U & F).
  rewrite Hp in U.
  pose proof (stored_parser_writable _ _ _ P) as W.
  pose proof (stored_parser_as_read _ _ _ P) as A.
  destruct (upsert_writable cp cp' p _ Hn W (credentials_options_ok a Hv) U)
    as (W' & _).
  exists cp, (as_read cp'). split; [exact P|]. split.
  - unfold stored_parser. rewrite F. apply read_text_write, W'.
  - exact (upsert_keeps cp cp' p _ Hn W A (credentials_options_ok a Hv) U).
Qed.

Lemma write_keeps_credentials_witness :
  let s := {| self := work_configuration;
              world := world_with_credentials credentials_of_two_profiles |} in
  exists before after,
    stored_parser (world s) (credentials_file (self s)) = Return before
    /\ stored_parser (world (snd (write (Some sample_credentials) s)))
                     (credentials_file (self s))
       = Return after
    /\ (forall m, ConfigParser.has_section after (PyStr m)
                  = ConfigParser.has_section before (PyStr m) || String.eqb "work" m)
    /\ (forall m key fallback,
          String.eqb "work" m = false
          \/ (ConfigParser.has_section before (PyStr "work") = true
              /\ is_option_of (credentials_options sample_credentials)
                              (ConfigParser.optionxform key) = false) ->
          ConfigParser.get after (PyStr m) key fallback
          = ConfigParser.get before (PyStr m) key fallback).
Proof.
  intros s.
  refine (write_keeps_credentials sample_credentials s "work"
            eq_refl eq_refl eq_refl _ eq_refl).
  discriminate.
Defined.

(** *** What [read] makes of what [write] stored *)

Lemma config_options_values (c : Configuration) (d : list (string * pyval)) :
  ConfigParser.dict_get "region" (set_all (config_options c) d) = Some (region c)
  /\ ConfigParser.dict_get "asa.ask_role" (set_all (config_options c) d)
     = Some (ask_role c)
  /\ ConfigParser.dict_get "asa.duration" (set_all (config_options c) d)
     = Some (duration c)
  /\ ConfigParser.dict_get "asa.login_url" (set_all (config_options c) d)
     = Some (login_url c)
  /\ ConfigParser.dict_get "asa.role_arn" (set_all (config_options c) d)
     = Some (role_arn c).
Proof.
  unfold config_options. rewrite !set_all_cons.
  change (set_all [] ?x) with x.
  repeat split;
    repeat first [ rewrite dict_get_set_same
                 | rewrite dict_get_set_other by reflexivity ];
    reflexivity.
Qed.

(** X16. [write] stores the text of each value, and [read] gives text
    back.  Let the profile be a name on one line other than DEFAULT in
    capitals, [ask_role] a boolean, [duration] an integer, the five values
    such that their text comes back from a file as it is written, and the
    config file and the credentials file two files.  When [write] returns,
    [read] of the same profile on a configuration of the same session
    returns, and its region, login_url and role_arn are the [str()] of what
    was written: a field that was [None] is the text None afterwards.  A
    configuration written with [role_arn] unset, which [raise_if_invalid]
    allows, is therefore read back as one that [raise_if_invalid]
    rejects. *)
Theorem write_then_read_unset (amazon_object : option Amazon) (s : State)
        (fresh : Configuration) (p : string) (b : bool) (d : Z) :
  profile (self s) = PyStr p ->
  profile_ok p = true ->
  ask_role (self s) = PyBool b ->
  duration (self s) = PyInt d ->
  forallb option_ok (config_options (self s)) = true ->
  config_file (self s) <> credentials_file (self s) ->
  boto_session fresh = boto_session (self s) ->
  fst (write amazon_object s) = Return tt ->
  let after := read_back amazon_object s fresh (PyStr p) in
  fst after = Return tt
  /\ region (self (snd after)) = PyStr (py_str (region (self s)))
  /\ login_url (self (snd after)) = PyStr (py_str (login_url (self s)))
  /\ role_arn (self (snd after)) = PyStr (py_str (role_arn (self s)))
  /\ (role_arn (self s) = PyNone ->
      exists msg, fst (raise_if_invalid (snd after)) = Raise (AssertionError msg)).
Proof.
  intros Hp Pok Hb Hd Hi N Hs Hw after. subst after. unfold read_back.
  pose proof (ensure_config_files_exist_ok s) as EO.
  destruct (write_ok amazon_object s Hw) as (s0 & E0 & O & -> & Hws).
  rewrite E0 in EO. cbn [fst snd] in EO. destruct (EO eq_refl) as [I1 I2]. clear EO.
  pose proof O as (S0 & _).
  destruct (write_sections_ok amazon_object s0) as (cp & cp' & P & U & F & G);
    [rewrite S0; exact N|exact Hws|].
  rewrite S0 in P, U, F.
  rewrite (stored_parser_only_creates _ _ _ O) in P.
  rewrite update_config_upsert, Hp in U.
  destruct (config_profile_name_ok p Pok) as (n & Cn & Nok).
  rewrite Cn in U.
  pose proof (stored_parser_writable _ _ _ P) as W.
  destruct (upsert_writable cp cp' n _ Nok W Hi U) as (W' & _ & SG & _).
  destruct (config_options_values
              (self s)
              (match ConfigParser.sect_get (PyStr n) (ConfigParser.sections cp) with
               | Some d0 => d0
               | None => []
               end)) as (V1 & V2 & V3 & V4 & V5).
  set (w1 := world (snd (write_sections amazon_object s0))) in *.
  assert (Cf : config_file fresh = config_file (self s))
    by (unfold config_file; rewrite Hs; reflexivity).
  assert (Cr : credentials_file fresh = credentials_file (self s))
    by (unfold credentials_file; rewrite Hs; reflexivity).
  rewrite read_run. cbn [self world].
  rewrite (ensure_config_files_exist_in_place {| self := fresh; world := w1 |});
    [|cbn [self world]; rewrite ?Cf, ?Cr; eapply in_place_grows; eassumption..].
  cbn [self world]. rewrite Cf.
  assert (SP : stored_parser w1 (config_file (self s)) = Return (as_read cp')).
  { unfold stored_parser. rewrite F. apply read_text_write. exact W'. }
  rewrite SP, Cn, (has_section_as_read _ _ _ W' SG).
  match goal with
  | |- context [read_fields ?c ?pn ?sec ?st] =>
      pose proof (read_fields_merged c pn sec st) as RM;
      pose proof (raise_if_invalid_run (snd (read_fields c pn sec st))) as RI
  end.
  cbn zeta in RM.
  rewrite (stored_value_as_read _ _ _ _ _ W' SG V1) in RM.
  rewrite (stored_value_as_read _ _ _ _ _ W' SG V2) in RM.
  rewrite (stored_value_as_read _ _ _ _ _ W' SG V3) in RM.
  rewrite (stored_value_as_read _ _ _ _ _ W' SG V4) in RM.
  rewrite (stored_value_as_read _ _ _ _ _ W' SG V5) in RM.
  rewrite Hb, Hd in RM.
  cbn [decodable merged as_text] in RM.
  rewrite convert_to_boolean_text, convert_to_int_text in RM.
  destruct RM as (R0 & R1 & R2 & R3 & R4 & R5 & R6 & _);
    [exact (has_section_as_read _ _ _ W' SG)
    |intros key v; apply as_read_values_are_text
    |reflexivity|reflexivity|].
  split; [exact R0|]. split; [exact R5|]. split; [exact R4|]. split; [exact R6|].
  intros Hr. destruct RI as (r & -> & A & B). cbn [fst].
  apply B. destruct r as [[]|e]; [|reflexivity].
  destruct A as [A _]. destruct (A eq_refl) as [V _].
  unfold other_fields_valid in V. rewrite R6, Hr in V. cbn [py_str] in V.
  rewrite !andb_true_iff in V. destruct V as [[[[_ V] _] _] _].
  vm_compute in V. discriminate.
Qed.

Lemma write_then_read_unset_witness :
  let s := {| self := configuration_without_role; world := sample_world |} in
  let after := read_back None s (init sample_session) (PyStr "default") in
  fst (raise_if_invalid s) = Return tt
  /\ fst after = Return tt
  /\ role_arn (self (snd after)) = PyStr "None"
  /\ exists msg, fst (raise_if_invalid (snd after)) = Raise (AssertionError msg).
Proof.
  intros s.
  assert (N : config_file (self s) <> credentials_file (self s)) by discriminate.
  destruct (write_then_read_unset None s (init sample_session) "default" true
              max_duration eq_refl eq_refl eq_refl eq_refl eq_refl N eq_refl eq_refl)
    as (A & _ & _ & B & C).
  split; [reflexivity|]. split; [exact A|]. split; [exact B|]. exact (C eq_refl).
Defined.

(** *** [write_saml_cache] and [read_saml_cache] *)

Lemma saml_cache_file_run (s : State) (url : string) :
  login_url (self s) = PyStr url ->
  saml_cache_file s
  = (Return (replace "credentials" (saml_cache_file_name url)
                     (credentials_file (self s))), s).
Proof.
  intros H. unfold saml_cache_file, bind, get_self, assert_. rewrite H. reflexivity.
Qed.

Lemma read_saml_cache_run (s : State) (url : string) :
  login_url (self s) = PyStr url ->
  let path := replace "credentials" (saml_cache_file_name url)
                      (credentials_file (self s)) in
  read_saml_cache s
  = if is_dir (world s) path then (Return tt, s)
    else match lookup_file path (files (world s)) with
         | None => (Return tt, s)
         | Some text =>
             (Return tt,
              {| self := set_saml_cache_field
                           (Some (blob_of_bytes
                                    (SHA1.encode_utf8
                                       (ConfigParser.universal_newlines text))))
                           (self s);
                 world := log (EvRead path) (world s) |})
         end.
Proof.
  intros H path. unfold read_saml_cache, bind at 1, get_self. cbn beta iota.
  rewrite H. cbn [is_none]. unfold except_ioerror, bind at 1.
  rewrite (saml_cache_file_run s url H). fold path.
  unfold file_read, bind, get_world, put_world, raise, ret, modify_self.
  cbn [fst snd self world].
  destruct (is_dir (world s) path); [destruct s; reflexivity|].
  destruct (lookup_file path (files (world s))); [reflexivity|].
  destruct s; reflexivity.
Qed.

Lemma write_saml_cache_run (decode_utf8 : string -> outcome string) (s : State) :
  write_saml_cache decode_utf8 s
  = match ensure_config_files_exist s with
    | (Raise e, s1) => (Raise e, s1)
    | (Return _, s1) =>
        match saml_cache_field (self s1) with
        | None => (Return tt, s1)
        | Some blob =>
            match saml_cache_file s1 with
            | (Raise e, s2) => (Raise e, s2)
            | (Return path, s2) =>
                try_finally (file_write_decoded decode_utf8 path blob)
                            (release (lock_of path))
                            (snd (acquire (lock_of path) s2))
            end
        end
    end.
Proof.
  unfold write_saml_cache, bind at 1.
  destruct (ensure_config_files_exist s) as [[[]|e] s1]; [|reflexivity].
  unfold bind at 1, get_self.
  destruct (saml_cache_field (self s1)) as [blob|]; [|reflexivity].
  unfold bind at 1.
  destruct (login_url (self s1)) as [| | |url|] eqn:L;
    try (unfold saml_cache_file, bind, get_self, assert_, raise; rewrite L;
         reflexivity).
  rewrite (saml_cache_file_run s1 url L).
  unfold bind at 1. rewrite acquire_run. cbn [fst snd].
  unfold try_finally. unfold bind at 1.
  match goal with
  | |- context [saml_cache_file ?st] =>
      rewrite (saml_cache_file_run st url L)
  end.
  reflexivity.
Qed.

Lemma file_write_decoded_run (decode_utf8 : string -> outcome string)
      (path blob : string) (s : State) :
  file_write_decoded decode_utf8 path blob s
  = if String.eqb path "" then (Raise (FileNotFoundError path), s)
    else if is_dir (world s) path then (Raise (IsADirectoryError path), s)
    else if negb (parent_is_dir (world s) path)
    then (Raise (FileNotFoundError path), s)
    else match decode_utf8 blob with
         | Return text =>
             (Return tt,
              {| self := self s;
                 world := log (EvWrite path text)
                              {| dirs := dirs (world s);
                                 files := store_file path text (files (world s));
                                 held := held (world s);
                                 trace := trace (world s) |} |})
         | Raise e =>
             (Raise e,
              {| self := self s;
                 world := log (EvWrite path "")
                              {| dirs := dirs (world s);
                                 files := store_file path "" (files (world s));
                                 held := held (world s);
                                 trace := trace (world s) |} |})
         end.
Proof.
  unfold file_write_decoded, bind, get_world, put_world, raise. cbn [fst snd].
  destruct (String.eqb path ""); [reflexivity|].
  destruct (is_dir (world s) path); [reflexivity|].
  destruct (negb (parent_is_dir (world s) path)); [reflexivity|].
  destruct (decode_utf8 blob); reflexivity.
Qed.

(** The locked block of [write_saml_cache] on a state [s]: the outcome and
    the state after the lock is given back. *)
Lemma write_saml_cache_block_run (decode_utf8 : string -> outcome string)
      (path blob : string) (s : State) :
  let L := lock_of path in
  let bracket (evs : list event) (fs : list (string * string)) :=
    {| self := self s;
       world := {| dirs := dirs (world s); files := fs;
                   held := remove_one L (L :: held (world s));
                   trace := (trace (world s) ++ [EvAcquire L] ++ evs
                               ++ [EvRelease L])%list |} |} in
  try_finally (file_write_decoded decode_utf8 path blob) (release L)
              (snd (acquire L s))
  = if String.eqb path ""
    then (Raise (FileNotFoundError path), bracket [] (files (world s)))
    else if is_dir (world s) path
    then (Raise (IsADirectoryError path), bracket [] (files (world s)))
    else if negb (parent_is_dir (world s) path)
    then (Raise (FileNotFoundError path), bracket [] (files (world s)))
    else match decode_utf8 blob with
         | Return text =>
             (Return tt, bracket [EvWrite path text]
                                 (store_file path text (files (world s))))
         | Raise e =>
             (Raise e, bracket [EvWrite path ""]
                               (store_file path "" (files (world s))))
         end.
Proof.
  intros L bracket. subst bracket. rewrite acquire_run. cbn [snd].
  unfold try_finally. rewrite file_write_decoded_run.
  cbn [self world log dirs files held trace].
  assert (D : forall h t, is_dir {| dirs := dirs (world s); files := files (world s);
                                    held := h; trace := t |} path
                          = is_dir (world s) path) by reflexivity.
  assert (P : forall h t, parent_is_dir {| dirs := dirs (world s);
                                           files := files (world s);
                                           held := h; trace := t |} path
                          = parent_is_dir (world s) path) by reflexivity.
  assert (D' : forall e w, is_dir (log e w) path = is_dir w path) by reflexivity.
  assert (P' : forall e w, parent_is_dir (log e w) path = parent_is_dir w path)
    by reflexivity.
  rewrite D', P', D, P.
  destruct (String.eqb path ""); [|destruct (is_dir (world s) path);
    [|destruct (negb (parent_is_dir (world s) path));
      [|destruct (decode_utf8 blob)]]];
    rewrite release_run; unfold log;
    cbn [self world dirs files held trace fst snd];
    rewrite <- ?app_assoc; reflexivity.
Qed.

(** X17. [write_saml_cache] and [read_saml_cache] fit together up to line
    ends.  With [login_url] a text and a blob in memory, when
    [write_saml_cache] returns, the blob was UTF-8: [read_saml_cache] on a
    configuration of the same session and login_url, with the files as they
    were left, returns and holds the UTF-8 bytes of the decoded text in
    which every carriage return, with or without a newline after it, has
    become a newline.  A text without carriage returns comes back as it
    is. *)
Theorem write_then_read_saml_cache (decode_utf8 : string -> outcome string)
        (s : State) (fresh : Configuration) (url blob : string) :
  login_url (self s) = PyStr url ->
  saml_cache_field (self s) = Some blob ->
  boto_session fresh = boto_session (self s) ->
  login_url fresh = PyStr url ->
  fst (write_saml_cache decode_utf8 s) = Return tt ->
  exists text,
    decode_utf8 blob = Return text
    /\ let r := read_saml_cache
                  {| self := fresh;
                     world := world (snd (write_saml_cache decode_utf8 s)) |} in
       fst r = Return tt
       /\ saml_cache_field (self (snd r))
          = Some (blob_of_bytes
                    (SHA1.encode_utf8 (ConfigParser.universal_newlines text)))
       /\ (has_char cr text = false ->
           saml_cache_field (self (snd r))
           = Some (blob_of_bytes (SHA1.encode_utf8 text))).
Proof.
  intros Hu Hb Hs Hf.
  pose proof (ensure_config_files_exist_only_creates s) as (S0 & _).
  rewrite write_saml_cache_run.
  destruct (ensure_config_files_exist s) as [[[]|e] s0]; cbn [fst snd] in *;
    [|discriminate].
  rewrite S0, Hb.
  assert (Hu0 : login_url (self s0) = PyStr url) by (rewrite S0; exact Hu).
  rewrite (saml_cache_file_run s0 url Hu0), S0.
  set (path := replace "credentials" (saml_cache_file_name url)
                       (credentials_file (self s))).
  rewrite write_saml_cache_block_run. cbn zeta.
  destruct (String.eqb path ""); [discriminate|].
  destruct (is_dir (world s0) path) eqn:D; [discriminate|].
  destruct (negb (parent_is_dir (world s0) path)); [discriminate|].
  destruct (decode_utf8 blob) as [text|e]; [|discriminate].
  intros _. exists text. split; [reflexivity|].
  cbn [fst snd self world].
  assert (Cr : credentials_file fresh = credentials_file (self s))
    by (unfold credentials_file; rewrite Hs; reflexivity).
  assert (R : forall w,
             read_saml_cache {| self := fresh; world := w |}
             = if is_dir w path then (Return tt, {| self := fresh; world := w |})
               else match lookup_file path (files w) with
                    | None => (Return tt, {| self := fresh; world := w |})
                    | Some t =>
                        (Return tt,
                         {| self := set_saml_cache_field
                                      (Some (blob_of_bytes
                                               (SHA1.encode_utf8
                                                  (ConfigParser.universal_newlines t))))
                                      fresh;
                            world := log (EvRead path) w |})
                    end).
  { intros w.
    rewrite (read_saml_cache_run {| self := fresh; world := w |} url Hf).
    cbn [self world]. rewrite Cr. reflexivity. }
  rewrite R. cbv zeta.
  match goal with
  | |- context [is_dir ?w path] =>
      replace (is_dir w path) with (is_dir (world s0) path) by reflexivity
  end.
  rewrite D. cbn [files]. rewrite lookup_store, String.eqb_refl. cbn [fst snd self].
  assert (F : forall v, saml_cache_field (set_saml_cache_field v fresh) = v)
    by (intros v; destruct fresh; reflexivity).
  rewrite F. split; [reflexivity|]. split; [reflexivity|].
  intros C. rewrite (universal_newlines_id _ C). reflexivity.
Qed.

Lemma write_then_read_saml_cache_witness :
  let s := {| self := configuration_with_assertion; world := sample_world |} in
  let r := read_saml_cache
             {| self := sample_configuration;
                world := world (snd (write_saml_cache decode_ascii s)) |} in
  fst (write_saml_cache decode_ascii s) = Return tt
  /\ fst r = Return tt
  /\ saml_cache_field (self (snd r)) = Some ("<Response>" ++ NL ++ "</Response>")%string.
Proof.
  intros s.
  destruct (write_then_read_saml_cache
              decode_ascii s sample_configuration "https://idp.example.com/sso"
              assertion_with_crlf eq_refl eq_refl eq_refl eq_refl eq_refl)
    as (text & D & A & B & _).
  injection D as <-.
  split; [reflexivity|]. split; [exact A|exact B].
Defined.

Lemma contains_nowhere (old s : string) :
  contains old s = false -> forall i, occurs_at old s i = false.
Proof.
  unfold occurs_at. induction s as [|c s IH]; intros H i.
  - cbn [contains] in H. apply orb_false_iff in H. destruct H as [H _].
    destruct i; exact H.
  - cbn [contains] in H. apply orb_false_iff in H. destruct H as [H1 H2].
    destruct i as [|i]; [exact H1|]. cbn [drop]. apply IH, H2.
Qed.

(** X18. The SAML cache takes the place of the credentials file when the
    path of that file does not have the word it is made from.  With
    [login_url] a text and a blob in memory, if "credentials" does not
    occur in the path of the credentials file, then the SAML cache file is
    the credentials file itself, and when [write_saml_cache] returns the
    credentials file holds the text of the blob and nothing else: the
    sections that were stored in it are gone. *)
Theorem write_saml_cache_over_credentials (decode_utf8 : string -> outcome string)
        (s : State) (url blob : string) :
  login_url (self s) = PyStr url ->
  saml_cache_field (self s) = Some blob ->
  contains "credentials" (credentials_file (self s)) = false ->
  fst (write_saml_cache decode_utf8 s) = Return tt ->
  saml_cache_file s = (Return (credentials_file (self s)), s)
  /\ exists text,
       decode_utf8 blob = Return text
       /\ lookup_file (credentials_file (self s))
                      (files (world (snd (write_saml_cache decode_utf8 s))))
          = Some text.
Proof.
  intros Hu Hb Hc.
  assert (E : replace "credentials" (saml_cache_file_name url)
                      (credentials_file (self s)) = credentials_file (self s))
    by (apply replace_nowhere, contains_nowhere, Hc).
  pose proof (ensure_config_files_exist_only_creates s) as (S0 & _).
  rewrite write_saml_cache_run, (saml_cache_file_run s url Hu), E.
  destruct (ensure_config_files_exist s) as [[[]|e] s0]; cbn [fst snd] in *;
    [|discriminate].
  rewrite S0, Hb.
  assert (Hu0 : login_url (self s0) = PyStr url) by (rewrite S0; exact Hu).
  rewrite (saml_cache_file_run s0 url Hu0), S0, E.
  rewrite write_saml_cache_block_run. cbn zeta.
  destruct (String.eqb (credentials_file (self s)) ""); [discriminate|].
  destruct (is_dir (world s0) (credentials_file (self s))); [discriminate|].
  destruct (negb (parent_is_dir (world s0) (credentials_file (self s))));
    [discriminate|].
  destruct (decode_utf8 blob) as [text|e]; [|discriminate].
  intros _. split; [reflexivity|]. exists text. split; [reflexivity|].
  cbn [fst snd self world files]. rewrite lookup_store, String.eqb_refl. reflexivity.
Qed.

Lemma write_saml_cache_over_credentials_witness :
  let s := {| self := configuration_with_own_names;
              world := world_with_own_names |} in
  lookup_file "/home/u/.aws/keys" (files (world s)) = Some credentials_of_two_profiles
  /\ saml_cache_file s = (Return "/home/u/.aws/keys", s)
  /\ lookup_file "/home/u/.aws/keys"
                 (files (world (snd (write_saml_cache decode_ascii s))))
     = Some "<Response/>".
Proof.
  intros s.
  destruct (write_saml_cache_over_credentials
              decode_ascii s "https://idp.example.com/sso" "<Response/>"
              eq_refl eq_refl eq_refl eq_refl)
    as (A & text & D & B).
  injection D as <-.
  split; [reflexivity|]. split; [exact A|exact B].
Defined.

Lemma beside_files_refl (w : World) : beside_files w w.
Proof. intros p H. left. exact H. Qed.

Lemma beside_files_trans (w1 w2 w3 : World) :
  grows w1 w2 -> beside_files w1 w2 -> beside_files w2 w3 -> beside_files w1 w3.
Proof.
  intros [_ G] A B p H. destruct (B p H) as [H2|H2]; [exact (A p H2)|].
  right. destruct (is_file w1 p) eqn:F; [|reflexivity].
  rewrite (G p F) in H2. discriminate.
Qed.

Lemma os_mkdir_beside_files (path : string) (s : State) :
  beside_files (world s) (world (snd (os_mkdir path s))).
Proof.
  unfold os_mkdir, bind, get_world, put_world, raise. cbn [fst snd].
  destruct (String.eqb path "") eqn:N; [apply beside_files_refl|].
  destruct (path_exists (world s) path) eqn:E; [apply beside_files_refl|].
  repeat match goal with
         | |- context [if ?b then _ else _] =>
             destruct b; [apply beside_files_refl|]
         end.
  cbn [snd world log]. intros p. unfold is_dir at 1. cbn [log dirs].
  rewrite existsb_app. cbn [existsb]. rewrite orb_false_r. intros H.
  apply orb_true_iff in H. destruct H as [H|H]; [left; exact H|].
  apply String.eqb_eq in H. subst p. right.
  unfold path_exists in E. apply andb_false_iff in E.
  destruct E as [E|E].
  - apply negb_false_iff in E. rewrite E in N. discriminate.
  - apply orb_false_iff in E. apply E.
Qed.

Lemma touch_beside_files (path : string) (s : State) :
  beside_files (world s) (world (snd (touch path s))).
Proof.
  unfold touch, bind, get_world, put_world, raise. cbn [fst snd].
  destruct (negb (parent_is_dir (world s) path)); [apply beside_files_refl|].
  intros p H. left. exact H.
Qed.

Lemma ensure_file_exists_beside_files (file : string) (s : State) :
  beside_files (world s) (world (snd (ensure_file_exists file s))).
Proof.
  rewrite ensure_file_exists_run.
  assert (G : beside_files (world s)
                (world (snd ((if negb (path_exists (world s) (dirname file))
                              then os_mkdir (dirname file) else ret tt) s)))
              /\ grows (world s)
                   (world (snd ((if negb (path_exists (world s) (dirname file))
                                 then os_mkdir (dirname file) else ret tt) s)))).
  { destruct (negb _);
      [split; [apply os_mkdir_beside_files|apply os_mkdir_grows]
      |split; [apply beside_files_refl|apply grows_refl]]. }
  destruct ((if negb (path_exists (world s) (dirname file))
             then os_mkdir (dirname file) else ret tt) s) as [[[]|e] s1];
    cbn [fst snd] in *; [|apply G].
  destruct G as [G1 G2]. apply (beside_files_trans _ _ _ G2 G1).
  destruct (negb _); [apply touch_beside_files|apply beside_files_refl].
Qed.

Lemma ensure_config_files_exist_beside_files (s : State) :
  beside_files (world s) (world (snd (ensure_config_files_exist s))).
Proof.
  rewrite ensure_config_files_exist_run.
  pose proof (ensure_file_exists_beside_files (config_file (self s)) s) as A.
  pose proof (ensure_file_exists_grows (config_file (self s)) s) as G.
  destruct (ensure_file_exists (config_file (self s)) s) as [[[]|e] s1];
    cbn [snd] in *; [|exact A].
  apply (beside_files_trans _ _ _ G A). apply ensure_file_exists_beside_files.
Qed.

(** X19. Nothing takes a SAML cache off the disk.  When the [saml_cache]
    property finds the blob in memory invalid and drops it, a
    [write_saml_cache] after that leaves the cache file as it is, whatever
    it does else, and a [read_saml_cache] after that puts back in memory
    what the file holds. *)
Theorem saml_cache_file_stays (valid : option string -> bool)
        (decode_utf8 : string -> outcome string) (s : State) (url text : string) :
  let path := replace "credentials" (saml_cache_file_name url)
                      (credentials_file (self s)) in
  login_url (self s) = PyStr url ->
  valid (saml_cache_field (self s)) = false ->
  lookup_file path (files (world s)) = Some text ->
  is_dir (world s) path = false ->
  let s1 := snd (saml_cache valid s) in
  let s2 := snd (write_saml_cache decode_utf8 s1) in
  let s3 := snd (read_saml_cache s2) in
  fst (saml_cache valid s) = Return None
  /\ saml_cache_field (self s1) = None
  /\ lookup_file path (files (world s2)) = Some text
  /\ saml_cache_field (self s3)
     = Some (blob_of_bytes (SHA1.encode_utf8 (ConfigParser.universal_newlines text))).
Proof.
  intros path Hu Hv Hf Hd s1 s2 s3. subst s1 s2 s3.
  rewrite saml_cache_run, Hv. cbn [fst snd].
  set (s1 := {| self := set_saml_cache_field None (self s);
                world := log (EvValidate (saml_cache_field (self s))) (world s) |}).
  assert (C1 : saml_cache_field (self s1) = None)
    by (subst s1; destruct (self s); reflexivity).
  assert (U1 : login_url (self s1) = PyStr url)
    by (subst s1; rewrite <- Hu; destruct (self s); reflexivity).
  assert (P1 : credentials_file (self s1) = credentials_file (self s))
    by (subst s1; destruct (self s); reflexivity).
  split; [reflexivity|]. split; [exact C1|].
  pose proof (ensure_config_files_exist_only_creates s1) as (S2 & _ & F2 & _).
  pose proof (ensure_config_files_exist_beside_files s1) as B2.
  assert (E : snd (write_saml_cache decode_utf8 s1)
              = snd (ensure_config_files_exist s1)).
  { rewrite write_saml_cache_run.
    destruct (ensure_config_files_exist s1) as [[[]|e] s2]; [|reflexivity].
    cbn [snd] in S2. rewrite S2, C1. reflexivity. }
  rewrite E. set (s2 := snd (ensure_config_files_exist s1)) in *.
  assert (L2 : lookup_file path (files (world s2)) = Some text).
  { destruct (F2 path) as [->|[N _]]; [exact Hf|].
    change (files (world s1)) with (files (world s)) in N. congruence. }
  assert (D2 : is_dir (world s2) path = false).
  { destruct (is_dir (world s2) path) eqn:D; [|reflexivity].
    destruct (B2 path D) as [X|X].
    - change (is_dir (world s1) path) with (is_dir (world s) path) in X. congruence.
    - unfold is_file in X.
      change (files (world s1)) with (files (world s)) in X.
      rewrite Hf in X. discriminate. }
  split; [exact L2|].
  assert (U2 : login_url (self s2) = PyStr url) by (rewrite S2; exact U1).
  rewrite (read_saml_cache_run s2 url U2). cbn zeta.
  rewrite S2, P1. fold path. rewrite D2, L2. cbn [snd self].
  destruct (self s1). reflexivity.
Qed.

Lemma saml_cache_file_stays_witness :
  let s := {| self := configuration_with_assertion;
              world := world_with_saml_cache |} in
  let s1 := snd (saml_cache (fun _ => false) s) in
  let s2 := snd (write_saml_cache decode_ascii s1) in
  let s3 := snd (read_saml_cache s2) in
  saml_cache_field (self s1) = None
  /\ saml_cache_field (self s3) = Some "<Response>old</Response>".
Proof.
  intros s.
  destruct (saml_cache_file_stays
              (fun _ => false) decode_ascii s "https://idp.example.com/sso"
              "<Response>old</Response>" eq_refl eq_refl eq_refl eq_refl)
    as (_ & A & _ & B).
  split; [exact A|exact B].
Defined.

(** X20. A blob that is no UTF-8 costs the cache on disk.  With the config
    files in place, [login_url] a text and the SAML cache file a path that
    can be opened for writing, [write_saml_cache] of a blob that
    [decode("utf-8")] rejects raises the error of the decoding with the
    lock given back, and leaves the cache file empty: the file is opened,
    and with that emptied, before the blob is decoded. *)
Theorem write_saml_cache_undecodable (decode_utf8 : string -> outcome string)
        (s : State) (url blob : string) (e : exn) :
  let path := replace "credentials" (saml_cache_file_name url)
                      (credentials_file (self s)) in
  login_url (self s) = PyStr url ->
  saml_cache_field (self s) = Some blob ->
  decode_utf8 blob = Raise e ->
  in_place (world s) (config_file (self s)) = true ->
  in_place (world s) (credentials_file (self s)) = true ->
  path <> "" ->
  is_dir (world s) path = false ->
  parent_is_dir (world s) path = true ->
  let r := write_saml_cache decode_utf8 s in
  fst r = Raise e
  /\ lookup_file path (files (world (snd r))) = Some ""
  /\ held (world (snd r)) = held (world s)
  /\ self (snd r) = self s.
Proof.
  intros path Hu Hb Hd I1 I2 N D P r. subst r.
  rewrite write_saml_cache_run, (ensure_config_files_exist_in_place s I1 I2).
  rewrite Hb, (saml_cache_file_run s url Hu). fold path.
  rewrite write_saml_cache_block_run. cbn zeta.
  apply String.eqb_neq in N. rewrite N, D, P, Hd. cbn [negb fst snd self world files held].
  rewrite lookup_store, String.eqb_refl, remove_one_head. repeat split.
Qed.

Lemma write_saml_cache_undecodable_witness :
  let s := {| self := configuration_with_bad_blob;
              world := world_with_saml_cache |} in
  let path := "/home/u/.aws/saml_cache_8df876074ef61ee68d9a85f770f235fa99de2845.xml" in
  let r := write_saml_cache decode_ascii s in
  lookup_file path (files (world s)) = Some "<Response>old</Response>"
  /\ fst r = Raise (ValueError "'utf-8' codec can't decode bytes")
  /\ lookup_file path (files (world (snd r))) = Some "".
Proof.
  intros s path.
  assert (N : path <> "") by discriminate.
  destruct (write_saml_cache_undecodable
              decode_ascii s "https://idp.example.com/sso"
              (String (ascii_of_nat 255) EmptyString)
              (ValueError "'utf-8' codec can't decode bytes")
              eq_refl eq_refl eq_refl eq_refl eq_refl N eq_refl eq_refl)
    as (A & B & _).
  split; [reflexivity|]. split; [exact A|exact B].
Defined.
